(** * MPU6500 gyro/accel driver (flight/PiOS/Common/pios_mpu6500.c)

    A shallow embedding of the driver and the properties of its
    allocation and initialisation, configuration sequence, register
    protocol, setters, scale tables and interrupt handler.

    - C integers are [Z] with the conversions written out ([Cint]).
    - C [float] is IEEE-754 binary32, through the parameterised
      operations of [SpecFloat] at precision 24 ([F32]).
    - The driver's global device pointer and everything it does to the
      outside (SPI bus, delays, watchdog, sensor registry, queues) are
      threaded through a state: the device, and the history of external
      calls.  What an external call answers is given by a [world], a
      function of the history so far.
    - The calls of the allocation and initialisation to the allocator,
      the queue factory, the bus clock, the interrupt line and the
      sensor registry are kept in a log of their own ([boot_log]), what
      the allocator and the queue factory answer is given by a [heap]. *)

From Stdlib Require Import ZArith List Lia Bool QArith Qround Qabs Qpower.
From Stdlib Require Import Floats.SpecFloat.
Import ListNotations.
Open Scope Z_scope.

(** ** C integer conversions *)
Module Cint.

(** Conversion to [uint8_t]. *)
Definition uint8 (v : Z) : Z := v mod 256.

(** Conversion to [uint16_t]. *)
Definition uint16 (v : Z) : Z := v mod 65536.

(** Conversion to [int16_t] (two's complement wrap-around). *)
Definition int16 (v : Z) : Z := (v + 32768) mod 65536 - 32768.

(** [(int16_t)(hi << 8 | lo)] for two received bytes. *)
Definition be16 (hi lo : Z) : Z := int16 (Z.lor (Z.shiftl hi 8) lo).

End Cint.

(** ** binary32 arithmetic *)
Module F32.

Definition prec : Z := 24.
Definition emax : Z := 128.

Definition float := spec_float.

Definition add : float -> float -> float := SFadd prec emax.
Definition mul : float -> float -> float := SFmul prec emax.
Definition div : float -> float -> float := SFdiv prec emax.

(** Conversion of an integer to [float] (round to nearest even). *)
Definition of_Z (z : Z) : float := binary_normalize prec emax z 0 false.

(** A decimal literal [n/d] with [n] and [d] exactly representable: the
    correctly rounded quotient, e.g. [32.8f] is [lit 328 10]. *)
Definition lit (n d : Z) : float := div (of_Z n) (of_Z d).

Definition zero : float := S754_zero false.

(** [(int32_t)x]: truncation toward zero; the conversion is undefined
    when the value does not fit (infinities and NaN included). *)
Definition to_int32 (x : float) : option Z :=
  match x with
  | S754_zero _ => Some 0
  | S754_finite s m e =>
      let t := Z.shiftl (Zpos m) e in
      let v := if s then - t else t in
      if (- 2 ^ 31 <=? v) && (v <? 2 ^ 31) then Some v else None
  | _ => None
  end.

(** The rational value of a finite float: mantissa times a power of
    two. *)
Definition to_Q (x : float) : option Q :=
  match x with
  | S754_zero _ => Some (0 # 1)%Q
  | S754_finite s m e =>
      Some ((if s then - inject_Z (Zpos m) else inject_Z (Zpos m))
            * (2 # 1) ^ e)%Q
  | _ => None
  end.

(** A normal number (full 24-bit mantissa) of magnitude at least
    2^-111: dividing it by a power of two up to 2^14 stays normal. *)
Definition normal (x : float) : bool :=
  match x with
  | S754_finite _ m e =>
      (Zpos (digits2_pos m) =? 24) && (-134 <=? e) && (e <=? 104)
  | _ => false
  end.

(** The value of [v] is exactly the value of [g] divided by [k]. *)
Definition exact_quotient (v g : float) (k : Z) : Prop :=
  match to_Q v, to_Q g with
  | Some qv, Some qg => (qv * inject_Z k == qg)%Q
  | _, _ => False
  end.

End F32.

(** ** Declarations of pios_mpu60x0.h

    The header with the register map, the register bit names and the
    enumerators is not part of the sources at hand: the values are
    parameters of the development. *)
Record pios_mpu60x0_h : Type := {
  PIOS_MPU60X0_SMPLRT_DIV_REG : Z;
  PIOS_MPU60X0_DLPF_CFG_REG : Z;
  PIOS_MPU60X0_GYRO_CFG_REG : Z;
  PIOS_MPU60X0_ACCEL_CFG_REG : Z;
  PIOS_MPU60X0_INT_CFG_REG : Z;
  PIOS_MPU60X0_INT_EN_REG : Z;
  PIOS_MPU60X0_ACCEL_X_OUT_MSB : Z;
  PIOS_MPU60X0_USER_CTRL_REG : Z;
  PIOS_MPU60X0_PWR_MGMT_REG : Z;
  PIOS_MPU60X0_WHOAMI : Z;
  PIOS_MPU60X0_PWRMGMT_IMU_RST : Z;
  PIOS_MPU60X0_USERCTL_GYRO_RST : Z;
  (* enum pios_mpu60x0_range *)
  PIOS_MPU60X0_SCALE_250_DEG : Z;
  PIOS_MPU60X0_SCALE_500_DEG : Z;
  PIOS_MPU60X0_SCALE_1000_DEG : Z;
  PIOS_MPU60X0_SCALE_2000_DEG : Z;
  (* enum pios_mpu60x0_accel_range *)
  PIOS_MPU60X0_ACCEL_2G : Z;
  PIOS_MPU60X0_ACCEL_4G : Z;
  PIOS_MPU60X0_ACCEL_8G : Z;
  PIOS_MPU60X0_ACCEL_16G : Z;
  (* enum pios_mpu60x0_filter *)
  PIOS_MPU60X0_LOWPASS_256_HZ : Z;
  (* enum pios_mpu60x0_orientation *)
  PIOS_MPU60X0_TOP_0DEG : Z;
  PIOS_MPU60X0_TOP_90DEG : Z;
  PIOS_MPU60X0_TOP_180DEG : Z;
  PIOS_MPU60X0_TOP_270DEG : Z;
  (* physical_constants.h *)
  GRAVITY : F32.float
}.

(** The case labels of each [switch] are pairwise distinct (a C compiler
    rejects the file otherwise). *)
Definition distinct4 (a b c d : Z) : bool :=
  negb (a =? b) && negb (a =? c) && negb (a =? d)
  && negb (b =? c) && negb (b =? d) && negb (c =? d).

Definition labels_distinct (h : pios_mpu60x0_h) : bool :=
  distinct4 (PIOS_MPU60X0_SCALE_250_DEG h) (PIOS_MPU60X0_SCALE_500_DEG h)
            (PIOS_MPU60X0_SCALE_1000_DEG h) (PIOS_MPU60X0_SCALE_2000_DEG h)
  && distinct4 (PIOS_MPU60X0_ACCEL_2G h) (PIOS_MPU60X0_ACCEL_4G h)
               (PIOS_MPU60X0_ACCEL_8G h) (PIOS_MPU60X0_ACCEL_16G h)
  && distinct4 (PIOS_MPU60X0_TOP_0DEG h) (PIOS_MPU60X0_TOP_90DEG h)
               (PIOS_MPU60X0_TOP_180DEG h) (PIOS_MPU60X0_TOP_270DEG h).

(** The fields of [struct pios_mpu60x0_cfg] the driver reads. *)
Record pios_mpu60x0_cfg : Type := {
  Pwr_mgmt_clk : Z;
  User_ctl : Z;
  interrupt_cfg : Z;
  interrupt_en : Z;
  default_filter : Z;
  default_samplerate : Z;
  orientation : Z
}.

(** Build options: [PIOS_MPU6500_ACCEL] and
    [PIOS_MPU6500_SIMPLE_INIT_SEQUENCE]. *)
Record build : Type := {
  PIOS_MPU6500_ACCEL : bool;
  PIOS_MPU6500_SIMPLE_INIT_SEQUENCE : bool
}.

(** ** Private constants *)
Definition MPU6000_WHOAMI_ID : Z := 0x68.
Definition MPU6500_WHOAMI_ID : Z := 0x70.
Definition pios_mpu6500_dev_MAGIC : Z := 0x9da9bccc.
Definition PIOS_MPU6500_MAX_QUEUESIZE : Z := 2.

(** ** Device state *)
Record mpu6500_dev : Type := {
  spi_id : Z;
  slave_num : Z;
  gyro_range : Z;
  gyro_queue : Z;
  accel_range : Z;
  accel_queue : Z;
  cfg : pios_mpu60x0_cfg;
  configured : bool;
  magic : Z;
  filter : Z
}.

Definition set_gyro_range (v : Z) (d : mpu6500_dev) : mpu6500_dev :=
  {| spi_id := spi_id d; slave_num := slave_num d; gyro_range := v;
     gyro_queue := gyro_queue d; accel_range := accel_range d;
     accel_queue := accel_queue d; cfg := cfg d; configured := configured d;
     magic := magic d; filter := filter d |}.

Definition set_accel_range (v : Z) (d : mpu6500_dev) : mpu6500_dev :=
  {| spi_id := spi_id d; slave_num := slave_num d; gyro_range := gyro_range d;
     gyro_queue := gyro_queue d; accel_range := v;
     accel_queue := accel_queue d; cfg := cfg d; configured := configured d;
     magic := magic d; filter := filter d |}.

Definition set_filter (v : Z) (d : mpu6500_dev) : mpu6500_dev :=
  {| spi_id := spi_id d; slave_num := slave_num d; gyro_range := gyro_range d;
     gyro_queue := gyro_queue d; accel_range := accel_range d;
     accel_queue := accel_queue d; cfg := cfg d; configured := configured d;
     magic := magic d; filter := v |}.

Definition set_configured (v : bool) (d : mpu6500_dev) : mpu6500_dev :=
  {| spi_id := spi_id d; slave_num := slave_num d; gyro_range := gyro_range d;
     gyro_queue := gyro_queue d; accel_range := accel_range d;
     accel_queue := accel_queue d; cfg := cfg d; configured := v;
     magic := magic d; filter := filter d |}.

(** ** External calls *)

(** A sample handed to a queue: x, y, z and temperature. *)
Record sample : Type := {
  sx : F32.float; sy : F32.float; sz : F32.float; temperature : F32.float
}.

Inductive event : Type :=
| SPI_ClaimBus (spi : Z)
| SPI_ClaimBusISR (spi : Z)
| SPI_ReleaseBus (spi : Z)
| SPI_ReleaseBusISR (spi : Z)
| SPI_RC_PinSet (spi slave pin_value : Z)
| SPI_TransferByte (spi b : Z)
| SPI_TransferBlock (spi : Z) (send_buffer : list Z) (len : Z)
| DELAY_WaitmS (ms : Z)
| WDG_Clear
| SENSORS_SetMaxGyro (dps : Z)
| QueueSendToBackFromISR (queue : Z) (item : sample).

(** The history lists the external calls made so far, the latest first. *)
Definition history := list event.

(** What the external functions answer, given the history up to and
    including the call itself. *)
Record world : Type := {
  PIOS_SPI_ClaimBus : history -> Z;
  PIOS_SPI_ClaimBusISR : history -> Z * bool;
  PIOS_SPI_ReleaseBus : history -> Z;
  PIOS_SPI_ReleaseBusISR : history -> Z * bool;
  PIOS_SPI_TransferByte : history -> Z;
  PIOS_SPI_TransferBlock : history -> Z * list Z;
  xQueueSendToBackFromISR : history -> bool
}.

Record state : Type := {
  pios_mpu6500_dev : option mpu6500_dev;
  trace : history
}.

(** ** The monad of driver code *)
Inductive outcome (A : Type) : Type :=
| Done (a : A) (s : state)
| Fault      (* undefined behaviour: null dereference, indeterminate
                value, conversion out of range *)
| Spin.      (* the loop budget ran out with a loop still running *)
Arguments Done {A} a s.
Arguments Fault {A}.
Arguments Spin {A}.

Definition M (A : Type) : Type := state -> outcome A.

Definition ret {A} (a : A) : M A := fun s => Done a s.

Definition bind {A B} (m : M A) (k : A -> M B) : M B :=
  fun s => match m s with
           | Done a s' => k a s'
           | Fault => Fault
           | Spin => Spin
           end.

Declare Scope drv_scope.
Delimit Scope drv_scope with drv.
Notation "x <- m ;; k" := (bind m (fun x => k))
  (at level 61, m at next level, right associativity) : drv_scope.
Notation "m ;; k" := (bind m (fun _ => k))
  (at level 61, right associativity) : drv_scope.
Open Scope drv_scope.

Definition fault {A} : M A := fun _ => Fault.

(** Record an external call. *)
Definition call (e : event) : M unit :=
  fun s => Done tt {| pios_mpu6500_dev := pios_mpu6500_dev s;
                      trace := e :: trace s |}.

(** Record an external call and take its answer from the world. *)
Definition call_ans {A} (e : event) (answer : history -> A) : M A :=
  fun s => let t := e :: trace s in
           Done (answer t) {| pios_mpu6500_dev := pios_mpu6500_dev s;
                              trace := t |}.

(** The device behind the global pointer; dereferencing NULL is a fault. *)
Definition deref : M mpu6500_dev :=
  fun s => match pios_mpu6500_dev s with
           | Some d => Done d s
           | None => Fault
           end.

(** Update the device through the global pointer. *)
Definition update (f : mpu6500_dev -> mpu6500_dev) : M unit :=
  fun s => match pios_mpu6500_dev s with
           | Some d => Done tt {| pios_mpu6500_dev := Some (f d);
                                  trace := trace s |}
           | None => Fault
           end.

Definition result {A} (o : outcome A) : option A :=
  match o with Done a _ => Some a | _ => None end.

Definition final {A} (o : outcome A) : option state :=
  match o with Done _ s => Some s | _ => None end.

(** ** The driver *)
Section Driver.

Variable h : pios_mpu60x0_h.
Variable b : build.
Variable w : world.

(** Validate the handle to the spi device. *)
Definition PIOS_MPU6500_Validate (dev : option mpu6500_dev) : Z :=
  match dev with
  | None => -1
  | Some d =>
      if negb (magic d =? pios_mpu6500_dev_MAGIC) then -2
      else if spi_id d =? 0 then -3
      else 0
  end.

Definition validated : M bool :=
  fun s => Done (PIOS_MPU6500_Validate (pios_mpu6500_dev s) =? 0) s.

(** Claim the SPI bus and select this chip. *)
Definition PIOS_MPU6500_ClaimBus : M Z :=
  ok <- validated ;;
  if negb ok then ret (-1) else
  d <- deref ;;
  r <- call_ans (SPI_ClaimBus (spi_id d)) (PIOS_SPI_ClaimBus w) ;;
  if negb (r =? 0) then ret (-2) else
  call (SPI_RC_PinSet (spi_id d) (slave_num d) 0) ;;
  ret 0.

(** The same from interrupt context; the second component is what the
    call leaves in [*woken]. *)
Definition PIOS_MPU6500_ClaimBusISR (woken : bool) : M (Z * bool) :=
  ok <- validated ;;
  if negb ok then ret (-1, woken) else
  d <- deref ;;
  r <- call_ans (SPI_ClaimBusISR (spi_id d)) (PIOS_SPI_ClaimBusISR w) ;;
  if negb (fst r =? 0) then ret (-2, snd r) else
  call (SPI_RC_PinSet (spi_id d) (slave_num d) 0) ;;
  ret (0, snd r).

(** Release the SPI bus and end the transaction. *)
Definition PIOS_MPU6500_ReleaseBus : M Z :=
  ok <- validated ;;
  if negb ok then ret (-1) else
  d <- deref ;;
  call (SPI_RC_PinSet (spi_id d) (slave_num d) 1) ;;
  call_ans (SPI_ReleaseBus (spi_id d)) (PIOS_SPI_ReleaseBus w).

Definition PIOS_MPU6500_ReleaseBusISR (woken : bool) : M (Z * bool) :=
  ok <- validated ;;
  if negb ok then ret (-1, woken) else
  d <- deref ;;
  call (SPI_RC_PinSet (spi_id d) (slave_num d) 1) ;;
  call_ans (SPI_ReleaseBusISR (spi_id d)) (PIOS_SPI_ReleaseBusISR w).

Definition transfer_byte (v : Z) : M Z :=
  d <- deref ;;
  call_ans (SPI_TransferByte (spi_id d) (Cint.uint8 v))
           (PIOS_SPI_TransferByte w).

(** Read a register: the register value, or -1 if the bus could not be
    claimed.  The received byte is kept in a [uint8_t]. *)
Definition PIOS_MPU6500_GetReg (reg : Z) : M Z :=
  let reg := Cint.uint8 reg in
  c <- PIOS_MPU6500_ClaimBus ;;
  if negb (c =? 0) then ret (-1) else
  transfer_byte (Z.lor 0x80 reg) ;;
  r <- transfer_byte 0 ;;
  let data := Cint.uint8 r in
  PIOS_MPU6500_ReleaseBus ;;
  ret data.

(** Write one byte to a register. *)
Definition PIOS_MPU6500_SetReg (reg data : Z) : M Z :=
  let reg := Cint.uint8 reg in
  let data := Cint.uint8 data in
  c <- PIOS_MPU6500_ClaimBus ;;
  if negb (c =? 0) then ret (-1) else
  e1 <- transfer_byte (Z.land 0x7f reg) ;;
  if negb (e1 =? 0) then PIOS_MPU6500_ReleaseBus ;; ret (-2) else
  e2 <- transfer_byte data ;;
  if negb (e2 =? 0) then PIOS_MPU6500_ReleaseBus ;; ret (-3) else
  PIOS_MPU6500_ReleaseBus ;;
  ret 0.

(** Read the identification byte.  The source tests [MPU6500_id], a
    name it does not declare; the local [mpu6500_id] is meant. *)
Definition PIOS_MPU6500_ReadID : M Z :=
  mpu6500_id <- PIOS_MPU6500_GetReg (PIOS_MPU60X0_WHOAMI h) ;;
  if mpu6500_id <? 0 then ret (-1) else ret mpu6500_id.

(** Run self-test operation. *)
Definition PIOS_MPU6500_Test : M Z :=
  mpu6500_id <- PIOS_MPU6500_ReadID ;;
  if mpu6500_id <? 0 then ret (-1)
  else if negb (mpu6500_id =? MPU6500_WHOAMI_ID) then ret (-2)
  else ret 0.

(** Set the gyro range and store it locally for scaling. *)
Definition PIOS_MPU6500_SetGyroRange (range : Z) : M unit :=
  PIOS_MPU6500_SetReg (PIOS_MPU60X0_GYRO_CFG_REG h) range ;;
  (if range =? PIOS_MPU60X0_SCALE_250_DEG h then call (SENSORS_SetMaxGyro 250)
   else if range =? PIOS_MPU60X0_SCALE_500_DEG h then call (SENSORS_SetMaxGyro 500)
   else if range =? PIOS_MPU60X0_SCALE_1000_DEG h then call (SENSORS_SetMaxGyro 1000)
   else if range =? PIOS_MPU60X0_SCALE_2000_DEG h then call (SENSORS_SetMaxGyro 2000)
   else ret tt) ;;
  update (set_gyro_range range).

(** Set the accel range and store it locally for scaling. *)
Definition PIOS_MPU6500_SetAccelRange (range : Z) : M unit :=
  PIOS_MPU6500_SetReg (PIOS_MPU60X0_ACCEL_CFG_REG h) range ;;
  update (set_accel_range range).

(** The divisor computed by [PIOS_MPU6500_SetSampleRate] from the filter
    frequency and the requested rate: limit the rate to the filter
    frequency, divide in [float], add [0.5f], truncate, subtract one,
    limit to the register range. *)
Definition sample_rate_divisor (filter_frequency samplerate_hz : Z)
  : option Z :=
  let samplerate_hz :=
    if samplerate_hz >? filter_frequency then filter_frequency
    else samplerate_hz in
  match F32.to_int32
          (F32.add (F32.div (F32.of_Z filter_frequency)
                            (F32.of_Z samplerate_hz))
                   (F32.lit 1 2)) with
  | None => None
  | Some t =>
      let divisor := t - 1 in
      if divisor <? - 2 ^ 31 then None else
      let divisor := if divisor <? 0 then 0 else divisor in
      let divisor := if divisor >? 0xff then 0xff else divisor in
      Some divisor
  end.

(** Set the sample rate in Hz by determining the nearest divisor. *)
Definition PIOS_MPU6500_SetSampleRate (samplerate_hz : Z) : M unit :=
  let samplerate_hz := Cint.uint16 samplerate_hz in
  d <- deref ;;
  let filter_frequency :=
    if negb (filter d =? PIOS_MPU60X0_LOWPASS_256_HZ h) then 1000
    else 8000 in
  match sample_rate_divisor filter_frequency samplerate_hz with
  | None => fault
  | Some divisor =>
      PIOS_MPU6500_SetReg (PIOS_MPU60X0_SMPLRT_DIV_REG h)
                          (Cint.uint8 divisor) ;;
      ret tt
  end.

(** Configure the digital low-pass filter. *)
Definition PIOS_MPU6500_SetLPF (f : Z) : M unit :=
  PIOS_MPU6500_SetReg (PIOS_MPU60X0_DLPF_CFG_REG h) f ;;
  update (set_filter f).

(** [do { PIOS_DELAY_WaitmS(5); } while (read(reg) & mask);] with a
    budget of iterations; a loop still running when the budget is used
    up gives [Spin]. *)
Fixpoint poll_until_clear (read : Z -> M Z) (reg mask : Z) (budget : nat)
  : M unit :=
  match budget with
  | O => fun _ => Spin
  | S n =>
      call (DELAY_WaitmS 5) ;;
      v <- read reg ;;
      if negb (Z.land v mask =? 0)
      then poll_until_clear read reg mask n
      else ret tt
  end.

(** The second polling loop of the configuration sequence calls
    [PIOS_MPU5000_GetReg]; no such function exists in the sources, the
    register read of this driver is taken for it. *)
Definition PIOS_MPU5000_GetReg : Z -> M Z := PIOS_MPU6500_GetReg.

(** The configuration sequence under
    [PIOS_MPU6500_SIMPLE_INIT_SEQUENCE]. *)
Definition Config_simple (c : pios_mpu60x0_cfg) : M unit :=
  PIOS_MPU6500_SetReg (PIOS_MPU60X0_PWR_MGMT_REG h)
                      (PIOS_MPU60X0_PWRMGMT_IMU_RST h) ;;
  call (DELAY_WaitmS 50) ;;
  call WDG_Clear ;;
  PIOS_MPU6500_SetReg (PIOS_MPU60X0_USER_CTRL_REG h)
                      (PIOS_MPU60X0_USERCTL_GYRO_RST h) ;;
  call (DELAY_WaitmS 10) ;;
  PIOS_MPU6500_SetReg (PIOS_MPU60X0_PWR_MGMT_REG h) (Pwr_mgmt_clk c) ;;
  PIOS_MPU6500_SetReg (PIOS_MPU60X0_USER_CTRL_REG h) (User_ctl c) ;;
  PIOS_MPU6500_SetLPF (default_filter c) ;;
  PIOS_MPU6500_SetSampleRate (default_samplerate c) ;;
  PIOS_MPU6500_SetGyroRange (PIOS_MPU60X0_SCALE_500_DEG h) ;;
  (if PIOS_MPU6500_ACCEL b
   then PIOS_MPU6500_SetAccelRange (PIOS_MPU60X0_ACCEL_8G h)
   else ret tt) ;;
  PIOS_MPU6500_SetReg (PIOS_MPU60X0_INT_CFG_REG h) (interrupt_cfg c) ;;
  PIOS_MPU6500_SetReg (PIOS_MPU60X0_INT_EN_REG h) (interrupt_en c) ;;
  update (set_configured true).

(** The configuration sequence without that option. *)
Definition Config_full (c : pios_mpu60x0_cfg) (budget : nat) : M unit :=
  PIOS_MPU6500_ClaimBus ;;
  call (DELAY_WaitmS 1) ;;
  PIOS_MPU6500_ReleaseBus ;;
  call (DELAY_WaitmS 10) ;;
  PIOS_MPU6500_SetReg (PIOS_MPU60X0_PWR_MGMT_REG h)
                      (Z.lor 0x80 (Pwr_mgmt_clk c)) ;;
  poll_until_clear PIOS_MPU6500_GetReg (PIOS_MPU60X0_PWR_MGMT_REG h)
                   0x80 budget ;;
  call (DELAY_WaitmS 25) ;;
  PIOS_MPU6500_SetReg (PIOS_MPU60X0_USER_CTRL_REG h)
                      (Z.lor (Z.lor (Z.lor 0x80 0x01) 0x02) 0x04) ;;
  poll_until_clear PIOS_MPU5000_GetReg (PIOS_MPU60X0_USER_CTRL_REG h)
                   0x07 budget ;;
  call (DELAY_WaitmS 25) ;;
  PIOS_MPU6500_SetReg (PIOS_MPU60X0_PWR_MGMT_REG h) (Pwr_mgmt_clk c) ;;
  PIOS_MPU6500_SetReg (PIOS_MPU60X0_INT_CFG_REG h) (interrupt_cfg c) ;;
  PIOS_MPU6500_SetReg (PIOS_MPU60X0_INT_EN_REG h) (interrupt_en c) ;;
  (if PIOS_MPU6500_ACCEL b
   then PIOS_MPU6500_SetAccelRange (PIOS_MPU60X0_ACCEL_8G h)
   else ret tt) ;;
  PIOS_MPU6500_SetLPF (default_filter c) ;;
  PIOS_MPU6500_SetSampleRate (default_samplerate c) ;;
  PIOS_MPU6500_SetGyroRange (PIOS_MPU60X0_SCALE_500_DEG h) ;;
  PIOS_MPU6500_SetReg (PIOS_MPU60X0_USER_CTRL_REG h) (User_ctl c) ;;
  PIOS_MPU6500_SetReg (PIOS_MPU60X0_PWR_MGMT_REG h) (Pwr_mgmt_clk c) ;;
  PIOS_MPU6500_SetReg (PIOS_MPU60X0_INT_CFG_REG h) (interrupt_cfg c) ;;
  PIOS_MPU6500_SetReg (PIOS_MPU60X0_INT_EN_REG h) (interrupt_en c) ;;
  update (set_configured true).

(** Initialise the sensor with the given configuration. *)
Definition PIOS_MPU6500_Config (c : pios_mpu60x0_cfg) (budget : nat)
  : M unit :=
  if PIOS_MPU6500_SIMPLE_INIT_SEQUENCE b then Config_simple c
  else Config_full c budget.


(** Get the gyro scale based on the active device settings, in
    (deg/s) / LSB. *)
Definition PIOS_MPU6500_GetGyroScale : M F32.float :=
  d <- deref ;;
  let r := gyro_range d in
  if r =? PIOS_MPU60X0_SCALE_250_DEG h
  then ret (F32.div (F32.of_Z 1) (F32.of_Z 131))
  else if r =? PIOS_MPU60X0_SCALE_500_DEG h
  then ret (F32.div (F32.of_Z 1) (F32.lit 655 10))
  else if r =? PIOS_MPU60X0_SCALE_1000_DEG h
  then ret (F32.div (F32.of_Z 1) (F32.lit 328 10))
  else if r =? PIOS_MPU60X0_SCALE_2000_DEG h
  then ret (F32.div (F32.of_Z 1) (F32.lit 164 10))
  else ret (F32.of_Z 0).

(** Get the accel scale based on the active settings, in
    (m/s^2) / LSB. *)
Definition PIOS_MPU6500_GetAccelScale : M F32.float :=
  d <- deref ;;
  let r := accel_range d in
  if r =? PIOS_MPU60X0_ACCEL_2G h
  then ret (F32.div (GRAVITY h) (F32.of_Z 16384))
  else if r =? PIOS_MPU60X0_ACCEL_4G h
  then ret (F32.div (GRAVITY h) (F32.of_Z 8192))
  else if r =? PIOS_MPU60X0_ACCEL_8G h
  then ret (F32.div (GRAVITY h) (F32.of_Z 4096))
  else if r =? PIOS_MPU60X0_ACCEL_16G h
  then ret (F32.div (GRAVITY h) (F32.of_Z 2048))
  else ret (F32.of_Z 0).

(** Indices into the burst buffer. *)
Definition IDX_SPI_DUMMY_BYTE : nat := 0.
Definition IDX_ACCEL_XOUT_H : nat := 1.
Definition IDX_ACCEL_XOUT_L : nat := 2.
Definition IDX_ACCEL_YOUT_H : nat := 3.
Definition IDX_ACCEL_YOUT_L : nat := 4.
Definition IDX_ACCEL_ZOUT_H : nat := 5.
Definition IDX_ACCEL_ZOUT_L : nat := 6.
Definition IDX_TEMP_OUT_H : nat := 7.
Definition IDX_TEMP_OUT_L : nat := 8.
Definition IDX_GYRO_XOUT_H : nat := 9.
Definition IDX_GYRO_XOUT_L : nat := 10.
Definition IDX_GYRO_YOUT_H : nat := 11.
Definition IDX_GYRO_YOUT_L : nat := 12.
Definition IDX_GYRO_ZOUT_H : nat := 13.
Definition IDX_GYRO_ZOUT_L : nat := 14.
Definition BUFFER_SIZE : nat := 15.

(** [(int16_t)(buf[hi] << 8 | buf[lo])]; the buffer holds [uint8_t]. *)
Definition rd16 (buf : list Z) (hi lo : nat) : Z :=
  Cint.be16 (Cint.uint8 (nth hi buf 0)) (Cint.uint8 (nth lo buf 0)).

(** The x and y of both samples as the orientation [switch] of the
    accel build assigns them (integers, before the conversion to
    [float]); no case matching leaves them unassigned. *)
Record xy_pair : Type := {
  accel_x : Z; accel_y : Z; gyro_x : Z; gyro_y : Z
}.

Definition switch_orientation (o : Z) (buf : list Z) : option xy_pair :=
  if o =? PIOS_MPU60X0_TOP_0DEG h then
    Some {| accel_y := rd16 buf IDX_ACCEL_XOUT_H IDX_ACCEL_XOUT_L;
            accel_x := rd16 buf IDX_ACCEL_YOUT_H IDX_ACCEL_YOUT_L;
            gyro_y := rd16 buf IDX_GYRO_XOUT_H IDX_GYRO_XOUT_L;
            gyro_x := rd16 buf IDX_GYRO_YOUT_H IDX_GYRO_YOUT_L |}
  else if o =? PIOS_MPU60X0_TOP_90DEG h then
    Some {| accel_y := - rd16 buf IDX_ACCEL_YOUT_H IDX_ACCEL_YOUT_L;
            accel_x := rd16 buf IDX_ACCEL_XOUT_H IDX_ACCEL_XOUT_L;
            gyro_y := - rd16 buf IDX_GYRO_YOUT_H IDX_GYRO_YOUT_L;
            gyro_x := rd16 buf IDX_GYRO_XOUT_H IDX_GYRO_XOUT_L |}
  else if o =? PIOS_MPU60X0_TOP_180DEG h then
    Some {| accel_y := - rd16 buf IDX_ACCEL_XOUT_H IDX_ACCEL_XOUT_L;
            accel_x := - rd16 buf IDX_ACCEL_YOUT_H IDX_ACCEL_YOUT_L;
            gyro_y := - rd16 buf IDX_GYRO_XOUT_H IDX_GYRO_XOUT_L;
            gyro_x := - rd16 buf IDX_GYRO_YOUT_H IDX_GYRO_YOUT_L |}
  else if o =? PIOS_MPU60X0_TOP_270DEG h then
    Some {| accel_y := rd16 buf IDX_ACCEL_YOUT_H IDX_ACCEL_YOUT_L;
            accel_x := - rd16 buf IDX_ACCEL_XOUT_H IDX_ACCEL_XOUT_L;
            gyro_y := rd16 buf IDX_GYRO_YOUT_H IDX_GYRO_YOUT_L;
            gyro_x := - rd16 buf IDX_GYRO_XOUT_H IDX_GYRO_XOUT_L |}
  else None.

(** The orientation [switch] of the build without accel: (x, y) of the
    gyro sample. *)
Definition switch_orientation_gyro (o : Z) (buf : list Z)
  : option (Z * Z) :=
  if o =? PIOS_MPU60X0_TOP_0DEG h then
    Some (rd16 buf IDX_GYRO_YOUT_H IDX_GYRO_YOUT_L,
          rd16 buf IDX_GYRO_XOUT_H IDX_GYRO_XOUT_L)
  else if o =? PIOS_MPU60X0_TOP_90DEG h then
    Some (rd16 buf IDX_GYRO_XOUT_H IDX_GYRO_XOUT_L,
          - rd16 buf IDX_GYRO_YOUT_H IDX_GYRO_YOUT_L)
  else if o =? PIOS_MPU60X0_TOP_180DEG h then
    Some (- rd16 buf IDX_GYRO_YOUT_H IDX_GYRO_YOUT_L,
          - rd16 buf IDX_GYRO_XOUT_H IDX_GYRO_XOUT_L)
  else if o =? PIOS_MPU60X0_TOP_270DEG h then
    Some (- rd16 buf IDX_GYRO_XOUT_H IDX_GYRO_XOUT_L,
          rd16 buf IDX_GYRO_YOUT_H IDX_GYRO_YOUT_L)
  else None.

Definition gyro_z_of (buf : list Z) : Z :=
  - rd16 buf IDX_GYRO_ZOUT_H IDX_GYRO_ZOUT_L.

Definition accel_z_of (buf : list Z) : Z :=
  - rd16 buf IDX_ACCEL_ZOUT_H IDX_ACCEL_ZOUT_L.

(** [35.0f + ((float)raw_temp + 512.0f) / 340.0f] *)
Definition temperature_of (buf : list Z) : F32.float :=
  let raw_temp := rd16 buf IDX_TEMP_OUT_H IDX_TEMP_OUT_L in
  F32.add (F32.of_Z 35)
          (F32.div (F32.add (F32.of_Z raw_temp) (F32.of_Z 512))
                   (F32.of_Z 340)).

(** A [float] sample: the integers converted, then each axis
    multiplied by the scale. *)
Definition scaled (x y z : Z) (scale temp : F32.float) : sample :=
  {| sx := F32.mul (F32.of_Z x) scale;
     sy := F32.mul (F32.of_Z y) scale;
     sz := F32.mul (F32.of_Z z) scale;
     temperature := temp |}.

Definition send_buf : list Z :=
  Cint.uint8 (Z.lor (PIOS_MPU60X0_ACCEL_X_OUT_MSB h) 0x80)
  :: repeat 0 (BUFFER_SIZE - 1).

(** IRQ handler: read all the data from the onboard buffer. *)
Definition PIOS_MPU6500_IRQHandler : M bool :=
  ok <- validated ;;
  if negb ok then ret false else
  d <- deref ;;
  if eqb (configured d) false then ret false else
  cw <- PIOS_MPU6500_ClaimBusISR false ;;
  if negb (fst cw =? 0) then ret false else
  r <- call_ans (SPI_TransferBlock (spi_id d) send_buf (Z.of_nat BUFFER_SIZE))
                (PIOS_SPI_TransferBlock w) ;;
  if fst r <? 0 then PIOS_MPU6500_ReleaseBusISR (snd cw) ;; ret false else
  let rec_buf := snd r in
  rw <- PIOS_MPU6500_ReleaseBusISR (snd cw) ;;
  let woken := snd rw in
  if PIOS_MPU6500_ACCEL b then
    match switch_orientation (orientation (cfg d)) rec_buf with
    | None => fault
    | Some p =>
        let temp := temperature_of rec_buf in
        accel_scale <- PIOS_MPU6500_GetAccelScale ;;
        let accel_data :=
          scaled (accel_x p) (accel_y p) (accel_z_of rec_buf)
                 accel_scale temp in
        gyro_scale <- PIOS_MPU6500_GetGyroScale ;;
        let gyro_data :=
          scaled (gyro_x p) (gyro_y p) (gyro_z_of rec_buf)
                 gyro_scale temp in
        wa <- call_ans (QueueSendToBackFromISR (accel_queue d) accel_data)
                       (xQueueSendToBackFromISR w) ;;
        wg <- call_ans (QueueSendToBackFromISR (gyro_queue d) gyro_data)
                       (xQueueSendToBackFromISR w) ;;
        ret (wa || wg || eqb woken true)
    end
  else
    match switch_orientation_gyro (orientation (cfg d)) rec_buf with
    | None => fault
    | Some (gx, gy) =>
        let temp := temperature_of rec_buf in
        gyro_scale <- PIOS_MPU6500_GetGyroScale ;;
        let gyro_data := scaled gx gy (gyro_z_of rec_buf) gyro_scale temp in
        wg <- call_ans (QueueSendToBackFromISR (gyro_queue d) gyro_data)
                       (xQueueSendToBackFromISR w) ;;
        ret (wg || eqb woken true)
    end.

End Driver.


(** ** The chip as seen on the wire

    What the driver has programmed is read off the history: pulling the
    chip-select pin low starts a transaction, the first byte of a
    transaction is a register address whose top bit asks for a read, and
    in a write transaction each further byte is stored at the address,
    which then moves on by one.  A block transfer delivers the bytes of
    its send buffer one after the other. *)
Inductive chip_phase : Type :=
| Deselected
| Selected
| Reading
| WriteTo (addr : Z).

Record chip : Type := {
  phase : chip_phase;
  regs : Z -> option Z
}.

Definition chip_reset : chip :=
  {| phase := Deselected; regs := fun _ => None |}.

(** One byte arriving at the chip. *)
Definition chip_byte (c : chip) (v : Z) : chip :=
  match phase c with
  | Selected =>
      {| phase := if Z.testbit v 7 then Reading else WriteTo v;
         regs := regs c |}
  | WriteTo a =>
      {| phase := WriteTo (a + 1);
         regs := fun r => if r =? a then Some v else regs c r |}
  | _ => c
  end.

Definition chip_step (c : chip) (e : event) : chip :=
  match e with
  | SPI_RC_PinSet _ _ v =>
      {| phase := if v =? 0 then Selected else Deselected; regs := regs c |}
  | SPI_TransferByte _ v => chip_byte c v
  | SPI_TransferBlock _ send_buffer len =>
      fold_left chip_byte (firstn (Z.to_nat len) send_buffer) c
  | _ => c
  end.

(** The chip after a history (latest event first). *)
Fixpoint chip_of (t : history) : chip :=
  match t with
  | [] => chip_reset
  | e :: t' => chip_step (chip_of t') e
  end.

(** The address byte of a write to register [reg]. *)
Definition reg_addr (reg : Z) : Z := Z.land 0x7f (Cint.uint8 reg).

(** The value last written to register [reg], if any. *)
Definition programmed (reg : Z) (t : history) : option Z :=
  regs (chip_of t) (reg_addr reg).

(** From [s] to [s'] no register of the chip changed, respectively none
    but [reg]. *)
Definition chip_kept (s s' : state) : Prop :=
  forall a, regs (chip_of (trace s')) a = regs (chip_of (trace s)) a.

Definition chip_kept_except (reg : Z) (s s' : state) : Prop :=
  forall a, a <> reg_addr reg ->
            regs (chip_of (trace s')) a = regs (chip_of (trace s)) a.

(** ** The sample-rate divisor as specified *)

Definition filter_clock (widest : bool) : Z := if widest then 8000 else 1000.

(** Rounding to the nearest integer, halves upwards. *)
Definition round_nearest (q : Q) : Z := Qfloor (q + (1 # 2))%Q.

Definition clamp (lo hi v : Z) : Z := Z.max lo (Z.min hi v).

(** [filter_clock] by the active filter, the rate clamped to it,
    [round(filter_clock / rate) - 1] clamped to [0, 255]. *)
Definition divisor_spec (widest : bool) (rate : Z) : Z :=
  let fc := filter_clock widest in
  let rate := Z.min rate fc in
  clamp 0 255 (round_nearest (inject_Z fc / inject_Z rate)%Q - 1).

(** ** The axis rule of a mounting orientation *)

Inductive mounting : Type := TOP_0DEG | TOP_90DEG | TOP_180DEG | TOP_270DEG.

Definition mounting_label (h : pios_mpu60x0_h) (o : mounting) : Z :=
  match o with
  | TOP_0DEG => PIOS_MPU60X0_TOP_0DEG h
  | TOP_90DEG => PIOS_MPU60X0_TOP_90DEG h
  | TOP_180DEG => PIOS_MPU60X0_TOP_180DEG h
  | TOP_270DEG => PIOS_MPU60X0_TOP_270DEG h
  end.

(** Body-frame (x, y) from the raw (x, y) of either sensor. *)
Definition remap (o : mounting) (raw_x raw_y : Z) : Z * Z :=
  match o with
  | TOP_0DEG => (raw_y, raw_x)
  | TOP_90DEG => (raw_x, - raw_y)
  | TOP_180DEG => (- raw_y, - raw_x)
  | TOP_270DEG => (- raw_x, raw_y)
  end.

(** ** Bounded checks *)

(** [P] holds of the [n] integers from [z] on. *)
Fixpoint all_from (n : nat) (z : Z) (P : Z -> bool) : bool :=
  match n with
  | O => true
  | S k => P z && all_from k (z + 1) P
  end.

(** The computed divisor agrees with the specified one at rate [r]. *)
Definition divisor_agrees (widest : bool) (r : Z) : bool :=
  match sample_rate_divisor (filter_clock widest) r with
  | Some v => v =? divisor_spec widest r
  | None => false
  end.

(** ** Vocabulary of the statements *)

(** *** The answers seen by a register transaction *)

(** The history once the bus is claimed and the chip selected. *)
Definition after_claim (d : mpu6500_dev) (t : history) : history :=
  SPI_RC_PinSet (spi_id d) (slave_num d) 0 :: SPI_ClaimBus (spi_id d) :: t.

(** The answer to the claim itself. *)
Definition claim_answer (w : world) (d : mpu6500_dev) (t : history) : Z :=
  PIOS_SPI_ClaimBus w (SPI_ClaimBus (spi_id d) :: t).

(** History and answer at the address byte of a write, then at its
    data byte. *)
Definition write_t1 (d : mpu6500_dev) (reg : Z) (t : history) : history :=
  SPI_TransferByte (spi_id d) (Cint.uint8 (Z.land 0x7f (Cint.uint8 reg)))
  :: after_claim d t.

Definition write_t2 (d : mpu6500_dev) (reg data : Z) (t : history)
  : history :=
  SPI_TransferByte (spi_id d) (Cint.uint8 (Cint.uint8 data))
  :: write_t1 d reg t.

(** History at the second byte of a read; its answer is the data. *)
Definition read_t2 (d : mpu6500_dev) (reg : Z) (t : history) : history :=
  SPI_TransferByte (spi_id d) (Cint.uint8 0)
  :: SPI_TransferByte (spi_id d) (Cint.uint8 (Z.lor 0x80 (Cint.uint8 reg)))
  :: after_claim d t.

(** History after the release that ends a transaction. *)
Definition released (d : mpu6500_dev) (t : history) : history :=
  SPI_ReleaseBus (spi_id d) :: SPI_RC_PinSet (spi_id d) (slave_num d) 1 :: t.

Definition with_trace (s : state) (t : history) : state :=
  {| pios_mpu6500_dev := pios_mpu6500_dev s; trace := t |}.

(** Whether the driver gets the bus from state [s]. *)
Definition claims (w : world) (s : state) : bool :=
  match PIOS_MPU6500_ClaimBus w s with
  | Done 0 _ => true
  | _ => false
  end.

(** [wp spin m s Q]: from [s] the code [m] does not fault, and ends in a
    result and state satisfying [Q]; with [spin] it may also still be
    in a polling loop when the budget is used up. *)
Definition wp {A} (spin : bool) (m : M A) (s : state)
  (Q : A -> state -> Prop) : Prop :=
  match m s with
  | Done a s' => Q a s'
  | Fault => False
  | Spin => spin = true
  end.

(** The value a scale function returns for device [d]. *)
Definition scale_for (get : M F32.float) (d : mpu6500_dev) : F32.float :=
  match get {| pios_mpu6500_dev := Some d; trace := [] |} with
  | Done v _ => v
  | _ => F32.zero
  end.

(** [v] is within a relative 2^-24 of the rational [n/d]: no float with
    a 24-bit mantissa is nearer. *)
Definition nearest_to (v : F32.float) (n d : Z) : bool :=
  match F32.to_Q v with
  | Some q =>
      Qle_bool (Qabs (q * inject_Z d - inject_Z n))
               (inject_Z (Z.abs n) * (1 # 2 ^ 24))
  | None => false
  end.

(** The history of the interrupt handler: when the burst is sent, and
    when the bus is released after it. *)
Definition irq_burst (h : pios_mpu60x0_h) (d : mpu6500_dev) (t : history)
  : history :=
  SPI_TransferBlock (spi_id d) (send_buf h) (Z.of_nat BUFFER_SIZE)
  :: SPI_RC_PinSet (spi_id d) (slave_num d) 0
  :: SPI_ClaimBusISR (spi_id d) :: t.

Definition irq_released (h : pios_mpu60x0_h) (d : mpu6500_dev) (t : history)
  : history :=
  SPI_ReleaseBusISR (spi_id d)
  :: SPI_RC_PinSet (spi_id d) (slave_num d) 1 :: irq_burst h d t.

(** The ranges cached in the device of a state. *)
Definition cached_gyro_range (s : state) : option Z :=
  option_map gyro_range (pios_mpu6500_dev s).

Definition cached_accel_range (s : state) : option Z :=
  option_map accel_range (pios_mpu6500_dev s).

(** The device the configuration sequence leaves behind. *)
Definition config_result (h : pios_mpu60x0_h) (b : build)
  (c : pios_mpu60x0_cfg) (d : mpu6500_dev) : mpu6500_dev :=
  set_configured true
    (set_gyro_range (PIOS_MPU60X0_SCALE_500_DEG h)
       (set_filter (default_filter c)
          (if PIOS_MPU6500_ACCEL b
           then set_accel_range (PIOS_MPU60X0_ACCEL_8G h) d
           else d))).

(** One turn of a polling loop: the delay, then the read. *)
Definition poll_once (read : Z -> M Z) (reg : Z) : M Z :=
  call (DELAY_WaitmS 5) ;; read reg.

(** With device [d] behind the pointer, every read of [reg] in world [w]
    comes back with a bit of [mask] set, respectively with all bits of
    [mask] clear. *)
Definition reads_stuck (w : world) (d : mpu6500_dev) (reg mask : Z) : Prop :=
  forall s v s', pios_mpu6500_dev s = Some d ->
                 PIOS_MPU6500_GetReg w reg s = Done v s' ->
                 Z.land v mask <> 0.

Definition reads_clear (w : world) (d : mpu6500_dev) (reg mask : Z) : Prop :=
  forall s v s', pios_mpu6500_dev s = Some d ->
                 PIOS_MPU6500_GetReg w reg s = Done v s' ->
                 Z.land v mask = 0.

(** A run ends, in a state satisfying [P]. *)
Definition ends_with (o : outcome unit) (P : state -> Prop) : Prop :=
  exists s', o = Done tt s' /\ P s'.

Definition flag_set (s : state) : Prop :=
  option_map configured (pios_mpu6500_dev s) = Some true.

(** The ranges found cached after the configuration sequence, and the
    scales the scale functions give for them. *)
Definition default_ranges (h : pios_mpu60x0_h) (b : build) (s : state)
  : Prop :=
  cached_gyro_range s = Some (PIOS_MPU60X0_SCALE_500_DEG h)
  /\ (PIOS_MPU6500_ACCEL b = true ->
      cached_accel_range s = Some (PIOS_MPU60X0_ACCEL_8G h))
  /\ (labels_distinct h = true ->
      PIOS_MPU6500_GetGyroScale h s = Done (F32.lit 10 655) s
      /\ (PIOS_MPU6500_ACCEL b = true ->
          PIOS_MPU6500_GetAccelScale h s
          = Done (F32.div (GRAVITY h) (F32.of_Z 4096)) s)).

(** The raw axis values of a burst buffer. *)
Definition raw_accel_x (buf : list Z) : Z :=
  rd16 buf IDX_ACCEL_XOUT_H IDX_ACCEL_XOUT_L.
Definition raw_accel_y (buf : list Z) : Z :=
  rd16 buf IDX_ACCEL_YOUT_H IDX_ACCEL_YOUT_L.
Definition raw_accel_z (buf : list Z) : Z :=
  rd16 buf IDX_ACCEL_ZOUT_H IDX_ACCEL_ZOUT_L.
Definition raw_gyro_x (buf : list Z) : Z :=
  rd16 buf IDX_GYRO_XOUT_H IDX_GYRO_XOUT_L.
Definition raw_gyro_y (buf : list Z) : Z :=
  rd16 buf IDX_GYRO_YOUT_H IDX_GYRO_YOUT_L.
Definition raw_gyro_z (buf : list Z) : Z :=
  rd16 buf IDX_GYRO_ZOUT_H IDX_GYRO_ZOUT_L.

(** The sample made of a remapped (x, y), a negated raw z, a scale and
    a temperature. *)
Definition body_sample (xy : Z * Z) (raw_z : Z) (scale temp : F32.float)
  : sample :=
  scaled (fst xy) (snd xy) (- raw_z) scale temp.

(** The bytes the burst of the handler receives in state [s]. *)
Definition burst_answer (h : pios_mpu60x0_h) (w : world) (d : mpu6500_dev)
  (t : history) : Z * list Z :=
  PIOS_SPI_TransferBlock w (irq_burst h d t).

(** A bus that is always free and whose byte transfers all answer
    zero: every register write succeeds. *)
Definition quiet_bus (w : world) : Prop :=
  (forall t, PIOS_SPI_ClaimBus w t = 0)
  /\ (forall t, PIOS_SPI_TransferByte w t = 0).

(** Register [reg] has another address than each register of [others]. *)
Definition apart (reg : Z) (others : list Z) : bool :=
  forallb (fun x => negb (reg_addr x =? reg_addr reg)) others.

(** The two range registers have addresses of their own among the
    registers the configuration sequence writes after them. *)
Definition range_registers_apart (h : pios_mpu60x0_h) : bool :=
  apart (PIOS_MPU60X0_GYRO_CFG_REG h)
        [PIOS_MPU60X0_ACCEL_CFG_REG h; PIOS_MPU60X0_INT_CFG_REG h;
         PIOS_MPU60X0_INT_EN_REG h; PIOS_MPU60X0_USER_CTRL_REG h;
         PIOS_MPU60X0_PWR_MGMT_REG h]
  && apart (PIOS_MPU60X0_ACCEL_CFG_REG h)
           [PIOS_MPU60X0_DLPF_CFG_REG h; PIOS_MPU60X0_SMPLRT_DIV_REG h;
            PIOS_MPU60X0_GYRO_CFG_REG h; PIOS_MPU60X0_USER_CTRL_REG h;
            PIOS_MPU60X0_PWR_MGMT_REG h; PIOS_MPU60X0_INT_CFG_REG h;
            PIOS_MPU60X0_INT_EN_REG h].

(** The range registers hold the default ranges. *)
Definition default_ranges_programmed (h : pios_mpu60x0_h) (b : build)
  (s : state) : Prop :=
  programmed (PIOS_MPU60X0_GYRO_CFG_REG h) (trace s)
  = Some (Cint.uint8 (PIOS_MPU60X0_SCALE_500_DEG h))
  /\ (PIOS_MPU6500_ACCEL b = true ->
      programmed (PIOS_MPU60X0_ACCEL_CFG_REG h) (trace s)
      = Some (Cint.uint8 (PIOS_MPU60X0_ACCEL_8G h))).

(** ** Vocabulary of the further properties *)

(** *** Decoding and conversion *)

(** The value of a big-endian two's-complement pair of bytes, and the
    pair of bytes of a value. *)
Definition signed_be16 (hi lo : Z) : Z :=
  256 * hi + lo - (if 128 <=? hi then 65536 else 0).

Definition encode_be16 (v : Z) : Z * Z :=
  (Cint.uint8 (v / 256), Cint.uint8 v).

Definition decodes_as_signed (hi lo : Z) : bool :=
  Cint.be16 hi lo =? signed_be16 hi lo.

Definition decodes_back (v : Z) : bool :=
  Cint.be16 (fst (encode_be16 v)) (snd (encode_be16 v)) =? v.

(** The conversion of [v] to [float] is exact. *)
Definition converts_exactly (v : Z) : bool :=
  match F32.to_Q (F32.of_Z v) with
  | Some q => Qeq_bool q (inject_Z v)
  | None => false
  end.

(** The temperature computed from the raw value, as in
    [temperature_of], and the exact value of the formula. *)
Definition temperature_float (raw_temp : Z) : F32.float :=
  F32.add (F32.of_Z 35)
          (F32.div (F32.add (F32.of_Z raw_temp) (F32.of_Z 512))
                   (F32.of_Z 340)).

Definition temperature_exact (raw_temp : Z) : Q :=
  (35 + inject_Z (raw_temp + 512) / 340)%Q.

(** The computed temperature is finite, within 2^-16 of the exact one
    and between -60 and 133 degrees. *)
Definition temperature_close_to (x : F32.float) (raw_temp : Z) : bool :=
  match F32.to_Q x with
  | Some q =>
      Qle_bool (Qabs (q - temperature_exact raw_temp)) (1 # 65536)
      && Qle_bool (- (60 # 1)) q && Qle_bool q (133 # 1)
  | None => false
  end.

(** *** The divisor *)

Definition divisor_steps_down (widest : bool) (r : Z) : bool :=
  divisor_spec widest (r + 1) <=? divisor_spec widest r.

(** A rate that divides the filter clock, down to 1/256 of it, gets the
    divisor that realises it exactly. *)
Definition divisor_exact_when_dividing (widest : bool) (r : Z) : bool :=
  let fc := filter_clock widest in
  if (fc mod r =? 0) && (fc / r <=? 256)
  then divisor_spec widest r =? fc / r - 1
  else true.

(** *** The wire *)

(** The chip-select line is high after history [t]. *)
Definition deselected (t : history) : Prop :=
  phase (chip_of t) = Deselected.

(** Facts about the address bytes, checked byte by byte. *)
Definition read_address_is_write_address_plus_128 (x : Z) : bool :=
  Cint.uint8 (Z.lor 0x80 x) =? 128 + Z.land 0x7f x.

Definition address_ignores_top_bit (x : Z) : bool :=
  (Z.land 0x7f (Cint.uint8 (x + 128)) =? Z.land 0x7f x)
  && (Z.lor 0x80 (Cint.uint8 (x + 128)) =? Z.lor 0x80 x).

(** *** The interrupt handler *)

(** The answer to the claim of the handler in a state with device [d]. *)
Definition isr_claim_answer (w : world) (d : mpu6500_dev) (t : history)
  : Z * bool :=
  PIOS_SPI_ClaimBusISR w (SPI_ClaimBusISR (spi_id d) :: t).

(** The calls an interrupt handler may make: no delay, no watchdog, no
    task-context claim or release, no single-byte transfer. *)
Definition isr_event (e : event) : bool :=
  match e with
  | SPI_ClaimBusISR _ | SPI_ReleaseBusISR _ | SPI_RC_PinSet _ _ _
  | SPI_TransferBlock _ _ _ | QueueSendToBackFromISR _ _ => true
  | _ => false
  end.

(** The samples queued in a history, with their queues, latest first. *)
Fixpoint queued (t : history) : list (Z * sample) :=
  match t with
  | [] => []
  | QueueSendToBackFromISR q x :: t' => (q, x) :: queued t'
  | _ :: t' => queued t'
  end.

(** The orientation is one of the four labels. *)
Definition oriented (h : pios_mpu60x0_h) (o : Z) : bool :=
  (o =? PIOS_MPU60X0_TOP_0DEG h) || (o =? PIOS_MPU60X0_TOP_90DEG h)
  || (o =? PIOS_MPU60X0_TOP_180DEG h) || (o =? PIOS_MPU60X0_TOP_270DEG h).

(** The gyro sample of a burst for device [d]. *)
Definition gyro_sample_of (h : pios_mpu60x0_h) (d : mpu6500_dev)
  (buf : list Z) : option sample :=
  match switch_orientation_gyro h (orientation (cfg d)) buf with
  | Some (gx, gy) =>
      Some (scaled gx gy (gyro_z_of buf)
                   (scale_for (PIOS_MPU6500_GetGyroScale h) d)
                   (temperature_of buf))
  | None => None
  end.

Definition accel_sample_of (h : pios_mpu60x0_h) (d : mpu6500_dev)
  (buf : list Z) : option sample :=
  match switch_orientation h (orientation (cfg d)) buf with
  | Some p =>
      Some (scaled (accel_x p) (accel_y p) (accel_z_of buf)
                   (scale_for (PIOS_MPU6500_GetAccelScale h) d)
                   (temperature_of buf))
  | None => None
  end.

Definition gyro_only (b : build) : build :=
  {| PIOS_MPU6500_ACCEL := false;
     PIOS_MPU6500_SIMPLE_INIT_SEQUENCE := PIOS_MPU6500_SIMPLE_INIT_SEQUENCE b |}.

(** *** What a call leaves behind *)

(** A call from [s] returned in [s'] with the device [d'] behind the
    pointer, having changed no register of the chip but [reg] (none at
    all without a [reg]), and without leaving the chip selected. *)
Definition left_behind (reg : option Z) (d' : mpu6500_dev) (s s' : state)
  : Prop :=
  pios_mpu6500_dev s' = Some d'
  /\ match reg with
     | Some r => chip_kept_except r s s'
     | None => chip_kept s s'
     end
  /\ (deselected (trace s) -> deselected (trace s')).

(** ** Allocation and initialisation

    [PIOS_MPU6500_alloc] and [PIOS_MPU6500_Init] call the allocator, the
    queue factory, the clock setting of the bus, the interrupt line set-up
    and the sensor registry.  These calls are kept in a log of their
    own, each with the bus history at the time of the call. *)

Definition uint32 (v : Z) : Z := v mod 2 ^ 32.

Definition set_magic (v : Z) (d : mpu6500_dev) : mpu6500_dev :=
  {| spi_id := spi_id d; slave_num := slave_num d; gyro_range := gyro_range d;
     gyro_queue := gyro_queue d; accel_range := accel_range d;
     accel_queue := accel_queue d; cfg := cfg d; configured := configured d;
     magic := v; filter := filter d |}.

Definition set_gyro_queue (v : Z) (d : mpu6500_dev) : mpu6500_dev :=
  {| spi_id := spi_id d; slave_num := slave_num d; gyro_range := gyro_range d;
     gyro_queue := v; accel_range := accel_range d;
     accel_queue := accel_queue d; cfg := cfg d; configured := configured d;
     magic := magic d; filter := filter d |}.

Definition set_accel_queue (v : Z) (d : mpu6500_dev) : mpu6500_dev :=
  {| spi_id := spi_id d; slave_num := slave_num d; gyro_range := gyro_range d;
     gyro_queue := gyro_queue d; accel_range := accel_range d;
     accel_queue := v; cfg := cfg d; configured := configured d;
     magic := magic d; filter := filter d |}.

Definition set_spi_id (v : Z) (d : mpu6500_dev) : mpu6500_dev :=
  {| spi_id := v; slave_num := slave_num d; gyro_range := gyro_range d;
     gyro_queue := gyro_queue d; accel_range := accel_range d;
     accel_queue := accel_queue d; cfg := cfg d; configured := configured d;
     magic := magic d; filter := filter d |}.

Definition set_slave_num (v : Z) (d : mpu6500_dev) : mpu6500_dev :=
  {| spi_id := spi_id d; slave_num := v; gyro_range := gyro_range d;
     gyro_queue := gyro_queue d; accel_range := accel_range d;
     accel_queue := accel_queue d; cfg := cfg d; configured := configured d;
     magic := magic d; filter := filter d |}.

Definition set_cfg (v : pios_mpu60x0_cfg) (d : mpu6500_dev) : mpu6500_dev :=
  {| spi_id := spi_id d; slave_num := slave_num d; gyro_range := gyro_range d;
     gyro_queue := gyro_queue d; accel_range := accel_range d;
     accel_queue := accel_queue d; cfg := v; configured := configured d;
     magic := magic d; filter := filter d |}.

Inductive sensor_type : Type := PIOS_SENSOR_ACCEL | PIOS_SENSOR_GYRO.

Inductive os_call : Type :=
| Malloc
| QueueCreate (length : Z) (item : sensor_type)
| PortFree
| SPI_SetClockSpeed (spi hz : Z)
| EXTI_Init (of_cfg : pios_mpu60x0_cfg)
| SENSORS_Register (type : sensor_type) (queue : Z).

Definition boot_log := list (os_call * history).

(** What the allocator and the queue factory answer, given the log up
    to and including the call: the block with whatever it holds, a
    queue handle, or NULL. *)
Record heap : Type := {
  PIOS_malloc : boot_log -> option mpu6500_dev;
  xQueueCreate : boot_log -> option Z
}.

Record system : Type := {
  driver : state;
  boot : boot_log
}.

Inductive boot_outcome : Type :=
| Booted (r : Z) (sys : system)
| Boot_fault
| Boot_spin.

(** Allocate a new device: the device or NULL, and the log. *)
Definition PIOS_MPU6500_alloc (b : build) (hp : heap) (t : history)
  (log : boot_log) : option mpu6500_dev * boot_log :=
  let log := (Malloc, t) :: log in
  match PIOS_malloc hp log with
  | None => (None, log)
  | Some block =>
      let dev := set_magic pios_mpu6500_dev_MAGIC block in
      let dev := set_configured false dev in
      let gyro dev log :=
        let log :=
          (QueueCreate PIOS_MPU6500_MAX_QUEUESIZE PIOS_SENSOR_GYRO, t)
          :: log in
        match xQueueCreate hp log with
        | None => (None, (PortFree, t) :: log)
        | Some q => (Some (set_gyro_queue q dev), log)
        end in
      if PIOS_MPU6500_ACCEL b then
        let log :=
          (QueueCreate PIOS_MPU6500_MAX_QUEUESIZE PIOS_SENSOR_ACCEL, t)
          :: log in
        match xQueueCreate hp log with
        | None => (None, (PortFree, t) :: log)
        | Some q => gyro (set_accel_queue q dev) log
        end
      else gyro dev log
  end.

(** Initialise the sensor: 0 for success, -1 for failure.  [spi] and
    [slave] are the [uint32_t] arguments [spi_id] and [slave_num]. *)
Definition PIOS_MPU6500_Init (h : pios_mpu60x0_h) (b : build) (w : world)
  (hp : heap) (spi slave : Z) (c : pios_mpu60x0_cfg) (budget : nat)
  (sys : system) : boot_outcome :=
  let t := trace (driver sys) in
  let (dev, log) := PIOS_MPU6500_alloc b hp t (boot sys) in
  match dev with
  | None =>
      Booted (-1) {| driver := {| pios_mpu6500_dev := None; trace := t |};
                     boot := log |}
  | Some dev =>
      let dev := set_spi_id (uint32 spi) dev in
      let dev := set_slave_num (uint32 slave) dev in
      let dev := set_cfg c dev in
      let log := (SPI_SetClockSpeed (spi_id dev) 100000, t) :: log in
      match PIOS_MPU6500_Config h b w c budget
              {| pios_mpu6500_dev := Some dev; trace := t |} with
      | Fault => Boot_fault
      | Spin => Boot_spin
      | Done _ s =>
          match pios_mpu6500_dev s with
          | None => Boot_fault
          | Some dev =>
              let t := trace s in
              let log := (SPI_SetClockSpeed (spi_id dev) 3000000, t) :: log in
              let log := (EXTI_Init c, t) :: log in
              let log :=
                if PIOS_MPU6500_ACCEL b
                then (SENSORS_Register PIOS_SENSOR_ACCEL (accel_queue dev), t)
                     :: log
                else log in
              let log :=
                (SENSORS_Register PIOS_SENSOR_GYRO (gyro_queue dev), t)
                :: log in
              Booted 0 {| driver := s; boot := log |}
          end
      end
  end.

(** *** Vocabulary of initialisation *)

(** The device [PIOS_MPU6500_alloc] returns, and the log it leaves. *)
Definition allocated (b : build) (hp : heap) (sys : system)
  : option mpu6500_dev :=
  fst (PIOS_MPU6500_alloc b hp (trace (driver sys)) (boot sys)).

Definition allocation_log (b : build) (hp : heap) (sys : system)
  : boot_log :=
  snd (PIOS_MPU6500_alloc b hp (trace (driver sys)) (boot sys)).

(** The allocated device once [PIOS_MPU6500_Init] has stored its
    arguments in it. *)
Definition at_bus (spi slave : Z) (c : pios_mpu60x0_cfg) (d : mpu6500_dev)
  : mpu6500_dev :=
  set_cfg c (set_slave_num (uint32 slave) (set_spi_id (uint32 spi) d)).

(** The log of a successful initialisation that ended with bus history
    [t'], on top of the allocation log: the slow clock before the
    configuration sequence, then, after it, the fast clock, the
    interrupt line and the registration of the queues. *)
Definition boot_log_of (b : build) (spi : Z) (c : pios_mpu60x0_cfg)
  (d : mpu6500_dev) (t t' : history) (log : boot_log) : boot_log :=
  (SENSORS_Register PIOS_SENSOR_GYRO (gyro_queue d), t')
  :: (if PIOS_MPU6500_ACCEL b
      then [(SENSORS_Register PIOS_SENSOR_ACCEL (accel_queue d), t')]
      else [])
  ++ (EXTI_Init c, t')
  :: (SPI_SetClockSpeed (uint32 spi) 3000000, t')
  :: (SPI_SetClockSpeed (uint32 spi) 100000, t)
  :: log.

(** The calls on the SPI bus. *)
Definition spi_event (e : event) : bool :=
  match e with
  | SPI_ClaimBus _ | SPI_ClaimBusISR _ | SPI_ReleaseBus _
  | SPI_ReleaseBusISR _ | SPI_RC_PinSet _ _ _ | SPI_TransferByte _ _
  | SPI_TransferBlock _ _ _ => true
  | _ => false
  end.

(** History [t'] is [t] with calls added of which none is on the bus. *)
Definition no_bus_call_since (t t' : history) : Prop :=
  exists l, t' = l ++ t /\ forallb (fun e => negb (spi_event e)) l = true.

(** The device is there but does not validate, and no call on the bus
    was made since [t0]. *)
Definition shut_since (t0 : history) (s : state) : Prop :=
  (exists d, pios_mpu6500_dev s = Some d)
  /\ PIOS_MPU6500_Validate (pios_mpu6500_dev s) <> 0
  /\ no_bus_call_since t0 (trace s).

(** *** Two runs side by side *)

(** Which of the fields written by the configuration sequence are known
    to hold the same in two devices. *)
Record known : Type := {
  gyro_range_known : bool;
  accel_range_known : bool;
  filter_known : bool;
  configured_known : bool
}.

Definition nothing_known : known :=
  {| gyro_range_known := false; accel_range_known := false;
     filter_known := false; configured_known := false |}.

Definition all_known : known :=
  {| gyro_range_known := true; accel_range_known := true;
     filter_known := true; configured_known := true |}.

Definition know_gyro_range (k : known) : known :=
  {| gyro_range_known := true; accel_range_known := accel_range_known k;
     filter_known := filter_known k; configured_known := configured_known k |}.

Definition know_accel_range (k : known) : known :=
  {| gyro_range_known := gyro_range_known k; accel_range_known := true;
     filter_known := filter_known k; configured_known := configured_known k |}.

Definition know_filter (k : known) : known :=
  {| gyro_range_known := gyro_range_known k;
     accel_range_known := accel_range_known k;
     filter_known := true; configured_known := configured_known k |}.

Definition know_configured (k : known) : known :=
  {| gyro_range_known := gyro_range_known k;
     accel_range_known := accel_range_known k;
     filter_known := filter_known k; configured_known := true |}.

(** The device with the fields that are not known blanked.  The accel
    fields are no part of the device in the build without accel. *)
Definition view (b : build) (k : known) (d : mpu6500_dev) : mpu6500_dev :=
  {| spi_id := spi_id d;
     slave_num := slave_num d;
     gyro_range := if gyro_range_known k then gyro_range d else 0;
     gyro_queue := gyro_queue d;
     accel_range :=
       if PIOS_MPU6500_ACCEL b && accel_range_known k then accel_range d
       else 0;
     accel_queue := if PIOS_MPU6500_ACCEL b then accel_queue d else 0;
     cfg := cfg d;
     configured := if configured_known k then configured d else false;
     magic := magic d;
     filter := if filter_known k then filter d else 0 |}.

(** Two states with the same history and the same device as far as it
    is known. *)
Definition alike (b : build) (k : known) (s1 s2 : state) : Prop :=
  trace s1 = trace s2
  /\ option_map (view b k) (pios_mpu6500_dev s1)
     = option_map (view b k) (pios_mpu6500_dev s2).

(** Code [m] run from [s1] and from [s2] ends the same way: with the
    same result in states related by [Q], or in a fault both times, or
    out of budget both times. *)
Definition rel2 {A} (m : M A) (s1 s2 : state)
  (Q : A -> state -> state -> Prop) : Prop :=
  match m s1, m s2 with
  | Done a1 s1', Done a2 s2' => a1 = a2 /\ Q a1 s1' s2'
  | Fault, Fault => True
  | Spin, Spin => True
  | _, _ => False
  end.

(** Two runs of the initialisation ended the same way: same result,
    same log, same bus history, same device of the build. *)
Definition same_boot (b : build) (o1 o2 : boot_outcome) : Prop :=
  match o1, o2 with
  | Booted r1 sys1, Booted r2 sys2 =>
      r1 = r2
      /\ boot sys1 = boot sys2
      /\ alike b all_known (driver sys1) (driver sys2)
  | Boot_fault, Boot_fault => True
  | Boot_spin, Boot_spin => True
  | _, _ => False
  end.

(** *** Sequences of calls *)

(** The functions of the driver that are called from outside once it
    is initialised. *)
Inductive api_call : Type :=
| Call_SetGyroRange (range : Z)
| Call_SetAccelRange (range : Z)
| Call_SetSampleRate (hz : Z)
| Call_SetLPF (f : Z)
| Call_Test
| Call_IRQHandler.

Definition run_call (h : pios_mpu60x0_h) (b : build) (w : world)
  (c : api_call) : M unit :=
  match c with
  | Call_SetGyroRange r => PIOS_MPU6500_SetGyroRange h w r
  | Call_SetAccelRange r => PIOS_MPU6500_SetAccelRange h w r
  | Call_SetSampleRate r => PIOS_MPU6500_SetSampleRate h w r
  | Call_SetLPF f => PIOS_MPU6500_SetLPF h w f
  | Call_Test => PIOS_MPU6500_Test h w ;; ret tt
  | Call_IRQHandler => PIOS_MPU6500_IRQHandler h b w ;; ret tt
  end.

Fixpoint run_calls (h : pios_mpu60x0_h) (b : build) (w : world)
  (l : list api_call) : M unit :=
  match l with
  | [] => ret tt
  | c :: l' => run_call h b w c ;; run_calls h b w l'
  end.

(** The fields that say which device this is. *)
Definition identity (d : mpu6500_dev)
  : Z * Z * Z * pios_mpu60x0_cfg * Z * Z :=
  (spi_id d, slave_num d, magic d, cfg d, gyro_queue d, accel_queue d).

(** The registers the setters write. *)
Definition setter_registers (h : pios_mpu60x0_h) : list Z :=
  [PIOS_MPU60X0_DLPF_CFG_REG h; PIOS_MPU60X0_GYRO_CFG_REG h;
   PIOS_MPU60X0_ACCEL_CFG_REG h; PIOS_MPU60X0_SMPLRT_DIV_REG h].

(** From [s] to [s'] the device kept its identity and its configured
    flag, the chip kept every register but those of the setters, and
    the chip was not left selected. *)
Definition lasting (h : pios_mpu60x0_h) (s s' : state) : Prop :=
  option_map identity (pios_mpu6500_dev s')
  = option_map identity (pios_mpu6500_dev s)
  /\ option_map configured (pios_mpu6500_dev s')
     = option_map configured (pios_mpu6500_dev s)
  /\ (forall a, ~ In a (map reg_addr (setter_registers h)) ->
                regs (chip_of (trace s')) a = regs (chip_of (trace s)) a)
  /\ (deselected (trace s) -> deselected (trace s')).

(** *** The registers after the configuration sequence *)

(** The registers the configuration sequence writes. *)
Definition config_registers (h : pios_mpu60x0_h) : list Z :=
  [PIOS_MPU60X0_PWR_MGMT_REG h; PIOS_MPU60X0_USER_CTRL_REG h;
   PIOS_MPU60X0_INT_CFG_REG h; PIOS_MPU60X0_INT_EN_REG h;
   PIOS_MPU60X0_DLPF_CFG_REG h; PIOS_MPU60X0_SMPLRT_DIV_REG h;
   PIOS_MPU60X0_GYRO_CFG_REG h; PIOS_MPU60X0_ACCEL_CFG_REG h].

Fixpoint distinct (l : list Z) : bool :=
  match l with
  | [] => true
  | a :: l' => forallb (fun x => negb (x =? a)) l' && distinct l'
  end.

(** These registers have addresses of their own. *)
Definition config_registers_apart (h : pios_mpu60x0_h) : bool :=
  distinct (map reg_addr (config_registers h)).

(** What the chip holds once the sequence has ended: the values of the
    board configuration, the divisor for the default rate under the
    default filter, and the default ranges. *)
Definition register_image (h : pios_mpu60x0_h) (b : build)
  (c : pios_mpu60x0_cfg) (t : history) : Prop :=
  programmed (PIOS_MPU60X0_PWR_MGMT_REG h) t
  = Some (Cint.uint8 (Pwr_mgmt_clk c))
  /\ programmed (PIOS_MPU60X0_USER_CTRL_REG h) t
     = Some (Cint.uint8 (User_ctl c))
  /\ programmed (PIOS_MPU60X0_INT_CFG_REG h) t
     = Some (Cint.uint8 (interrupt_cfg c))
  /\ programmed (PIOS_MPU60X0_INT_EN_REG h) t
     = Some (Cint.uint8 (interrupt_en c))
  /\ programmed (PIOS_MPU60X0_DLPF_CFG_REG h) t
     = Some (Cint.uint8 (default_filter c))
  /\ programmed (PIOS_MPU60X0_SMPLRT_DIV_REG h) t
     = Some (divisor_spec
               (default_filter c =? PIOS_MPU60X0_LOWPASS_256_HZ h)
               (Cint.uint16 (default_samplerate c)))
  /\ programmed (PIOS_MPU60X0_GYRO_CFG_REG h) t
     = Some (Cint.uint8 (PIOS_MPU60X0_SCALE_500_DEG h))
  /\ (PIOS_MPU6500_ACCEL b = true ->
      programmed (PIOS_MPU60X0_ACCEL_CFG_REG h) t
      = Some (Cint.uint8 (PIOS_MPU60X0_ACCEL_8G h))).

(** *** What is reported to the sensor layer *)

(** The rates handed to [PIOS_SENSORS_SetMaxGyro] in a history, latest
    first. *)
Fixpoint max_gyro_reports (t : history) : list Z :=
  match t with
  | [] => []
  | SENSORS_SetMaxGyro v :: t' => v :: max_gyro_reports t'
  | _ :: t' => max_gyro_reports t'
  end.

(** The largest raw reading, 32768, times the scale [g] is within one
    part in a thousand of [rate]. *)
Definition full_scale_near (g : F32.float) (rate : Z) : bool :=
  match F32.to_Q g with
  | Some q =>
      Qle_bool (Qabs (q * inject_Z 32768 - inject_Z rate))
               (inject_Z rate / inject_Z 1000)
  | None => false
  end.

(** The four gyro ranges with their rates in deg/s. *)
Definition gyro_rates (h : pios_mpu60x0_h) : list (Z * Z) :=
  [(PIOS_MPU60X0_SCALE_250_DEG h, 250); (PIOS_MPU60X0_SCALE_500_DEG h, 500);
   (PIOS_MPU60X0_SCALE_1000_DEG h, 1000);
   (PIOS_MPU60X0_SCALE_2000_DEG h, 2000)].

(** *** Waits and the watchdog *)

(** The milliseconds waited in a history, and the number of times the
    watchdog was cleared. *)
Fixpoint waited (t : history) : Z :=
  match t with
  | [] => 0
  | DELAY_WaitmS ms :: t' => ms + waited t'
  | _ :: t' => waited t'
  end.

Fixpoint watchdog_clears (t : history) : nat :=
  match t with
  | [] => O
  | WDG_Clear :: t' => S (watchdog_clears t')
  | _ :: t' => watchdog_clears t'
  end.

(** The device is [d], [ms] milliseconds were waited and the watchdog
    was cleared [n] times. *)
Definition clocked (d : mpu6500_dev) (ms : Z) (n : nat) (s : state) : Prop :=
  pios_mpu6500_dev s = Some d
  /\ waited (trace s) = ms
  /\ watchdog_clears (trace s) = n.

(** *** Holding the bus *)

(** Whether the driver holds the bus after a history: it does from a
    claim that was granted to the next release. *)
Fixpoint bus_held (w : world) (t : history) : bool :=
  match t with
  | [] => false
  | e :: t' =>
      match e with
      | SPI_ClaimBus _ =>
          if PIOS_SPI_ClaimBus w t =? 0 then true else bus_held w t'
      | SPI_ClaimBusISR _ =>
          if fst (PIOS_SPI_ClaimBusISR w t) =? 0 then true
          else bus_held w t'
      | SPI_ReleaseBus _ | SPI_ReleaseBusISR _ => false
      | _ => bus_held w t'
      end
  end.

(** The number of calls that use or release the bus while it is not
    held: chip-select changes, transfers and releases. *)
Fixpoint stray_bus_calls (w : world) (t : history) : nat :=
  match t with
  | [] => O
  | e :: t' =>
      (match e with
       | SPI_ReleaseBus _ | SPI_ReleaseBusISR _ | SPI_RC_PinSet _ _ _
       | SPI_TransferByte _ _ | SPI_TransferBlock _ _ _ =>
           if bus_held w t' then O else 1%nat
       | _ => O
       end + stray_bus_calls w t')%nat
  end.

(** The bus is not held, and [n] stray calls were made so far. *)
Definition orderly (w : world) (n : nat) (s : state) : Prop :=
  bus_held w (trace s) = false /\ stray_bus_calls w (trace s) = n.

(** The polled sequence claims the bus at its start with device [d]
    valid, and is refused. *)
Definition first_claim_refused (w : world) (d : mpu6500_dev) (s : state)
  : bool :=
  (PIOS_MPU6500_Validate (Some d) =? 0)
  && negb (claim_answer w d (trace s) =? 0).

(** *** The bus transactions of the configuration sequence *)

(** The bytes sent after each claim of the bus, granted or not, up to
    the next claim, the latest claim first; [later] holds the bytes met
    on the way back to the claim they were sent after. *)
Fixpoint sent_by_claim (t : history) (later : list Z) : list (list Z) :=
  match t with
  | [] => []
  | SPI_TransferByte _ v :: t' => sent_by_claim t' (v :: later)
  | SPI_ClaimBus _ :: t' => later :: sent_by_claim t' []
  | _ :: t' => sent_by_claim t' later
  end.

(** The same in the order of the claims. *)
Definition transactions (t : history) : list (list Z) :=
  rev (sent_by_claim t []).

(** The steps of the configuration sequence that go to the bus. *)
Inductive bus_step : Type :=
| Opening                   (* claim, wait, release *)
| Writing (reg data : Z)    (* a register write *)
| Polling (reg : Z).        (* the register read of one turn of a loop *)

(** What the attempt at a step sends after its claim: nothing where the
    claim is refused; for a write the address byte and, unless that byte
    is answered with an error, the data byte; for a read the address
    byte with the top bit set and a zero byte. *)
Definition attempted (sent : list Z) (st : bus_step) : Prop :=
  match st with
  | Opening => sent = []
  | Writing reg data =>
      sent = [] \/ sent = [reg_addr reg]
      \/ sent = [reg_addr reg; Cint.uint8 data]
  | Polling reg => sent = [] \/ sent = [128 + reg_addr reg; 0]
  end.

(** The steps of [PIOS_MPU6500_Config] in the order of the source, for
    the simple sequence and for the sequence whose two polling loops
    make [turns1] and [turns2] turns. *)
Definition divider_step (h : pios_mpu60x0_h) (c : pios_mpu60x0_cfg)
  : bus_step :=
  Writing (PIOS_MPU60X0_SMPLRT_DIV_REG h)
    (divisor_spec (default_filter c =? PIOS_MPU60X0_LOWPASS_256_HZ h)
                  (Cint.uint16 (default_samplerate c))).

Definition accel_steps (h : pios_mpu60x0_h) (b : build) : list bus_step :=
  if PIOS_MPU6500_ACCEL b
  then [Writing (PIOS_MPU60X0_ACCEL_CFG_REG h) (PIOS_MPU60X0_ACCEL_8G h)]
  else [].

Definition simple_steps (h : pios_mpu60x0_h) (b : build)
  (c : pios_mpu60x0_cfg) : list bus_step :=
  [Writing (PIOS_MPU60X0_PWR_MGMT_REG h) (PIOS_MPU60X0_PWRMGMT_IMU_RST h);
   Writing (PIOS_MPU60X0_USER_CTRL_REG h) (PIOS_MPU60X0_USERCTL_GYRO_RST h);
   Writing (PIOS_MPU60X0_PWR_MGMT_REG h) (Pwr_mgmt_clk c);
   Writing (PIOS_MPU60X0_USER_CTRL_REG h) (User_ctl c);
   Writing (PIOS_MPU60X0_DLPF_CFG_REG h) (default_filter c);
   divider_step h c;
   Writing (PIOS_MPU60X0_GYRO_CFG_REG h) (PIOS_MPU60X0_SCALE_500_DEG h)]
  ++ accel_steps h b
  ++ [Writing (PIOS_MPU60X0_INT_CFG_REG h) (interrupt_cfg c);
      Writing (PIOS_MPU60X0_INT_EN_REG h) (interrupt_en c)].

Definition polled_steps (h : pios_mpu60x0_h) (b : build)
  (c : pios_mpu60x0_cfg) (turns1 turns2 : nat) : list bus_step :=
  [Opening;
   Writing (PIOS_MPU60X0_PWR_MGMT_REG h) (Z.lor 0x80 (Pwr_mgmt_clk c))]
  ++ repeat (Polling (PIOS_MPU60X0_PWR_MGMT_REG h)) turns1
  ++ [Writing (PIOS_MPU60X0_USER_CTRL_REG h) 0x87]
  ++ repeat (Polling (PIOS_MPU60X0_USER_CTRL_REG h)) turns2
  ++ [Writing (PIOS_MPU60X0_PWR_MGMT_REG h) (Pwr_mgmt_clk c);
      Writing (PIOS_MPU60X0_INT_CFG_REG h) (interrupt_cfg c);
      Writing (PIOS_MPU60X0_INT_EN_REG h) (interrupt_en c)]
  ++ accel_steps h b
  ++ [Writing (PIOS_MPU60X0_DLPF_CFG_REG h) (default_filter c);
      divider_step h c;
      Writing (PIOS_MPU60X0_GYRO_CFG_REG h) (PIOS_MPU60X0_SCALE_500_DEG h);
      Writing (PIOS_MPU60X0_USER_CTRL_REG h) (User_ctl c);
      Writing (PIOS_MPU60X0_PWR_MGMT_REG h) (Pwr_mgmt_clk c);
      Writing (PIOS_MPU60X0_INT_CFG_REG h) (interrupt_cfg c);
      Writing (PIOS_MPU60X0_INT_EN_REG h) (interrupt_en c)].

Definition config_steps (h : pios_mpu60x0_h) (b : build)
  (c : pios_mpu60x0_cfg) (turns1 turns2 : nat) : list bus_step :=
  if PIOS_MPU6500_SIMPLE_INIT_SEQUENCE b then simple_steps h b c
  else polled_steps h b c turns1 turns2.

(** The device is [d] and validates; since the transactions [before],
    the steps [done] were attempted, one transaction each. *)
Definition stepped (d : mpu6500_dev) (before : list (list Z))
  (done : list bus_step) (s : state) : Prop :=
  pios_mpu6500_dev s = Some d
  /\ PIOS_MPU6500_Validate (Some d) = 0
  /\ exists new,
       transactions (trace s) = before ++ new
       /\ Forall2 attempted new done.

(** ** Concrete instances *)

(** [9.805f] *)
Definition gravity_9_805 : F32.float := Eval vm_compute in F32.lit 9805 1000.

(** The register map and enumerator values of the MPU-60x0 family. *)
Definition mpu60x0_regs : pios_mpu60x0_h :=
  {| PIOS_MPU60X0_SMPLRT_DIV_REG := 0x19;
     PIOS_MPU60X0_DLPF_CFG_REG := 0x1A;
     PIOS_MPU60X0_GYRO_CFG_REG := 0x1B;
     PIOS_MPU60X0_ACCEL_CFG_REG := 0x1C;
     PIOS_MPU60X0_INT_CFG_REG := 0x37;
     PIOS_MPU60X0_INT_EN_REG := 0x38;
     PIOS_MPU60X0_ACCEL_X_OUT_MSB := 0x3B;
     PIOS_MPU60X0_USER_CTRL_REG := 0x6A;
     PIOS_MPU60X0_PWR_MGMT_REG := 0x6B;
     PIOS_MPU60X0_WHOAMI := 0x75;
     PIOS_MPU60X0_PWRMGMT_IMU_RST := 0x80;
     PIOS_MPU60X0_USERCTL_GYRO_RST := 0x01;
     PIOS_MPU60X0_SCALE_250_DEG := 0x00;
     PIOS_MPU60X0_SCALE_500_DEG := 0x08;
     PIOS_MPU60X0_SCALE_1000_DEG := 0x10;
     PIOS_MPU60X0_SCALE_2000_DEG := 0x18;
     PIOS_MPU60X0_ACCEL_2G := 0x00;
     PIOS_MPU60X0_ACCEL_4G := 0x08;
     PIOS_MPU60X0_ACCEL_8G := 0x10;
     PIOS_MPU60X0_ACCEL_16G := 0x18;
     PIOS_MPU60X0_LOWPASS_256_HZ := 0x00;
     PIOS_MPU60X0_TOP_0DEG := 0x00;
     PIOS_MPU60X0_TOP_90DEG := 0x01;
     PIOS_MPU60X0_TOP_180DEG := 0x02;
     PIOS_MPU60X0_TOP_270DEG := 0x03;
     GRAVITY := gravity_9_805 |}.

Definition accel_simple : build :=
  {| PIOS_MPU6500_ACCEL := true; PIOS_MPU6500_SIMPLE_INIT_SEQUENCE := true |}.

Definition accel_full : build :=
  {| PIOS_MPU6500_ACCEL := true; PIOS_MPU6500_SIMPLE_INIT_SEQUENCE := false |}.

(** A board configuration: 500 Hz, widest filter, mounted at 90 degrees. *)
Definition board_cfg : pios_mpu60x0_cfg :=
  {| Pwr_mgmt_clk := 0x01; User_ctl := 0x10; interrupt_cfg := 0x10;
     interrupt_en := 0x01; default_filter := 0x00;
     default_samplerate := 500; orientation := 0x01 |}.

(** A device as [PIOS_MPU6500_Init] leaves it before the configuration
    sequence. *)
Definition fresh_dev : mpu6500_dev :=
  {| spi_id := 1; slave_num := 0; gyro_range := 0; gyro_queue := 11;
     accel_range := 0; accel_queue := 12; cfg := board_cfg;
     configured := false; magic := pios_mpu6500_dev_MAGIC; filter := 0 |}.

Definition fresh : state :=
  {| pios_mpu6500_dev := Some fresh_dev; trace := [] |}.

(** A world from the answers to bus claims, byte transfers and block
    transfers; releases succeed and nothing is woken. *)
Definition bus (claim : history -> Z) (byte : history -> Z)
  (block : history -> Z * list Z) : world :=
  {| PIOS_SPI_ClaimBus := claim;
     PIOS_SPI_ClaimBusISR := fun t => (claim t, false);
     PIOS_SPI_ReleaseBus := fun _ => 0;
     PIOS_SPI_ReleaseBusISR := fun _ => (0, false);
     PIOS_SPI_TransferByte := byte;
     PIOS_SPI_TransferBlock := block;
     xQueueSendToBackFromISR := fun _ => false |}.

Definition no_block : history -> Z * list Z := fun _ => (-1, []).

(** The bus can never be claimed. *)
Definition bus_busy : world := bus (fun _ => -1) (fun _ => 0) no_block.

(** The bus is free and every byte transfer answers [v]. *)
Definition bus_answering (v : Z) : world :=
  bus (fun _ => 0) (fun _ => v) no_block.

(** The first claim succeeds, every later one fails. *)
Definition bus_free_once : world :=
  bus (fun t => match t with [_] => 0 | _ => -1 end) (fun _ => 0) no_block.

(** The bus is free and a block transfer delivers [buf]. *)
Definition bus_delivering (buf : list Z) : world :=
  bus (fun _ => 0) (fun _ => 0) (fun _ => (0, buf)).

(** The device after its configuration, and a burst with accel
    (1, 2, 3), temperature 0 and gyro (4, 5, 400). *)
Definition running_dev : mpu6500_dev :=
  set_configured true
    (set_gyro_range 0x08 (set_accel_range 0x10 fresh_dev)).

Definition running : state :=
  {| pios_mpu6500_dev := Some running_dev; trace := [] |}.

Definition burst_example : list Z :=
  [0; 0; 1; 0; 2; 0; 3; 0; 0; 0; 4; 0; 5; 0x01; 0x90].

(** The running device with an orientation that is none of the four
    labels. *)
Definition unlabelled_cfg : pios_mpu60x0_cfg :=
  {| Pwr_mgmt_clk := 0x01; User_ctl := 0x10; interrupt_cfg := 0x10;
     interrupt_en := 0x01; default_filter := 0x00;
     default_samplerate := 500; orientation := 0x07 |}.

Definition unlabelled_dev : mpu6500_dev :=
  {| spi_id := 1; slave_num := 0; gyro_range := 0x08; gyro_queue := 11;
     accel_range := 0x10; accel_queue := 12; cfg := unlabelled_cfg;
     configured := true; magic := pios_mpu6500_dev_MAGIC; filter := 0 |}.

Definition unlabelled : state :=
  {| pios_mpu6500_dev := Some unlabelled_dev; trace := [] |}.

(** A block as the allocator hands it out, holding whatever was there,
    and heaps: one that hands out this block and queue handles 12 and
    11, one without memory, one without queues. *)
Definition stale_block : mpu6500_dev :=
  {| spi_id := 77; slave_num := 78; gyro_range := 79; gyro_queue := 80;
     accel_range := 81; accel_queue := 82; cfg := unlabelled_cfg;
     configured := true; magic := 83; filter := 84 |}.

Definition heap_giving (block : mpu6500_dev) : heap :=
  {| PIOS_malloc := fun _ => Some block;
     xQueueCreate := fun log => Some (14 - Z.of_nat (length log)) |}.

Definition heap_exhausted : heap :=
  {| PIOS_malloc := fun _ => None; xQueueCreate := fun _ => None |}.

Definition heap_without_queues : heap :=
  {| PIOS_malloc := fun _ => Some stale_block;
     xQueueCreate := fun _ => None |}.

Definition power_on : system :=
  {| driver := {| pios_mpu6500_dev := None; trace := [] |}; boot := [] |}.

(** The first claim is refused, every later one granted. *)
Definition bus_refusing_once : world :=
  bus (fun t => match t with [_] => -1 | _ => 0 end) (fun _ => 0) no_block.

(** * Properties *)

(** ** Running driver code *)

Lemma wp_ret {A} spin (a : A) s (Q : A -> state -> Prop) :
  Q a s -> wp spin (ret a) s Q.
Proof. exact (fun q => q). Qed.

Lemma wp_bind {A B} spin (m : M A) (k : A -> M B) s Q :
  wp spin m s (fun a s1 => wp spin (k a) s1 Q) -> wp spin (bind m k) s Q.
Proof.
  unfold wp, bind. destruct (m s); auto.
Qed.

Lemma wp_done {A} spin (m : M A) s Q :
  wp spin m s Q ->
  spin = false -> exists a s', m s = Done a s' /\ Q a s'.
Proof.
  unfold wp. destruct (m s); intros HQ Hs; subst; try easy.
  eauto.
Qed.

Lemma wp_done_or_spin {A} (m : M A) s Q :
  wp true m s Q -> m s = Spin \/ exists a s', m s = Done a s' /\ Q a s'.
Proof.
  unfold wp. destruct (m s); intros HQ; try easy; eauto.
Qed.

Lemma wp_update spin f s d (Q : unit -> state -> Prop) :
  pios_mpu6500_dev s = Some d ->
  Q tt {| pios_mpu6500_dev := Some (f d); trace := trace s |} ->
  wp spin (update f) s Q.
Proof.
  unfold wp, update. intros ->. auto.
Qed.

(** Run the plumbing of the monad, leaving the driver's functions and
    the world's answers folded. *)
Ltac step :=
  rewrite ?Z.eqb_refl;
  cbv beta iota zeta delta
    [negb transfer_byte bind ret deref call call_ans update fault
     with_trace pios_mpu6500_dev trace fst snd].

Lemma bind_Done {A B} (m : M A) (k : A -> M B) s a s' :
  m s = Done a s' -> bind m k s = k a s'.
Proof.
  unfold bind. intros ->. reflexivity.
Qed.

(** ** The bus primitives and the register protocol, case by case *)

Lemma Validate_ok_some dev :
  PIOS_MPU6500_Validate dev = 0 -> exists d, dev = Some d.
Proof.
  destruct dev; [eauto | discriminate].
Qed.

(** When validation fails nothing is claimed. *)
Lemma ClaimBus_invalid w s :
  PIOS_MPU6500_Validate (pios_mpu6500_dev s) <> 0 ->
  PIOS_MPU6500_ClaimBus w s = Done (-1) s.
Proof.
  intros Hv. unfold PIOS_MPU6500_ClaimBus, bind, validated.
  apply Z.eqb_neq in Hv. rewrite Hv. reflexivity.
Qed.

Lemma ClaimBus_valid w s d :
  pios_mpu6500_dev s = Some d ->
  PIOS_MPU6500_Validate (Some d) = 0 ->
  PIOS_MPU6500_ClaimBus w s =
    if claim_answer w d (trace s) =? 0
    then Done 0 (with_trace s (after_claim d (trace s)))
    else Done (-2) (with_trace s (SPI_ClaimBus (spi_id d) :: trace s)).
Proof.
  intros Hd Hv. destruct s as [dv t]. simpl in Hd. subst dv.
  unfold PIOS_MPU6500_ClaimBus, bind, validated, deref, call_ans, call, ret,
    claim_answer, with_trace, after_claim.
  cbv beta iota delta [pios_mpu6500_dev trace]. rewrite Hv. simpl.
  destruct (PIOS_SPI_ClaimBus w _ =? 0); reflexivity.
Qed.

Lemma ReleaseBus_valid w s d :
  pios_mpu6500_dev s = Some d ->
  PIOS_MPU6500_Validate (Some d) = 0 ->
  PIOS_MPU6500_ReleaseBus w s =
    Done (PIOS_SPI_ReleaseBus w (released d (trace s)))
         (with_trace s (released d (trace s))).
Proof.
  intros Hd Hv. destruct s as [dv t]. simpl in Hd. subst dv.
  unfold PIOS_MPU6500_ReleaseBus, bind, validated, deref, call_ans, call,
    with_trace, released.
  cbv beta iota delta [pios_mpu6500_dev trace]. rewrite Hv. reflexivity.
Qed.

(** The single-byte read, in each of its cases. *)
Lemma GetReg_invalid w reg s :
  PIOS_MPU6500_Validate (pios_mpu6500_dev s) <> 0 ->
  PIOS_MPU6500_GetReg w reg s = Done (-1) s.
Proof.
  intros Hv. unfold PIOS_MPU6500_GetReg, bind.
  rewrite ClaimBus_invalid by assumption. reflexivity.
Qed.

Lemma GetReg_valid w reg s d :
  pios_mpu6500_dev s = Some d ->
  PIOS_MPU6500_Validate (Some d) = 0 ->
  PIOS_MPU6500_GetReg w reg s =
    if claim_answer w d (trace s) =? 0
    then Done (Cint.uint8 (PIOS_SPI_TransferByte w (read_t2 d reg (trace s))))
              (with_trace s (released d (read_t2 d reg (trace s))))
    else Done (-1) (with_trace s (SPI_ClaimBus (spi_id d) :: trace s)).
Proof.
  intros Hd Hv. unfold PIOS_MPU6500_GetReg, bind.
  rewrite (ClaimBus_valid w s d Hd Hv).
  destruct (claim_answer w d (trace s) =? 0); [|reflexivity].
  destruct s as [dv t]. simpl in Hd. subst dv.
  step. rewrite (ReleaseBus_valid w _ d) by (first [exact Hv | reflexivity]).
  reflexivity.
Qed.

(** The single-byte write, in each of its cases. *)
Lemma SetReg_invalid w reg data s :
  PIOS_MPU6500_Validate (pios_mpu6500_dev s) <> 0 ->
  PIOS_MPU6500_SetReg w reg data s = Done (-1) s.
Proof.
  intros Hv. unfold PIOS_MPU6500_SetReg, bind.
  rewrite ClaimBus_invalid by assumption. reflexivity.
Qed.

Lemma SetReg_valid w reg data s d :
  pios_mpu6500_dev s = Some d ->
  PIOS_MPU6500_Validate (Some d) = 0 ->
  PIOS_MPU6500_SetReg w reg data s =
    if claim_answer w d (trace s) =? 0 then
      if PIOS_SPI_TransferByte w (write_t1 d reg (trace s)) =? 0 then
        if PIOS_SPI_TransferByte w (write_t2 d reg data (trace s)) =? 0 then
          Done 0 (with_trace s (released d (write_t2 d reg data (trace s))))
        else
          Done (-3) (with_trace s (released d (write_t2 d reg data (trace s))))
      else Done (-2) (with_trace s (released d (write_t1 d reg (trace s))))
    else Done (-1) (with_trace s (SPI_ClaimBus (spi_id d) :: trace s)).
Proof.
  intros Hd Hv. unfold PIOS_MPU6500_SetReg, bind.
  rewrite (ClaimBus_valid w s d Hd Hv).
  destruct (claim_answer w d (trace s) =? 0); [|reflexivity].
  destruct s as [dv t]. simpl in Hd. subst dv.
  step. fold (write_t1 d reg t).
  destruct (PIOS_SPI_TransferByte w (write_t1 d reg t) =? 0); step.
  - fold (write_t2 d reg data t).
    destruct (PIOS_SPI_TransferByte w (write_t2 d reg data t) =? 0);
      step; rewrite (ReleaseBus_valid w _ d) by (first [exact Hv | reflexivity]);
      reflexivity.
  - rewrite (ReleaseBus_valid w _ d) by (first [exact Hv | reflexivity]). reflexivity.
Qed.

Lemma uint8_range v : 0 <= Cint.uint8 v <= 255.
Proof.
  unfold Cint.uint8. pose proof (Z.mod_pos_bound v 256). lia.
Qed.

(** The read always returns: -1, or a byte. *)
Lemma GetReg_total w reg s :
  exists v s', PIOS_MPU6500_GetReg w reg s = Done v s' /\ -1 <= v <= 255
               /\ pios_mpu6500_dev s' = pios_mpu6500_dev s.
Proof.
  destruct (Z.eq_dec (PIOS_MPU6500_Validate (pios_mpu6500_dev s)) 0) as [Hv|Hv].
  - destruct (Validate_ok_some _ Hv) as [d Hd]. rewrite Hd in Hv.
    rewrite (GetReg_valid w reg s d Hd Hv).
    destruct (claim_answer w d (trace s) =? 0); eexists; eexists;
      (split; [reflexivity|]); split; try reflexivity; try lia.
    pose proof (uint8_range (PIOS_SPI_TransferByte w (read_t2 d reg (trace s)))).
    lia.
  - rewrite (GetReg_invalid w reg s Hv). eexists; eexists.
    split; [reflexivity|]. split; [lia | reflexivity].
Qed.

(** The write always returns one of its four codes. *)
Lemma SetReg_total w reg data s :
  exists r s', PIOS_MPU6500_SetReg w reg data s = Done r s'
               /\ pios_mpu6500_dev s' = pios_mpu6500_dev s.
Proof.
  destruct (Z.eq_dec (PIOS_MPU6500_Validate (pios_mpu6500_dev s)) 0) as [Hv|Hv].
  - destruct (Validate_ok_some _ Hv) as [d Hd]. rewrite Hd in Hv.
    rewrite (SetReg_valid w reg data s d Hd Hv).
    destruct (claim_answer w d (trace s) =? 0);
      [destruct (PIOS_SPI_TransferByte w (write_t1 d reg (trace s)) =? 0);
       [destruct (PIOS_SPI_TransferByte w (write_t2 d reg data (trace s)) =? 0)|]|];
      eexists; eexists; split; reflexivity.
  - rewrite (SetReg_invalid w reg data s Hv). eauto.
Qed.

Lemma claims_true w s :
  claims w s = true ->
  exists d, pios_mpu6500_dev s = Some d
            /\ PIOS_MPU6500_Validate (Some d) = 0
            /\ (claim_answer w d (trace s) =? 0) = true.
Proof.
  unfold claims. intros H.
  destruct (Z.eq_dec (PIOS_MPU6500_Validate (pios_mpu6500_dev s)) 0) as [Hv|Hv].
  - destruct (Validate_ok_some _ Hv) as [d Hd]. rewrite Hd in Hv.
    exists d. repeat split; auto.
    rewrite (ClaimBus_valid w s d Hd Hv) in H.
    destruct (claim_answer w d (trace s) =? 0); [reflexivity | discriminate].
  - rewrite (ClaimBus_invalid w s Hv) in H. discriminate.
Qed.

Lemma claims_false_GetReg w reg s :
  claims w s = false -> result (PIOS_MPU6500_GetReg w reg s) = Some (-1).
Proof.
  unfold claims. intros H.
  destruct (Z.eq_dec (PIOS_MPU6500_Validate (pios_mpu6500_dev s)) 0) as [Hv|Hv].
  - destruct (Validate_ok_some _ Hv) as [d Hd]. rewrite Hd in Hv.
    rewrite (ClaimBus_valid w s d Hd Hv) in H.
    rewrite (GetReg_valid w reg s d Hd Hv).
    destruct (claim_answer w d (trace s) =? 0); [discriminate | reflexivity].
  - rewrite (GetReg_invalid w reg s Hv). reflexivity.
Qed.

Lemma claims_true_GetReg w reg s d :
  claims w s = true -> pios_mpu6500_dev s = Some d ->
  result (PIOS_MPU6500_GetReg w reg s) =
    Some (Cint.uint8 (PIOS_SPI_TransferByte w (read_t2 d reg (trace s)))).
Proof.
  intros Hc Hd. destruct (claims_true w s Hc) as (d' & Hd' & Hv & Ha).
  rewrite Hd in Hd'. injection Hd' as <-.
  rewrite (GetReg_valid w reg s d Hd Hv), Ha. reflexivity.
Qed.

(** What the self-test returns, from what the identity read returns. *)
Lemma Test_of_GetReg h w s v s' :
  PIOS_MPU6500_GetReg w (PIOS_MPU60X0_WHOAMI h) s = Done v s' ->
  PIOS_MPU6500_Test h w s =
    Done (if v <? 0 then -1
          else if negb (v =? MPU6500_WHOAMI_ID) then -2 else 0) s'.
Proof.
  intros H. unfold PIOS_MPU6500_Test, PIOS_MPU6500_ReadID, bind. rewrite H.
  destruct (v <? 0) eqn:Hneg; unfold ret; simpl.
  - reflexivity.
  - rewrite Hneg. destruct (v =? MPU6500_WHOAMI_ID); reflexivity.
Qed.

(** C9: the self-test returns -1 exactly when the identity read fails
    (returns a negative value), -2 exactly when the read gives a value
    other than the expected identity 0x70, and 0 exactly when the read
    gives 0x70; it always returns one of the three. *)
Theorem Test_result_by_identity_read
  (h : pios_mpu60x0_h) (w : world) (s : state) :
  let id := result (PIOS_MPU6500_GetReg w (PIOS_MPU60X0_WHOAMI h) s) in
  let r := result (PIOS_MPU6500_Test h w s) in
  MPU6500_WHOAMI_ID = 0x70
  /\ (r = Some (-1) <-> exists v, id = Some v /\ v < 0)
  /\ (r = Some (-2) <->
      exists v, id = Some v /\ 0 <= v /\ v <> MPU6500_WHOAMI_ID)
  /\ (r = Some 0 <-> id = Some MPU6500_WHOAMI_ID)
  /\ (r = Some (-1) \/ r = Some (-2) \/ r = Some 0).
Proof.
  intros id r. subst id r.
  destruct (GetReg_total w (PIOS_MPU60X0_WHOAMI h) s) as (v & s' & Hg & Hr & _).
  rewrite (Test_of_GetReg h w s v s' Hg), Hg. simpl.
  split; [reflexivity|].
  assert (Hid : MPU6500_WHOAMI_ID = 112) by reflexivity.
  destruct (v <? 0) eqn:Hneg;
    [apply Z.ltb_lt in Hneg | apply Z.ltb_ge in Hneg];
    [| destruct (v =? MPU6500_WHOAMI_ID) eqn:He;
       [apply Z.eqb_eq in He | apply Z.eqb_neq in He]]; simpl;
    (split; [|split; [|split]]);
    try (split; intros H);
    repeat match goal with
           | H : exists _, _ |- _ => destruct H as (? & H)
           | H : _ /\ _ |- _ => destruct H
           | H : Some _ = Some _ |- _ => injection H as H
           end;
    try solve [ auto | lia | discriminate | congruence
              | exists v; repeat split; auto; lia ].
Qed.

(** The self-test on a bus answering the expected identity, and on one
    answering the identity of the MPU6000. *)
Lemma Test_result_by_identity_read_witness :
  result (PIOS_MPU6500_Test mpu60x0_regs (bus_answering 0x70) fresh) = Some 0
  /\ result (PIOS_MPU6500_Test mpu60x0_regs (bus_answering 0x68) fresh)
     = Some (-2).
Proof.
  split.
  - apply (Test_result_by_identity_read mpu60x0_regs (bus_answering 0x70) fresh).
    reflexivity.
  - apply (Test_result_by_identity_read mpu60x0_regs (bus_answering 0x68) fresh).
    exists 0x68. repeat split; [lia | discriminate].
Defined.

(** C10: the single-byte read returns -1 exactly when the bus claim
    fails; once the bus is claimed it returns the received byte, a value
    in 0..255, whatever the transfer answered (a negative answer
    included), while the single-byte write returns -2 or -3 on a
    non-zero answer to its first or second byte; so the self-test
    returns its bus-failure code exactly when the claim fails. *)
Theorem GetReg_fails_only_on_claim
  (h : pios_mpu60x0_h) (w : world) (reg data : Z) (s : state) :
  let r := result (PIOS_MPU6500_GetReg w reg s) in
  (r = Some (-1) <-> claims w s = false)
  /\ (exists v, r = Some v /\ -1 <= v <= 255)
  /\ (claims w s = true ->
      exists d, pios_mpu6500_dev s = Some d
        /\ r = Some (Cint.uint8 (PIOS_SPI_TransferByte w
                                   (read_t2 d reg (trace s))))
        /\ result (PIOS_MPU6500_SetReg w reg data s) =
           Some (if negb (PIOS_SPI_TransferByte w (write_t1 d reg (trace s))
                          =? 0) then -2
                 else if negb (PIOS_SPI_TransferByte w
                                 (write_t2 d reg data (trace s)) =? 0) then -3
                 else 0))
  /\ (claims w s = false ->
      result (PIOS_MPU6500_SetReg w reg data s) = Some (-1))
  /\ (result (PIOS_MPU6500_Test h w s) = Some (-1) <-> claims w s = false).
Proof.
  intros r. subst r.
  assert (Hread : forall reg',
             result (PIOS_MPU6500_GetReg w reg' s) = Some (-1)
             <-> claims w s = false).
  { intros reg'. split.
    - intros H. destruct (claims w s) eqn:Hc; [|reflexivity].
      destruct (claims_true w s Hc) as (d & Hd & _).
      rewrite (claims_true_GetReg w reg' s d Hc Hd) in H.
      injection H as H.
      pose proof (uint8_range
                    (PIOS_SPI_TransferByte w (read_t2 d reg' (trace s)))).
      lia.
    - apply claims_false_GetReg. }
  split; [apply Hread|].
  split.
  { destruct (GetReg_total w reg s) as (v & s' & Hg & Hr & _).
    exists v. rewrite Hg. auto. }
  split.
  { intros Hc. destruct (claims_true w s Hc) as (d & Hd & Hv & Ha).
    exists d. split; [assumption|].
    split; [apply claims_true_GetReg; assumption|].
    rewrite (SetReg_valid w reg data s d Hd Hv), Ha.
    destruct (PIOS_SPI_TransferByte w (write_t1 d reg (trace s)) =? 0);
      [destruct (PIOS_SPI_TransferByte w (write_t2 d reg data (trace s)) =? 0)|];
      reflexivity. }
  split.
  { unfold claims. intros H.
    destruct (Z.eq_dec (PIOS_MPU6500_Validate (pios_mpu6500_dev s)) 0)
      as [Hv|Hv].
    - destruct (Validate_ok_some _ Hv) as [d Hd]. rewrite Hd in Hv.
      rewrite (ClaimBus_valid w s d Hd Hv) in H.
      rewrite (SetReg_valid w reg data s d Hd Hv).
      destruct (claim_answer w d (trace s) =? 0); [discriminate | reflexivity].
    - rewrite (SetReg_invalid w reg data s Hv). reflexivity. }
  rewrite <- (Hread (PIOS_MPU60X0_WHOAMI h)).
  destruct (GetReg_total w (PIOS_MPU60X0_WHOAMI h) s) as (v & s' & Hg & Hr & _).
  rewrite (Test_of_GetReg h w s v s' Hg), Hg. simpl.
  destruct (v <? 0) eqn:Hneg;
    [apply Z.ltb_lt in Hneg | apply Z.ltb_ge in Hneg].
  - assert (v = -1) by lia. subst v. tauto.
  - split; intros H.
    + destruct (negb (v =? MPU6500_WHOAMI_ID)); discriminate.
    + injection H as H. lia.
Qed.

(** On a claimed bus whose transfers all answer -1 the read reports the
    byte 255 and the write reports -2; on a busy bus both report -1. *)
Lemma GetReg_fails_only_on_claim_witness :
  (result (PIOS_MPU6500_GetReg (bus_answering (-1)) 0x75 fresh) = Some 255
   /\ result (PIOS_MPU6500_SetReg (bus_answering (-1)) 0x75 0 fresh)
      = Some (-2))
  /\ result (PIOS_MPU6500_SetReg bus_busy 0x75 0 fresh) = Some (-1).
Proof.
  split.
  - destruct (GetReg_fails_only_on_claim mpu60x0_regs (bus_answering (-1))
                0x75 0 fresh) as (_ & _ & H & _).
    destruct (H eq_refl) as (d & Hd & Hg & Hs).
    injection Hd as <-. split; [exact Hg | exact Hs].
  - apply (GetReg_fails_only_on_claim mpu60x0_regs bus_busy 0x75 0 fresh).
    reflexivity.
Defined.

(** C8: on a null handle, a wrong magic tag, an unset bus handle or an
    unconfigured device the interrupt handler returns false and leaves
    the state as it was: the history gains no event, so the bus is
    neither claimed, nor used, nor released. *)
Theorem IRQHandler_idle_when_invalid_or_unconfigured
  (h : pios_mpu60x0_h) (b : build) (w : world) (s : state) :
  pios_mpu6500_dev s = None
  \/ (exists d, pios_mpu6500_dev s = Some d
                /\ (magic d <> pios_mpu6500_dev_MAGIC
                    \/ spi_id d = 0
                    \/ configured d = false)) ->
  PIOS_MPU6500_IRQHandler h b w s = Done false s.
Proof.
  intros H. destruct s as [dv t]. simpl in H.
  unfold PIOS_MPU6500_IRQHandler, bind, validated.
  cbv beta iota delta [pios_mpu6500_dev].
  destruct H as [-> | (d & -> & H)]; [reflexivity|].
  unfold PIOS_MPU6500_Validate.
  destruct (magic d =? pios_mpu6500_dev_MAGIC) eqn:Hm; simpl;
    [|reflexivity].
  destruct (spi_id d =? 0) eqn:Hs; simpl; [reflexivity|].
  apply Z.eqb_eq in Hm. apply Z.eqb_neq in Hs.
  destruct H as [H | [H | H]]; [contradiction | contradiction |].
  unfold deref. simpl. rewrite H. reflexivity.
Qed.

(** The handler on a null handle, and on the device before its
    configuration. *)
Lemma IRQHandler_idle_when_invalid_or_unconfigured_witness :
  PIOS_MPU6500_IRQHandler mpu60x0_regs accel_simple (bus_answering 0)
    {| pios_mpu6500_dev := None; trace := [] |}
  = Done false {| pios_mpu6500_dev := None; trace := [] |}
  /\ PIOS_MPU6500_IRQHandler mpu60x0_regs accel_simple (bus_answering 0) fresh
     = Done false fresh.
Proof.
  split.
  - apply IRQHandler_idle_when_invalid_or_unconfigured. left. reflexivity.
  - apply IRQHandler_idle_when_invalid_or_unconfigured. right.
    exists fresh_dev. split; [reflexivity|]. right. right. reflexivity.
Defined.

(** ** The scale tables *)

Lemma distinct4_neq a b c d :
  distinct4 a b c d = true ->
  a <> b /\ a <> c /\ a <> d /\ b <> c /\ b <> d /\ c <> d.
Proof.
  unfold distinct4. rewrite !andb_true_iff, !negb_true_iff, !Z.eqb_neq.
  tauto.
Qed.

Lemma labels_distinct_neq h :
  labels_distinct h = true ->
  distinct4 (PIOS_MPU60X0_SCALE_250_DEG h) (PIOS_MPU60X0_SCALE_500_DEG h)
            (PIOS_MPU60X0_SCALE_1000_DEG h) (PIOS_MPU60X0_SCALE_2000_DEG h)
  = true
  /\ distinct4 (PIOS_MPU60X0_ACCEL_2G h) (PIOS_MPU60X0_ACCEL_4G h)
               (PIOS_MPU60X0_ACCEL_8G h) (PIOS_MPU60X0_ACCEL_16G h) = true
  /\ distinct4 (PIOS_MPU60X0_TOP_0DEG h) (PIOS_MPU60X0_TOP_90DEG h)
               (PIOS_MPU60X0_TOP_180DEG h) (PIOS_MPU60X0_TOP_270DEG h) = true.
Proof.
  unfold labels_distinct. rewrite !andb_true_iff. tauto.
Qed.

(** Decide the tests of a [switch] from what is known of its labels. *)
Ltac switch_tests :=
  repeat match goal with
         | |- context [?a =? ?a] => rewrite (Z.eqb_refl a)
         | H : ?a <> ?b |- context [?a =? ?b] =>
             rewrite (proj2 (Z.eqb_neq a b) H)
         | H : ?b <> ?a |- context [?a =? ?b] =>
             rewrite (proj2 (Z.eqb_neq a b) (not_eq_sym H))
         end.

(** The scale functions read the device and leave the state alone. *)
Lemma GetGyroScale_pure h s d :
  pios_mpu6500_dev s = Some d ->
  PIOS_MPU6500_GetGyroScale h s
  = Done (scale_for (PIOS_MPU6500_GetGyroScale h) d) s.
Proof.
  intros Hd. destruct s as [dv t]. simpl in Hd. subst dv.
  unfold scale_for, PIOS_MPU6500_GetGyroScale, bind, deref. simpl.
  repeat match goal with
         | |- context [if ?c then _ else _] => destruct c
         end; reflexivity.
Qed.

Lemma GetAccelScale_pure h s d :
  pios_mpu6500_dev s = Some d ->
  PIOS_MPU6500_GetAccelScale h s
  = Done (scale_for (PIOS_MPU6500_GetAccelScale h) d) s.
Proof.
  intros Hd. destruct s as [dv t]. simpl in Hd. subst dv.
  unfold scale_for, PIOS_MPU6500_GetAccelScale, bind, deref. simpl.
  repeat match goal with
         | |- context [if ?c then _ else _] => destruct c
         end; reflexivity.
Qed.

(** The four gyro constants are the floats nearest to 1/131, 1/65.5,
    1/32.8 and 1/16.4. *)
Lemma gyro_constants_nearest :
  F32.div (F32.of_Z 1) (F32.of_Z 131) = F32.lit 1 131
  /\ F32.div (F32.of_Z 1) (F32.lit 655 10) = F32.lit 10 655
  /\ F32.div (F32.of_Z 1) (F32.lit 328 10) = F32.lit 10 328
  /\ F32.div (F32.of_Z 1) (F32.lit 164 10) = F32.lit 10 164
  /\ nearest_to (F32.lit 1 131) 1 131 = true
  /\ nearest_to (F32.lit 10 655) 10 655 = true
  /\ nearest_to (F32.lit 10 328) 10 328 = true
  /\ nearest_to (F32.lit 10 164) 10 164 = true.
Proof.
  repeat split; vm_compute; reflexivity.
Qed.

(** The integer operations inside [SpecFloat], under the names the
    arithmetic tactics know. *)
Ltac std_Z_ops :=
  change IntDef.Z.min with Z.min in *;
  change IntDef.Z.max with Z.max in *;
  change IntDef.Z.shiftl with Z.shiftl in *;
  change IntDef.Z.div_eucl with Z.div_eucl in *.

(** Division of a normal float by a power of two lowers the exponent
    and keeps the mantissa. *)
Lemma div_by_power_of_two (s : bool) (m : positive) (e ed : Z) :
  digits2_pos m = 24%positive ->
  -149 <= e - 24 - ed ->
  e - 23 - ed <= 104 ->
  F32.div (S754_finite s m e) (S754_finite false 8388608 ed)
  = S754_finite s m (e - 23 - ed).
Proof.
  intros Hm Hlo Hhi.
  unfold F32.div, SFdiv, SFdiv_core_binary.
  cbn [Zdigits2 digits2_pos Pos.succ]. rewrite Hm.
  unfold fexp, emin, F32.prec, F32.emax.
  change (Z.pos (digits2_pos 8388608)) with 24. std_Z_ops.
  replace (Z.min (Z.max (24 + e - (24 + ed) - 24) (3 - 128 - 24)) (e - ed))
    with (e - ed - 24) by lia.
  replace (e - ed - (e - ed - 24)) with 24 by lia.
  cbv iota.
  rewrite Z.shiftl_mul_pow2 by lia. change (2 ^ 24) with 16777216.
  replace (Z.pos m * 16777216) with (Z.pos (m~0) * 8388608) by lia.
  replace (Z.div_eucl (Z.pos m~0 * 8388608) 8388608) with (Z.pos m~0, 0).
  2:{ symmetry.
      pose proof (Z_div_mod (Z.pos m~0 * 8388608) 8388608 ltac:(lia)).
      destruct (Z.div_eucl (Z.pos m~0 * 8388608) 8388608) as [q r].
      f_equal; nia. }
  cbv beta iota.
  change (new_location 8388608 0) with loc_Exact.
  unfold binary_round_aux, shr_fexp, fexp, emin.
  cbn [Zdigits2 digits2_pos]. rewrite Hm.
  change (Z.pos (Pos.succ 24)) with 25. std_Z_ops.
  replace (Z.max (25 + (e - ed - 24) - 24) (3 - 128 - 24) - (e - ed - 24))
    with 1 by lia.
  cbn [shr shr_record_of_loc iter_pos shr_1 shr_m loc_of_shr_record
         round_nearest_even].
  cbn [orb round_nearest_even Zdigits2]. rewrite Hm.
  replace (Z.max (24 + (e - ed - 24 + 1) - 24) (3 - 128 - 24)
           - (e - ed - 24 + 1)) with 0 by lia.
  cbn [shr shr_m].
  replace (e - ed - 24 + 1 <=? 128 - 24) with true
    by (symmetry; apply Z.leb_le; lia).
  f_equal; [destruct s; reflexivity | lia].
Qed.

Lemma lowered_exponent_exact s m e k :
  0 <= k ->
  F32.exact_quotient (S754_finite s m (e - k)) (S754_finite s m e) (2 ^ k).
Proof.
  intros Hk. unfold F32.exact_quotient, F32.to_Q.
  replace e with ((e - k) + k) at 2 by lia.
  rewrite Qpower_plus by discriminate.
  assert (H : (inject_Z (2 ^ k) == (2 # 1) ^ k)%Q).
  { change (2 # 1)%Q with (inject_Z 2). apply Zpower_Qpower. assumption. }
  rewrite H. ring.
Qed.

(** The four accel quotients of a normal GRAVITY are exact. *)
Lemma accel_quotients_exact g :
  F32.normal g = true ->
  F32.exact_quotient (F32.div g (F32.of_Z 16384)) g 16384
  /\ F32.exact_quotient (F32.div g (F32.of_Z 8192)) g 8192
  /\ F32.exact_quotient (F32.div g (F32.of_Z 4096)) g 4096
  /\ F32.exact_quotient (F32.div g (F32.of_Z 2048)) g 2048.
Proof.
  destruct g as [| | |s m e]; try discriminate.
  unfold F32.normal. rewrite !andb_true_iff, Z.eqb_eq, !Z.leb_le.
  intros [[Hm Hlo] Hhi]. injection Hm as Hm.
  change (F32.of_Z 16384) with (S754_finite false 8388608 (-9)).
  change (F32.of_Z 8192) with (S754_finite false 8388608 (-10)).
  change (F32.of_Z 4096) with (S754_finite false 8388608 (-11)).
  change (F32.of_Z 2048) with (S754_finite false 8388608 (-12)).
  rewrite !div_by_power_of_two by (assumption || lia).
  replace (e - 23 - -9) with (e - 14) by lia.
  replace (e - 23 - -10) with (e - 13) by lia.
  replace (e - 23 - -11) with (e - 12) by lia.
  replace (e - 23 - -12) with (e - 11) by lia.
  change 16384 with (2 ^ 14). change 8192 with (2 ^ 13).
  change 4096 with (2 ^ 12). change 2048 with (2 ^ 11).
  repeat split; apply lowered_exponent_exact; lia.
Qed.

Lemma GetGyroScale_table h s d :
  labels_distinct h = true ->
  pios_mpu6500_dev s = Some d ->
  let g := gyro_range d in
  let gyro := PIOS_MPU6500_GetGyroScale h s in
  (g = PIOS_MPU60X0_SCALE_250_DEG h -> gyro = Done (F32.lit 1 131) s)
  /\ (g = PIOS_MPU60X0_SCALE_500_DEG h -> gyro = Done (F32.lit 10 655) s)
  /\ (g = PIOS_MPU60X0_SCALE_1000_DEG h -> gyro = Done (F32.lit 10 328) s)
  /\ (g = PIOS_MPU60X0_SCALE_2000_DEG h -> gyro = Done (F32.lit 10 164) s)
  /\ (g <> PIOS_MPU60X0_SCALE_250_DEG h ->
      g <> PIOS_MPU60X0_SCALE_500_DEG h ->
      g <> PIOS_MPU60X0_SCALE_1000_DEG h ->
      g <> PIOS_MPU60X0_SCALE_2000_DEG h -> gyro = Done F32.zero s).
Proof.
  intros Hl Hd g gyro. subst g gyro.
  destruct (labels_distinct_neq h Hl) as (Hg & _).
  apply distinct4_neq in Hg.
  destruct Hg as (G1 & G2 & G3 & G4 & G5 & G6).
  destruct gyro_constants_nearest as (E1 & E2 & E3 & E4 & _).
  destruct s as [dv t]. simpl in Hd. subst dv.
  unfold PIOS_MPU6500_GetGyroScale, bind, deref, ret.
  cbv beta iota delta [pios_mpu6500_dev].
  repeat split; intros;
    repeat match goal with
           | H : gyro_range d = _ |- _ => rewrite H
           end;
    switch_tests; rewrite ?E1, ?E2, ?E3, ?E4; reflexivity.
Qed.

Lemma GetAccelScale_table h s d :
  labels_distinct h = true ->
  pios_mpu6500_dev s = Some d ->
  let a := accel_range d in
  let accel := PIOS_MPU6500_GetAccelScale h s in
  (a = PIOS_MPU60X0_ACCEL_2G h ->
   accel = Done (F32.div (GRAVITY h) (F32.of_Z 16384)) s)
  /\ (a = PIOS_MPU60X0_ACCEL_4G h ->
      accel = Done (F32.div (GRAVITY h) (F32.of_Z 8192)) s)
  /\ (a = PIOS_MPU60X0_ACCEL_8G h ->
      accel = Done (F32.div (GRAVITY h) (F32.of_Z 4096)) s)
  /\ (a = PIOS_MPU60X0_ACCEL_16G h ->
      accel = Done (F32.div (GRAVITY h) (F32.of_Z 2048)) s)
  /\ (a <> PIOS_MPU60X0_ACCEL_2G h ->
      a <> PIOS_MPU60X0_ACCEL_4G h ->
      a <> PIOS_MPU60X0_ACCEL_8G h ->
      a <> PIOS_MPU60X0_ACCEL_16G h -> accel = Done F32.zero s).
Proof.
  intros Hl Hd a accel. subst a accel.
  destruct (labels_distinct_neq h Hl) as (_ & Ha & _).
  apply distinct4_neq in Ha.
  destruct Ha as (A1 & A2 & A3 & A4 & A5 & A6).
  destruct s as [dv t]. simpl in Hd. subst dv.
  unfold PIOS_MPU6500_GetAccelScale, bind, deref, ret.
  cbv beta iota delta [pios_mpu6500_dev].
  repeat split; intros;
    repeat match goal with
           | H : accel_range d = _ |- _ => rewrite H
           end;
    switch_tests; reflexivity.
Qed.

(** C7: for each of the four gyro ranges the gyro scale function returns
    the float constant of that range, the binary32 number nearest to
    1/131, 1/65.5, 1/32.8 and 1/16.4; for each of the four accel ranges
    the accel scale function returns the float quotient of GRAVITY by
    16384, 8192, 4096 and 2048, whose value is exactly that of GRAVITY
    divided by the power of two when GRAVITY is a normal float; for a
    range value that is none of the four each function returns the float
    zero.  Neither touches the state. *)
Theorem scale_functions_by_range
  (h : pios_mpu60x0_h) (s : state) (d : mpu6500_dev) :
  labels_distinct h = true ->
  pios_mpu6500_dev s = Some d ->
  let g := gyro_range d in
  let a := accel_range d in
  let gyro := PIOS_MPU6500_GetGyroScale h s in
  let accel := PIOS_MPU6500_GetAccelScale h s in
  ((g = PIOS_MPU60X0_SCALE_250_DEG h -> gyro = Done (F32.lit 1 131) s)
   /\ (g = PIOS_MPU60X0_SCALE_500_DEG h -> gyro = Done (F32.lit 10 655) s)
   /\ (g = PIOS_MPU60X0_SCALE_1000_DEG h -> gyro = Done (F32.lit 10 328) s)
   /\ (g = PIOS_MPU60X0_SCALE_2000_DEG h -> gyro = Done (F32.lit 10 164) s)
   /\ (g <> PIOS_MPU60X0_SCALE_250_DEG h ->
       g <> PIOS_MPU60X0_SCALE_500_DEG h ->
       g <> PIOS_MPU60X0_SCALE_1000_DEG h ->
       g <> PIOS_MPU60X0_SCALE_2000_DEG h -> gyro = Done F32.zero s))
  /\ ((a = PIOS_MPU60X0_ACCEL_2G h ->
       accel = Done (F32.div (GRAVITY h) (F32.of_Z 16384)) s)
      /\ (a = PIOS_MPU60X0_ACCEL_4G h ->
          accel = Done (F32.div (GRAVITY h) (F32.of_Z 8192)) s)
      /\ (a = PIOS_MPU60X0_ACCEL_8G h ->
          accel = Done (F32.div (GRAVITY h) (F32.of_Z 4096)) s)
      /\ (a = PIOS_MPU60X0_ACCEL_16G h ->
          accel = Done (F32.div (GRAVITY h) (F32.of_Z 2048)) s)
      /\ (a <> PIOS_MPU60X0_ACCEL_2G h ->
          a <> PIOS_MPU60X0_ACCEL_4G h ->
          a <> PIOS_MPU60X0_ACCEL_8G h ->
          a <> PIOS_MPU60X0_ACCEL_16G h -> accel = Done F32.zero s))
  /\ (nearest_to (F32.lit 1 131) 1 131 = true
      /\ nearest_to (F32.lit 10 655) 10 655 = true
      /\ nearest_to (F32.lit 10 328) 10 328 = true
      /\ nearest_to (F32.lit 10 164) 10 164 = true)
  /\ (F32.normal (GRAVITY h) = true ->
      F32.exact_quotient (F32.div (GRAVITY h) (F32.of_Z 16384))
                         (GRAVITY h) 16384
      /\ F32.exact_quotient (F32.div (GRAVITY h) (F32.of_Z 8192))
                            (GRAVITY h) 8192
      /\ F32.exact_quotient (F32.div (GRAVITY h) (F32.of_Z 4096))
                            (GRAVITY h) 4096
      /\ F32.exact_quotient (F32.div (GRAVITY h) (F32.of_Z 2048))
                            (GRAVITY h) 2048).
Proof.
  intros Hl Hd g a gyro accel. subst g a gyro accel.
  split; [exact (GetGyroScale_table h s d Hl Hd)|].
  split; [exact (GetAccelScale_table h s d Hl Hd)|].
  split; [|apply accel_quotients_exact].
  destruct gyro_constants_nearest as (_ & _ & _ & _ & N). exact N.
Qed.

(** The scale tables on the register values of the chip family, for a
    device at 500 deg/s and 8 g, for one with range values outside the
    enumerations, and the accel quotient at 8 g for GRAVITY 9.805. *)
Lemma scale_functions_by_range_witness :
  (PIOS_MPU6500_GetGyroScale mpu60x0_regs running
   = Done (F32.lit 10 655) running
   /\ PIOS_MPU6500_GetAccelScale mpu60x0_regs running
      = Done (F32.div (GRAVITY mpu60x0_regs) (F32.of_Z 4096)) running)
  /\ (PIOS_MPU6500_GetGyroScale mpu60x0_regs
        {| pios_mpu6500_dev := Some (set_accel_range 0x03
                                       (set_gyro_range 0x07 fresh_dev));
           trace := [] |}
      = Done F32.zero
          {| pios_mpu6500_dev := Some (set_accel_range 0x03
                                         (set_gyro_range 0x07 fresh_dev));
             trace := [] |}
      /\ PIOS_MPU6500_GetAccelScale mpu60x0_regs
           {| pios_mpu6500_dev := Some (set_accel_range 0x03
                                          (set_gyro_range 0x07 fresh_dev));
              trace := [] |}
         = Done F32.zero
             {| pios_mpu6500_dev := Some (set_accel_range 0x03
                                            (set_gyro_range 0x07 fresh_dev));
                trace := [] |})
  /\ F32.exact_quotient (F32.div (GRAVITY mpu60x0_regs) (F32.of_Z 4096))
                        (GRAVITY mpu60x0_regs) 4096.
Proof.
  split; [|split].
  - destruct (scale_functions_by_range mpu60x0_regs running running_dev
                eq_refl eq_refl) as ((_ & G & _) & (_ & _ & A & _) & _).
    split; [apply G | apply A]; reflexivity.
  - destruct (scale_functions_by_range mpu60x0_regs
                {| pios_mpu6500_dev := Some (set_accel_range 0x03
                                               (set_gyro_range 0x07 fresh_dev));
                   trace := [] |}
                (set_accel_range 0x03 (set_gyro_range 0x07 fresh_dev))
                eq_refl eq_refl)
      as ((_ & _ & _ & _ & G) & (_ & _ & _ & _ & A) & _).
    split; [apply G | apply A]; simpl; discriminate.
  - destruct (scale_functions_by_range mpu60x0_regs running running_dev
                eq_refl eq_refl) as (_ & _ & _ & E).
    destruct (E eq_refl) as (_ & _ & E8 & _). exact E8.
Defined.

(** ** The sample-rate divisor *)

Lemma all_from_sound P n : forall z,
  all_from n z P = true ->
  forall x, z <= x < z + Z.of_nat n -> P x = true.
Proof.
  induction n as [|n IH]; intros z H x Hx.
  - simpl in Hx. lia.
  - simpl in H. apply andb_true_iff in H. destruct H as [Hz Hrest].
    destruct (Z.eq_dec x z) as [->|Hne]; [assumption|].
    apply (IH (z + 1) Hrest). lia.
Qed.

Lemma divisor_agrees_up_to_clock widest :
  all_from (Z.to_nat (filter_clock widest)) 1 (divisor_agrees widest) = true.
Proof.
  destruct widest; vm_compute; reflexivity.
Qed.

(** Above the filter clock the rate is replaced by the clock, in the
    code and in the specification. *)
Lemma divisor_above_clock widest r :
  filter_clock widest < r ->
  sample_rate_divisor (filter_clock widest) r
  = sample_rate_divisor (filter_clock widest) (filter_clock widest)
  /\ divisor_spec widest r = divisor_spec widest (filter_clock widest).
Proof.
  intros Hr. split.
  - unfold sample_rate_divisor.
    replace (r >? filter_clock widest) with true
      by (symmetry; apply Z.gtb_lt; lia).
    replace (filter_clock widest >? filter_clock widest) with false
      by (rewrite Z.gtb_ltb; symmetry; apply Z.ltb_irrefl).
    reflexivity.
  - unfold divisor_spec. rewrite Z.min_r by lia. rewrite Z.min_id.
    reflexivity.
Qed.

(** The float computation of the driver gives the specified divisor for
    every rate a [uint16_t] can hold, zero apart. *)
Lemma sample_rate_divisor_spec widest r :
  1 <= r <= 65535 ->
  sample_rate_divisor (filter_clock widest) r = Some (divisor_spec widest r).
Proof.
  intros Hr.
  assert (Hin : forall x, 1 <= x <= filter_clock widest ->
                  sample_rate_divisor (filter_clock widest) x
                  = Some (divisor_spec widest x)).
  { intros x Hx.
    pose proof (all_from_sound _ _ _ (divisor_agrees_up_to_clock widest) x)
      as H.
    assert (Hfc : 0 <= filter_clock widest) by (destruct widest; simpl; lia).
    rewrite Z2Nat.id in H by assumption.
    specialize (H ltac:(lia)). unfold divisor_agrees in H.
    destruct (sample_rate_divisor (filter_clock widest) x) as [v|];
      [|discriminate].
    apply Z.eqb_eq in H. congruence. }
  destruct (Z_le_gt_dec r (filter_clock widest)) as [Hle|Hgt].
  - apply Hin. lia.
  - destruct (divisor_above_clock widest r ltac:(lia)) as [-> ->].
    apply Hin. destruct widest; simpl; lia.
Qed.

Lemma divisor_spec_range widest r : 0 <= divisor_spec widest r <= 255.
Proof.
  unfold divisor_spec, clamp. lia.
Qed.

(** The run of [PIOS_MPU6500_SetSampleRate] for a rate that is not zero
    as a [uint16_t]: the write of the specified divisor. *)
Lemma SetSampleRate_run h w r s d :
  pios_mpu6500_dev s = Some d ->
  Cint.uint16 r <> 0 ->
  PIOS_MPU6500_SetSampleRate h w r s
  = (PIOS_MPU6500_SetReg w (PIOS_MPU60X0_SMPLRT_DIV_REG h)
       (divisor_spec (filter d =? PIOS_MPU60X0_LOWPASS_256_HZ h)
                     (Cint.uint16 r)) ;; ret tt) s.
Proof.
  intros Hd Hr.
  assert (Hrange : 1 <= Cint.uint16 r <= 65535).
  { unfold Cint.uint16 in *. pose proof (Z.mod_pos_bound r 65536). lia. }
  destruct s as [dv t]. simpl in Hd. subst dv.
  unfold PIOS_MPU6500_SetSampleRate, bind at 1, deref.
  cbv beta iota delta [pios_mpu6500_dev].
  set (widest := filter d =? PIOS_MPU60X0_LOWPASS_256_HZ h).
  replace (if negb widest then 1000 else 8000) with (filter_clock widest)
    by (destruct widest; reflexivity).
  rewrite (sample_rate_divisor_spec widest _ Hrange).
  pose proof (divisor_spec_range widest (Cint.uint16 r)).
  replace (Cint.uint8 (divisor_spec widest (Cint.uint16 r)))
    with (divisor_spec widest (Cint.uint16 r))
    by (unfold Cint.uint8; rewrite Z.mod_small; lia).
  reflexivity.
Qed.

(** C3: for a requested rate r (1..65535) and the active filter,
    PIOS_MPU6500_SetSampleRate writes to the sample-rate divider
    register the byte round(filter_clock / min(r, filter_clock)) - 1
    clamped to 0..255, with filter_clock 8000 under the 256 Hz filter and
    1000 otherwise; for 500 Hz under the 256 Hz filter the byte is 15,
    and for a rate above filter_clock it is 0. *)
Theorem SetSampleRate_programs_specified_divisor
  (h : pios_mpu60x0_h) (w : world) (r : Z) (s : state) (d : mpu6500_dev) :
  pios_mpu6500_dev s = Some d ->
  1 <= r <= 65535 ->
  let widest := filter d =? PIOS_MPU60X0_LOWPASS_256_HZ h in
  PIOS_MPU6500_SetSampleRate h w r s
  = (PIOS_MPU6500_SetReg w (PIOS_MPU60X0_SMPLRT_DIV_REG h)
                         (divisor_spec widest r) ;; ret tt) s
  /\ 0 <= divisor_spec widest r <= 255
  /\ filter_clock widest = (if widest then 8000 else 1000)
  /\ divisor_spec true 500 = 15
  /\ (filter_clock widest < r -> divisor_spec widest r = 0).
Proof.
  intros Hd Hr widest.
  split; [|split; [apply divisor_spec_range|split; [reflexivity|split]]].
  - assert (Hu : Cint.uint16 r = r)
      by (unfold Cint.uint16; apply Z.mod_small; lia).
    rewrite (SetSampleRate_run h w r s d Hd) by lia.
    rewrite Hu. reflexivity.
  - vm_compute. reflexivity.
  - intros Hgt. destruct (divisor_above_clock widest r Hgt) as [_ ->].
    destruct widest; vm_compute; reflexivity.
Qed.

(** 500 Hz under the 256 Hz filter: the write of 15 to the divider
    register. *)
Lemma SetSampleRate_programs_specified_divisor_witness :
  PIOS_MPU6500_SetSampleRate mpu60x0_regs (bus_answering 0) 500 fresh
  = (PIOS_MPU6500_SetReg (bus_answering 0) 0x19 15 ;; ret tt) fresh.
Proof.
  apply (SetSampleRate_programs_specified_divisor mpu60x0_regs
           (bus_answering 0) 500 fresh fresh_dev eq_refl).
  lia.
Defined.

(** ** What reaches the chip *)

Lemma write_address_byte reg :
  Cint.uint8 (Z.land 0x7f (Cint.uint8 reg)) = Z.land 0x7f (Cint.uint8 reg)
  /\ Z.testbit (Z.land 0x7f (Cint.uint8 reg)) 7 = false.
Proof.
  split.
  - unfold Cint.uint8 at 1. apply Z.mod_small.
    rewrite Z.land_comm. change 127 with (Z.ones 7).
    rewrite Z.land_ones by lia.
    pose proof (Z.mod_pos_bound (Cint.uint8 reg) (2 ^ 7)). lia.
  - rewrite Z.land_spec. reflexivity.
Qed.

Lemma uint8_idem v : Cint.uint8 (Cint.uint8 v) = Cint.uint8 v.
Proof.
  unfold Cint.uint8. apply Z.mod_mod. lia.
Qed.

(** A completed write transaction leaves its data byte in the register. *)
Lemma programmed_after_write d reg data t :
  programmed reg (released d (write_t2 d reg data t))
  = Some (Cint.uint8 data).
Proof.
  unfold programmed, released, write_t2, write_t1, after_claim.
  destruct (write_address_byte reg) as [Ha Hb].
  rewrite Ha, uint8_idem.
  cbn [chip_of chip_step chip_byte phase regs]. rewrite Z.eqb_refl.
  cbn [chip_byte phase regs].
  rewrite Hb. cbn [chip_byte phase regs]. rewrite Z.eqb_refl. reflexivity.
Qed.

(** The state in which the write of a range value ends. *)
Lemma SetReg_outcome w reg data s :
  exists r s',
    PIOS_MPU6500_SetReg w reg data s = Done r s'
    /\ pios_mpu6500_dev s' = pios_mpu6500_dev s
    /\ (r = 0 -> programmed reg (trace s') = Some (Cint.uint8 data))
    /\ (claims w s = false ->
        programmed reg (trace s') = programmed reg (trace s)).
Proof.
  destruct (Z.eq_dec (PIOS_MPU6500_Validate (pios_mpu6500_dev s)) 0) as [Hv|Hv].
  - destruct (Validate_ok_some _ Hv) as [d Hd]. rewrite Hd in Hv.
    unfold claims.
    rewrite (SetReg_valid w reg data s d Hd Hv), (ClaimBus_valid w s d Hd Hv).
    destruct (claim_answer w d (trace s) =? 0);
      [destruct (PIOS_SPI_TransferByte w (write_t1 d reg (trace s)) =? 0);
       [destruct (PIOS_SPI_TransferByte w (write_t2 d reg data (trace s)) =? 0)|]|];
      eexists; eexists; (split; [reflexivity|]); (split; [reflexivity|]);
      split; intros H; try discriminate; simpl.
    + apply programmed_after_write.
    + reflexivity.
  - unfold claims.
    rewrite (SetReg_invalid w reg data s Hv), (ClaimBus_invalid w s Hv).
    eexists; eexists. split; [reflexivity|]. split; [reflexivity|].
    split; intros H; [lia | reflexivity].
Qed.

(** Setting the gyro range: the cache takes the requested value whatever
    the write returned. *)
Lemma SetGyroRange_outcome h w range s d :
  pios_mpu6500_dev s = Some d ->
  exists s',
    PIOS_MPU6500_SetGyroRange h w range s = Done tt s'
    /\ pios_mpu6500_dev s' = Some (set_gyro_range range d)
    /\ (result (PIOS_MPU6500_SetReg w (PIOS_MPU60X0_GYRO_CFG_REG h) range s)
        = Some 0 ->
        programmed (PIOS_MPU60X0_GYRO_CFG_REG h) (trace s')
        = Some (Cint.uint8 range))
    /\ (claims w s = false ->
        programmed (PIOS_MPU60X0_GYRO_CFG_REG h) (trace s')
        = programmed (PIOS_MPU60X0_GYRO_CFG_REG h) (trace s)).
Proof.
  intros Hd.
  destruct (SetReg_outcome w (PIOS_MPU60X0_GYRO_CFG_REG h) range s)
    as (r & s1 & Hs & Hdev & Hok & Hbusy).
  unfold PIOS_MPU6500_SetGyroRange, bind. rewrite Hs.
  destruct s1 as [dv1 t1]. simpl in Hdev, Hok, Hbusy.
  rewrite Hd in Hdev. subst dv1.
  assert (Hfin : forall s',
             pios_mpu6500_dev s' = Some (set_gyro_range range d) ->
             (trace s' = t1 \/ exists v, trace s' = SENSORS_SetMaxGyro v :: t1) ->
             pios_mpu6500_dev s' = Some (set_gyro_range range d)
             /\ (Some r = Some 0 ->
                 programmed (PIOS_MPU60X0_GYRO_CFG_REG h) (trace s')
                 = Some (Cint.uint8 range))
             /\ (claims w s = false ->
                 programmed (PIOS_MPU60X0_GYRO_CFG_REG h) (trace s')
                 = programmed (PIOS_MPU60X0_GYRO_CFG_REG h) (trace s))).
  { intros s' Hd' Ht. split; [assumption|].
    assert (Hp : programmed (PIOS_MPU60X0_GYRO_CFG_REG h) (trace s')
                 = programmed (PIOS_MPU60X0_GYRO_CFG_REG h) t1).
    { destruct Ht as [-> | [v ->]]; reflexivity. }
    rewrite Hp. split.
    - intros H. injection H as H. auto.
    - assumption. }
  repeat match goal with
         | |- context [if ?c then _ else _] => destruct c
         end;
    (eexists; split; [reflexivity|]; apply Hfin; [reflexivity|]);
    simpl; eauto.
Qed.

Lemma SetAccelRange_outcome h w range s d :
  pios_mpu6500_dev s = Some d ->
  exists s',
    PIOS_MPU6500_SetAccelRange h w range s = Done tt s'
    /\ pios_mpu6500_dev s' = Some (set_accel_range range d)
    /\ (result (PIOS_MPU6500_SetReg w (PIOS_MPU60X0_ACCEL_CFG_REG h) range s)
        = Some 0 ->
        programmed (PIOS_MPU60X0_ACCEL_CFG_REG h) (trace s')
        = Some (Cint.uint8 range))
    /\ (claims w s = false ->
        programmed (PIOS_MPU60X0_ACCEL_CFG_REG h) (trace s')
        = programmed (PIOS_MPU60X0_ACCEL_CFG_REG h) (trace s)).
Proof.
  intros Hd.
  destruct (SetReg_outcome w (PIOS_MPU60X0_ACCEL_CFG_REG h) range s)
    as (r & s1 & Hs & Hdev & Hok & Hbusy).
  unfold PIOS_MPU6500_SetAccelRange, bind. rewrite Hs.
  destruct s1 as [dv1 t1]. simpl in Hdev, Hok, Hbusy.
  rewrite Hd in Hdev. subst dv1.
  eexists. split; [reflexivity|]. split; [reflexivity|]. simpl. split.
  - intros H. injection H as H. auto.
  - assumption.
Qed.

(** C2 (as the code has it): PIOS_MPU6500_SetGyroRange and
    PIOS_MPU6500_SetAccelRange always cache the requested range; the
    register holds the same value (as a byte) when the register write
    returned success, and keeps the value it had when the bus could not
    be claimed. *)
Theorem SetRange_caches_requested_range
  (h : pios_mpu60x0_h) (w : world) (range : Z) (s : state) (d : mpu6500_dev) :
  pios_mpu6500_dev s = Some d ->
  (exists s',
      PIOS_MPU6500_SetGyroRange h w range s = Done tt s'
      /\ cached_gyro_range s' = Some range
      /\ (result (PIOS_MPU6500_SetReg w (PIOS_MPU60X0_GYRO_CFG_REG h) range s)
          = Some 0 ->
          programmed (PIOS_MPU60X0_GYRO_CFG_REG h) (trace s')
          = Some (Cint.uint8 range))
      /\ (claims w s = false ->
          programmed (PIOS_MPU60X0_GYRO_CFG_REG h) (trace s')
          = programmed (PIOS_MPU60X0_GYRO_CFG_REG h) (trace s)))
  /\ (exists s',
         PIOS_MPU6500_SetAccelRange h w range s = Done tt s'
         /\ cached_accel_range s' = Some range
         /\ (result (PIOS_MPU6500_SetReg w (PIOS_MPU60X0_ACCEL_CFG_REG h)
                       range s) = Some 0 ->
             programmed (PIOS_MPU60X0_ACCEL_CFG_REG h) (trace s')
             = Some (Cint.uint8 range))
         /\ (claims w s = false ->
             programmed (PIOS_MPU60X0_ACCEL_CFG_REG h) (trace s')
             = programmed (PIOS_MPU60X0_ACCEL_CFG_REG h) (trace s))).
Proof.
  intros Hd. split.
  - destruct (SetGyroRange_outcome h w range s d Hd) as (s' & H1 & H2 & H3 & H4).
    exists s'. split; [assumption|].
    split; [unfold cached_gyro_range; rewrite H2; reflexivity|]. auto.
  - destruct (SetAccelRange_outcome h w range s d Hd) as (s' & H1 & H2 & H3 & H4).
    exists s'. split; [assumption|].
    split; [unfold cached_accel_range; rewrite H2; reflexivity|]. auto.
Qed.

(** Setting 2000 deg/s on a free bus: cache and register agree. *)
Lemma SetRange_caches_requested_range_witness :
  exists s',
    PIOS_MPU6500_SetGyroRange mpu60x0_regs (bus_answering 0) 0x18 fresh
    = Done tt s'
    /\ cached_gyro_range s' = Some 0x18
    /\ programmed 0x1B (trace s') = Some 0x18.
Proof.
  destruct (SetRange_caches_requested_range mpu60x0_regs (bus_answering 0)
              0x18 fresh fresh_dev eq_refl) as [(s' & H1 & H2 & H3 & _) _].
  exists s'. split; [exact H1|]. split; [exact H2|].
  apply H3. reflexivity.
Defined.

(** C2, counterexample: on a bus that can be claimed once, the range is
    set to 500 deg/s (cache and register agree) and then to 2000 deg/s;
    the second write fails, the register keeps 500 deg/s and the cache
    holds 2000 deg/s. *)
Lemma SetGyroRange_cache_differs_after_failed_write :
  let first := PIOS_MPU6500_SetGyroRange mpu60x0_regs bus_free_once 0x08 in
  let second := PIOS_MPU6500_SetGyroRange mpu60x0_regs bus_free_once 0x18 in
  (option_map cached_gyro_range (final (first fresh)) = Some (Some 0x08)
   /\ option_map (fun s => programmed 0x1B (trace s)) (final (first fresh))
      = Some (Some 0x08))
  /\ option_map cached_gyro_range (final ((first ;; second) fresh))
     = Some (Some 0x18)
  /\ option_map (fun s => programmed 0x1B (trace s))
       (final ((first ;; second) fresh)) = Some (Some 0x08).
Proof.
  vm_compute. repeat split; reflexivity.
Qed.

(** ** The steps of the configuration sequence *)

Lemma ClaimBus_total w s :
  exists r s', PIOS_MPU6500_ClaimBus w s = Done r s'
               /\ pios_mpu6500_dev s' = pios_mpu6500_dev s.
Proof.
  destruct (Z.eq_dec (PIOS_MPU6500_Validate (pios_mpu6500_dev s)) 0) as [Hv|Hv].
  - destruct (Validate_ok_some _ Hv) as [d Hd]. rewrite Hd in Hv.
    rewrite (ClaimBus_valid w s d Hd Hv).
    destruct (claim_answer w d (trace s) =? 0); eauto.
  - rewrite (ClaimBus_invalid w s Hv). eauto.
Qed.

Lemma ReleaseBus_total w s :
  exists r s', PIOS_MPU6500_ReleaseBus w s = Done r s'
               /\ pios_mpu6500_dev s' = pios_mpu6500_dev s.
Proof.
  destruct (Z.eq_dec (PIOS_MPU6500_Validate (pios_mpu6500_dev s)) 0) as [Hv|Hv].
  - destruct (Validate_ok_some _ Hv) as [d Hd]. rewrite Hd in Hv.
    rewrite (ReleaseBus_valid w s d Hd Hv). eauto.
  - unfold PIOS_MPU6500_ReleaseBus, bind, validated.
    apply Z.eqb_neq in Hv. rewrite Hv. simpl. eauto.
Qed.

Section Steps.

Context {A : Type} (spin : bool) (s : state) (d : mpu6500_dev).
Hypothesis Hd : pios_mpu6500_dev s = Some d.

(** A step that returns and keeps the device. *)
Lemma wp_keeps (m : M A) (Q : A -> state -> Prop) :
  (exists r s', m s = Done r s'
                /\ pios_mpu6500_dev s' = pios_mpu6500_dev s) ->
  (forall r s', pios_mpu6500_dev s' = Some d -> Q r s') ->
  wp spin m s Q.
Proof.
  intros (r & s' & Hm & Hdev) HQ. unfold wp. rewrite Hm.
  apply HQ. congruence.
Qed.

End Steps.

Section StepsOfConfig.

Variables (h : pios_mpu60x0_h) (w : world) (spin : bool).
Variables (s : state) (d : mpu6500_dev).
Hypothesis Hd : pios_mpu6500_dev s = Some d.

Lemma wp_SetReg reg data (Q : Z -> state -> Prop) :
  (forall r s', pios_mpu6500_dev s' = Some d -> Q r s') ->
  wp spin (PIOS_MPU6500_SetReg w reg data) s Q.
Proof. apply (wp_keeps spin s d Hd), SetReg_total. Qed.

Lemma wp_ClaimBus (Q : Z -> state -> Prop) :
  (forall r s', pios_mpu6500_dev s' = Some d -> Q r s') ->
  wp spin (PIOS_MPU6500_ClaimBus w) s Q.
Proof. apply (wp_keeps spin s d Hd), ClaimBus_total. Qed.

Lemma wp_ReleaseBus (Q : Z -> state -> Prop) :
  (forall r s', pios_mpu6500_dev s' = Some d -> Q r s') ->
  wp spin (PIOS_MPU6500_ReleaseBus w) s Q.
Proof. apply (wp_keeps spin s d Hd), ReleaseBus_total. Qed.

Lemma wp_call_keeps e (Q : unit -> state -> Prop) :
  (forall r s', pios_mpu6500_dev s' = Some d -> Q r s') ->
  wp spin (call e) s Q.
Proof. apply (wp_keeps spin s d Hd). eexists; eexists. split; reflexivity. Qed.

Lemma wp_set_configured (Q : unit -> state -> Prop) :
  (forall r s', pios_mpu6500_dev s' = Some (set_configured true d) -> Q r s') ->
  wp spin (update (set_configured true)) s Q.
Proof.
  intros HQ. apply (wp_update spin _ s d _ Hd). apply HQ. reflexivity.
Qed.

Lemma wp_SetLPF f (Q : unit -> state -> Prop) :
  (forall r s', pios_mpu6500_dev s' = Some (set_filter f d) -> Q r s') ->
  wp spin (PIOS_MPU6500_SetLPF h w f) s Q.
Proof.
  intros HQ. unfold PIOS_MPU6500_SetLPF. apply wp_bind, wp_SetReg.
  intros r s' Hd'. apply (wp_update spin _ s' d _ Hd'). apply HQ. reflexivity.
Qed.

Lemma wp_SetGyroRange range (Q : unit -> state -> Prop) :
  (forall r s', pios_mpu6500_dev s' = Some (set_gyro_range range d) ->
                Q r s') ->
  wp spin (PIOS_MPU6500_SetGyroRange h w range) s Q.
Proof.
  intros HQ. destruct (SetGyroRange_outcome h w range s d Hd)
    as (s' & Hrun & Hdev & _).
  unfold wp. rewrite Hrun. auto.
Qed.

Lemma wp_SetAccelRange range (Q : unit -> state -> Prop) :
  (forall r s', pios_mpu6500_dev s' = Some (set_accel_range range d) ->
                Q r s') ->
  wp spin (PIOS_MPU6500_SetAccelRange h w range) s Q.
Proof.
  intros HQ. destruct (SetAccelRange_outcome h w range s d Hd)
    as (s' & Hrun & Hdev & _).
  unfold wp. rewrite Hrun. auto.
Qed.

Lemma wp_SetSampleRate r (Q : unit -> state -> Prop) :
  Cint.uint16 r <> 0 ->
  (forall r s', pios_mpu6500_dev s' = Some d -> Q r s') ->
  wp spin (PIOS_MPU6500_SetSampleRate h w r) s Q.
Proof.
  intros Hr HQ. unfold wp.
  rewrite (SetSampleRate_run h w r s d Hd Hr).
  apply wp_bind, wp_SetReg. intros x s' Hd'. apply wp_ret. eauto.
Qed.

(** A polling loop either ends, with the device as it was, or is still
    running when the budget is used up. *)
Lemma wp_poll reg mask budget (Q : unit -> state -> Prop) :
  (forall r s', pios_mpu6500_dev s' = Some d -> Q r s') ->
  wp true (poll_until_clear (PIOS_MPU6500_GetReg w) reg mask budget) s Q.
Proof.
  intros HQ. revert s Hd. induction budget as [|n IH]; intros s0 Hd0.
  - reflexivity.
  - simpl. apply wp_bind.
    apply (wp_keeps true s0 d Hd0);
      [eexists; eexists; split; reflexivity|].
    intros [] s1 Hd1. apply wp_bind.
    destruct (GetReg_total w reg s1) as (v & s2 & Hg & _ & Hd2).
    unfold wp at 1. rewrite Hg.
    assert (Hd2' : pios_mpu6500_dev s2 = Some d) by congruence.
    destruct (negb (Z.land v mask =? 0)).
    + apply IH. assumption.
    + apply wp_ret, HQ. assumption.
Qed.

(** Where every read comes back clear, the loop ends at its first
    turn. *)
Lemma wp_poll_clear reg mask budget (Q : unit -> state -> Prop) :
  reads_clear w d reg mask ->
  (forall r s', pios_mpu6500_dev s' = Some d -> Q r s') ->
  wp spin (poll_until_clear (PIOS_MPU6500_GetReg w) reg mask (S budget)) s Q.
Proof.
  intros Hclear HQ. simpl. apply wp_bind.
  apply (wp_keeps spin s d Hd); [eexists; eexists; split; reflexivity|].
  intros [] s1 Hd1. apply wp_bind.
  destruct (GetReg_total w reg s1) as (v & s2 & Hg & _ & Hd2).
  unfold wp at 1. rewrite Hg. rewrite (Hclear s1 v s2 Hd1 Hg). simpl.
  apply wp_ret, HQ. congruence.
Qed.

(** Where every read comes back with a polled bit set, the loop uses up
    any budget. *)
Lemma poll_stuck reg mask budget :
  reads_stuck w d reg mask ->
  forall s0,
    pios_mpu6500_dev s0 = Some d ->
    poll_until_clear (PIOS_MPU6500_GetReg w) reg mask budget s0 = Spin.
Proof.
  intros Hstuck. induction budget as [|n IH]; intros s0 Hd0; [reflexivity|].
  simpl. unfold bind at 1. unfold call at 1.
  unfold bind at 1.
  destruct (GetReg_total w reg
              {| pios_mpu6500_dev := pios_mpu6500_dev s0;
                 trace := DELAY_WaitmS 5 :: trace s0 |})
    as (v & s2 & Hg & _ & Hd2).
  rewrite Hg.
  apply Hstuck in Hg; [|exact Hd0]. apply Z.eqb_neq in Hg. rewrite Hg. simpl.
  apply IH. simpl in Hd2. congruence.
Qed.

End StepsOfConfig.

(** ** The configuration sequence as a whole *)

(** One step of a sequence, from what is known of the device. *)
Ltac config_step :=
  apply wp_bind;
  first [ apply wp_ret
        | first [ eapply wp_SetReg; [eassumption|]
                | eapply wp_call_keeps; [eassumption|]
                | eapply wp_ClaimBus; [eassumption|]
                | eapply wp_ReleaseBus; [eassumption|]
                | eapply wp_SetLPF; [eassumption|]
                | eapply wp_SetGyroRange; [eassumption|]
                | eapply wp_SetAccelRange; [eassumption|]
                | eapply wp_SetSampleRate; [eassumption|assumption|] ];
          intros ? ? ? ].

Lemma Config_simple_wp h b w spin c s d :
  pios_mpu6500_dev s = Some d ->
  Cint.uint16 (default_samplerate c) <> 0 ->
  wp spin (Config_simple h b w c) s
     (fun _ s' => pios_mpu6500_dev s' = Some (config_result h b c d)).
Proof.
  intros Hd Hr. unfold Config_simple, config_result.
  do 10 config_step.
  destruct (PIOS_MPU6500_ACCEL b).
  - do 3 config_step. eapply wp_set_configured; [eassumption|].
    intros ? ? Hfin. exact Hfin.
  - config_step. do 2 config_step. eapply wp_set_configured; [eassumption|].
    intros ? ? Hfin. exact Hfin.
Qed.

Lemma Config_full_tail_wp h b w spin c s d :
  pios_mpu6500_dev s = Some d ->
  Cint.uint16 (default_samplerate c) <> 0 ->
  wp spin
     (call (DELAY_WaitmS 25) ;;
      PIOS_MPU6500_SetReg w (PIOS_MPU60X0_PWR_MGMT_REG h) (Pwr_mgmt_clk c) ;;
      PIOS_MPU6500_SetReg w (PIOS_MPU60X0_INT_CFG_REG h) (interrupt_cfg c) ;;
      PIOS_MPU6500_SetReg w (PIOS_MPU60X0_INT_EN_REG h) (interrupt_en c) ;;
      (if PIOS_MPU6500_ACCEL b
       then PIOS_MPU6500_SetAccelRange h w (PIOS_MPU60X0_ACCEL_8G h)
       else ret tt) ;;
      PIOS_MPU6500_SetLPF h w (default_filter c) ;;
      PIOS_MPU6500_SetSampleRate h w (default_samplerate c) ;;
      PIOS_MPU6500_SetGyroRange h w (PIOS_MPU60X0_SCALE_500_DEG h) ;;
      PIOS_MPU6500_SetReg w (PIOS_MPU60X0_USER_CTRL_REG h) (User_ctl c) ;;
      PIOS_MPU6500_SetReg w (PIOS_MPU60X0_PWR_MGMT_REG h) (Pwr_mgmt_clk c) ;;
      PIOS_MPU6500_SetReg w (PIOS_MPU60X0_INT_CFG_REG h) (interrupt_cfg c) ;;
      PIOS_MPU6500_SetReg w (PIOS_MPU60X0_INT_EN_REG h) (interrupt_en c) ;;
      update (set_configured true)) s
     (fun _ s' => pios_mpu6500_dev s' = Some (config_result h b c d)).
Proof.
  intros Hd Hr. unfold config_result.
  do 4 config_step.
  destruct (PIOS_MPU6500_ACCEL b);
    do 8 config_step; (eapply wp_set_configured; [eassumption|]);
    intros ? ? Hfin; exact Hfin.
Qed.

(** Without the simple-sequence option: the sequence ends with the
    device configured, or a polling loop is still running. *)
Lemma Config_full_wp h b w c budget s d :
  pios_mpu6500_dev s = Some d ->
  Cint.uint16 (default_samplerate c) <> 0 ->
  wp true (Config_full h b w c budget) s
     (fun _ s' => pios_mpu6500_dev s' = Some (config_result h b c d)).
Proof.
  intros Hd Hr. unfold Config_full, PIOS_MPU5000_GetReg.
  do 5 config_step.
  apply wp_bind. eapply wp_poll; [eassumption|]. intros ? ? ?.
  do 2 config_step.
  apply wp_bind. eapply wp_poll; [eassumption|]. intros ? ? ?.
  apply Config_full_tail_wp; assumption.
Qed.

(** Where the polled bits read clear, it ends. *)
Lemma Config_full_clear_wp h b w c budget s d :
  reads_clear w d (PIOS_MPU60X0_PWR_MGMT_REG h) 0x80 ->
  reads_clear w d (PIOS_MPU60X0_USER_CTRL_REG h) 0x07 ->
  pios_mpu6500_dev s = Some d ->
  Cint.uint16 (default_samplerate c) <> 0 ->
  wp false (Config_full h b w c (S budget)) s
     (fun _ s' => pios_mpu6500_dev s' = Some (config_result h b c d)).
Proof.
  intros Hc1 Hc2 Hd Hr. unfold Config_full, PIOS_MPU5000_GetReg.
  do 5 config_step.
  apply wp_bind. eapply wp_poll_clear; [eassumption|assumption|]. intros ? ? ?.
  do 2 config_step.
  apply wp_bind. eapply wp_poll_clear; [eassumption|assumption|]. intros ? ? ?.
  apply Config_full_tail_wp; assumption.
Qed.

(** Where the reset bit of the power management register never reads
    clear, no budget is enough. *)
Lemma Config_full_stuck h b w c budget s d :
  reads_stuck w d (PIOS_MPU60X0_PWR_MGMT_REG h) 0x80 ->
  pios_mpu6500_dev s = Some d ->
  Config_full h b w c budget s = Spin.
Proof.
  intros Hstuck Hd.
  assert (H : wp true (Config_full h b w c budget) s (fun _ _ => False)).
  { unfold Config_full. do 5 config_step.
    apply wp_bind. unfold wp at 1.
    rewrite (poll_stuck w d _ _ budget Hstuck) by assumption.
    reflexivity. }
  unfold wp in H. destruct (Config_full h b w c budget s); tauto.
Qed.

(** The same of the second loop: where the reset bits of the user
    control register never read clear, the sequence either never leaves
    its first loop or never leaves its second. *)
Lemma Config_full_stuck_second h b w c budget s d :
  reads_stuck w d (PIOS_MPU60X0_USER_CTRL_REG h) 0x07 ->
  pios_mpu6500_dev s = Some d ->
  Config_full h b w c budget s = Spin.
Proof.
  intros Hstuck Hd.
  assert (H : wp true (Config_full h b w c budget) s (fun _ _ => False)).
  { unfold Config_full, PIOS_MPU5000_GetReg. do 5 config_step.
    apply wp_bind. eapply wp_poll; [eassumption|]. intros ? ? ?.
    do 2 config_step.
    apply wp_bind. unfold wp at 1.
    rewrite (poll_stuck w d _ _ budget Hstuck) by assumption.
    reflexivity. }
  unfold wp in H. destruct (Config_full h b w c budget s); tauto.
Qed.

(** Reads on a free bus whose byte transfers all answer [v]. *)
Lemma GetReg_answering v reg s r s' :
  PIOS_MPU6500_GetReg (bus_answering v) reg s = Done r s' ->
  r = -1 \/ r = Cint.uint8 v.
Proof.
  destruct (Z.eq_dec (PIOS_MPU6500_Validate (pios_mpu6500_dev s)) 0) as [Hok|Hbad].
  - destruct (Validate_ok_some _ Hok) as [d Hd]. rewrite Hd in Hok.
    rewrite (GetReg_valid _ reg s d Hd Hok).
    cbn [claim_answer bus_answering bus PIOS_SPI_ClaimBus
           PIOS_SPI_TransferByte].
    rewrite Z.eqb_refl. intros H. injection H as <- _. right. reflexivity.
  - rewrite (GetReg_invalid _ reg s Hbad). intros H. injection H as <- _.
    left. reflexivity.
Qed.

Lemma reads_stuck_answering_0x80 d reg :
  reads_stuck (bus_answering 0x80) d reg 0x80.
Proof.
  intros s v s' _ H. apply GetReg_answering in H.
  destruct H as [-> | ->]; vm_compute; discriminate.
Qed.

Lemma reads_clear_answering_0 d reg mask :
  PIOS_MPU6500_Validate (Some d) = 0 ->
  reads_clear (bus_answering 0) d reg mask.
Proof.
  intros Hok s v s' Hd H.
  rewrite (GetReg_valid _ reg s d Hd Hok) in H.
  cbn [claim_answer bus_answering bus PIOS_SPI_ClaimBus
         PIOS_SPI_TransferByte] in H.
  rewrite Z.eqb_refl in H. injection H as <- _. reflexivity.
Qed.

(** A bus whose byte transfers all answer 0x07: the reset bit of the
    power management register reads clear, the reset bits of the user
    control register read set. *)
Lemma reads_clear_answering_0x07 d reg :
  PIOS_MPU6500_Validate (Some d) = 0 ->
  reads_clear (bus_answering 0x07) d reg 0x80.
Proof.
  intros Hok s v s' Hd H.
  rewrite (GetReg_valid _ reg s d Hd Hok) in H.
  cbn [claim_answer bus_answering bus PIOS_SPI_ClaimBus
         PIOS_SPI_TransferByte] in H.
  rewrite Z.eqb_refl in H. injection H as <- _. reflexivity.
Qed.

Lemma reads_stuck_answering_0x07 d reg :
  reads_stuck (bus_answering 0x07) d reg 0x07.
Proof.
  intros s v s' _ H. apply GetReg_answering in H.
  destruct H as [-> | ->]; vm_compute; discriminate.
Qed.

Lemma Config_outcome h b w c budget s d :
  pios_mpu6500_dev s = Some d ->
  Cint.uint16 (default_samplerate c) <> 0 ->
  (PIOS_MPU6500_SIMPLE_INIT_SEQUENCE b = true
   \/ (reads_clear w d (PIOS_MPU60X0_PWR_MGMT_REG h) 0x80
       /\ reads_clear w d (PIOS_MPU60X0_USER_CTRL_REG h) 0x07
       /\ budget <> O) ->
   exists s', PIOS_MPU6500_Config h b w c budget s = Done tt s'
              /\ pios_mpu6500_dev s' = Some (config_result h b c d))
  /\ (PIOS_MPU6500_Config h b w c budget s = Spin
      \/ exists s', PIOS_MPU6500_Config h b w c budget s = Done tt s'
                    /\ pios_mpu6500_dev s' = Some (config_result h b c d)).
Proof.
  intros Hd Hr. unfold PIOS_MPU6500_Config. split.
  - intros Hcase.
    assert (Hwp : wp false (if PIOS_MPU6500_SIMPLE_INIT_SEQUENCE b
                            then Config_simple h b w c
                            else Config_full h b w c budget) s
                     (fun _ s' =>
                        pios_mpu6500_dev s' = Some (config_result h b c d))).
    { destruct (PIOS_MPU6500_SIMPLE_INIT_SEQUENCE b).
      - apply Config_simple_wp; assumption.
      - destruct Hcase as [Hs | (Hc1 & Hc2 & Hb)]; [discriminate|].
        destruct budget as [|n]; [contradiction|].
        apply Config_full_clear_wp; assumption. }
    destruct (wp_done _ _ _ _ Hwp eq_refl) as ([] & s' & Hrun & Hdev).
    eauto.
  - assert (Hwp : wp true (if PIOS_MPU6500_SIMPLE_INIT_SEQUENCE b
                           then Config_simple h b w c
                           else Config_full h b w c budget) s
                     (fun _ s' =>
                        pios_mpu6500_dev s' = Some (config_result h b c d))).
    { destruct (PIOS_MPU6500_SIMPLE_INIT_SEQUENCE b).
      - apply Config_simple_wp; assumption.
      - apply Config_full_wp; assumption. }
    destruct (wp_done_or_spin _ _ _ Hwp) as [Hspin | ([] & s' & Hrun & Hdev)];
      eauto.
Qed.

Lemma config_result_flag h b c d s' :
  pios_mpu6500_dev s' = Some (config_result h b c d) -> flag_set s'.
Proof.
  unfold flag_set. intros ->. reflexivity.
Qed.

Lemma config_result_ranges h b c d s' :
  pios_mpu6500_dev s' = Some (config_result h b c d) -> default_ranges h b s'.
Proof.
  intros Hd'. unfold default_ranges, cached_gyro_range, cached_accel_range.
  rewrite Hd'. split; [reflexivity|]. split.
  - intros Ha. unfold config_result. rewrite Ha. reflexivity.
  - intros Hl. split.
    + apply (GetGyroScale_table h s' _ Hl Hd'). reflexivity.
    + intros Hacc. apply (GetAccelScale_table h s' _ Hl Hd').
      unfold config_result. rewrite Hacc. reflexivity.
Qed.

(** In the world whose byte transfers all answer [v], a write fails
    whenever [v] is not zero. *)
Lemma SetReg_fails_on_echo v reg data s :
  v <> 0 ->
  result (PIOS_MPU6500_SetReg (bus_answering v) reg data s) <> Some 0.
Proof.
  intros Hv.
  destruct (Z.eq_dec (PIOS_MPU6500_Validate (pios_mpu6500_dev s)) 0) as [Hok|Hbad].
  - destruct (Validate_ok_some _ Hok) as [d Hd]. rewrite Hd in Hok.
    rewrite (SetReg_valid _ reg data s d Hd Hok).
    apply Z.eqb_neq in Hv.
    cbn [claim_answer bus_answering bus PIOS_SPI_ClaimBus
           PIOS_SPI_TransferByte].
    rewrite Z.eqb_refl, Hv. simpl. discriminate.
  - rewrite (SetReg_invalid _ reg data s Hbad). simpl. discriminate.
Qed.

(** ** The configuration sequence on a quiet bus *)

Lemma read_address_byte reg :
  Z.testbit (Cint.uint8 (Z.lor 0x80 (Cint.uint8 reg))) 7 = true.
Proof.
  unfold Cint.uint8 at 1. change 256 with (2 ^ 8).
  rewrite Z.mod_pow2_bits_low by lia.
  rewrite Z.lor_spec. reflexivity.
Qed.

Lemma chip_after_write d reg data t a :
  regs (chip_of (released d (write_t2 d reg data t))) a
  = if a =? reg_addr reg then Some (Cint.uint8 data) else regs (chip_of t) a.
Proof.
  unfold released, write_t2, write_t1, after_claim.
  destruct (write_address_byte reg) as [Ha Hb].
  rewrite Ha, uint8_idem.
  cbn [chip_of chip_step chip_byte phase regs]. rewrite Z.eqb_refl.
  cbn [chip_byte phase regs].
  rewrite Hb. cbn [chip_byte phase regs]. reflexivity.
Qed.

Lemma chip_after_read d reg t a :
  regs (chip_of (released d (read_t2 d reg t))) a = regs (chip_of t) a.
Proof.
  unfold released, read_t2, after_claim.
  cbn [chip_of chip_step chip_byte phase regs]. rewrite Z.eqb_refl.
  cbn [chip_byte phase regs].
  rewrite read_address_byte. reflexivity.
Qed.

Lemma apart_neq reg others x :
  apart reg others = true -> In x others -> reg_addr reg <> reg_addr x.
Proof.
  unfold apart. rewrite forallb_forall. intros H Hin.
  specialize (H x Hin). apply negb_true_iff, Z.eqb_neq in H. congruence.
Qed.

Section QuietSteps.

Variables (h : pios_mpu60x0_h) (w : world) (spin : bool).
Variables (s : state) (d : mpu6500_dev).
Hypothesis Hq : quiet_bus w.
Hypothesis Hd : pios_mpu6500_dev s = Some d.
Hypothesis Hv : PIOS_MPU6500_Validate (Some d) = 0.

Lemma SetReg_quiet reg data :
  PIOS_MPU6500_SetReg w reg data s
  = Done 0 (with_trace s (released d (write_t2 d reg data (trace s)))).
Proof.
  destruct Hq as [Hc Hb].
  rewrite (SetReg_valid w reg data s d Hd Hv).
  unfold claim_answer. rewrite Hc, !Hb. reflexivity.
Qed.

Lemma GetReg_quiet reg :
  PIOS_MPU6500_GetReg w reg s
  = Done 0 (with_trace s (released d (read_t2 d reg (trace s)))).
Proof.
  destruct Hq as [Hc Hb].
  rewrite (GetReg_valid w reg s d Hd Hv).
  unfold claim_answer. rewrite Hc, Hb. reflexivity.
Qed.

(** A write succeeds, changes no other register, and leaves its byte
    in its own. *)
Lemma wpq_SetReg reg data (Q : Z -> state -> Prop) :
  (forall r s',
      pios_mpu6500_dev s' = Some d ->
      chip_kept_except reg s s' ->
      programmed reg (trace s') = Some (Cint.uint8 data) -> Q r s') ->
  wp spin (PIOS_MPU6500_SetReg w reg data) s Q.
Proof.
  intros HQ. unfold wp. rewrite SetReg_quiet. apply HQ.
  - exact Hd.
  - intros a Ha. cbn [with_trace trace]. rewrite chip_after_write.
    apply Z.eqb_neq in Ha. rewrite Ha. reflexivity.
  - unfold programmed. cbn [with_trace trace]. rewrite chip_after_write.
    rewrite Z.eqb_refl. reflexivity.
Qed.

(** A step that returns, keeps the device and changes no register. *)
Lemma wpq_kept {A} (m : M A) (Q : A -> state -> Prop) :
  (exists r s', m s = Done r s'
                /\ pios_mpu6500_dev s' = pios_mpu6500_dev s
                /\ chip_kept s s') ->
  (forall r s', pios_mpu6500_dev s' = Some d -> chip_kept s s' -> Q r s') ->
  wp spin m s Q.
Proof.
  intros (r & s' & Hm & Hdev & Hk) HQ. unfold wp. rewrite Hm.
  apply HQ; [congruence | assumption].
Qed.

Lemma wpq_call e (Q : unit -> state -> Prop) :
  (forall c, chip_step c e = c) ->
  (forall r s', pios_mpu6500_dev s' = Some d -> chip_kept s s' -> Q r s') ->
  wp spin (call e) s Q.
Proof.
  intros He. apply wpq_kept. eexists; eexists.
  split; [reflexivity|]. split; [reflexivity|].
  intros a. cbn [call trace chip_of]. rewrite He. reflexivity.
Qed.

Lemma wpq_ClaimBus (Q : Z -> state -> Prop) :
  (forall r s', pios_mpu6500_dev s' = Some d -> chip_kept s s' -> Q r s') ->
  wp spin (PIOS_MPU6500_ClaimBus w) s Q.
Proof.
  apply wpq_kept. rewrite (ClaimBus_valid w s d Hd Hv).
  destruct (claim_answer w d (trace s) =? 0); eexists; eexists;
    (split; [reflexivity|]); (split; [reflexivity|]); intros a; reflexivity.
Qed.

Lemma wpq_ReleaseBus (Q : Z -> state -> Prop) :
  (forall r s', pios_mpu6500_dev s' = Some d -> chip_kept s s' -> Q r s') ->
  wp spin (PIOS_MPU6500_ReleaseBus w) s Q.
Proof.
  apply wpq_kept. rewrite (ReleaseBus_valid w s d Hd Hv).
  eexists; eexists. split; [reflexivity|]. split; [reflexivity|].
  intros a; reflexivity.
Qed.

Lemma wpq_update f (Q : unit -> state -> Prop) :
  (forall r s', pios_mpu6500_dev s' = Some (f d) -> chip_kept s s' -> Q r s') ->
  wp spin (update f) s Q.
Proof.
  intros HQ. apply (wp_update spin f s d Q Hd). apply HQ; [reflexivity|].
  intros a. reflexivity.
Qed.

(** On a quiet bus a polling loop ends at its first turn. *)
Lemma wpq_poll reg mask budget (Q : unit -> state -> Prop) :
  (forall r s', pios_mpu6500_dev s' = Some d -> chip_kept s s' -> Q r s') ->
  wp spin (poll_until_clear (PIOS_MPU6500_GetReg w) reg mask (S budget)) s Q.
Proof.
  intros HQ. cbn [poll_until_clear]. unfold wp.
  rewrite (bind_Done _ _ s tt
             (with_trace s (DELAY_WaitmS 5 :: trace s))) by reflexivity.
  destruct Hq as [Hc Hb].
  rewrite (bind_Done _ _ _ 0
             (with_trace s (released d (read_t2 d reg
                                          (DELAY_WaitmS 5 :: trace s))))).
  - cbn [Z.land Z.eqb negb]. apply HQ; [exact Hd|].
    intros a. cbn [with_trace trace]. rewrite chip_after_read. reflexivity.
  - rewrite (GetReg_valid w reg _ d) by (first [exact Hv | exact Hd]).
    unfold claim_answer. rewrite Hc, Hb. reflexivity.
Qed.

End QuietSteps.

Section QuietSetters.

Variables (h : pios_mpu60x0_h) (w : world) (spin : bool).
Variables (s : state) (d : mpu6500_dev).
Hypothesis Hq : quiet_bus w.
Hypothesis Hd : pios_mpu6500_dev s = Some d.
Hypothesis Hv : PIOS_MPU6500_Validate (Some d) = 0.

Lemma wpq_SetLPF f (Q : unit -> state -> Prop) :
  (forall r s',
      pios_mpu6500_dev s' = Some (set_filter f d) ->
      chip_kept_except (PIOS_MPU60X0_DLPF_CFG_REG h) s s' -> Q r s') ->
  wp spin (PIOS_MPU6500_SetLPF h w f) s Q.
Proof.
  intros HQ. unfold PIOS_MPU6500_SetLPF.
  apply wp_bind, (wpq_SetReg w spin s d Hq Hd Hv). intros r s1 Hd1 K1 _.
  apply (wpq_update spin s1 d Hd1). intros r2 s2 Hd2 K2.
  apply HQ; [assumption|]. intros a Ha. rewrite (K2 a). apply K1, Ha.
Qed.

Lemma wpq_SetSampleRate r (Q : unit -> state -> Prop) :
  Cint.uint16 r <> 0 ->
  (forall r s',
      pios_mpu6500_dev s' = Some d ->
      chip_kept_except (PIOS_MPU60X0_SMPLRT_DIV_REG h) s s' -> Q r s') ->
  wp spin (PIOS_MPU6500_SetSampleRate h w r) s Q.
Proof.
  intros Hr HQ. unfold wp. rewrite (SetSampleRate_run h w r s d Hd Hr).
  apply wp_bind, (wpq_SetReg w spin s d Hq Hd Hv). intros x s1 Hd1 K1 _.
  apply wp_ret, HQ; assumption.
Qed.

Lemma wpq_SetAccelRange range (Q : unit -> state -> Prop) :
  (forall r s',
      pios_mpu6500_dev s' = Some (set_accel_range range d) ->
      chip_kept_except (PIOS_MPU60X0_ACCEL_CFG_REG h) s s' ->
      programmed (PIOS_MPU60X0_ACCEL_CFG_REG h) (trace s')
      = Some (Cint.uint8 range) -> Q r s') ->
  wp spin (PIOS_MPU6500_SetAccelRange h w range) s Q.
Proof.
  intros HQ. unfold PIOS_MPU6500_SetAccelRange.
  apply wp_bind, (wpq_SetReg w spin s d Hq Hd Hv). intros r s1 Hd1 K1 P1.
  apply (wpq_update spin s1 d Hd1). intros r2 s2 Hd2 K2.
  apply HQ; [assumption| |].
  - intros a Ha. rewrite (K2 a). apply K1, Ha.
  - unfold programmed. rewrite (K2 _). exact P1.
Qed.

Lemma wpq_SetGyroRange range (Q : unit -> state -> Prop) :
  (forall r s',
      pios_mpu6500_dev s' = Some (set_gyro_range range d) ->
      chip_kept_except (PIOS_MPU60X0_GYRO_CFG_REG h) s s' ->
      programmed (PIOS_MPU60X0_GYRO_CFG_REG h) (trace s')
      = Some (Cint.uint8 range) -> Q r s') ->
  wp spin (PIOS_MPU6500_SetGyroRange h w range) s Q.
Proof.
  intros HQ. unfold PIOS_MPU6500_SetGyroRange.
  apply wp_bind, (wpq_SetReg w spin s d Hq Hd Hv). intros r s1 Hd1 K1 P1.
  assert (Hmax : forall m : M unit,
             (m = ret tt \/ exists v, m = call (SENSORS_SetMaxGyro v)) ->
             wp spin (m ;; update (set_gyro_range range)) s1 Q).
  { intros m Hm. apply wp_bind.
    assert (Hstep : exists r' s2, m s1 = Done r' s2
                      /\ pios_mpu6500_dev s2 = pios_mpu6500_dev s1
                      /\ chip_kept s1 s2).
    { destruct Hm as [-> | [v ->]]; eexists; eexists;
        (split; [reflexivity|]); (split; [reflexivity|]);
        intros a; reflexivity. }
    apply (wpq_kept spin s1 d Hd1 m _ Hstep). intros r2 s2 Hd2 K2.
    apply (wpq_update spin s2 d Hd2). intros r3 s3 Hd3 K3.
    apply HQ; [assumption| |].
    - intros a Ha. rewrite (K3 a), (K2 a). apply K1, Ha.
    - unfold programmed. rewrite (K3 _), (K2 _). exact P1. }
  apply Hmax.
  repeat match goal with
         | |- context [if ?c then _ else _] => destruct c
         end; eauto.
Qed.

End QuietSetters.

(** One step of a sequence on a quiet bus. *)
Ltac quiet_step Hv :=
  apply wp_bind;
  first [ apply wp_ret
        | first [ eapply wpq_SetReg; [eassumption | eassumption | exact Hv |]
                | eapply wpq_call; [eassumption | intros ?; reflexivity |]
                | eapply wpq_ClaimBus; [eassumption | exact Hv |]
                | eapply wpq_ReleaseBus; [eassumption | exact Hv |]
                | eapply wpq_SetLPF; [eassumption | eassumption | exact Hv |]
                | eapply wpq_SetGyroRange;
                  [eassumption | eassumption | exact Hv |]
                | eapply wpq_SetAccelRange;
                  [eassumption | eassumption | exact Hv |]
                | eapply wpq_SetSampleRate;
                  [eassumption | eassumption | exact Hv | assumption |]
                | eapply wpq_poll; [eassumption | eassumption | exact Hv |] ];
          intros ].

(** Follow a register back through the steps that left it alone. *)
Ltac chase Hapart :=
  unfold programmed in *;
  repeat match goal with
         | K : chip_kept ?s ?s'
           |- regs (chip_of (trace ?s')) ?a = _ => rewrite (K a)
         | K : chip_kept_except ?r ?s ?s'
           |- regs (chip_of (trace ?s')) ?a = _ =>
             rewrite (K a)
               by (apply (apart_neq _ _ _ Hapart); simpl; auto 10)
         end;
  assumption.

Lemma Config_simple_quiet h b w spin c s d :
  quiet_bus w ->
  pios_mpu6500_dev s = Some d ->
  PIOS_MPU6500_Validate (Some d) = 0 ->
  Cint.uint16 (default_samplerate c) <> 0 ->
  range_registers_apart h = true ->
  wp spin (Config_simple h b w c) s
     (fun _ s' => default_ranges_programmed h b s').
Proof.
  intros Hq Hd Hv Hr Hap. apply andb_true_iff in Hap. destruct Hap as [HG HA].
  unfold Config_simple, default_ranges_programmed.
  do 10 quiet_step Hv.
  destruct (PIOS_MPU6500_ACCEL b).
  - do 3 quiet_step Hv. eapply wpq_update; [eassumption|]. intros.
    split; [chase HG | intros _; chase HA].
  - do 3 quiet_step Hv. eapply wpq_update; [eassumption|]. intros.
    split; [chase HG | discriminate].
Qed.

Lemma Config_full_quiet h b w spin c budget s d :
  quiet_bus w ->
  pios_mpu6500_dev s = Some d ->
  PIOS_MPU6500_Validate (Some d) = 0 ->
  Cint.uint16 (default_samplerate c) <> 0 ->
  range_registers_apart h = true ->
  wp spin (Config_full h b w c (S budget)) s
     (fun _ s' => default_ranges_programmed h b s').
Proof.
  intros Hq Hd Hv Hr Hap. apply andb_true_iff in Hap. destruct Hap as [HG HA].
  unfold Config_full, PIOS_MPU5000_GetReg, default_ranges_programmed.
  do 13 quiet_step Hv.
  destruct (PIOS_MPU6500_ACCEL b).
  - do 8 quiet_step Hv. eapply wpq_update; [eassumption|]. intros.
    split; [chase HG | intros _; chase HA].
  - do 8 quiet_step Hv. eapply wpq_update; [eassumption|]. intros.
    split; [chase HG | discriminate].
Qed.

Lemma Config_quiet h b w c budget s d :
  quiet_bus w ->
  pios_mpu6500_dev s = Some d ->
  PIOS_MPU6500_Validate (Some d) = 0 ->
  Cint.uint16 (default_samplerate c) <> 0 ->
  range_registers_apart h = true ->
  PIOS_MPU6500_SIMPLE_INIT_SEQUENCE b = true \/ budget <> O ->
  exists s', PIOS_MPU6500_Config h b w c budget s = Done tt s'
             /\ default_ranges_programmed h b s'.
Proof.
  intros Hq Hd Hv Hr Hap Hcase. unfold PIOS_MPU6500_Config.
  assert (Hwp : wp false (if PIOS_MPU6500_SIMPLE_INIT_SEQUENCE b
                          then Config_simple h b w c
                          else Config_full h b w c budget) s
                   (fun _ s' => default_ranges_programmed h b s')).
  { destruct (PIOS_MPU6500_SIMPLE_INIT_SEQUENCE b).
    - apply (Config_simple_quiet h b w false c s d); assumption.
    - destruct Hcase as [Hs | Hb]; [discriminate|].
      destruct budget as [|n]; [contradiction|].
      apply (Config_full_quiet h b w false c n s d); assumption. }
  destruct (wp_done _ _ _ _ Hwp eq_refl) as ([] & s' & Hrun & Hp). eauto.
Qed.

(** C5 (as the code has it): the configuration sequence sets the gyro
    range to 500 deg/s, the third-widest of the four (scale 1/65.5), and,
    when accel is enabled, the accel range to 8 g, the second-widest of
    the four (scale GRAVITY/4096); on a bus where every write succeeds
    the gyro and accel configuration registers hold these two values
    when the sequence ends. *)
Theorem Config_default_ranges
  (h : pios_mpu60x0_h) (b : build) (w : world) (c : pios_mpu60x0_cfg)
  (budget : nat) (s : state) (d : mpu6500_dev) :
  pios_mpu6500_dev s = Some d ->
  Cint.uint16 (default_samplerate c) <> 0 ->
  let run := PIOS_MPU6500_Config h b w c budget s in
  (PIOS_MPU6500_SIMPLE_INIT_SEQUENCE b = true ->
   ends_with run (default_ranges h b))
  /\ (reads_clear w d (PIOS_MPU60X0_PWR_MGMT_REG h) 0x80 ->
      reads_clear w d (PIOS_MPU60X0_USER_CTRL_REG h) 0x07 ->
      budget <> O -> ends_with run (default_ranges h b))
  /\ (run = Spin \/ ends_with run (default_ranges h b))
  /\ (quiet_bus w ->
      PIOS_MPU6500_Validate (Some d) = 0 ->
      range_registers_apart h = true ->
      PIOS_MPU6500_SIMPLE_INIT_SEQUENCE b = true \/ budget <> O ->
      ends_with run (default_ranges_programmed h b)).
Proof.
  intros Hd Hr run. subst run.
  destruct (Config_outcome h b w c budget s d Hd Hr) as [Htot Hpart].
  unfold ends_with. split; [|split; [|split]].
  - intros Hs. destruct (Htot (or_introl Hs)) as (s' & Hrun & Hdev).
    exists s'. split; [assumption|]. eapply config_result_ranges; eassumption.
  - intros H1 H2 H3.
    destruct (Htot (or_intror (conj H1 (conj H2 H3)))) as (s' & Hrun & Hdev).
    exists s'. split; [assumption|]. eapply config_result_ranges; eassumption.
  - destruct Hpart as [Hspin | (s' & Hrun & Hdev)]; [left; assumption|].
    right. exists s'. split; [assumption|].
    eapply config_result_ranges; eassumption.
  - intros Hq Hv Hap Hcase.
    exact (Config_quiet h b w c budget s d Hq Hd Hv Hr Hap Hcase).
Qed.

Lemma quiet_bus_answering_0 : quiet_bus (bus_answering 0).
Proof.
  split; intros t; reflexivity.
Qed.

(** Both sequences with accel on a free bus answering zero. *)
Lemma Config_default_ranges_witness :
  (ends_with (PIOS_MPU6500_Config mpu60x0_regs accel_simple (bus_answering 0)
                board_cfg 0 fresh) (default_ranges mpu60x0_regs accel_simple)
   /\ ends_with (PIOS_MPU6500_Config mpu60x0_regs accel_full (bus_answering 0)
                   board_cfg 1 fresh)
        (default_ranges mpu60x0_regs accel_full))
  /\ ends_with (PIOS_MPU6500_Config mpu60x0_regs accel_full (bus_answering 0)
                  board_cfg 1 fresh)
       (default_ranges_programmed mpu60x0_regs accel_full).
Proof.
  assert (Hrate : Cint.uint16 (default_samplerate board_cfg) <> 0)
    by (vm_compute; discriminate).
  split; [split|].
  - exact (proj1 (Config_default_ranges mpu60x0_regs accel_simple
                    (bus_answering 0) board_cfg 0 fresh fresh_dev
                    eq_refl Hrate) eq_refl).
  - apply (proj1 (proj2 (Config_default_ranges mpu60x0_regs accel_full
                           (bus_answering 0) board_cfg 1 fresh fresh_dev
                           eq_refl Hrate))).
    + apply reads_clear_answering_0. reflexivity.
    + apply reads_clear_answering_0. reflexivity.
    + discriminate.
  - apply (proj2 (proj2 (proj2 (Config_default_ranges mpu60x0_regs accel_full
                                  (bus_answering 0) board_cfg 1 fresh
                                  fresh_dev eq_refl Hrate)))).
    + exact quiet_bus_answering_0.
    + reflexivity.
    + reflexivity.
    + right. discriminate.
Defined.

(** C5, counterexample: after the configuration sequence on a free bus
    the gyro range cached and written to the gyro configuration register
    is the value of 500 deg/s, not that of 1000 deg/s, the rate reported
    to the sensor registry is 500, and the accel range cached and written
    is the value of 8 g, not that of 4 g. *)
Lemma Config_defaults_are_not_1000dps_and_4g :
  let run := PIOS_MPU6500_Config mpu60x0_regs accel_simple (bus_answering 0)
               board_cfg 0 fresh in
  option_map cached_gyro_range (final run)
  = Some (Some (PIOS_MPU60X0_SCALE_500_DEG mpu60x0_regs))
  /\ option_map cached_gyro_range (final run)
     <> Some (Some (PIOS_MPU60X0_SCALE_1000_DEG mpu60x0_regs))
  /\ option_map (fun s => programmed 0x1B (trace s)) (final run)
     = Some (Some (PIOS_MPU60X0_SCALE_500_DEG mpu60x0_regs))
  /\ option_map (fun s => existsb (fun e => match e with
                                           | SENSORS_SetMaxGyro v => v =? 500
                                           | _ => false
                                           end) (trace s)) (final run)
     = Some true
  /\ option_map cached_accel_range (final run)
     = Some (Some (PIOS_MPU60X0_ACCEL_8G mpu60x0_regs))
  /\ option_map cached_accel_range (final run)
     <> Some (Some (PIOS_MPU60X0_ACCEL_4G mpu60x0_regs))
  /\ option_map (fun s => programmed 0x1C (trace s)) (final run)
     = Some (Some (PIOS_MPU60X0_ACCEL_8G mpu60x0_regs)).
Proof.
  vm_compute. repeat split; try reflexivity; discriminate.
Qed.

(** ** The polling loops *)

(** One turn of a polling loop always returns. *)
Lemma poll_once_total w reg s :
  exists v s', poll_once (PIOS_MPU6500_GetReg w) reg s = Done v s'.
Proof.
  unfold poll_once, bind, call.
  destruct (GetReg_total w reg
              {| pios_mpu6500_dev := pios_mpu6500_dev s;
                 trace := DELAY_WaitmS 5 :: trace s |})
    as (v & s' & Hg & _).
  rewrite Hg. eauto.
Qed.

(** A loop with budget left makes one turn, and ends if the polled bits
    of the value read are clear, and goes on otherwise. *)
Lemma poll_turn w reg mask budget s v s1 :
  poll_once (PIOS_MPU6500_GetReg w) reg s = Done v s1 ->
  poll_until_clear (PIOS_MPU6500_GetReg w) reg mask (S budget) s
  = if Z.land v mask =? 0 then Done tt s1
    else poll_until_clear (PIOS_MPU6500_GetReg w) reg mask budget s1.
Proof.
  unfold poll_once. simpl. unfold bind at 1 3. unfold call.
  unfold bind at 1.
  destruct (PIOS_MPU6500_GetReg w reg _) as [v' s'| |]; try discriminate.
  intros H. injection H as -> ->.
  destruct (Z.land v mask =? 0); reflexivity.
Qed.

(** More budget does not change how a loop ends. *)
Lemma poll_budget_mono w reg mask budget : forall s s',
  poll_until_clear (PIOS_MPU6500_GetReg w) reg mask budget s = Done tt s' ->
  poll_until_clear (PIOS_MPU6500_GetReg w) reg mask (S budget) s = Done tt s'.
Proof.
  induction budget as [|n IH]; intros s s' H; [discriminate|].
  destruct (poll_once_total w reg s) as (v & s1 & Hturn).
  rewrite (poll_turn w reg mask (S n) s v s1 Hturn).
  rewrite (poll_turn w reg mask n s v s1 Hturn) in H.
  destruct (Z.land v mask =? 0); [assumption|].
  apply IH. assumption.
Qed.

(** C4 (as the code has it): the polling loops of the configuration
    sequence have no bound of their own.  Each turn waits and reads the
    register; the loop ends at the first read whose polled bits are
    clear and goes on otherwise, a failed read (-1) counting as set.
    Where the bits never read clear the loop runs on whatever the
    budget, and with it the configuration sequence: it does not end
    while the reset bit of the power management register stays set, nor
    while a reset bit of the user control register stays set, although
    the first loop has ended.  Where the bits of both registers read
    clear the sequence ends. *)
Theorem poll_loop_ends_only_on_clear_read
  (h : pios_mpu60x0_h) (b : build) (w : world) (c : pios_mpu60x0_cfg)
  (reg mask : Z) (budget : nat) (s : state) (d : mpu6500_dev) :
  pios_mpu6500_dev s = Some d ->
  PIOS_MPU6500_SIMPLE_INIT_SEQUENCE b = false ->
  let poll := poll_until_clear (PIOS_MPU6500_GetReg w) reg mask in
  (exists v s1,
      poll_once (PIOS_MPU6500_GetReg w) reg s = Done v s1
      /\ poll (S budget) s
         = if Z.land v mask =? 0 then Done tt s1 else poll budget s1)
  /\ poll O s = Spin
  /\ (forall s', poll budget s = Done tt s' -> poll (S budget) s = Done tt s')
  /\ (reads_stuck w d reg mask -> poll budget s = Spin)
  /\ (reads_stuck w d (PIOS_MPU60X0_PWR_MGMT_REG h) 0x80 ->
      PIOS_MPU6500_Config h b w c budget s = Spin)
  /\ (reads_stuck w d (PIOS_MPU60X0_USER_CTRL_REG h) 0x07 ->
      PIOS_MPU6500_Config h b w c budget s = Spin)
  /\ (reads_clear w d (PIOS_MPU60X0_PWR_MGMT_REG h) 0x80 ->
      reads_clear w d (PIOS_MPU60X0_USER_CTRL_REG h) 0x07 ->
      Cint.uint16 (default_samplerate c) <> 0 ->
      exists s', PIOS_MPU6500_Config h b w c (S budget) s = Done tt s').
Proof.
  intros Hd Hfull poll. subst poll.
  split.
  { destruct (poll_once_total w reg s) as (v & s1 & Hturn).
    exists v, s1. split; [assumption|]. apply poll_turn. assumption. }
  split; [reflexivity|].
  split; [apply poll_budget_mono|].
  split; [intros Hstuck; apply (poll_stuck w d); assumption|].
  unfold PIOS_MPU6500_Config. rewrite Hfull. split; [|split].
  - intros Hstuck. eapply Config_full_stuck; eassumption.
  - intros Hstuck. eapply Config_full_stuck_second; eassumption.
  - intros Hc1 Hc2 Hr.
    pose proof (Config_full_clear_wp h b w c budget s d Hc1 Hc2 Hd Hr) as Hwp.
    destruct (wp_done _ _ _ _ Hwp eq_refl) as ([] & s' & Hrun & _).
    eauto.
Qed.

(** Where the reset never completes the sequence is still polling after
    five turns; so it is where the power management register reads
    clear and the user control register reads 0x07; where the registers
    read zero it ends. *)
Lemma poll_loop_ends_only_on_clear_read_witness :
  PIOS_MPU6500_Config mpu60x0_regs accel_full (bus_answering 0x80)
    board_cfg 5 fresh = Spin
  /\ (reads_clear (bus_answering 0x07) fresh_dev 0x6B 0x80
      /\ PIOS_MPU6500_Config mpu60x0_regs accel_full (bus_answering 0x07)
           board_cfg 5 fresh = Spin)
  /\ exists s', PIOS_MPU6500_Config mpu60x0_regs accel_full (bus_answering 0)
                  board_cfg 1 fresh = Done tt s'.
Proof.
  split; [|split].
  - destruct (poll_loop_ends_only_on_clear_read mpu60x0_regs accel_full
                (bus_answering 0x80) board_cfg 0x6B 0x80 5 fresh fresh_dev
                eq_refl eq_refl) as (_ & _ & _ & _ & H & _).
    apply H. apply reads_stuck_answering_0x80.
  - split; [apply reads_clear_answering_0x07; reflexivity|].
    destruct (poll_loop_ends_only_on_clear_read mpu60x0_regs accel_full
                (bus_answering 0x07) board_cfg 0x6A 0x07 5 fresh fresh_dev
                eq_refl eq_refl) as (_ & _ & _ & _ & _ & H & _).
    apply H. apply reads_stuck_answering_0x07.
  - destruct (poll_loop_ends_only_on_clear_read mpu60x0_regs accel_full
                (bus_answering 0) board_cfg 0x6B 0x80 0 fresh fresh_dev
                eq_refl eq_refl) as (_ & _ & _ & _ & _ & _ & H).
    apply H.
    + apply reads_clear_answering_0. reflexivity.
    + apply reads_clear_answering_0. reflexivity.
    + vm_compute. discriminate.
Defined.

(** C4, counterexample: where the power management register always reads
    0x80, no number of turns lets the configuration sequence end. *)
Lemma Config_never_ends_when_reset_bit_stays_set :
  ~ exists budget s',
      PIOS_MPU6500_Config mpu60x0_regs accel_full (bus_answering 0x80)
        board_cfg budget fresh = Done tt s'.
Proof.
  intros (budget & s' & H).
  unfold PIOS_MPU6500_Config in H. simpl in H.
  rewrite (Config_full_stuck mpu60x0_regs accel_full (bus_answering 0x80)
             board_cfg budget fresh fresh_dev) in H.
  - discriminate.
  - apply reads_stuck_answering_0x80.
  - reflexivity.
Qed.

(** ** The interrupt handler *)

Lemma ClaimBusISR_valid w s d woken :
  pios_mpu6500_dev s = Some d ->
  PIOS_MPU6500_Validate (Some d) = 0 ->
  fst (PIOS_SPI_ClaimBusISR w (SPI_ClaimBusISR (spi_id d) :: trace s)) = 0 ->
  PIOS_MPU6500_ClaimBusISR w woken s
  = Done (0, snd (PIOS_SPI_ClaimBusISR w
                    (SPI_ClaimBusISR (spi_id d) :: trace s)))
         (with_trace s (SPI_RC_PinSet (spi_id d) (slave_num d) 0
                        :: SPI_ClaimBusISR (spi_id d) :: trace s)).
Proof.
  intros Hd Hv Hc. destruct s as [dv t]. simpl in Hd. subst dv.
  unfold PIOS_MPU6500_ClaimBusISR, bind, validated, deref, call_ans, call,
    ret, with_trace.
  cbv beta iota delta [pios_mpu6500_dev trace]. rewrite Hv. simpl.
  simpl in Hc. rewrite Hc. reflexivity.
Qed.

Lemma ReleaseBusISR_valid w s d woken :
  pios_mpu6500_dev s = Some d ->
  PIOS_MPU6500_Validate (Some d) = 0 ->
  PIOS_MPU6500_ReleaseBusISR w woken s
  = Done (PIOS_SPI_ReleaseBusISR w
            (SPI_ReleaseBusISR (spi_id d)
             :: SPI_RC_PinSet (spi_id d) (slave_num d) 1 :: trace s))
         (with_trace s (SPI_ReleaseBusISR (spi_id d)
                        :: SPI_RC_PinSet (spi_id d) (slave_num d) 1
                        :: trace s)).
Proof.
  intros Hd Hv. destruct s as [dv t]. simpl in Hd. subst dv.
  unfold PIOS_MPU6500_ReleaseBusISR, bind, validated, deref, call_ans, call,
    with_trace.
  cbv beta iota delta [pios_mpu6500_dev trace]. rewrite Hv. reflexivity.
Qed.

(** The orientation [switch] applies [remap] to the raw (x, y) of the
    accel and to the raw (x, y) of the gyro. *)
Lemma switch_orientation_remap h o buf :
  labels_distinct h = true ->
  switch_orientation h (mounting_label h o) buf
  = Some {| accel_x := fst (remap o (raw_accel_x buf) (raw_accel_y buf));
            accel_y := snd (remap o (raw_accel_x buf) (raw_accel_y buf));
            gyro_x := fst (remap o (raw_gyro_x buf) (raw_gyro_y buf));
            gyro_y := snd (remap o (raw_gyro_x buf) (raw_gyro_y buf)) |}
  /\ switch_orientation_gyro h (mounting_label h o) buf
     = Some (remap o (raw_gyro_x buf) (raw_gyro_y buf)).
Proof.
  intros Hl. destruct (labels_distinct_neq h Hl) as (_ & _ & Ho).
  apply distinct4_neq in Ho. destruct Ho as (O1 & O2 & O3 & O4 & O5 & O6).
  unfold switch_orientation, switch_orientation_gyro.
  destruct o; cbn [mounting_label remap fst snd]; switch_tests;
    split; reflexivity.
Qed.

(** The run of the handler on a valid, configured device of the accel
    build when the bus is claimed and the burst succeeds. *)
Lemma IRQHandler_run h b w s d p :
  pios_mpu6500_dev s = Some d ->
  PIOS_MPU6500_Validate (Some d) = 0 ->
  configured d = true ->
  PIOS_MPU6500_ACCEL b = true ->
  fst (PIOS_SPI_ClaimBusISR w (SPI_ClaimBusISR (spi_id d) :: trace s)) = 0 ->
  0 <= fst (burst_answer h w d (trace s)) ->
  let buf := snd (burst_answer h w d (trace s)) in
  switch_orientation h (orientation (cfg d)) buf = Some p ->
  exists r s',
    PIOS_MPU6500_IRQHandler h b w s = Done r s'
    /\ pios_mpu6500_dev s' = Some d
    /\ trace s'
       = QueueSendToBackFromISR (gyro_queue d)
           (scaled (gyro_x p) (gyro_y p) (gyro_z_of buf)
                   (scale_for (PIOS_MPU6500_GetGyroScale h) d)
                   (temperature_of buf))
         :: QueueSendToBackFromISR (accel_queue d)
              (scaled (accel_x p) (accel_y p) (accel_z_of buf)
                      (scale_for (PIOS_MPU6500_GetAccelScale h) d)
                      (temperature_of buf))
         :: irq_released h d (trace s).
Proof.
  intros Hd Hv Hconf Hacc Hclaim Hburst buf Hsw.
  unfold PIOS_MPU6500_IRQHandler.
  rewrite (bind_Done validated _ s true s)
    by (unfold validated; rewrite Hd, Hv; reflexivity).
  cbn [negb].
  rewrite (bind_Done deref _ s d s) by (unfold deref; rewrite Hd; reflexivity).
  rewrite Hconf. cbn [eqb].
  rewrite (bind_Done _ _ _ _ _ (ClaimBusISR_valid w s d false Hd Hv Hclaim)).
  cbn [fst snd]. rewrite Z.eqb_refl. cbn [negb].
  set (s1 := with_trace s _).
  rewrite (bind_Done _ _ s1 (burst_answer h w d (trace s))
             (with_trace s (irq_burst h d (trace s)))) by reflexivity.
  replace (fst (burst_answer h w d (trace s)) <? 0) with false
    by (symmetry; apply Z.ltb_ge; assumption).
  rewrite (bind_Done _ _ _ _ _
             (ReleaseBusISR_valid w (with_trace s (irq_burst h d (trace s)))
                d _ Hd Hv)).
  rewrite Hacc. fold buf. rewrite Hsw.
  cbn [with_trace trace pios_mpu6500_dev]. fold (irq_released h d (trace s)).
  set (s3 := with_trace (with_trace s _) _).
  assert (Hd3 : pios_mpu6500_dev s3 = Some d) by exact Hd.
  rewrite (bind_Done _ _ s3 _ _ (GetAccelScale_pure h s3 d Hd3)).
  rewrite (bind_Done _ _ s3 _ _ (GetGyroScale_pure h s3 d Hd3)).
  unfold bind, call_ans, ret. cbn [trace pios_mpu6500_dev].
  eexists. eexists. split; [reflexivity|]. split; [assumption | reflexivity].
Qed.

(** C6: for each of the four mounting orientations the handler computes
    the accel (x, y) and the gyro (x, y) by the same rule [remap] from
    the raw (x, y) of the sensor, and negates the raw z of both; the
    samples it queues are these values times the scale of the sensor. *)
Theorem IRQHandler_remaps_accel_and_gyro_alike
  (h : pios_mpu60x0_h) (b : build) (w : world) (s : state)
  (d : mpu6500_dev) (o : mounting) (any : list Z) :
  labels_distinct h = true ->
  (exists p,
      switch_orientation h (mounting_label h o) any = Some p
      /\ (accel_x p, accel_y p)
         = remap o (raw_accel_x any) (raw_accel_y any)
      /\ (gyro_x p, gyro_y p)
         = remap o (raw_gyro_x any) (raw_gyro_y any))
  /\ switch_orientation_gyro h (mounting_label h o) any
     = Some (remap o (raw_gyro_x any) (raw_gyro_y any))
  /\ accel_z_of any = - raw_accel_z any
  /\ gyro_z_of any = - raw_gyro_z any
  /\ (pios_mpu6500_dev s = Some d ->
      PIOS_MPU6500_Validate (Some d) = 0 ->
      configured d = true ->
      PIOS_MPU6500_ACCEL b = true ->
      orientation (cfg d) = mounting_label h o ->
      fst (PIOS_SPI_ClaimBusISR w (SPI_ClaimBusISR (spi_id d) :: trace s))
      = 0 ->
      0 <= fst (burst_answer h w d (trace s)) ->
      let buf := snd (burst_answer h w d (trace s)) in
      exists r s',
        PIOS_MPU6500_IRQHandler h b w s = Done r s'
        /\ trace s'
           = QueueSendToBackFromISR (gyro_queue d)
               (body_sample (remap o (raw_gyro_x buf) (raw_gyro_y buf))
                            (raw_gyro_z buf)
                            (scale_for (PIOS_MPU6500_GetGyroScale h) d)
                            (temperature_of buf))
             :: QueueSendToBackFromISR (accel_queue d)
                  (body_sample (remap o (raw_accel_x buf) (raw_accel_y buf))
                               (raw_accel_z buf)
                               (scale_for (PIOS_MPU6500_GetAccelScale h) d)
                               (temperature_of buf))
             :: irq_released h d (trace s)).
Proof.
  intros Hl.
  split.
  { destruct (switch_orientation_remap h o any Hl) as [Hsw _].
    eexists. split; [exact Hsw|]. cbn [accel_x accel_y gyro_x gyro_y].
    split; symmetry; apply surjective_pairing. }
  split; [apply (switch_orientation_remap h o any Hl)|].
  split; [reflexivity|]. split; [reflexivity|].
  intros Hd Hv Hconf Hacc Ho Hclaim Hburst buf.
  destruct (switch_orientation_remap h o buf Hl) as [Hsw _].
  rewrite <- Ho in Hsw.
  destruct (IRQHandler_run h b w s d _ Hd Hv Hconf Hacc Hclaim Hburst Hsw)
    as (r & s' & Hrun & _ & Ht).
  exists r, s'. split; [assumption|]. exact Ht.
Qed.

(** The handler on the running device mounted at 90 degrees, for a
    burst with accel (1, 2, 3) and gyro (4, 5, 400). *)
Lemma IRQHandler_remaps_accel_and_gyro_alike_witness :
  exists r s',
    PIOS_MPU6500_IRQHandler mpu60x0_regs accel_simple
      (bus_delivering burst_example) running = Done r s'
    /\ trace s'
       = QueueSendToBackFromISR 11
           (body_sample (remap TOP_90DEG 4 5) 400 (F32.lit 10 655)
                        (temperature_of burst_example))
         :: QueueSendToBackFromISR 12
              (body_sample (remap TOP_90DEG 1 2) 3
                 (F32.div (GRAVITY mpu60x0_regs) (F32.of_Z 4096))
                 (temperature_of burst_example))
         :: irq_released mpu60x0_regs running_dev [].
Proof.
  destruct (IRQHandler_remaps_accel_and_gyro_alike mpu60x0_regs accel_simple
              (bus_delivering burst_example) running running_dev TOP_90DEG
              burst_example eq_refl) as (_ & _ & _ & _ & H).
  apply (H eq_refl eq_refl eq_refl eq_refl eq_refl eq_refl).
  vm_compute. discriminate.
Defined.

(** * Further properties *)

(** ** Decoding of the burst *)

Lemma all_from_bytes P :
  all_from 256 0 P = true -> forall x, P (Cint.uint8 x) = true.
Proof.
  intros H x. apply (all_from_sound P 256 0 H).
  pose proof (uint8_range x). simpl. lia.
Qed.

Lemma be16_signed :
  all_from 256 0 (fun hi => all_from 256 0 (decodes_as_signed hi)) = true.
Proof. vm_compute. reflexivity. Qed.

Lemma rd16_signed buf hi lo :
  rd16 buf hi lo
  = signed_be16 (Cint.uint8 (nth hi buf 0)) (Cint.uint8 (nth lo buf 0)).
Proof.
  unfold rd16. apply Z.eqb_eq.
  apply (all_from_bytes
           (decodes_as_signed (Cint.uint8 (nth hi buf 0)))).
  apply (all_from_bytes (fun hi => all_from 256 0 (decodes_as_signed hi))).
  exact be16_signed.
Qed.

Lemma rd16_range buf hi lo : -32768 <= rd16 buf hi lo <= 32767.
Proof.
  rewrite rd16_signed. unfold signed_be16.
  pose proof (uint8_range (nth hi buf 0)).
  pose proof (uint8_range (nth lo buf 0)).
  destruct (128 <=? Cint.uint8 (nth hi buf 0)) eqn:E;
    [apply Z.leb_le in E | apply Z.leb_gt in E]; lia.
Qed.

Lemma int16_decodes_back :
  all_from (Z.to_nat 65536) (-32768) decodes_back = true.
Proof. vm_compute. reflexivity. Qed.

Lemma axis_values_convert_exactly :
  all_from (Z.to_nat 65537) (-32768) converts_exactly = true.
Proof. vm_compute. reflexivity. Qed.

(** X1: every axis is decoded as the big-endian two's-complement value
    of its two bytes, a value of -32768..32767; decoding the two bytes of
    such a value gives the value back; and the conversion to float of a
    decoded value, or of its negation (up to 32768), is exact. *)
Theorem axis_decoding_is_signed_big_endian_and_exact
  (buf : list Z) (hi lo : nat) (v : Z) :
  rd16 buf hi lo
  = signed_be16 (Cint.uint8 (nth hi buf 0)) (Cint.uint8 (nth lo buf 0))
  /\ -32768 <= rd16 buf hi lo <= 32767
  /\ (-32768 <= v <= 32767 ->
      Cint.be16 (fst (encode_be16 v)) (snd (encode_be16 v)) = v)
  /\ (-32768 <= v <= 32768 ->
      exists q, F32.to_Q (F32.of_Z v) = Some q /\ (q == inject_Z v)%Q)
  /\ (exists q, F32.to_Q (F32.of_Z (- rd16 buf hi lo)) = Some q
                /\ (q == inject_Z (- rd16 buf hi lo))%Q).
Proof.
  assert (Hconv : forall x, -32768 <= x <= 32768 ->
            exists q, F32.to_Q (F32.of_Z x) = Some q /\ (q == inject_Z x)%Q).
  { intros x Hx.
    pose proof (all_from_sound _ _ _ axis_values_convert_exactly x) as H.
    rewrite Z2Nat.id in H by lia. specialize (H ltac:(lia)).
    unfold converts_exactly in H.
    destruct (F32.to_Q (F32.of_Z x)) as [q|]; [|discriminate].
    exists q. split; [reflexivity|]. apply Qeq_bool_iff. exact H. }
  split; [apply rd16_signed|].
  split; [apply rd16_range|].
  split; [|split].
  - intros Hv.
    pose proof (all_from_sound _ _ _ int16_decodes_back v) as H.
    rewrite Z2Nat.id in H by lia. specialize (H ltac:(lia)).
    apply Z.eqb_eq. exact H.
  - apply Hconv.
  - apply Hconv. pose proof (rd16_range buf hi lo). lia.
Qed.

(** The bytes 0xFE 0x70 are -400, and -400 decodes back. *)
Lemma axis_decoding_is_signed_big_endian_and_exact_witness :
  Cint.be16 (fst (encode_be16 (-400))) (snd (encode_be16 (-400))) = -400
  /\ exists q, F32.to_Q (F32.of_Z 32768) = Some q /\ (q == inject_Z 32768)%Q.
Proof.
  destruct (axis_decoding_is_signed_big_endian_and_exact
              burst_example 13 14 (-400)) as (_ & _ & H & _).
  destruct (axis_decoding_is_signed_big_endian_and_exact
              burst_example 13 14 32768) as (_ & _ & _ & H' & _).
  split; [apply H; lia | apply H'; lia].
Defined.

(** ** The temperature *)

Lemma temperature_of_raw buf :
  temperature_of buf
  = temperature_float (rd16 buf IDX_TEMP_OUT_H IDX_TEMP_OUT_L).
Proof. reflexivity. Qed.

Lemma temperature_close_everywhere :
  all_from (Z.to_nat 65536) (-32768)
           (fun raw => temperature_close_to (temperature_float raw) raw)
  = true.
Proof. vm_compute. reflexivity. Qed.

(** X2: for every burst the temperature the handler computes in float is
    finite, within 2^-16 degree of 35 + (raw + 512) / 340 for the raw
    value decoded from the burst, and between -60 and 133 degrees. *)
Theorem temperature_within_one_ulp (buf : list Z) :
  let raw := rd16 buf IDX_TEMP_OUT_H IDX_TEMP_OUT_L in
  exists q,
    F32.to_Q (temperature_of buf) = Some q
    /\ (Qabs (q - temperature_exact raw) <= 1 # 65536)%Q
    /\ (- (60 # 1) <= q)%Q /\ (q <= 133 # 1)%Q.
Proof.
  intros raw. rewrite temperature_of_raw. fold raw.
  pose proof (rd16_range buf IDX_TEMP_OUT_H IDX_TEMP_OUT_L) as Hr. fold raw in Hr.
  pose proof (all_from_sound _ _ _ temperature_close_everywhere raw) as H.
  rewrite Z2Nat.id in H by lia. specialize (H ltac:(lia)).
  unfold temperature_close_to in H.
  destruct (F32.to_Q (temperature_float raw)) as [q|]; [|discriminate].
  apply andb_true_iff in H. destruct H as [H H3].
  apply andb_true_iff in H. destruct H as [H1 H2].
  exists q. split; [reflexivity|].
  split; [apply Qle_bool_iff; exact H1|].
  split; apply Qle_bool_iff; assumption.
Qed.

(** ** More on the sample-rate divisor *)

Lemma divisor_steps_down_up_to_clock widest :
  all_from (Z.to_nat (filter_clock widest)) 1 (divisor_steps_down widest)
  = true.
Proof. destruct widest; vm_compute; reflexivity. Qed.

Lemma divisor_exact_up_to_clock widest :
  all_from (Z.to_nat (filter_clock widest)) 1
           (divisor_exact_when_dividing widest) = true.
Proof. destruct widest; vm_compute; reflexivity. Qed.

Lemma filter_clock_pos widest : 0 < filter_clock widest.
Proof. destruct widest; reflexivity. Qed.

Lemma divisor_spec_step widest r :
  1 <= r -> divisor_spec widest (r + 1) <= divisor_spec widest r.
Proof.
  intros Hr. pose proof (filter_clock_pos widest) as Hfc.
  destruct (Z_le_gt_dec r (filter_clock widest)) as [Hle|Hgt].
  - pose proof (all_from_sound _ _ _ (divisor_steps_down_up_to_clock widest) r)
      as H.
    rewrite Z2Nat.id in H by lia. specialize (H ltac:(lia)).
    apply Z.leb_le. exact H.
  - destruct (divisor_above_clock widest r ltac:(lia)) as [_ ->].
    destruct (divisor_above_clock widest (r + 1) ltac:(lia)) as [_ ->].
    lia.
Qed.

Lemma divisor_spec_antitone widest r r' :
  1 <= r <= r' -> divisor_spec widest r' <= divisor_spec widest r.
Proof.
  intros [Hr Hrr'].
  replace r' with (r + Z.of_nat (Z.to_nat (r' - r)))
    by (rewrite Z2Nat.id; lia).
  induction (Z.to_nat (r' - r)) as [|n IH].
  - rewrite Z.add_0_r. lia.
  - rewrite Nat2Z.inj_succ.
    replace (r + Z.succ (Z.of_nat n)) with (r + Z.of_nat n + 1) by lia.
    pose proof (divisor_spec_step widest (r + Z.of_nat n) ltac:(lia)). lia.
Qed.

(** X3: the divisor the driver computes never grows with the requested
    rate, and a rate that divides the filter clock, down to 1/256 of it,
    gets the divisor clock/rate - 1, which realises it exactly. *)
Theorem sample_rate_divisor_antitone_and_exact_on_divisors
  (widest : bool) (r r' : Z) :
  1 <= r <= r' -> r' <= 65535 ->
  let fc := filter_clock widest in
  (exists n n',
      sample_rate_divisor fc r = Some n
      /\ sample_rate_divisor fc r' = Some n'
      /\ n' <= n)
  /\ (fc mod r = 0 -> fc / r <= 256 ->
      sample_rate_divisor fc r = Some (fc / r - 1)).
Proof.
  intros Hr Hr' fc. subst fc. split.
  - exists (divisor_spec widest r), (divisor_spec widest r').
    rewrite !sample_rate_divisor_spec by lia.
    split; [reflexivity|]. split; [reflexivity|].
    apply divisor_spec_antitone. assumption.
  - intros Hmod Hquot.
    rewrite sample_rate_divisor_spec by lia. f_equal.
    pose proof (filter_clock_pos widest) as Hfc.
    assert (Hle : r <= filter_clock widest).
    { destruct (Z_le_gt_dec r (filter_clock widest)) as [H|H]; [assumption|].
      rewrite Z.mod_small in Hmod by lia. lia. }
    pose proof (all_from_sound _ _ _ (divisor_exact_up_to_clock widest) r) as H.
    rewrite Z2Nat.id in H by lia. specialize (H ltac:(lia)).
    unfold divisor_exact_when_dividing in H.
    apply Z.eqb_eq in Hmod. apply Z.leb_le in Hquot.
    rewrite Hmod, Hquot in H. apply Z.eqb_eq. exact H.
Qed.

(** 1000 Hz and 2000 Hz under the 256 Hz filter: divisors 7 and 3. *)
Lemma sample_rate_divisor_antitone_and_exact_on_divisors_witness :
  (exists n n',
      sample_rate_divisor 8000 1000 = Some n
      /\ sample_rate_divisor 8000 2000 = Some n' /\ n' <= n)
  /\ sample_rate_divisor 8000 1000 = Some 7.
Proof.
  destruct (sample_rate_divisor_antitone_and_exact_on_divisors
              true 1000 2000 ltac:(lia) ltac:(lia)) as [H1 H2].
  split; [exact H1|]. apply H2; [reflexivity | vm_compute; discriminate].
Defined.

(** A rate of zero (as a uint16_t) leaves no divisor to program. *)
Lemma SetSampleRate_zero h w r s :
  Cint.uint16 r = 0 -> PIOS_MPU6500_SetSampleRate h w r s = Fault.
Proof.
  intros Hr. unfold PIOS_MPU6500_SetSampleRate, bind, deref. rewrite Hr.
  destruct (pios_mpu6500_dev s) as [d|]; [|reflexivity].
  destruct (negb (filter d =? PIOS_MPU60X0_LOWPASS_256_HZ h)); reflexivity.
Qed.

(** ** The bytes on the wire *)

Lemma read_address_bytes :
  all_from 256 0 read_address_is_write_address_plus_128 = true.
Proof. vm_compute. reflexivity. Qed.

Lemma address_top_bit :
  all_from 256 0 address_ignores_top_bit = true.
Proof. vm_compute. reflexivity. Qed.

Lemma reg_addr_range reg : 0 <= reg_addr reg < 128.
Proof.
  unfold reg_addr. rewrite Z.land_comm. change 127 with (Z.ones 7).
  rewrite Z.land_ones by lia. apply Z.mod_pos_bound. lia.
Qed.

Lemma uint8_plus_128 reg :
  Cint.uint8 (reg + 128) = Cint.uint8 (Cint.uint8 reg + 128).
Proof.
  unfold Cint.uint8. rewrite Z.add_mod_idemp_l by lia. reflexivity.
Qed.

Lemma address_alias reg :
  Z.land 0x7f (Cint.uint8 (reg + 128)) = Z.land 0x7f (Cint.uint8 reg)
  /\ Z.lor 0x80 (Cint.uint8 (reg + 128)) = Z.lor 0x80 (Cint.uint8 reg).
Proof.
  rewrite uint8_plus_128.
  pose proof (all_from_bytes _ address_top_bit reg) as H.
  unfold address_ignores_top_bit in H. apply andb_true_iff in H.
  destruct H as [H1 H2]. apply Z.eqb_eq in H1. apply Z.eqb_eq in H2. auto.
Qed.

Lemma reg_addr_mod reg : reg_addr reg = reg mod 128.
Proof.
  unfold reg_addr, Cint.uint8. rewrite Z.land_comm. change 127 with (Z.ones 7).
  rewrite Z.land_ones by lia.
  apply Z.mod_mod_divide. exists 2. reflexivity.
Qed.

(** X5: once the bus is claimed, a register write sends the register
    number modulo 128 and, if that byte is answered with zero, the data
    modulo 256; a register read sends the register number modulo 128
    plus 128, then a zero byte whose answer is the value read.  Both end
    by deselecting the chip and releasing the bus.  The top bit of a
    register number is ignored: registers r and r + 128 are the same
    register to both operations. *)
Theorem register_address_bytes
  (w : world) (reg data : Z) (s : state) (d : mpu6500_dev) :
  let selected :=
    SPI_RC_PinSet (spi_id d) (slave_num d) 0
    :: SPI_ClaimBus (spi_id d) :: trace s in
  let address := SPI_TransferByte (spi_id d) (reg mod 128) :: selected in
  let value := SPI_TransferByte (spi_id d) (data mod 256) :: address in
  let asked :=
    SPI_TransferByte (spi_id d) 0
    :: SPI_TransferByte (spi_id d) (128 + reg mod 128) :: selected in
  let ended t :=
    {| pios_mpu6500_dev := Some d;
       trace := SPI_ReleaseBus (spi_id d)
                :: SPI_RC_PinSet (spi_id d) (slave_num d) 1 :: t |} in
  (pios_mpu6500_dev s = Some d ->
   PIOS_MPU6500_Validate (Some d) = 0 ->
   PIOS_SPI_ClaimBus w (SPI_ClaimBus (spi_id d) :: trace s) = 0 ->
   PIOS_MPU6500_SetReg w reg data s
   = (if PIOS_SPI_TransferByte w address =? 0
      then Done (if PIOS_SPI_TransferByte w value =? 0 then 0 else -3)
                (ended value)
      else Done (-2) (ended address))
   /\ PIOS_MPU6500_GetReg w reg s
      = Done (PIOS_SPI_TransferByte w asked mod 256) (ended asked))
  /\ 0 <= reg mod 128 < 128
  /\ PIOS_MPU6500_SetReg w (reg + 128) data s = PIOS_MPU6500_SetReg w reg data s
  /\ PIOS_MPU6500_GetReg w (reg + 128) s = PIOS_MPU6500_GetReg w reg s
  /\ PIOS_MPU6500_SetReg w reg (data + 256) s = PIOS_MPU6500_SetReg w reg data s.
Proof.
  intros selected address value asked ended.
  destruct (write_address_byte reg) as [Ha _].
  destruct (address_alias reg) as [Hl Ho].
  split.
  { intros Hd Hv Hc.
    assert (Hc' : (claim_answer w d (trace s) =? 0) = true)
      by (apply Z.eqb_eq; exact Hc).
    assert (Hs : forall t, with_trace s t = {| pios_mpu6500_dev := Some d;
                                               trace := t |})
      by (intros t; unfold with_trace; rewrite Hd; reflexivity).
    assert (H1 : write_t1 d reg (trace s) = address).
    { unfold write_t1, after_claim, address, selected.
      rewrite Ha. fold (reg_addr reg). rewrite reg_addr_mod. reflexivity. }
    assert (H2 : write_t2 d reg data (trace s) = value).
    { unfold write_t2, value. rewrite H1, uint8_idem. reflexivity. }
    assert (H3 : read_t2 d reg (trace s) = asked).
    { unfold read_t2, after_claim, asked, selected.
      pose proof (all_from_bytes _ read_address_bytes reg) as H.
      apply Z.eqb_eq in H. rewrite H. fold (reg_addr reg).
      rewrite reg_addr_mod. reflexivity. }
    split.
    - rewrite (SetReg_valid w reg data s d Hd Hv), Hc', H1, H2.
      unfold released. rewrite !Hs. unfold ended.
      destruct (PIOS_SPI_TransferByte w address =? 0); [|reflexivity].
      destruct (PIOS_SPI_TransferByte w value =? 0); reflexivity.
    - rewrite (GetReg_valid w reg s d Hd Hv), Hc', H3.
      unfold released. rewrite Hs. reflexivity. }
  split; [apply Z.mod_pos_bound; lia|].
  split; [unfold PIOS_MPU6500_SetReg; rewrite Hl; reflexivity|].
  split; [unfold PIOS_MPU6500_GetReg; rewrite Ho; reflexivity|].
  unfold PIOS_MPU6500_SetReg.
  replace (Cint.uint8 (data + 256)) with (Cint.uint8 data); [reflexivity|].
  unfold Cint.uint8. rewrite <- (Z.mul_1_l 256) at 2.
  rewrite Z.mod_add by lia. reflexivity.
Qed.

(** Register 0xF5 on a bus answering 0x70: the read sends 0xF5 and a
    zero byte and returns 0x70; the write of 0x1FF sends 0x75 and 0xFF
    and reports -2, its first byte being answered with 0x70. *)
Lemma register_address_bytes_witness :
  PIOS_MPU6500_GetReg (bus_answering 0x70) 0xF5 fresh
  = Done 0x70
      {| pios_mpu6500_dev := Some fresh_dev;
         trace := [SPI_ReleaseBus 1; SPI_RC_PinSet 1 0 1;
                   SPI_TransferByte 1 0; SPI_TransferByte 1 0xF5;
                   SPI_RC_PinSet 1 0 0; SPI_ClaimBus 1] |}
  /\ PIOS_MPU6500_SetReg (bus_answering 0x70) 0xF5 0x1FF fresh
     = Done (-2)
         {| pios_mpu6500_dev := Some fresh_dev;
            trace := [SPI_ReleaseBus 1; SPI_RC_PinSet 1 0 1;
                      SPI_TransferByte 1 0x75;
                      SPI_RC_PinSet 1 0 0; SPI_ClaimBus 1] |}.
Proof.
  destruct (register_address_bytes (bus_answering 0x70) 0xF5 0x1FF fresh
              fresh_dev) as [H _].
  destruct (H eq_refl eq_refl eq_refl) as [Hw Hr].
  split; [exact Hr | exact Hw].
Defined.

(** ** What an operation leaves on the chip, on any bus *)

Lemma chip_after_aborted_write d reg t a :
  regs (chip_of (released d (write_t1 d reg t))) a = regs (chip_of t) a.
Proof.
  unfold released, write_t1, after_claim.
  cbn [chip_of chip_step chip_byte phase regs]. rewrite Z.eqb_refl.
  cbn [chip_byte phase regs].
  reflexivity.
Qed.

Lemma phase_after_release d t :
  phase (chip_of (released d t)) = Deselected.
Proof. reflexivity. Qed.

(** The write, on any bus: the device is kept, no other register
    changes, and the chip is not left selected. *)
Lemma SetReg_effect w reg data s :
  exists r s',
    PIOS_MPU6500_SetReg w reg data s = Done r s'
    /\ pios_mpu6500_dev s' = pios_mpu6500_dev s
    /\ chip_kept_except reg s s'
    /\ (deselected (trace s) -> deselected (trace s')).
Proof.
  destruct (Z.eq_dec (PIOS_MPU6500_Validate (pios_mpu6500_dev s)) 0) as [Hv|Hv].
  - destruct (Validate_ok_some _ Hv) as [d Hd]. rewrite Hd in Hv.
    rewrite (SetReg_valid w reg data s d Hd Hv).
    destruct (claim_answer w d (trace s) =? 0);
      [destruct (PIOS_SPI_TransferByte w (write_t1 d reg (trace s)) =? 0);
       [destruct (PIOS_SPI_TransferByte w (write_t2 d reg data (trace s)) =? 0)|]|];
      eexists; eexists; (split; [reflexivity|]); (split; [reflexivity|]);
      (split; [intros a Ha | intros Hsel]); cbn [with_trace trace];
      try apply phase_after_release; try exact Hsel;
      try (rewrite chip_after_write; apply Z.eqb_neq in Ha; rewrite Ha;
           reflexivity);
      try (rewrite chip_after_aborted_write; reflexivity);
      reflexivity.
  - rewrite (SetReg_invalid w reg data s Hv).
    eexists; eexists. split; [reflexivity|]. split; [reflexivity|].
    split; [intros a Ha; reflexivity | auto].
Qed.

(** The read, on any bus: the device and every register are kept, and
    the chip is not left selected. *)
Lemma GetReg_effect w reg s :
  exists r s',
    PIOS_MPU6500_GetReg w reg s = Done r s'
    /\ pios_mpu6500_dev s' = pios_mpu6500_dev s
    /\ chip_kept s s'
    /\ (deselected (trace s) -> deselected (trace s')).
Proof.
  destruct (Z.eq_dec (PIOS_MPU6500_Validate (pios_mpu6500_dev s)) 0) as [Hv|Hv].
  - destruct (Validate_ok_some _ Hv) as [d Hd]. rewrite Hd in Hv.
    rewrite (GetReg_valid w reg s d Hd Hv).
    destruct (claim_answer w d (trace s) =? 0);
      eexists; eexists; (split; [reflexivity|]); (split; [reflexivity|]);
      (split; [intros a | intros Hsel]); cbn [with_trace trace];
      try apply phase_after_release; try exact Hsel;
      try (rewrite chip_after_read; reflexivity); reflexivity.
  - rewrite (GetReg_invalid w reg s Hv).
    eexists; eexists. split; [reflexivity|]. split; [reflexivity|].
    split; [intros a; reflexivity | auto].
Qed.

(** ** The paths of the interrupt handler *)

Lemma ClaimBusISR_refused w s d woken :
  pios_mpu6500_dev s = Some d ->
  PIOS_MPU6500_Validate (Some d) = 0 ->
  fst (isr_claim_answer w d (trace s)) <> 0 ->
  PIOS_MPU6500_ClaimBusISR w woken s
  = Done (-2, snd (isr_claim_answer w d (trace s)))
         (with_trace s (SPI_ClaimBusISR (spi_id d) :: trace s)).
Proof.
  intros Hd Hv Hc. destruct s as [dv t]. simpl in Hd. subst dv.
  unfold PIOS_MPU6500_ClaimBusISR, bind, validated, deref, call_ans, call,
    ret, with_trace.
  cbv beta iota delta [pios_mpu6500_dev trace]. rewrite Hv. simpl.
  unfold isr_claim_answer in Hc. simpl in Hc.
  apply Z.eqb_neq in Hc. rewrite Hc. reflexivity.
Qed.

Section HandlerPaths.

Variables (h : pios_mpu60x0_h) (b : build) (w : world).
Variables (s : state) (d : mpu6500_dev).
Hypothesis Hd : pios_mpu6500_dev s = Some d.
Hypothesis Hv : PIOS_MPU6500_Validate (Some d) = 0.
Hypothesis Hconf : configured d = true.

(** The handler up to the claim. *)
Lemma IRQHandler_enters :
  PIOS_MPU6500_IRQHandler h b w s
  = (cw <- PIOS_MPU6500_ClaimBusISR w false ;;
     if negb (fst cw =? 0) then ret false else
     r <- call_ans (SPI_TransferBlock (spi_id d) (send_buf h)
                      (Z.of_nat BUFFER_SIZE))
                   (PIOS_SPI_TransferBlock w) ;;
     if fst r <? 0 then PIOS_MPU6500_ReleaseBusISR w (snd cw) ;; ret false else
     let rec_buf := snd r in
     rw <- PIOS_MPU6500_ReleaseBusISR w (snd cw) ;;
     let woken := snd rw in
     if PIOS_MPU6500_ACCEL b then
       match switch_orientation h (orientation (cfg d)) rec_buf with
       | None => fault
       | Some p =>
           let temp := temperature_of rec_buf in
           accel_scale <- PIOS_MPU6500_GetAccelScale h ;;
           let accel_data :=
             scaled (accel_x p) (accel_y p) (accel_z_of rec_buf)
                    accel_scale temp in
           gyro_scale <- PIOS_MPU6500_GetGyroScale h ;;
           let gyro_data :=
             scaled (gyro_x p) (gyro_y p) (gyro_z_of rec_buf)
                    gyro_scale temp in
           wa <- call_ans (QueueSendToBackFromISR (accel_queue d) accel_data)
                          (xQueueSendToBackFromISR w) ;;
           wg <- call_ans (QueueSendToBackFromISR (gyro_queue d) gyro_data)
                          (xQueueSendToBackFromISR w) ;;
           ret (wa || wg || eqb woken true)
       end
     else
       match switch_orientation_gyro h (orientation (cfg d)) rec_buf with
       | None => fault
       | Some (gx, gy) =>
           let temp := temperature_of rec_buf in
           gyro_scale <- PIOS_MPU6500_GetGyroScale h ;;
           let gyro_data := scaled gx gy (gyro_z_of rec_buf) gyro_scale temp in
           wg <- call_ans (QueueSendToBackFromISR (gyro_queue d) gyro_data)
                          (xQueueSendToBackFromISR w) ;;
           ret (wg || eqb woken true)
       end) s.
Proof.
  unfold PIOS_MPU6500_IRQHandler.
  rewrite (bind_Done validated _ s true s)
    by (unfold validated; rewrite Hd, Hv; reflexivity).
  cbn [negb].
  rewrite (bind_Done deref _ s d s) by (unfold deref; rewrite Hd; reflexivity).
  rewrite Hconf. cbn [eqb]. reflexivity.
Qed.

Lemma IRQHandler_claim_refused :
  fst (isr_claim_answer w d (trace s)) <> 0 ->
  PIOS_MPU6500_IRQHandler h b w s
  = Done false (with_trace s (SPI_ClaimBusISR (spi_id d) :: trace s)).
Proof.
  intros Hc. rewrite IRQHandler_enters.
  rewrite (bind_Done _ _ _ _ _ (ClaimBusISR_refused w s d false Hd Hv Hc)).
  reflexivity.
Qed.

(** The handler once the bus is claimed and the burst answered. *)
Lemma IRQHandler_burst_failed :
  fst (isr_claim_answer w d (trace s)) = 0 ->
  fst (burst_answer h w d (trace s)) < 0 ->
  PIOS_MPU6500_IRQHandler h b w s
  = Done false (with_trace s (irq_released h d (trace s))).
Proof.
  intros Hc Hb. rewrite IRQHandler_enters.
  rewrite (bind_Done _ _ _ _ _ (ClaimBusISR_valid w s d false Hd Hv Hc)).
  cbn [fst snd]. rewrite Z.eqb_refl. cbn [negb].
  set (s1 := with_trace s _).
  rewrite (bind_Done _ _ s1 (burst_answer h w d (trace s))
             (with_trace s (irq_burst h d (trace s)))) by reflexivity.
  replace (fst (burst_answer h w d (trace s)) <? 0) with true
    by (symmetry; apply Z.ltb_lt; assumption).
  rewrite (bind_Done _ _ _ _ _
             (ReleaseBusISR_valid w (with_trace s (irq_burst h d (trace s)))
                d _ Hd Hv)).
  reflexivity.
Qed.

Lemma IRQHandler_after_burst :
  fst (isr_claim_answer w d (trace s)) = 0 ->
  0 <= fst (burst_answer h w d (trace s)) ->
  let buf := snd (burst_answer h w d (trace s)) in
  let s3 := with_trace s (irq_released h d (trace s)) in
  let woken := snd (PIOS_SPI_ReleaseBusISR w (irq_released h d (trace s))) in
  PIOS_MPU6500_IRQHandler h b w s
  = if PIOS_MPU6500_ACCEL b then
      match accel_sample_of h d buf, gyro_sample_of h d buf with
      | Some a, Some g =>
          let t4 := QueueSendToBackFromISR (accel_queue d) a :: trace s3 in
          let t5 := QueueSendToBackFromISR (gyro_queue d) g :: t4 in
          Done (xQueueSendToBackFromISR w t4 || xQueueSendToBackFromISR w t5
                || eqb woken true) (with_trace s t5)
      | _, _ => Fault
      end
    else
      match gyro_sample_of h d buf with
      | Some g =>
          let t4 := QueueSendToBackFromISR (gyro_queue d) g :: trace s3 in
          Done (xQueueSendToBackFromISR w t4 || eqb woken true)
               (with_trace s t4)
      | None => Fault
      end.
Proof.
  intros Hc Hb buf s3 woken. rewrite IRQHandler_enters.
  rewrite (bind_Done _ _ _ _ _ (ClaimBusISR_valid w s d false Hd Hv Hc)).
  cbn [fst snd]. rewrite Z.eqb_refl. cbn [negb].
  set (s1 := with_trace s _).
  rewrite (bind_Done _ _ s1 (burst_answer h w d (trace s))
             (with_trace s (irq_burst h d (trace s)))) by reflexivity.
  replace (fst (burst_answer h w d (trace s)) <? 0) with false
    by (symmetry; apply Z.ltb_ge; assumption).
  rewrite (bind_Done _ _ _ _ _
             (ReleaseBusISR_valid w (with_trace s (irq_burst h d (trace s)))
                d _ Hd Hv)).
  cbn [with_trace trace pios_mpu6500_dev]. fold (irq_released h d (trace s)).
  fold buf. fold woken.
  assert (Hd3 : pios_mpu6500_dev s3 = Some d) by exact Hd.
  unfold accel_sample_of, gyro_sample_of.
  destruct (PIOS_MPU6500_ACCEL b).
  - assert (Hsame : switch_orientation_gyro h (orientation (cfg d)) buf
                    = option_map (fun p => (gyro_x p, gyro_y p))
                        (switch_orientation h (orientation (cfg d)) buf)).
    { unfold switch_orientation, switch_orientation_gyro.
      repeat match goal with
             | |- context [if ?c then _ else _] => destruct c
             end; reflexivity. }
    rewrite Hsame.
    destruct (switch_orientation h (orientation (cfg d)) buf) as [p|];
      [|reflexivity].
    cbn [option_map].
    fold s3.
    rewrite (bind_Done _ _ s3 _ _ (GetAccelScale_pure h s3 d Hd3)).
    rewrite (bind_Done _ _ s3 _ _ (GetGyroScale_pure h s3 d Hd3)).
    reflexivity.
  - destruct (switch_orientation_gyro h (orientation (cfg d)) buf)
      as [[gx gy]|]; [|reflexivity].
    fold s3.
    rewrite (bind_Done _ _ s3 _ _ (GetGyroScale_pure h s3 d Hd3)).
    reflexivity.
Qed.

End HandlerPaths.

(** ** What the setters and the self-test leave behind, on any bus *)

Lemma SetLPF_effect h w f s d :
  pios_mpu6500_dev s = Some d ->
  exists s',
    PIOS_MPU6500_SetLPF h w f s = Done tt s'
    /\ left_behind (Some (PIOS_MPU60X0_DLPF_CFG_REG h)) (set_filter f d) s s'.
Proof.
  intros Hd.
  destruct (SetReg_effect w (PIOS_MPU60X0_DLPF_CFG_REG h) f s)
    as (r & s1 & E & Hdev & Hk & Hs).
  unfold PIOS_MPU6500_SetLPF. rewrite (bind_Done _ _ _ _ _ E).
  unfold update. rewrite Hdev, Hd.
  eexists. split; [reflexivity|]. repeat split; assumption.
Qed.

Lemma SetAccelRange_effect h w r s d :
  pios_mpu6500_dev s = Some d ->
  exists s',
    PIOS_MPU6500_SetAccelRange h w r s = Done tt s'
    /\ left_behind (Some (PIOS_MPU60X0_ACCEL_CFG_REG h))
                   (set_accel_range r d) s s'.
Proof.
  intros Hd.
  destruct (SetReg_effect w (PIOS_MPU60X0_ACCEL_CFG_REG h) r s)
    as (x & s1 & E & Hdev & Hk & Hs).
  unfold PIOS_MPU6500_SetAccelRange. rewrite (bind_Done _ _ _ _ _ E).
  unfold update. rewrite Hdev, Hd.
  eexists. split; [reflexivity|]. repeat split; assumption.
Qed.

Lemma SetGyroRange_effect h w r s d :
  pios_mpu6500_dev s = Some d ->
  exists s',
    PIOS_MPU6500_SetGyroRange h w r s = Done tt s'
    /\ left_behind (Some (PIOS_MPU60X0_GYRO_CFG_REG h))
                   (set_gyro_range r d) s s'.
Proof.
  intros Hd.
  destruct (SetReg_effect w (PIOS_MPU60X0_GYRO_CFG_REG h) r s)
    as (x & s1 & E & Hdev & Hk & Hs).
  unfold PIOS_MPU6500_SetGyroRange. rewrite (bind_Done _ _ _ _ _ E).
  assert (Hcall : forall v,
            exists s2, call (SENSORS_SetMaxGyro v) s1 = Done tt s2
                       /\ pios_mpu6500_dev s2 = Some d
                       /\ chip_of (trace s2) = chip_of (trace s1)).
  { intros v. eexists. split; [reflexivity|]. split; [|reflexivity].
    simpl. congruence. }
  assert (Hret : exists s2, ret tt s1 = Done tt s2
                            /\ pios_mpu6500_dev s2 = Some d
                            /\ chip_of (trace s2) = chip_of (trace s1)).
  { eexists. split; [reflexivity|]. split; [congruence | reflexivity]. }
  assert (Hmid : exists s2,
            (if r =? PIOS_MPU60X0_SCALE_250_DEG h
             then call (SENSORS_SetMaxGyro 250)
             else if r =? PIOS_MPU60X0_SCALE_500_DEG h
             then call (SENSORS_SetMaxGyro 500)
             else if r =? PIOS_MPU60X0_SCALE_1000_DEG h
             then call (SENSORS_SetMaxGyro 1000)
             else if r =? PIOS_MPU60X0_SCALE_2000_DEG h
             then call (SENSORS_SetMaxGyro 2000)
             else ret tt) s1 = Done tt s2
            /\ pios_mpu6500_dev s2 = Some d
            /\ chip_of (trace s2) = chip_of (trace s1)).
  { repeat match goal with
           | |- context [if ?c then _ else _] => destruct c
           end; auto. }
  destruct Hmid as (s2 & E2 & Hd2 & Hc2).
  rewrite (bind_Done _ _ _ _ _ E2). unfold update. rewrite Hd2.
  eexists. split; [reflexivity|].
  split; [reflexivity|]. split.
  - intros a Ha. cbn [trace]. rewrite Hc2. apply Hk, Ha.
  - intros Hsel. unfold deselected in *. cbn [trace]. rewrite Hc2. auto.
Qed.

Lemma SetSampleRate_effect h w r s d :
  pios_mpu6500_dev s = Some d ->
  Cint.uint16 r <> 0 ->
  exists s',
    PIOS_MPU6500_SetSampleRate h w r s = Done tt s'
    /\ left_behind (Some (PIOS_MPU60X0_SMPLRT_DIV_REG h)) d s s'.
Proof.
  intros Hd Hr. rewrite (SetSampleRate_run h w r s d Hd Hr).
  destruct (SetReg_effect w (PIOS_MPU60X0_SMPLRT_DIV_REG h)
              (divisor_spec (filter d =? PIOS_MPU60X0_LOWPASS_256_HZ h)
                            (Cint.uint16 r)) s)
    as (x & s1 & E & Hdev & Hk & Hs).
  rewrite (bind_Done _ _ _ _ _ E).
  eexists. split; [reflexivity|]. repeat split; try assumption. congruence.
Qed.

Lemma Test_effect h w s d :
  pios_mpu6500_dev s = Some d ->
  exists r s',
    PIOS_MPU6500_Test h w s = Done r s' /\ left_behind None d s s'.
Proof.
  intros Hd.
  destruct (GetReg_effect w (PIOS_MPU60X0_WHOAMI h) s)
    as (v & s1 & E & Hdev & Hk & Hs).
  rewrite (Test_of_GetReg h w s v s1 E).
  eexists; eexists. split; [reflexivity|]. repeat split; try assumption.
  congruence.
Qed.

(** X6: on any bus and from any history, each setter returns, caches
    the value it was given and changes at most its own register of the
    chip: the filter setter the filter register, the range setters their
    range registers, the rate setter the divider register (and no cached
    value); the self-test changes no register and no cached value.  None
    of them leaves the chip selected.  In particular a change of filter
    leaves the divider as it was programmed, although the clock the
    divider divides depends on the filter. *)
Theorem setters_change_only_their_register
  (h : pios_mpu60x0_h) (w : world) (s : state) (d : mpu6500_dev)
  (Hd : pios_mpu6500_dev s = Some d) :
  (forall f, exists s',
      PIOS_MPU6500_SetLPF h w f s = Done tt s'
      /\ left_behind (Some (PIOS_MPU60X0_DLPF_CFG_REG h)) (set_filter f d) s s'
      /\ (reg_addr (PIOS_MPU60X0_SMPLRT_DIV_REG h)
          <> reg_addr (PIOS_MPU60X0_DLPF_CFG_REG h) ->
          programmed (PIOS_MPU60X0_SMPLRT_DIV_REG h) (trace s')
          = programmed (PIOS_MPU60X0_SMPLRT_DIV_REG h) (trace s)))
  /\ (forall r, exists s',
      PIOS_MPU6500_SetGyroRange h w r s = Done tt s'
      /\ left_behind (Some (PIOS_MPU60X0_GYRO_CFG_REG h))
                     (set_gyro_range r d) s s')
  /\ (forall r, exists s',
      PIOS_MPU6500_SetAccelRange h w r s = Done tt s'
      /\ left_behind (Some (PIOS_MPU60X0_ACCEL_CFG_REG h))
                     (set_accel_range r d) s s')
  /\ (forall r, Cint.uint16 r <> 0 -> exists s',
      PIOS_MPU6500_SetSampleRate h w r s = Done tt s'
      /\ left_behind (Some (PIOS_MPU60X0_SMPLRT_DIV_REG h)) d s s')
  /\ (exists r s',
      PIOS_MPU6500_Test h w s = Done r s' /\ left_behind None d s s').
Proof.
  split; [|split; [|split; [|split]]].
  - intros f. destruct (SetLPF_effect h w f s d Hd) as (s' & E & Hl).
    exists s'. split; [exact E|]. split; [exact Hl|].
    intros Hne. destruct Hl as (_ & Hk & _). apply Hk, Hne.
  - intros r. apply SetGyroRange_effect, Hd.
  - intros r. apply SetAccelRange_effect, Hd.
  - intros r Hr. apply SetSampleRate_effect; assumption.
  - apply Test_effect, Hd.
Qed.

Lemma setters_change_only_their_register_witness :
  pios_mpu6500_dev running = Some running_dev
  /\ exists s',
      PIOS_MPU6500_SetLPF mpu60x0_regs (bus_answering 0) 3 running
      = Done tt s'
      /\ left_behind (Some (PIOS_MPU60X0_DLPF_CFG_REG mpu60x0_regs))
                     (set_filter 3 running_dev) running s'.
Proof.
  split; [reflexivity|].
  destruct (setters_change_only_their_register mpu60x0_regs (bus_answering 0)
              running running_dev eq_refl) as (H & _).
  destruct (H 3) as (s' & E & Hl & _).
  exists s'. split; [exact E | exact Hl].
Defined.

Lemma oriented_switch h o buf :
  (oriented h o = true ->
   exists p, switch_orientation h o buf = Some p
             /\ switch_orientation_gyro h o buf = Some (gyro_x p, gyro_y p))
  /\ (oriented h o = false ->
      switch_orientation h o buf = None
      /\ switch_orientation_gyro h o buf = None).
Proof.
  unfold oriented, switch_orientation, switch_orientation_gyro.
  destruct (o =? PIOS_MPU60X0_TOP_0DEG h);
    [split; [eexists; split; reflexivity | discriminate]|].
  destruct (o =? PIOS_MPU60X0_TOP_90DEG h);
    [split; [eexists; split; reflexivity | discriminate]|].
  destruct (o =? PIOS_MPU60X0_TOP_180DEG h);
    [split; [eexists; split; reflexivity | discriminate]|].
  destruct (o =? PIOS_MPU60X0_TOP_270DEG h);
    [split; [eexists; split; reflexivity | discriminate]|].
  split; [discriminate | split; reflexivity].
Qed.

(** The burst of the handler starts with a read address: the chip
    takes the bytes that follow for padding and stores nothing. *)
Lemma burst_address_byte x :
  Z.testbit (Cint.uint8 (Z.lor x 0x80)) 7 = true.
Proof.
  unfold Cint.uint8. change 256 with (2 ^ 8).
  rewrite Z.mod_pow2_bits_low by lia.
  rewrite Z.lor_spec. apply orb_true_r.
Qed.

Lemma chip_reading_on l : forall c,
  phase c = Reading -> fold_left chip_byte l c = c.
Proof.
  induction l as [|v l IH]; intros c Hc; [reflexivity|].
  cbn [fold_left].
  assert (E : chip_byte c v = c) by (unfold chip_byte; rewrite Hc; reflexivity).
  rewrite E. apply IH, Hc.
Qed.

Lemma send_buf_shape h :
  firstn (Z.to_nat (Z.of_nat BUFFER_SIZE)) (send_buf h)
  = Cint.uint8 (Z.lor (PIOS_MPU60X0_ACCEL_X_OUT_MSB h) 0x80) :: repeat 0 14.
Proof.
  unfold send_buf, BUFFER_SIZE.
  change (Z.to_nat (Z.of_nat 15)) with 15%nat.
  cbn [firstn repeat Nat.sub]. reflexivity.
Qed.

Lemma chip_first_byte c v :
  phase c = Selected ->
  chip_byte c v
  = {| phase := if Z.testbit v 7 then Reading else WriteTo v;
       regs := regs c |}.
Proof. intros Hc. unfold chip_byte. rewrite Hc. reflexivity. Qed.

Lemma chip_bytes_cons v l c :
  fold_left chip_byte (v :: l) c = fold_left chip_byte l (chip_byte c v).
Proof. reflexivity. Qed.

Lemma chip_after_send_buf h c :
  phase c = Selected ->
  fold_left chip_byte
    (firstn (Z.to_nat (Z.of_nat BUFFER_SIZE)) (send_buf h)) c
  = {| phase := Reading; regs := regs c |}.
Proof.
  intros Hc.
  rewrite send_buf_shape, chip_bytes_cons, (chip_first_byte _ _ Hc).
  rewrite (burst_address_byte (PIOS_MPU60X0_ACCEL_X_OUT_MSB h)).
  apply chip_reading_on. reflexivity.
Qed.

Lemma chip_after_burst h d t :
  chip_of (irq_released h d t)
  = {| phase := Deselected; regs := regs (chip_of t) |}.
Proof.
  unfold irq_released, irq_burst. cbn [chip_of chip_step regs phase].
  rewrite chip_after_send_buf by reflexivity. reflexivity.
Qed.

Lemma IRQHandler_idle h b w s :
  PIOS_MPU6500_Validate (pios_mpu6500_dev s) <> 0
  \/ option_map configured (pios_mpu6500_dev s) = Some false ->
  PIOS_MPU6500_IRQHandler h b w s = Done false s.
Proof.
  intros H. unfold PIOS_MPU6500_IRQHandler, bind, validated.
  destruct (PIOS_MPU6500_Validate (pios_mpu6500_dev s) =? 0) eqn:Hv;
    [|reflexivity].
  apply Z.eqb_eq in Hv. destruct H as [H | H]; [contradiction|].
  cbn [negb]. unfold deref.
  destruct (pios_mpu6500_dev s) as [d|]; [|discriminate].
  injection H as ->. reflexivity.
Qed.

(** X7: when the bus cannot be claimed, or the burst fails, the handler
    gives the cycle up: it returns false (whatever the bus calls left in
    the woken flag), queues no sample and changes neither the device nor
    a register of the chip.  After a refused claim the history holds the
    claim attempt and nothing else: the chip is not selected and the bus
    is not released.  After a failed burst the chip is deselected and
    the bus released. *)
Theorem IRQHandler_gives_up_on_bus_failure
  (h : pios_mpu60x0_h) (b : build) (w : world) (s : state) (d : mpu6500_dev)
  (Hd : pios_mpu6500_dev s = Some d)
  (Hv : PIOS_MPU6500_Validate (Some d) = 0)
  (Hconf : configured d = true)
  (Hfail : fst (isr_claim_answer w d (trace s)) <> 0
           \/ fst (burst_answer h w d (trace s)) < 0) :
  exists s',
    PIOS_MPU6500_IRQHandler h b w s = Done false s'
    /\ pios_mpu6500_dev s' = Some d
    /\ queued (trace s') = queued (trace s)
    /\ chip_kept s s'
    /\ trace s'
       = (if fst (isr_claim_answer w d (trace s)) =? 0
          then irq_released h d (trace s)
          else SPI_ClaimBusISR (spi_id d) :: trace s)
    /\ (fst (isr_claim_answer w d (trace s)) = 0 -> deselected (trace s')).
Proof.
  destruct (Z.eq_dec (fst (isr_claim_answer w d (trace s))) 0) as [Hc|Hc].
  - destruct Hfail as [Hf|Hb]; [contradiction|].
    rewrite (IRQHandler_burst_failed h b w s d Hd Hv Hconf Hc Hb).
    eexists. split; [reflexivity|]. rewrite Hc. cbn [with_trace trace].
    split; [exact Hd|]. split; [reflexivity|].
    split; [intros a; cbn [with_trace trace]; rewrite chip_after_burst;
            reflexivity|].
    split; [reflexivity|]. intros _. unfold deselected.
    cbn [with_trace trace]. rewrite chip_after_burst. reflexivity.
  - rewrite (IRQHandler_claim_refused h b w s d Hd Hv Hconf Hc).
    eexists. split; [reflexivity|].
    apply Z.eqb_neq in Hc. rewrite Hc. cbn [with_trace trace].
    split; [exact Hd|]. split; [reflexivity|].
    split; [intros a; reflexivity|]. split; [reflexivity|].
    apply Z.eqb_neq in Hc. intros Hc'. contradiction.
Qed.

(** On a busy bus the running device sees one claim attempt; on a free
    bus whose block transfer fails the bus is released again. *)
Lemma IRQHandler_gives_up_on_bus_failure_witness :
  (exists s',
      PIOS_MPU6500_IRQHandler mpu60x0_regs accel_simple bus_busy running
      = Done false s'
      /\ trace s' = [SPI_ClaimBusISR 1])
  /\ (exists s',
      PIOS_MPU6500_IRQHandler mpu60x0_regs accel_simple (bus_answering 0)
        running = Done false s'
      /\ trace s' = irq_released mpu60x0_regs running_dev []).
Proof.
  split.
  - destruct (IRQHandler_gives_up_on_bus_failure mpu60x0_regs accel_simple
                bus_busy running running_dev eq_refl eq_refl eq_refl)
      as (s' & E & _ & _ & _ & Ht & _).
    + left. vm_compute. discriminate.
    + exists s'. split; [exact E | exact Ht].
  - destruct (IRQHandler_gives_up_on_bus_failure mpu60x0_regs accel_simple
                (bus_answering 0) running running_dev eq_refl eq_refl eq_refl)
      as (s' & E & _ & _ & _ & Ht & _).
    + right. vm_compute. reflexivity.
    + exists s'. split; [exact E | exact Ht].
Defined.

(** X8: when the bus is claimed and the burst succeeds, the build
    without accel queues one sample, on the gyro queue, and the build
    with accel queues two, the accel sample then the gyro sample; the
    gyro sample is the same in both builds.  The handler returns true
    exactly when a queue send or the release of the bus reported a woken
    task, and leaves the device as it was. *)
Theorem IRQHandler_queues_the_same_gyro_sample_in_both_builds
  (h : pios_mpu60x0_h) (b : build) (w : world) (s : state) (d : mpu6500_dev)
  (Hd : pios_mpu6500_dev s = Some d)
  (Hv : PIOS_MPU6500_Validate (Some d) = 0)
  (Hconf : configured d = true)
  (Hclaim : fst (isr_claim_answer w d (trace s)) = 0)
  (Hburst : 0 <= fst (burst_answer h w d (trace s)))
  (Ho : oriented h (orientation (cfg d)) = true) :
  let buf := snd (burst_answer h w d (trace s)) in
  let t3 := irq_released h d (trace s) in
  let woken := snd (PIOS_SPI_ReleaseBusISR w t3) in
  exists a g,
    accel_sample_of h d buf = Some a
    /\ gyro_sample_of h d buf = Some g
    /\ (PIOS_MPU6500_ACCEL b = false ->
        let t4 := QueueSendToBackFromISR (gyro_queue d) g :: t3 in
        PIOS_MPU6500_IRQHandler h b w s
        = Done (xQueueSendToBackFromISR w t4 || eqb woken true)
               (with_trace s t4)
        /\ queued t4 = (gyro_queue d, g) :: queued (trace s))
    /\ (PIOS_MPU6500_ACCEL b = true ->
        let t4 := QueueSendToBackFromISR (accel_queue d) a :: t3 in
        let t5 := QueueSendToBackFromISR (gyro_queue d) g :: t4 in
        PIOS_MPU6500_IRQHandler h b w s
        = Done (xQueueSendToBackFromISR w t4 || xQueueSendToBackFromISR w t5
                || eqb woken true)
               (with_trace s t5)
        /\ queued t5
           = (gyro_queue d, g) :: (accel_queue d, a) :: queued (trace s)).
Proof.
  intros buf t3 woken.
  pose proof (IRQHandler_after_burst h b w s d Hd Hv Hconf Hclaim Hburst)
    as Hrun.
  cbv zeta in Hrun. fold buf in Hrun. fold t3 in Hrun. fold woken in Hrun.
  destruct (proj1 (oriented_switch h (orientation (cfg d)) buf) Ho)
    as (p & Hsw & Hswg).
  unfold accel_sample_of, gyro_sample_of in *. rewrite Hsw, Hswg in *.
  eexists. eexists. split; [reflexivity|]. split; [reflexivity|].
  split; intros Hb; rewrite Hb in Hrun; cbv zeta; (split; [exact Hrun|]);
    reflexivity.
Qed.

Lemma IRQHandler_queues_the_same_gyro_sample_in_both_builds_witness :
  exists g,
    gyro_sample_of mpu60x0_regs running_dev burst_example = Some g
    /\ queued (match PIOS_MPU6500_IRQHandler mpu60x0_regs
                       (gyro_only accel_simple)
                       (bus_delivering burst_example) running with
               | Done _ s' => trace s'
               | _ => []
               end) = [(11, g)].
Proof.
  destruct (IRQHandler_queues_the_same_gyro_sample_in_both_builds
              mpu60x0_regs (gyro_only accel_simple)
              (bus_delivering burst_example) running running_dev
              eq_refl eq_refl eq_refl eq_refl)
    as (a & g & _ & Hg & Hgyro & _).
  - vm_compute. discriminate.
  - reflexivity.
  - exists g. split; [exact Hg|].
    destruct (Hgyro eq_refl) as [E Hq]. rewrite E. exact Hq.
Defined.

(** X9: the orientation switch has no default case.  For an orientation
    that is none of the four labels no case assigns x and y of the
    samples, and the handler goes on to scale and queue them unassigned:
    once the burst is read, the run uses indeterminate values, a fault,
    in either build. *)
Theorem IRQHandler_needs_one_of_the_four_orientations
  (h : pios_mpu60x0_h) (b : build) (w : world) (s : state) (d : mpu6500_dev)
  (Hd : pios_mpu6500_dev s = Some d)
  (Hv : PIOS_MPU6500_Validate (Some d) = 0)
  (Hconf : configured d = true)
  (Hclaim : fst (isr_claim_answer w d (trace s)) = 0)
  (Hburst : 0 <= fst (burst_answer h w d (trace s)))
  (Ho : oriented h (orientation (cfg d)) = false) :
  PIOS_MPU6500_IRQHandler h b w s = Fault.
Proof.
  rewrite (IRQHandler_after_burst h b w s d Hd Hv Hconf Hclaim Hburst).
  cbv zeta.
  destruct (proj2 (oriented_switch h (orientation (cfg d))
                     (snd (burst_answer h w d (trace s)))) Ho)
    as (Hsw & Hswg).
  unfold accel_sample_of, gyro_sample_of. rewrite Hsw, Hswg.
  destruct (PIOS_MPU6500_ACCEL b); reflexivity.
Qed.

Lemma IRQHandler_needs_one_of_the_four_orientations_witness :
  PIOS_MPU6500_IRQHandler mpu60x0_regs accel_simple
    (bus_delivering burst_example) unlabelled = Fault
  /\ PIOS_MPU6500_IRQHandler mpu60x0_regs (gyro_only accel_simple)
       (bus_delivering burst_example) unlabelled = Fault.
Proof.
  split;
    apply (IRQHandler_needs_one_of_the_four_orientations mpu60x0_regs _
             (bus_delivering burst_example) unlabelled unlabelled_dev);
    first [reflexivity | vm_compute; discriminate].
Defined.

(** What a run of the handler adds, in each of its cases. *)
Lemma IRQHandler_effect h b w s :
  (exists r s' l,
      PIOS_MPU6500_IRQHandler h b w s = Done r s'
      /\ trace s' = l ++ trace s
      /\ forallb isr_event l = true
      /\ (length (queued l) <= if PIOS_MPU6500_ACCEL b then 2 else 1)%nat
      /\ pios_mpu6500_dev s' = pios_mpu6500_dev s
      /\ chip_kept s s'
      /\ (deselected (trace s) -> deselected (trace s')))
  \/ (PIOS_MPU6500_IRQHandler h b w s = Fault
      /\ exists d, pios_mpu6500_dev s = Some d
                   /\ oriented h (orientation (cfg d)) = false).
Proof.
  assert (Hidle : PIOS_MPU6500_IRQHandler h b w s = Done false s ->
                  exists r s' l,
                    PIOS_MPU6500_IRQHandler h b w s = Done r s'
                    /\ trace s' = l ++ trace s
                    /\ forallb isr_event l = true
                    /\ (length (queued l)
                        <= if PIOS_MPU6500_ACCEL b then 2 else 1)%nat
                    /\ pios_mpu6500_dev s' = pios_mpu6500_dev s
                    /\ chip_kept s s'
                    /\ (deselected (trace s) -> deselected (trace s'))).
  { intros E. exists false, s, []. split; [exact E|].
    split; [reflexivity|]. split; [reflexivity|].
    split; [destruct (PIOS_MPU6500_ACCEL b); simpl; lia|].
    split; [reflexivity|]. split; [intros a; reflexivity | auto]. }
  destruct (Z.eq_dec (PIOS_MPU6500_Validate (pios_mpu6500_dev s)) 0)
    as [Hv|Hv]; [|left; apply Hidle, IRQHandler_idle; left; exact Hv].
  destruct (Validate_ok_some _ Hv) as [d Hd]. rewrite Hd in Hv.
  destruct (configured d) eqn:Hconf;
    [|left; apply Hidle, IRQHandler_idle; right; rewrite Hd; simpl;
      congruence].
  destruct (Z.eq_dec (fst (isr_claim_answer w d (trace s))) 0) as [Hc|Hc].
  - destruct (Z_lt_le_dec (fst (burst_answer h w d (trace s))) 0)
      as [Hb|Hb].
    + left. rewrite (IRQHandler_burst_failed h b w s d Hd Hv Hconf Hc Hb).
      exists false, (with_trace s (irq_released h d (trace s))),
        (irq_released h d []).
      split; [reflexivity|]. split; [reflexivity|]. split; [reflexivity|].
      split; [destruct (PIOS_MPU6500_ACCEL b); simpl; lia|].
      split; [reflexivity|].
      split; [intros a; cbn [with_trace trace]; rewrite chip_after_burst;
              reflexivity|].
      intros _. unfold deselected. cbn [with_trace trace].
      rewrite chip_after_burst. reflexivity.
    + rewrite (IRQHandler_after_burst h b w s d Hd Hv Hconf Hc Hb).
      cbv zeta.
      destruct (oriented h (orientation (cfg d))) eqn:Ho.
      * left.
        destruct (proj1 (oriented_switch h (orientation (cfg d))
                           (snd (burst_answer h w d (trace s)))) Ho)
          as (p & Hsw & Hswg).
        unfold accel_sample_of, gyro_sample_of. rewrite Hsw, Hswg.
        destruct (PIOS_MPU6500_ACCEL b).
        -- eexists. eexists.
           eexists (_ :: _ :: irq_released h d []).
           split; [reflexivity|]. split; [reflexivity|].
           split; [reflexivity|].
           split; [simpl; lia|]. split; [reflexivity|].
           split; [intros a; cbn [with_trace trace chip_of chip_step];
                   rewrite chip_after_burst; reflexivity|].
           intros _. unfold deselected.
           cbn [with_trace trace chip_of chip_step].
           rewrite chip_after_burst. reflexivity.
        -- eexists. eexists.
           eexists (_ :: irq_released h d []).
           split; [reflexivity|]. split; [reflexivity|].
           split; [reflexivity|].
           split; [simpl; lia|]. split; [reflexivity|].
           split; [intros a; cbn [with_trace trace chip_of chip_step];
                   rewrite chip_after_burst; reflexivity|].
           intros _. unfold deselected.
           cbn [with_trace trace chip_of chip_step].
           rewrite chip_after_burst. reflexivity.
      * right.
        destruct (proj2 (oriented_switch h (orientation (cfg d))
                           (snd (burst_answer h w d (trace s)))) Ho)
          as (Hsw & Hswg).
        unfold accel_sample_of, gyro_sample_of. rewrite Hsw, Hswg.
        split; [destruct (PIOS_MPU6500_ACCEL b); reflexivity|].
        exists d. split; [exact Hd | exact Ho].
  - left. rewrite (IRQHandler_claim_refused h b w s d Hd Hv Hconf Hc).
    exists false, (with_trace s (SPI_ClaimBusISR (spi_id d) :: trace s)),
      [SPI_ClaimBusISR (spi_id d)].
    split; [reflexivity|]. split; [reflexivity|]. split; [reflexivity|].
    split; [destruct (PIOS_MPU6500_ACCEL b); simpl; lia|].
    split; [reflexivity|]. split; [intros a; reflexivity|].
    intros Hsel. exact Hsel.
Qed.

(** X10: the handler is fit for interrupt context.  Whenever the
    orientation is one of the four labels it returns, on any bus and
    from any history, and what it adds to the history are interrupt-safe
    calls only (the ISR claim and release, the chip-select pin, the
    block transfer, the queue sends): it never waits, never takes the
    bus by the task-context calls and never transfers single bytes.  It
    queues at most one sample per sensor of the build, changes neither
    the device nor a register of the chip, and does not leave the chip
    selected. *)
Theorem IRQHandler_is_fit_for_interrupt_context
  (h : pios_mpu60x0_h) (b : build) (w : world) (s : state)
  (Ho : forall d, pios_mpu6500_dev s = Some d ->
                  oriented h (orientation (cfg d)) = true) :
  exists r s' l,
    PIOS_MPU6500_IRQHandler h b w s = Done r s'
    /\ trace s' = l ++ trace s
    /\ forallb isr_event l = true
    /\ (length (queued l) <= if PIOS_MPU6500_ACCEL b then 2 else 1)%nat
    /\ pios_mpu6500_dev s' = pios_mpu6500_dev s
    /\ chip_kept s s'
    /\ (deselected (trace s) -> deselected (trace s')).
Proof.
  destruct (IRQHandler_effect h b w s) as [H | (_ & d & Hd & Hn)];
    [exact H|].
  rewrite (Ho d Hd) in Hn. discriminate.
Qed.

Lemma IRQHandler_is_fit_for_interrupt_context_witness :
  exists r s' l,
    PIOS_MPU6500_IRQHandler mpu60x0_regs accel_simple
      (bus_delivering burst_example) running = Done r s'
    /\ trace s' = l ++ trace running
    /\ forallb isr_event l = true.
Proof.
  destruct (IRQHandler_is_fit_for_interrupt_context mpu60x0_regs accel_simple
              (bus_delivering burst_example) running)
    as (r & s' & l & E & Ht & Hl & _).
  - intros d Hd. injection Hd as <-. reflexivity.
  - exists r, s', l. split; [exact E|]. split; [exact Ht | exact Hl].
Defined.

(** ** Allocation and initialisation *)

Lemma Init_of_alloc h b w hp spi slave c budget sys :
  PIOS_MPU6500_Init h b w hp spi slave c budget sys
  = match allocated b hp sys with
    | None =>
        Booted (-1)
          {| driver := {| pios_mpu6500_dev := None;
                          trace := trace (driver sys) |};
             boot := allocation_log b hp sys |}
    | Some d0 =>
        let d := at_bus spi slave c d0 in
        match PIOS_MPU6500_Config h b w c budget
                {| pios_mpu6500_dev := Some d;
                   trace := trace (driver sys) |} with
        | Fault => Boot_fault
        | Spin => Boot_spin
        | Done _ s =>
            match pios_mpu6500_dev s with
            | None => Boot_fault
            | Some d' =>
                Booted 0
                  {| driver := s;
                     boot :=
                       (SENSORS_Register PIOS_SENSOR_GYRO (gyro_queue d'),
                        trace s)
                       :: (if PIOS_MPU6500_ACCEL b
                           then [(SENSORS_Register PIOS_SENSOR_ACCEL
                                    (accel_queue d'), trace s)]
                           else [])
                       ++ (EXTI_Init c, trace s)
                       :: (SPI_SetClockSpeed (spi_id d') 3000000, trace s)
                       :: (SPI_SetClockSpeed (uint32 spi) 100000,
                           trace (driver sys))
                       :: allocation_log b hp sys |}
            end
        end
    end.
Proof.
  unfold PIOS_MPU6500_Init, allocated, allocation_log.
  destruct (PIOS_MPU6500_alloc b hp (trace (driver sys)) (boot sys))
    as [[d0|] log]; cbn [fst snd]; [|reflexivity].
  cbv zeta. unfold at_bus.
  destruct (PIOS_MPU6500_Config h b w c budget _) as [[] s| |];
    try reflexivity.
  destruct (pios_mpu6500_dev s) as [d'|]; [|reflexivity].
  destruct (PIOS_MPU6500_ACCEL b); reflexivity.
Qed.

Lemma config_result_identity h b c d :
  spi_id (config_result h b c d) = spi_id d
  /\ slave_num (config_result h b c d) = slave_num d
  /\ magic (config_result h b c d) = magic d
  /\ cfg (config_result h b c d) = cfg d
  /\ gyro_queue (config_result h b c d) = gyro_queue d
  /\ accel_queue (config_result h b c d) = accel_queue d.
Proof.
  unfold config_result. destruct (PIOS_MPU6500_ACCEL b); repeat split.
Qed.

(** What [PIOS_MPU6500_alloc] has written when it returns a device. *)
Lemma allocated_tagged b hp sys d0 :
  allocated b hp sys = Some d0 ->
  magic d0 = pios_mpu6500_dev_MAGIC /\ configured d0 = false.
Proof.
  unfold allocated, PIOS_MPU6500_alloc.
  destruct (PIOS_malloc hp _) as [blk|]; [|discriminate].
  destruct (PIOS_MPU6500_ACCEL b).
  - destruct (xQueueCreate hp _) as [qa|]; [|discriminate].
    destruct (xQueueCreate hp _) as [qg|]; [|discriminate].
    cbn [fst]. intros [= <-]. split; reflexivity.
  - destruct (xQueueCreate hp _) as [qg|]; [|discriminate].
    cbn [fst]. intros [= <-]. split; reflexivity.
Qed.

Lemma Validate_after_Init h b c spi slave d0 :
  magic d0 = pios_mpu6500_dev_MAGIC ->
  PIOS_MPU6500_Validate (Some (config_result h b c (at_bus spi slave c d0)))
  = if uint32 spi =? 0 then -3 else 0.
Proof.
  intros Hm. unfold PIOS_MPU6500_Validate.
  destruct (config_result_identity h b c (at_bus spi slave c d0))
    as (-> & _ & -> & _).
  cbn [at_bus set_cfg set_slave_num set_spi_id magic spi_id].
  rewrite Hm, Z.eqb_refl. reflexivity.
Qed.

(** The run of [PIOS_MPU6500_Init] once the allocation has succeeded
    and the configuration sequence has ended. *)
Lemma Init_after_Config h b w hp spi slave c budget sys d0 s' :
  allocated b hp sys = Some d0 ->
  let d := at_bus spi slave c d0 in
  let t := trace (driver sys) in
  PIOS_MPU6500_Config h b w c budget {| pios_mpu6500_dev := Some d; trace := t |}
  = Done tt s' ->
  pios_mpu6500_dev s' = Some (config_result h b c d) ->
  PIOS_MPU6500_Init h b w hp spi slave c budget sys
  = Booted 0 {| driver := s';
                boot := boot_log_of b spi c d t (trace s')
                          (allocation_log b hp sys) |}.
Proof.
  intros Ha d t Hrun Hdev. rewrite Init_of_alloc, Ha. cbv zeta.
  fold d. fold t. rewrite Hrun, Hdev. unfold boot_log_of.
  destruct (config_result_identity h b c d) as (-> & _ & _ & _ & -> & ->).
  reflexivity.
Qed.

(** X11: PIOS_MPU6500_Init reports a failed allocation and nothing
    else.  When the allocator or the queue factory answers NULL it
    returns -1 with the global pointer NULL and no call on the bus.
    Otherwise, whatever the bus and the chip answer, it returns 0 if
    it returns at all (always with the simple sequence; with the polled
    sequence when the polled bits read clear): the device then carries
    the arguments, the magic tag, the configured flag and the default
    ranges, and it validates exactly when the bus handle is not zero;
    the slow clock is set before the first bus call of the configuration
    sequence, and the fast clock, the interrupt line and the
    registration of the queues come after its last. *)
Theorem Init_reports_only_allocation_failure
  (h : pios_mpu60x0_h) (b : build) (w : world) (hp : heap) (spi slave : Z)
  (c : pios_mpu60x0_cfg) (budget : nat) (sys : system)
  (Hr : Cint.uint16 (default_samplerate c) <> 0) :
  let t := trace (driver sys) in
  let run := PIOS_MPU6500_Init h b w hp spi slave c budget sys in
  (allocated b hp sys = None ->
   run = Booted (-1)
           {| driver := {| pios_mpu6500_dev := None; trace := t |};
              boot := allocation_log b hp sys |})
  /\ (forall d0,
      allocated b hp sys = Some d0 ->
      let d := at_bus spi slave c d0 in
      (run = Boot_spin
       \/ exists s',
           run = Booted 0
                   {| driver := s';
                      boot := boot_log_of b spi c d t (trace s')
                                (allocation_log b hp sys) |}
           /\ pios_mpu6500_dev s' = Some (config_result h b c d)
           /\ PIOS_MPU6500_Validate (pios_mpu6500_dev s')
              = (if uint32 spi =? 0 then -3 else 0))
      /\ (PIOS_MPU6500_SIMPLE_INIT_SEQUENCE b = true
          \/ (reads_clear w d (PIOS_MPU60X0_PWR_MGMT_REG h) 0x80
              /\ reads_clear w d (PIOS_MPU60X0_USER_CTRL_REG h) 0x07
              /\ budget <> O) ->
          run <> Boot_spin)).
Proof.
  intros t run. unfold run. split.
  - intros Ha. rewrite Init_of_alloc, Ha. reflexivity.
  - intros d0 Ha. cbv zeta. set (d := at_bus spi slave c d0).
    destruct (Config_outcome h b w c budget
                {| pios_mpu6500_dev := Some d; trace := t |} d eq_refl Hr)
      as [Hends Hcases].
    split.
    + destruct Hcases as [Hspin | (s' & Hrun & Hdev)].
      * left. rewrite Init_of_alloc, Ha. cbv zeta. fold d. fold t.
        rewrite Hspin. reflexivity.
      * right. exists s'.
        split; [apply Init_after_Config; assumption|].
        split; [exact Hdev|]. rewrite Hdev.
        apply Validate_after_Init.
        apply (allocated_tagged b hp sys d0 Ha).
    + intros Hcase. destruct (Hends Hcase) as (s' & Hrun & Hdev).
      rewrite (Init_after_Config h b w hp spi slave c budget sys d0 s'
                 Ha Hrun Hdev).
      discriminate.
Qed.

(** Without memory the initialisation returns -1; with memory it
    returns 0 on a bus that can never be claimed, with the device
    configured. *)
Lemma Init_reports_only_allocation_failure_witness :
  PIOS_MPU6500_Init mpu60x0_regs accel_simple bus_busy heap_exhausted
    1 0 board_cfg 0 power_on
  = Booted (-1) {| driver := {| pios_mpu6500_dev := None; trace := [] |};
                   boot := [(Malloc, [])] |}
  /\ exists sys',
      PIOS_MPU6500_Init mpu60x0_regs accel_simple bus_busy
        (heap_giving stale_block) 1 0 board_cfg 0 power_on
      = Booted 0 sys'
      /\ pios_mpu6500_dev (driver sys')
         = Some (config_result mpu60x0_regs accel_simple board_cfg fresh_dev).
Proof.
  split.
  - apply (Init_reports_only_allocation_failure mpu60x0_regs accel_simple
             bus_busy heap_exhausted 1 0 board_cfg 0 power_on).
    + vm_compute. discriminate.
    + reflexivity.
  - destruct (Init_reports_only_allocation_failure mpu60x0_regs accel_simple
                bus_busy (heap_giving stale_block) 1 0 board_cfg 0 power_on)
      as [_ H].
    + vm_compute. discriminate.
    + destruct (H _ eq_refl) as [[Hspin | (s' & Hrun & Hdev & _)] Hno].
      * exfalso. apply Hno; [left; reflexivity | exact Hspin].
      * eexists. split; [exact Hrun|]. exact Hdev.
Defined.


(** ** The driver on a device that does not validate *)

Lemma no_bus_call_refl t : no_bus_call_since t t.
Proof. exists []. split; reflexivity. Qed.

Lemma no_bus_call_step t t' e :
  spi_event e = false ->
  no_bus_call_since t t' -> no_bus_call_since t (e :: t').
Proof.
  intros He (l & -> & Hl). exists (e :: l). split; [reflexivity|].
  cbn [forallb]. rewrite He, Hl. reflexivity.
Qed.

Section InvalidSteps.

Variables (h : pios_mpu60x0_h) (w : world) (spin : bool) (t0 : history).
Variable s : state.
Hypothesis Hs : shut_since t0 s.

Lemma wpi_SetReg reg data (Q : Z -> state -> Prop) :
  (forall r s', shut_since t0 s' -> Q r s') ->
  wp spin (PIOS_MPU6500_SetReg w reg data) s Q.
Proof.
  intros HQ. unfold wp. destruct Hs as (Hd & Hv & Ht).
  rewrite (SetReg_invalid w reg data s Hv). apply HQ, Hs.
Qed.

Lemma wpi_call e (Q : unit -> state -> Prop) :
  spi_event e = false ->
  (forall r s', shut_since t0 s' -> Q r s') ->
  wp spin (call e) s Q.
Proof.
  intros He HQ. unfold wp, call. apply HQ.
  destruct Hs as (Hd & Hv & Ht).
  split; [exact Hd|]. split; [exact Hv|].
  apply no_bus_call_step; assumption.
Qed.

Lemma wpi_update f (Q : unit -> state -> Prop) :
  (forall d, magic (f d) = magic d /\ spi_id (f d) = spi_id d) ->
  (forall r s', shut_since t0 s' -> Q r s') ->
  wp spin (update f) s Q.
Proof.
  intros Hf HQ. unfold wp, update. destruct Hs as ((d & Hd) & Hv & Ht).
  rewrite Hd in *. apply HQ.
  split; [eexists; reflexivity|]. split; [|exact Ht].
  cbn [pios_mpu6500_dev]. unfold PIOS_MPU6500_Validate in *.
  destruct (Hf d) as [-> ->]. exact Hv.
Qed.

End InvalidSteps.

Section InvalidSetters.

Variables (h : pios_mpu60x0_h) (w : world) (spin : bool) (t0 : history).
Variable s : state.
Hypothesis Hs : shut_since t0 s.

Lemma wpi_SetLPF f (Q : unit -> state -> Prop) :
  (forall r s', shut_since t0 s' -> Q r s') ->
  wp spin (PIOS_MPU6500_SetLPF h w f) s Q.
Proof.
  intros HQ. unfold PIOS_MPU6500_SetLPF.
  apply wp_bind, (wpi_SetReg w spin t0 s Hs). intros r s1 H1.
  apply (wpi_update spin t0 s1 H1); [intros d; split; reflexivity|].
  exact HQ.
Qed.

Lemma wpi_SetAccelRange r (Q : unit -> state -> Prop) :
  (forall r s', shut_since t0 s' -> Q r s') ->
  wp spin (PIOS_MPU6500_SetAccelRange h w r) s Q.
Proof.
  intros HQ. unfold PIOS_MPU6500_SetAccelRange.
  apply wp_bind, (wpi_SetReg w spin t0 s Hs). intros x s1 H1.
  apply (wpi_update spin t0 s1 H1); [intros d; split; reflexivity|].
  exact HQ.
Qed.

Lemma wpi_SetGyroRange r (Q : unit -> state -> Prop) :
  (forall r s', shut_since t0 s' -> Q r s') ->
  wp spin (PIOS_MPU6500_SetGyroRange h w r) s Q.
Proof.
  intros HQ. unfold PIOS_MPU6500_SetGyroRange.
  apply wp_bind, (wpi_SetReg w spin t0 s Hs). intros x s1 H1.
  apply wp_bind.
  assert (Hrest : forall (x : unit) s2, shut_since t0 s2 ->
            wp spin (update (set_gyro_range r)) s2 Q).
  { intros _ s2 H2.
    apply (wpi_update spin t0 s2 H2); [intros d; split; reflexivity|].
    exact HQ. }
  repeat match goal with
         | |- context [if ?c then _ else _] => destruct c
         end;
    first [ apply (wpi_call spin t0 s1 H1); [reflexivity | exact Hrest]
          | apply wp_ret, (Hrest tt), H1 ].
Qed.

Lemma wpi_SetSampleRate r (Q : unit -> state -> Prop) :
  Cint.uint16 r <> 0 ->
  (forall r s', shut_since t0 s' -> Q r s') ->
  wp spin (PIOS_MPU6500_SetSampleRate h w r) s Q.
Proof.
  intros Hr HQ. destruct Hs as ((d & Hd) & Hrest). unfold wp.
  rewrite (SetSampleRate_run h w r s d Hd Hr).
  apply wp_bind, (wpi_SetReg w spin t0 s Hs). intros x s1 H1.
  apply wp_ret, HQ, H1.
Qed.

End InvalidSetters.

Ltac shut_step :=
  apply wp_bind;
  first [ eapply wpi_SetReg; [eassumption|]
        | eapply wpi_call; [eassumption | reflexivity |]
        | eapply wpi_SetLPF; [eassumption|]
        | eapply wpi_SetGyroRange; [eassumption|]
        | eapply wpi_SetAccelRange; [eassumption|]
        | eapply wpi_SetSampleRate; [eassumption | assumption |]
        | apply wp_ret ];
  intros ? ? ?.

Lemma Config_simple_shut h b w c t0 s :
  shut_since t0 s ->
  Cint.uint16 (default_samplerate c) <> 0 ->
  wp false (Config_simple h b w c) s (fun _ s' => shut_since t0 s').
Proof.
  intros Hs Hr. unfold Config_simple.
  do 10 shut_step.
  destruct (PIOS_MPU6500_ACCEL b).
  - do 3 shut_step.
    eapply wpi_update; [eassumption | intros d; split; reflexivity |].
    intros ? ? Hfin. exact Hfin.
  - apply wp_bind, wp_ret. do 2 shut_step.
    eapply wpi_update; [eassumption | intros d; split; reflexivity |].
    intros ? ? Hfin. exact Hfin.
Qed.

(** On a device that does not validate every read answers -1, in which
    every bit is set. *)
Lemma reads_stuck_invalid w d reg mask :
  PIOS_MPU6500_Validate (Some d) <> 0 ->
  mask mod 2 ^ 32 <> 0 ->
  reads_stuck w d reg mask.
Proof.
  intros Hv Hm s v s' Hd Hrun.
  rewrite GetReg_invalid in Hrun by (rewrite Hd; exact Hv).
  injection Hrun as <- _. rewrite Z.land_m1_l. intros ->. apply Hm.
  reflexivity.
Qed.

Lemma Validate_null_handle spi slave c d0 :
  uint32 spi = 0 ->
  magic d0 = pios_mpu6500_dev_MAGIC ->
  PIOS_MPU6500_Validate (Some (at_bus spi slave c d0)) = -3.
Proof.
  intros Hspi Hm. unfold PIOS_MPU6500_Validate.
  cbn [at_bus set_cfg set_slave_num set_spi_id magic spi_id].
  rewrite Hm, Hspi. reflexivity.
Qed.

(** X13: a bus handle of zero is stored like any other, and the device
    then never validates.  With the simple sequence the configuration
    makes no call on the bus at all, yet PIOS_MPU6500_Init returns 0 and
    marks the device configured; with the polled sequence every read of
    the reset bit answers -1 and the initialisation never returns,
    whatever the number of turns allowed. *)
Theorem Init_with_null_bus_handle
  (h : pios_mpu60x0_h) (b : build) (w : world) (hp : heap) (spi slave : Z)
  (c : pios_mpu60x0_cfg) (budget : nat) (sys : system) (d0 : mpu6500_dev)
  (Hspi : uint32 spi = 0)
  (Ha : allocated b hp sys = Some d0)
  (Hr : Cint.uint16 (default_samplerate c) <> 0) :
  let t := trace (driver sys) in
  let d := at_bus spi slave c d0 in
  let run := PIOS_MPU6500_Init h b w hp spi slave c budget sys in
  (PIOS_MPU6500_SIMPLE_INIT_SEQUENCE b = true ->
   exists s',
     run = Booted 0 {| driver := s';
                       boot := boot_log_of b spi c d t (trace s')
                                 (allocation_log b hp sys) |}
     /\ pios_mpu6500_dev s' = Some (config_result h b c d)
     /\ flag_set s'
     /\ PIOS_MPU6500_Validate (pios_mpu6500_dev s') = -3
     /\ no_bus_call_since t (trace s'))
  /\ (PIOS_MPU6500_SIMPLE_INIT_SEQUENCE b = false -> run = Boot_spin).
Proof.
  intros t d run. unfold run.
  destruct (allocated_tagged b hp sys d0 Ha) as [Hm _].
  pose proof (Validate_null_handle spi slave c d0 Hspi Hm) as Hv.
  fold d in Hv.
  set (s := {| pios_mpu6500_dev := Some d; trace := t |}).
  split; intros Hb.
  - destruct (Config_outcome h b w c budget s d eq_refl Hr) as [Hends _].
    destruct (Hends (or_introl Hb)) as (s' & Hrun & Hdev).
    exists s'.
    split; [apply Init_after_Config; assumption|].
    split; [exact Hdev|].
    split; [apply (config_result_flag h b c d), Hdev|].
    split.
    + rewrite Hdev. unfold d.
      rewrite Validate_after_Init, Hspi by exact Hm. reflexivity.
    + assert (Hshut : shut_since t s).
      { split; [exists d; reflexivity|].
        split; [cbn [s pios_mpu6500_dev]; rewrite Hv; discriminate|].
        apply no_bus_call_refl. }
      pose proof (Config_simple_shut h b w c t s Hshut Hr) as Hwp.
      unfold PIOS_MPU6500_Config in Hrun. rewrite Hb in Hrun.
      unfold wp in Hwp. rewrite Hrun in Hwp. apply Hwp.
  - rewrite Init_of_alloc, Ha. cbv zeta. fold d. fold t. fold s.
    unfold PIOS_MPU6500_Config. rewrite Hb.
    rewrite (Config_full_stuck h b w c budget s d); [reflexivity | | reflexivity].
    apply reads_stuck_invalid; [rewrite Hv; discriminate|].
    vm_compute. discriminate.
Qed.

Lemma Init_with_null_bus_handle_witness :
  (exists s',
      PIOS_MPU6500_Init mpu60x0_regs accel_simple (bus_answering 0)
        (heap_giving stale_block) 0 0 board_cfg 0 power_on
      = Booted 0 {| driver := s';
                    boot := boot_log_of accel_simple 0 board_cfg
                              (at_bus 0 0 board_cfg
                                 (set_gyro_queue 11
                                    (set_accel_queue 12
                                       (set_configured false
                                          (set_magic pios_mpu6500_dev_MAGIC
                                             stale_block)))))
                              [] (trace s')
                              (allocation_log accel_simple
                                 (heap_giving stale_block) power_on) |}
      /\ flag_set s'
      /\ no_bus_call_since [] (trace s'))
  /\ PIOS_MPU6500_Init mpu60x0_regs accel_full (bus_answering 0)
       (heap_giving stale_block) 0 0 board_cfg 1000 power_on
     = Boot_spin.
Proof.
  split.
  - destruct (Init_with_null_bus_handle mpu60x0_regs accel_simple
                (bus_answering 0) (heap_giving stale_block) 0 0 board_cfg 0
                power_on _ eq_refl eq_refl) as [H _].
    + vm_compute. discriminate.
    + destruct (H eq_refl) as (s' & Hrun & _ & Hf & _ & Ht).
      exists s'. split; [exact Hrun|]. split; [exact Hf | exact Ht].
  - apply (Init_with_null_bus_handle mpu60x0_regs accel_full
             (bus_answering 0) (heap_giving stale_block) 0 0 board_cfg 1000
             power_on _ eq_refl eq_refl).
    + vm_compute. discriminate.
    + reflexivity.
Defined.

(** ** Two runs of the configuration sequence side by side *)

Lemma rel2_ret {A} (a : A) s1 s2 (Q : A -> state -> state -> Prop) :
  Q a s1 s2 -> rel2 (ret a) s1 s2 Q.
Proof. intros H. split; [reflexivity | exact H]. Qed.

Lemma rel2_bind {A B} (m : M A) (k : A -> M B) s1 s2 Q :
  rel2 m s1 s2 (fun a s1' s2' => rel2 (k a) s1' s2' Q) ->
  rel2 (bind m k) s1 s2 Q.
Proof.
  unfold rel2, bind. destruct (m s1), (m s2); try tauto.
  intros [-> H]. exact H.
Qed.

Lemma view_identity b k d1 d2 :
  view b k d1 = view b k d2 ->
  spi_id d1 = spi_id d2 /\ slave_num d1 = slave_num d2
  /\ magic d1 = magic d2.
Proof.
  intros H. split; [|split].
  - apply (f_equal spi_id) in H. exact H.
  - apply (f_equal slave_num) in H. exact H.
  - apply (f_equal magic) in H. exact H.
Qed.

Lemma bus_histories w d1 d2 :
  spi_id d1 = spi_id d2 -> slave_num d1 = slave_num d2 ->
  (forall t, claim_answer w d1 t = claim_answer w d2 t)
  /\ (forall t, after_claim d1 t = after_claim d2 t)
  /\ (forall t, released d1 t = released d2 t)
  /\ (forall reg t, write_t1 d1 reg t = write_t1 d2 reg t)
  /\ (forall reg data t, write_t2 d1 reg data t = write_t2 d2 reg data t)
  /\ (forall reg t, read_t2 d1 reg t = read_t2 d2 reg t).
Proof.
  intros Hs Hn.
  unfold claim_answer, after_claim, released, write_t2, write_t1, read_t2,
    after_claim.
  rewrite Hs, Hn. repeat split.
Qed.

Lemma ReleaseBus_invalid w s :
  PIOS_MPU6500_Validate (pios_mpu6500_dev s) <> 0 ->
  PIOS_MPU6500_ReleaseBus w s = Done (-1) s.
Proof.
  intros Hv. unfold PIOS_MPU6500_ReleaseBus, bind, validated.
  apply Z.eqb_neq in Hv. rewrite Hv. reflexivity.
Qed.

(** A step whose result and calls are the same from both states, and
    which keeps the device. *)
Lemma rel2_step {A} (m : M A) b k s1 s2 (Q : A -> state -> state -> Prop) :
  alike b k s1 s2 ->
  (exists a l, m s1 = Done a (with_trace s1 (l ++ trace s1))
               /\ m s2 = Done a (with_trace s2 (l ++ trace s2))) ->
  (forall a s1' s2', alike b k s1' s2' -> Q a s1' s2') ->
  rel2 m s1 s2 Q.
Proof.
  intros [Ht Hd] (a & l & E1 & E2) HQ. unfold rel2. rewrite E1, E2.
  split; [reflexivity|]. apply HQ. split; [|exact Hd].
  cbn [with_trace trace]. rewrite Ht. reflexivity.
Qed.

(** What follows from two states being alike: both without a device,
    or both with a device on the same bus, valid or not alike. *)
Lemma alike_cases b k s1 s2 :
  alike b k s1 s2 ->
  (PIOS_MPU6500_Validate (pios_mpu6500_dev s1) <> 0
   /\ PIOS_MPU6500_Validate (pios_mpu6500_dev s2) <> 0)
  \/ exists d1 d2,
      pios_mpu6500_dev s1 = Some d1 /\ pios_mpu6500_dev s2 = Some d2
      /\ PIOS_MPU6500_Validate (Some d1) = 0
      /\ PIOS_MPU6500_Validate (Some d2) = 0
      /\ spi_id d1 = spi_id d2 /\ slave_num d1 = slave_num d2.
Proof.
  intros [Ht Hd].
  destruct (pios_mpu6500_dev s1) as [d1|], (pios_mpu6500_dev s2) as [d2|];
    try discriminate.
  - assert (Hd' : view b k d1 = view b k d2) by (cbn in Hd; congruence).
    destruct (view_identity b k d1 d2 Hd') as (Hs & Hn & Hm).
    assert (Hv : PIOS_MPU6500_Validate (Some d1)
                 = PIOS_MPU6500_Validate (Some d2)).
    { unfold PIOS_MPU6500_Validate. rewrite Hs, Hm. reflexivity. }
    destruct (Z.eq_dec (PIOS_MPU6500_Validate (Some d1)) 0) as [H0|H0].
    + right. exists d1, d2. repeat split; congruence.
    + left. split; congruence.
  - left. split; discriminate.
Qed.

Section SideBySide.

Variables (h : pios_mpu60x0_h) (b : build) (w : world) (k : known).
Variables (s1 s2 : state).
Hypothesis Hs : alike b k s1 s2.

Lemma rel2_SetReg reg data (Q : Z -> state -> state -> Prop) :
  (forall a s1' s2', alike b k s1' s2' -> Q a s1' s2') ->
  rel2 (PIOS_MPU6500_SetReg w reg data) s1 s2 Q.
Proof.
  apply (rel2_step _ b k s1 s2 Q Hs).
  destruct (alike_cases b k s1 s2 Hs)
    as [[H1 H2] | (d1 & d2 & E1 & E2 & V1 & V2 & Hi & Hn)].
  - rewrite !SetReg_invalid by assumption. exists (-1), [].
    destruct s1, s2; split; reflexivity.
  - rewrite (SetReg_valid w reg data s1 d1 E1 V1),
      (SetReg_valid w reg data s2 d2 E2 V2).
    destruct (bus_histories w d1 d2 Hi Hn) as (Hc & Ha & Hr & H1 & H2 & _).
    destruct Hs as [Ht _]. rewrite Hc, ?H1, ?H2, ?Hr, <- Ht, Hi.
    unfold released, write_t2, write_t1, after_claim.
    destruct (claim_answer w d2 (trace s1) =? 0);
      [destruct (PIOS_SPI_TransferByte w _ =? 0);
       [destruct (PIOS_SPI_TransferByte w _ =? 0)|]|].
    + exists 0, (released d2 (write_t2 d2 reg data [])).
      split; reflexivity.
    + exists (-3), (released d2 (write_t2 d2 reg data [])).
      split; reflexivity.
    + exists (-2), (released d2 (write_t1 d2 reg [])).
      split; reflexivity.
    + exists (-1), [SPI_ClaimBus (spi_id d2)].
      split; reflexivity.
Qed.

Lemma rel2_GetReg reg (Q : Z -> state -> state -> Prop) :
  (forall a s1' s2', alike b k s1' s2' -> Q a s1' s2') ->
  rel2 (PIOS_MPU6500_GetReg w reg) s1 s2 Q.
Proof.
  apply (rel2_step _ b k s1 s2 Q Hs).
  destruct (alike_cases b k s1 s2 Hs)
    as [[H1 H2] | (d1 & d2 & E1 & E2 & V1 & V2 & Hi & Hn)].
  - rewrite !GetReg_invalid by assumption. exists (-1), [].
    destruct s1, s2; split; reflexivity.
  - rewrite (GetReg_valid w reg s1 d1 E1 V1), (GetReg_valid w reg s2 d2 E2 V2).
    destruct (bus_histories w d1 d2 Hi Hn) as (Hc & Ha & Hr & _ & _ & H3).
    destruct Hs as [Ht _]. rewrite Hc, ?H3, ?Hr, <- Ht, Hi.
    destruct (claim_answer w d2 (trace s1) =? 0).
    + eexists. exists (released d2 (read_t2 d2 reg [])).
      split; reflexivity.
    + exists (-1), [SPI_ClaimBus (spi_id d2)]. split; reflexivity.
Qed.

Lemma rel2_ClaimBus (Q : Z -> state -> state -> Prop) :
  (forall a s1' s2', alike b k s1' s2' -> Q a s1' s2') ->
  rel2 (PIOS_MPU6500_ClaimBus w) s1 s2 Q.
Proof.
  apply (rel2_step _ b k s1 s2 Q Hs).
  destruct (alike_cases b k s1 s2 Hs)
    as [[H1 H2] | (d1 & d2 & E1 & E2 & V1 & V2 & Hi & Hn)].
  - rewrite !ClaimBus_invalid by assumption. exists (-1), [].
    destruct s1, s2; split; reflexivity.
  - rewrite (ClaimBus_valid w s1 d1 E1 V1), (ClaimBus_valid w s2 d2 E2 V2).
    destruct (bus_histories w d1 d2 Hi Hn) as (Hc & Ha & _).
    destruct Hs as [Ht _]. rewrite Hc, ?Ha, <- Ht, Hi.
    destruct (claim_answer w d2 (trace s1) =? 0).
    + exists 0, (after_claim d2 []). split; reflexivity.
    + exists (-2), [SPI_ClaimBus (spi_id d2)]. split; reflexivity.
Qed.

Lemma rel2_ReleaseBus (Q : Z -> state -> state -> Prop) :
  (forall a s1' s2', alike b k s1' s2' -> Q a s1' s2') ->
  rel2 (PIOS_MPU6500_ReleaseBus w) s1 s2 Q.
Proof.
  apply (rel2_step _ b k s1 s2 Q Hs).
  destruct (alike_cases b k s1 s2 Hs)
    as [[H1 H2] | (d1 & d2 & E1 & E2 & V1 & V2 & Hi & Hn)].
  - rewrite !ReleaseBus_invalid by assumption. exists (-1), [].
    destruct s1, s2; split; reflexivity.
  - rewrite (ReleaseBus_valid w s1 d1 E1 V1), (ReleaseBus_valid w s2 d2 E2 V2).
    destruct (bus_histories w d1 d2 Hi Hn) as (_ & _ & Hr & _).
    destruct Hs as [Ht _]. rewrite ?Hr, <- Ht.
    eexists. exists (released d2 []). split; reflexivity.
Qed.

Lemma rel2_call e (Q : unit -> state -> state -> Prop) :
  (forall a s1' s2', alike b k s1' s2' -> Q a s1' s2') ->
  rel2 (call e) s1 s2 Q.
Proof.
  apply (rel2_step _ b k s1 s2 Q Hs). exists tt, [e]. split; reflexivity.
Qed.

(** An assignment to a field: the field is known afterwards. *)
Lemma rel2_update f k' (Q : unit -> state -> state -> Prop) :
  (forall d1 d2, view b k d1 = view b k d2 ->
                 view b k' (f d1) = view b k' (f d2)) ->
  (forall a s1' s2', alike b k' s1' s2' -> Q a s1' s2') ->
  rel2 (update f) s1 s2 Q.
Proof.
  intros Hf HQ. destruct Hs as [Ht Hd]. unfold rel2, update.
  destruct (pios_mpu6500_dev s1) as [d1|], (pios_mpu6500_dev s2) as [d2|];
    try discriminate; [|exact I].
  split; [reflexivity|]. apply HQ. split; [exact Ht|].
  cbn [pios_mpu6500_dev option_map]. f_equal. apply Hf.
  cbn in Hd. congruence.
Qed.

End SideBySide.

Lemma view_set_filter b k f d1 d2 :
  view b k d1 = view b k d2 ->
  view b (know_filter k) (set_filter f d1)
  = view b (know_filter k) (set_filter f d2).
Proof.
  intros H. injection H as H1 H2 H3 H4 H5 H6 H7 H8 H9 H10.
  unfold view. cbn. congruence.
Qed.

Lemma view_set_gyro_range b k r d1 d2 :
  view b k d1 = view b k d2 ->
  view b (know_gyro_range k) (set_gyro_range r d1)
  = view b (know_gyro_range k) (set_gyro_range r d2).
Proof.
  intros H. injection H as H1 H2 H3 H4 H5 H6 H7 H8 H9 H10.
  unfold view. cbn. congruence.
Qed.

Lemma view_set_accel_range b k r d1 d2 :
  view b k d1 = view b k d2 ->
  view b (know_accel_range k) (set_accel_range r d1)
  = view b (know_accel_range k) (set_accel_range r d2).
Proof.
  intros H. injection H as H1 H2 H3 H4 H5 H6 H7 H8 H9 H10.
  unfold view. cbn. rewrite andb_true_r.
  destruct (PIOS_MPU6500_ACCEL b); congruence.
Qed.

Lemma view_set_configured b k v d1 d2 :
  view b k d1 = view b k d2 ->
  view b (know_configured k) (set_configured v d1)
  = view b (know_configured k) (set_configured v d2).
Proof.
  intros H. injection H as H1 H2 H3 H4 H5 H6 H7 H8 H9 H10.
  unfold view. cbn. congruence.
Qed.

Lemma SetSampleRate_deref h w r s :
  PIOS_MPU6500_SetSampleRate h w r s
  = match pios_mpu6500_dev s with
    | None => Fault
    | Some d =>
        match sample_rate_divisor
                (if negb (filter d =? PIOS_MPU60X0_LOWPASS_256_HZ h)
                 then 1000 else 8000) (Cint.uint16 r) with
        | None => Fault
        | Some divisor =>
            (PIOS_MPU6500_SetReg w (PIOS_MPU60X0_SMPLRT_DIV_REG h)
               (Cint.uint8 divisor) ;; ret tt) s
        end
    end.
Proof.
  unfold PIOS_MPU6500_SetSampleRate, bind at 1, deref.
  destruct (pios_mpu6500_dev s) as [d|]; [|reflexivity].
  destruct (sample_rate_divisor _ _); reflexivity.
Qed.

Section SideBySideSetters.

Variables (h : pios_mpu60x0_h) (b : build) (w : world) (k : known).
Variables (s1 s2 : state).
Hypothesis Hs : alike b k s1 s2.

Lemma rel2_SetLPF f (Q : unit -> state -> state -> Prop) :
  (forall a s1' s2', alike b (know_filter k) s1' s2' -> Q a s1' s2') ->
  rel2 (PIOS_MPU6500_SetLPF h w f) s1 s2 Q.
Proof.
  intros HQ. unfold PIOS_MPU6500_SetLPF.
  apply rel2_bind, (rel2_SetReg b w k s1 s2 Hs). intros r t1 t2 Ht.
  apply (rel2_update b k t1 t2 Ht _ (know_filter k));
    [apply view_set_filter | exact HQ].
Qed.

Lemma rel2_SetAccelRange r (Q : unit -> state -> state -> Prop) :
  (forall a s1' s2', alike b (know_accel_range k) s1' s2' -> Q a s1' s2') ->
  rel2 (PIOS_MPU6500_SetAccelRange h w r) s1 s2 Q.
Proof.
  intros HQ. unfold PIOS_MPU6500_SetAccelRange.
  apply rel2_bind, (rel2_SetReg b w k s1 s2 Hs). intros x t1 t2 Ht.
  apply (rel2_update b k t1 t2 Ht _ (know_accel_range k));
    [apply view_set_accel_range | exact HQ].
Qed.

Lemma rel2_SetGyroRange r (Q : unit -> state -> state -> Prop) :
  (forall a s1' s2', alike b (know_gyro_range k) s1' s2' -> Q a s1' s2') ->
  rel2 (PIOS_MPU6500_SetGyroRange h w r) s1 s2 Q.
Proof.
  intros HQ. unfold PIOS_MPU6500_SetGyroRange.
  apply rel2_bind, (rel2_SetReg b w k s1 s2 Hs). intros x t1 t2 Ht.
  apply rel2_bind.
  assert (Hrest : forall (x : unit) u1 u2, alike b k u1 u2 ->
            rel2 (update (set_gyro_range r)) u1 u2 Q).
  { intros _ u1 u2 Hu.
    apply (rel2_update b k u1 u2 Hu _ (know_gyro_range k));
      [apply view_set_gyro_range | exact HQ]. }
  repeat match goal with
         | |- context [if ?c then _ else _] => destruct c
         end;
    first [ apply (rel2_call b k t1 t2 Ht); exact Hrest
          | apply rel2_ret, (Hrest tt), Ht ].
Qed.

(** The rate setter reads the cached filter: it must be known. *)
Lemma rel2_SetSampleRate r (Q : unit -> state -> state -> Prop) :
  filter_known k = true ->
  (forall a s1' s2', alike b k s1' s2' -> Q a s1' s2') ->
  rel2 (PIOS_MPU6500_SetSampleRate h w r) s1 s2 Q.
Proof.
  intros Hk HQ. assert (Hd := proj2 Hs).
  unfold rel2. rewrite !SetSampleRate_deref.
  destruct (pios_mpu6500_dev s1) as [d1|] eqn:E1,
           (pios_mpu6500_dev s2) as [d2|] eqn:E2;
    try discriminate; [|exact I].
  assert (Hf : filter d1 = filter d2).
  { cbn in Hd. injection Hd as _ _ _ _ _ _ _ _ _ Hf.
    rewrite Hk in Hf. exact Hf. }
  rewrite Hf.
  destruct (sample_rate_divisor _ _) as [v|]; [|exact I].
  fold (rel2 (PIOS_MPU6500_SetReg w (PIOS_MPU60X0_SMPLRT_DIV_REG h)
                (Cint.uint8 v) ;; ret tt) s1 s2 Q).
  apply rel2_bind, (rel2_SetReg b w k s1 s2 Hs). intros x t1 t2 Ht.
  apply rel2_ret, HQ, Ht.
Qed.

Lemma rel2_poll reg mask budget (Q : unit -> state -> state -> Prop) :
  (forall a s1' s2', alike b k s1' s2' -> Q a s1' s2') ->
  rel2 (poll_until_clear (PIOS_MPU6500_GetReg w) reg mask budget) s1 s2 Q.
Proof.
  intros HQ. revert s1 s2 Hs. induction budget as [|n IH]; intros u1 u2 Hu.
  - exact I.
  - cbn [poll_until_clear].
    apply rel2_bind, (rel2_call b k u1 u2 Hu). intros [] v1 v2 Hv.
    apply rel2_bind, (rel2_GetReg b w k v1 v2 Hv). intros x t1 t2 Ht.
    destruct (negb (Z.land x mask =? 0)).
    + apply IH, Ht.
    + apply rel2_ret, HQ, Ht.
Qed.

End SideBySideSetters.

Ltac side_step :=
  apply rel2_bind;
  first [ eapply rel2_SetReg; [eassumption|]
        | eapply rel2_call; [eassumption|]
        | eapply rel2_ClaimBus; [eassumption|]
        | eapply rel2_ReleaseBus; [eassumption|]
        | eapply rel2_SetLPF; [eassumption|]
        | eapply rel2_SetGyroRange; [eassumption|]
        | eapply rel2_SetAccelRange; [eassumption|]
        | eapply rel2_SetSampleRate; [eassumption | reflexivity |]
        | eapply rel2_poll; [eassumption|] ];
  intros ? ? ? ?.

Lemma view_all b k d :
  gyro_range_known k = true ->
  filter_known k = true ->
  configured_known k = true ->
  (PIOS_MPU6500_ACCEL b = true -> accel_range_known k = true) ->
  view b k d = view b all_known d.
Proof.
  intros Hg Hf Hc Ha. unfold view. rewrite Hg, Hf, Hc. cbn.
  destruct (PIOS_MPU6500_ACCEL b); [rewrite Ha by reflexivity|]; reflexivity.
Qed.

Lemma alike_all b k s1 s2 :
  gyro_range_known k = true ->
  filter_known k = true ->
  configured_known k = true ->
  (PIOS_MPU6500_ACCEL b = true -> accel_range_known k = true) ->
  alike b k s1 s2 -> alike b all_known s1 s2.
Proof.
  intros Hg Hf Hc Ha [Ht Hd]. split; [exact Ht|].
  destruct (pios_mpu6500_dev s1) as [d1|], (pios_mpu6500_dev s2) as [d2|];
    try discriminate; [|reflexivity].
  cbn in *. rewrite <- !(view_all b k) by assumption. exact Hd.
Qed.

(** Started from like states, the configuration sequence ends the same
    way, and with like devices of which the cached ranges, the cached
    filter and the flag are the same. *)
Lemma Config_simple_alike h b w c k s1 s2 :
  alike b k s1 s2 ->
  rel2 (Config_simple h b w c) s1 s2
       (fun _ s1' s2' => alike b all_known s1' s2').
Proof.
  intros Hs. unfold Config_simple.
  do 10 side_step.
  destruct (PIOS_MPU6500_ACCEL b) eqn:Hb.
  - do 3 side_step.
    eapply rel2_update; [eassumption | apply view_set_configured |].
    intros _ u1 u2 Hu. revert Hu. apply alike_all; try reflexivity.
  - apply rel2_bind, rel2_ret. do 2 side_step.
    eapply rel2_update; [eassumption | apply view_set_configured |].
    intros _ u1 u2 Hu. revert Hu. apply alike_all; try reflexivity.
    rewrite Hb. discriminate.
Qed.

Lemma Config_full_alike h b w c budget k s1 s2 :
  alike b k s1 s2 ->
  rel2 (Config_full h b w c budget) s1 s2
       (fun _ s1' s2' => alike b all_known s1' s2').
Proof.
  intros Hs. unfold Config_full, PIOS_MPU5000_GetReg.
  do 13 side_step.
  destruct (PIOS_MPU6500_ACCEL b) eqn:Hb.
  - do 8 side_step.
    eapply rel2_update; [eassumption | apply view_set_configured |].
    intros _ u1 u2 Hu. revert Hu. apply alike_all; try reflexivity.
  - apply rel2_bind, rel2_ret. do 7 side_step.
    eapply rel2_update; [eassumption | apply view_set_configured |].
    intros _ u1 u2 Hu. revert Hu. apply alike_all; try reflexivity.
    rewrite Hb. discriminate.
Qed.

Lemma alloc_alike b hp1 hp2 t log :
  (forall l, xQueueCreate hp1 l = xQueueCreate hp2 l) ->
  (forall l, PIOS_malloc hp1 l = None <-> PIOS_malloc hp2 l = None) ->
  snd (PIOS_MPU6500_alloc b hp1 t log) = snd (PIOS_MPU6500_alloc b hp2 t log)
  /\ match fst (PIOS_MPU6500_alloc b hp1 t log),
           fst (PIOS_MPU6500_alloc b hp2 t log) with
     | Some d1, Some d2 =>
         forall spi slave c,
           view b (know_configured nothing_known) (at_bus spi slave c d1)
           = view b (know_configured nothing_known) (at_bus spi slave c d2)
     | None, None => True
     | _, _ => False
     end.
Proof.
  intros Hq Hm. unfold PIOS_MPU6500_alloc.
  specialize (Hm ((Malloc, t) :: log)).
  destruct (PIOS_malloc hp1 _) as [b1|], (PIOS_malloc hp2 _) as [b2|];
    try (split; [reflexivity | exact I]);
    try (exfalso; destruct Hm as [Hm1 Hm2];
         first [specialize (Hm1 eq_refl) | specialize (Hm2 eq_refl)];
         discriminate).
  cbv zeta. rewrite !Hq.
  destruct (PIOS_MPU6500_ACCEL b) eqn:Hb.
  - destruct (xQueueCreate hp2 _) as [qa|];
      [|split; [reflexivity | exact I]].
    rewrite ?Hq.
    destruct (xQueueCreate hp2 _) as [qg|];
      [|split; [reflexivity | exact I]].
    split; [reflexivity|]. cbn [fst]. intros spi slave c.
    unfold view. cbn. rewrite Hb. reflexivity.
  - destruct (xQueueCreate hp2 _) as [qg|];
      [|split; [reflexivity | exact I]].
    split; [reflexivity|]. cbn [fst]. intros spi slave c.
    unfold view. cbn. rewrite Hb. reflexivity.
Qed.

(** X12: PIOS_MPU6500_Init reads nothing of the block it allocates
    before writing it.  Two runs that differ only in what the allocated
    block held end the same way: the same result, the same calls on the
    bus and to the system, and the same device (in the build without
    accel, the same but for the accel fields, which that build does not
    have). *)
Theorem Init_does_not_depend_on_the_block
  (h : pios_mpu60x0_h) (b : build) (w : world) (hp1 hp2 : heap)
  (spi slave : Z) (c : pios_mpu60x0_cfg) (budget : nat) (sys : system)
  (Hq : forall l, xQueueCreate hp1 l = xQueueCreate hp2 l)
  (Hm : forall l, PIOS_malloc hp1 l = None <-> PIOS_malloc hp2 l = None) :
  same_boot b (PIOS_MPU6500_Init h b w hp1 spi slave c budget sys)
              (PIOS_MPU6500_Init h b w hp2 spi slave c budget sys).
Proof.
  rewrite !Init_of_alloc. unfold allocated, allocation_log.
  destruct (alloc_alike b hp1 hp2 (trace (driver sys)) (boot sys) Hq Hm)
    as [Hlog Hdev].
  rewrite Hlog.
  destruct (fst (PIOS_MPU6500_alloc b hp1 _ _)) as [d1|],
           (fst (PIOS_MPU6500_alloc b hp2 _ _)) as [d2|];
    try contradiction.
  - cbv zeta.
    set (t1 := {| pios_mpu6500_dev := Some (at_bus spi slave c d1);
                  trace := trace (driver sys) |}).
    set (t2 := {| pios_mpu6500_dev := Some (at_bus spi slave c d2);
                  trace := trace (driver sys) |}).
    assert (Hs : alike b (know_configured nothing_known) t1 t2).
    { split; [reflexivity|]. cbn [t1 t2 pios_mpu6500_dev option_map].
      f_equal. apply Hdev. }
    assert (Hrel : rel2 (PIOS_MPU6500_Config h b w c budget) t1 t2
                     (fun _ u1 u2 => alike b all_known u1 u2)).
    { unfold PIOS_MPU6500_Config.
      destruct (PIOS_MPU6500_SIMPLE_INIT_SEQUENCE b).
      - apply (Config_simple_alike h b w c _ t1 t2 Hs).
      - apply (Config_full_alike h b w c budget _ t1 t2 Hs). }
    unfold rel2 in Hrel.
    destruct (PIOS_MPU6500_Config h b w c budget t1) as [[] u1| |],
             (PIOS_MPU6500_Config h b w c budget t2) as [[] u2| |];
      try contradiction; try exact I.
    destruct Hrel as [_ Hu]. pose proof Hu as [Ht Hd].
    destruct (pios_mpu6500_dev u1) as [e1|] eqn:E1,
             (pios_mpu6500_dev u2) as [e2|] eqn:E2;
      try discriminate; [|exact I].
    cbn in Hd. injection Hd as H1 _ _ H4 _ H6 _ _ _ _.
    cbn [same_boot boot driver]. split; [reflexivity|].
    split; [|exact Hu].
    rewrite Ht, H1, H4. destruct (PIOS_MPU6500_ACCEL b); [rewrite H6|];
      reflexivity.
  - cbn. repeat split.
Qed.

(** The initialisation from a block holding stale values and from a
    block holding the values of a fresh device. *)
Lemma Init_does_not_depend_on_the_block_witness :
  same_boot accel_simple
    (PIOS_MPU6500_Init mpu60x0_regs accel_simple (bus_answering 0)
       (heap_giving stale_block) 1 0 board_cfg 0 power_on)
    (PIOS_MPU6500_Init mpu60x0_regs accel_simple (bus_answering 0)
       (heap_giving fresh_dev) 1 0 board_cfg 0 power_on).
Proof.
  apply (Init_does_not_depend_on_the_block mpu60x0_regs accel_simple
           (bus_answering 0) (heap_giving stale_block) (heap_giving fresh_dev)
           1 0 board_cfg 0 power_on).
  - intros l. reflexivity.
  - intros l. split; discriminate.
Defined.

(** ** Calls without a device, and sequences of calls *)

Lemma update_null {A} (m : M A) f s :
  pios_mpu6500_dev s = None ->
  (exists a s1, m s = Done a s1 /\ pios_mpu6500_dev s1 = pios_mpu6500_dev s) ->
  (m ;; update f) s = Fault.
Proof.
  intros Hd (a & s1 & E & Hd1). unfold bind. rewrite E. unfold update.
  rewrite Hd1, Hd. reflexivity.
Qed.

Lemma SetGyroRange_null h w r s :
  pios_mpu6500_dev s = None -> PIOS_MPU6500_SetGyroRange h w r s = Fault.
Proof.
  intros Hd. unfold PIOS_MPU6500_SetGyroRange.
  destruct (SetReg_total w (PIOS_MPU60X0_GYRO_CFG_REG h) r s)
    as (x & s1 & E & Hd1).
  rewrite (bind_Done _ _ _ _ _ E).
  apply update_null; [congruence|].
  repeat match goal with
         | |- context [if ?c then _ else _] => destruct c
         end; eexists; eexists; split; reflexivity.
Qed.

(** X15: the setters dereference the global pointer without a test.
    Before a successful initialisation, when the pointer is NULL, the
    register write inside each setter is refused by the validation, and
    the setter then stores its argument through the NULL pointer (the
    rate setter reads the filter through it): each of the four setters
    faults.  The self-test and the interrupt handler validate first and
    return -1, respectively false, leaving the state as it was. *)
Theorem setters_dereference_a_null_device
  (h : pios_mpu60x0_h) (b : build) (w : world) (s : state)
  (Hd : pios_mpu6500_dev s = None) :
  (forall r, PIOS_MPU6500_SetGyroRange h w r s = Fault)
  /\ (forall r, PIOS_MPU6500_SetAccelRange h w r s = Fault)
  /\ (forall r, PIOS_MPU6500_SetSampleRate h w r s = Fault)
  /\ (forall f, PIOS_MPU6500_SetLPF h w f s = Fault)
  /\ PIOS_MPU6500_Test h w s = Done (-1) s
  /\ PIOS_MPU6500_IRQHandler h b w s = Done false s.
Proof.
  assert (Hv : PIOS_MPU6500_Validate (pios_mpu6500_dev s) <> 0)
    by (rewrite Hd; discriminate).
  split; [intros r; apply SetGyroRange_null, Hd|].
  split.
  { intros r. apply update_null; [exact Hd|]. apply SetReg_total. }
  split.
  { intros r. rewrite SetSampleRate_deref, Hd. reflexivity. }
  split.
  { intros f. apply update_null; [exact Hd|]. apply SetReg_total. }
  split.
  - rewrite (Test_of_GetReg h w s (-1) s); [reflexivity|].
    apply GetReg_invalid, Hv.
  - apply IRQHandler_idle. left. exact Hv.
Qed.

Lemma setters_dereference_a_null_device_witness :
  PIOS_MPU6500_SetGyroRange mpu60x0_regs (bus_answering 0) 0x08
    (driver power_on) = Fault
  /\ PIOS_MPU6500_Test mpu60x0_regs (bus_answering 0) (driver power_on)
     = Done (-1) (driver power_on).
Proof.
  destruct (setters_dereference_a_null_device mpu60x0_regs accel_simple
              (bus_answering 0) (driver power_on) eq_refl)
    as (Hg & _ & _ & _ & Ht & _).
  split; [apply Hg | exact Ht].
Defined.

Lemma lasting_refl h s : lasting h s s.
Proof. repeat split; auto. Qed.

Lemma lasting_trans h s1 s2 s3 :
  lasting h s1 s2 -> lasting h s2 s3 -> lasting h s1 s3.
Proof.
  intros (A1 & B1 & C1 & D1) (A2 & B2 & C2 & D2).
  split; [congruence|]. split; [congruence|]. split; [|auto].
  intros a Ha. rewrite C2, C1 by assumption. reflexivity.
Qed.

(** A setter that wrote at most register [reg], one of the setters'
    registers, and changed a cached value only. *)
Lemma lasting_of_left_behind h reg d d' s s' :
  pios_mpu6500_dev s = Some d ->
  In reg (setter_registers h) ->
  identity d' = identity d ->
  configured d' = configured d ->
  left_behind (Some reg) d' s s' ->
  lasting h s s'.
Proof.
  intros Hd Hin Hi Hc (Hd' & Hk & Hsel).
  split; [rewrite Hd', Hd; cbn; congruence|].
  split; [rewrite Hd', Hd; cbn; congruence|].
  split; [|exact Hsel].
  intros a Ha. apply Hk. intros ->. apply Ha.
  apply in_map. exact Hin.
Qed.

Lemma lasting_of_kept h s s' :
  pios_mpu6500_dev s' = pios_mpu6500_dev s ->
  chip_kept s s' ->
  (deselected (trace s) -> deselected (trace s')) ->
  lasting h s s'.
Proof.
  intros Hd Hk Hsel.
  split; [rewrite Hd; reflexivity|]. split; [rewrite Hd; reflexivity|].
  split; [|exact Hsel]. intros a _. apply Hk.
Qed.

Lemma run_call_lasting h b w c s s' :
  run_call h b w c s = Done tt s' -> lasting h s s'.
Proof.
  destruct c as [r|r|r|f| |]; cbn [run_call]; intros Hrun.
  - destruct (pios_mpu6500_dev s) as [d|] eqn:Hd;
      [|rewrite SetGyroRange_null in Hrun by exact Hd; discriminate].
    destruct (SetGyroRange_effect h w r s d Hd) as (s1 & E & Hl).
    rewrite E in Hrun. injection Hrun as <-.
    apply (lasting_of_left_behind h _ d _ s s1 Hd) in Hl;
      [exact Hl | cbn; auto | reflexivity | reflexivity].
  - destruct (pios_mpu6500_dev s) as [d|] eqn:Hd.
    + destruct (SetAccelRange_effect h w r s d Hd) as (s1 & E & Hl).
      rewrite E in Hrun. injection Hrun as <-.
      apply (lasting_of_left_behind h _ d _ s s1 Hd) in Hl;
        [exact Hl | cbn; auto | reflexivity | reflexivity].
    + unfold PIOS_MPU6500_SetAccelRange in Hrun.
      rewrite update_null in Hrun;
        [discriminate | exact Hd | apply SetReg_total].
  - rewrite SetSampleRate_deref in Hrun.
    destruct (pios_mpu6500_dev s) as [d|] eqn:Hd; [|discriminate].
    destruct (sample_rate_divisor _ _) as [v|]; [|discriminate].
    destruct (SetReg_effect w (PIOS_MPU60X0_SMPLRT_DIV_REG h)
                (Cint.uint8 v) s) as (x & s1 & E & Hd1 & Hk & Hsel).
    rewrite (bind_Done _ _ _ _ _ E) in Hrun. injection Hrun as <-.
    apply (lasting_of_left_behind h (PIOS_MPU60X0_SMPLRT_DIV_REG h)
             d d s s1 Hd); [cbn; auto | reflexivity | reflexivity |].
    split; [congruence|]. split; assumption.
  - destruct (pios_mpu6500_dev s) as [d|] eqn:Hd.
    + destruct (SetLPF_effect h w f s d Hd) as (s1 & E & Hl).
      rewrite E in Hrun. injection Hrun as <-.
      apply (lasting_of_left_behind h _ d _ s s1 Hd) in Hl;
        [exact Hl | cbn; auto | reflexivity | reflexivity].
    + unfold PIOS_MPU6500_SetLPF in Hrun.
      rewrite update_null in Hrun;
        [discriminate | exact Hd | apply SetReg_total].
  - destruct (GetReg_effect w (PIOS_MPU60X0_WHOAMI h) s)
      as (v & s1 & E & Hd1 & Hk & Hsel).
    rewrite (bind_Done _ _ _ _ _ (Test_of_GetReg h w s v s1 E)) in Hrun.
    injection Hrun as <-. apply lasting_of_kept; assumption.
  - destruct (IRQHandler_effect h b w s)
      as [(r & s1 & l & E & _ & _ & _ & Hd1 & Hk & Hsel) | (E & _)].
    + rewrite (bind_Done _ _ _ _ _ E) in Hrun. injection Hrun as <-.
      apply lasting_of_kept; assumption.
    + unfold bind in Hrun. rewrite E in Hrun. discriminate.
Qed.

(** X14: whatever the functions called after the initialisation, in
    whatever order and on whatever bus, they leave the identity of the
    device (bus handle, slave number, magic tag, configuration, queues)
    and its configured flag as they were, so a device that validates
    keeps validating; they change no register of the chip other than
    the filter, the two range and the divider registers; and between
    two calls the chip is never selected. *)
Theorem calls_keep_identity_flag_and_other_registers
  (h : pios_mpu60x0_h) (b : build) (w : world) (calls : list api_call)
  (s s' : state)
  (Hrun : run_calls h b w calls s = Done tt s') :
  lasting h s s'
  /\ PIOS_MPU6500_Validate (pios_mpu6500_dev s')
     = PIOS_MPU6500_Validate (pios_mpu6500_dev s).
Proof.
  assert (Hl : lasting h s s').
  { revert s Hrun. induction calls as [|c calls IH]; intros s Hrun.
    - injection Hrun as <-. apply lasting_refl.
    - cbn [run_calls] in Hrun. unfold bind in Hrun.
      destruct (run_call h b w c s) as [[] s1| |] eqn:E; try discriminate.
      apply (lasting_trans h s s1 s');
        [apply (run_call_lasting h b w c), E | apply IH, Hrun]. }
  split; [exact Hl|].
  destruct Hl as (Hi & _).
  destruct (pios_mpu6500_dev s') as [d'|], (pios_mpu6500_dev s) as [d|];
    try discriminate; [|reflexivity].
  cbn in Hi. injection Hi as H1 H2 H3 H4 H5 H6.
  unfold PIOS_MPU6500_Validate. rewrite H1, H3. reflexivity.
Qed.

(** A change of filter, of rate and of range around a sample and a
    self-test, on the running device. *)
Lemma calls_keep_identity_flag_and_other_registers_witness :
  exists s',
    run_calls mpu60x0_regs accel_simple (bus_delivering burst_example)
      [Call_SetLPF 3; Call_SetSampleRate 500; Call_IRQHandler; Call_Test;
       Call_SetGyroRange 0x18] running = Done tt s'
    /\ lasting mpu60x0_regs running s'.
Proof.
  assert (E : exists s',
             run_calls mpu60x0_regs accel_simple
               (bus_delivering burst_example)
               [Call_SetLPF 3; Call_SetSampleRate 500; Call_IRQHandler;
                Call_Test; Call_SetGyroRange 0x18] running = Done tt s')
    by (vm_compute; eexists; reflexivity).
  destruct E as [s' E]. exists s'. split; [exact E|].
  apply (calls_keep_identity_flag_and_other_registers mpu60x0_regs
           accel_simple (bus_delivering burst_example) _ running s' E).
Defined.

(** ** The registers after the configuration sequence *)

Section ImageSetters.

Variables (h : pios_mpu60x0_h) (w : world) (spin : bool).
Variables (s : state) (d : mpu6500_dev).
Hypothesis Hq : quiet_bus w.
Hypothesis Hd : pios_mpu6500_dev s = Some d.
Hypothesis Hv : PIOS_MPU6500_Validate (Some d) = 0.

Lemma wpq_SetLPF_programmed f (Q : unit -> state -> Prop) :
  (forall r s',
      pios_mpu6500_dev s' = Some (set_filter f d) ->
      chip_kept_except (PIOS_MPU60X0_DLPF_CFG_REG h) s s' ->
      programmed (PIOS_MPU60X0_DLPF_CFG_REG h) (trace s')
      = Some (Cint.uint8 f) -> Q r s') ->
  wp spin (PIOS_MPU6500_SetLPF h w f) s Q.
Proof.
  intros HQ. unfold PIOS_MPU6500_SetLPF.
  apply wp_bind, (wpq_SetReg w spin s d Hq Hd Hv). intros r s1 Hd1 K1 P1.
  apply (wpq_update spin s1 d Hd1). intros r2 s2 Hd2 K2.
  apply HQ; [assumption| |].
  - intros a Ha. rewrite (K2 a). apply K1, Ha.
  - unfold programmed. rewrite (K2 _). exact P1.
Qed.

Lemma wpq_SetSampleRate_programmed r (Q : unit -> state -> Prop) :
  Cint.uint16 r <> 0 ->
  (forall x s',
      pios_mpu6500_dev s' = Some d ->
      chip_kept_except (PIOS_MPU60X0_SMPLRT_DIV_REG h) s s' ->
      programmed (PIOS_MPU60X0_SMPLRT_DIV_REG h) (trace s')
      = Some (divisor_spec (filter d =? PIOS_MPU60X0_LOWPASS_256_HZ h)
                           (Cint.uint16 r)) -> Q x s') ->
  wp spin (PIOS_MPU6500_SetSampleRate h w r) s Q.
Proof.
  intros Hr HQ. unfold wp. rewrite (SetSampleRate_run h w r s d Hd Hr).
  apply wp_bind, (wpq_SetReg w spin s d Hq Hd Hv). intros x s1 Hd1 K1 P1.
  apply wp_ret, HQ; [assumption | assumption|].
  rewrite P1. f_equal. unfold Cint.uint8. apply Z.mod_small.
  pose proof (divisor_spec_range
                (filter d =? PIOS_MPU60X0_LOWPASS_256_HZ h) (Cint.uint16 r)).
  lia.
Qed.

End ImageSetters.

(** One step of a sequence on a quiet bus, keeping what it wrote. *)
Ltac image_step Hv :=
  apply wp_bind;
  first [ apply wp_ret
        | first [ eapply wpq_SetReg; [eassumption | eassumption | exact Hv |]
                | eapply wpq_call; [eassumption | intros ?; reflexivity |]
                | eapply wpq_ClaimBus; [eassumption | exact Hv |]
                | eapply wpq_ReleaseBus; [eassumption | exact Hv |]
                | eapply wpq_SetLPF_programmed;
                  [eassumption | eassumption | exact Hv |]
                | eapply wpq_SetGyroRange;
                  [eassumption | eassumption | exact Hv |]
                | eapply wpq_SetAccelRange;
                  [eassumption | eassumption | exact Hv |]
                | eapply wpq_SetSampleRate_programmed;
                  [eassumption | eassumption | exact Hv | assumption |]
                | eapply wpq_poll; [eassumption | eassumption | exact Hv |] ];
          intros ].

(** The inequalities in a test of distinctness. *)
Ltac split_apart H :=
  match type of H with
  | _ && _ = true =>
      let H1 := fresh "Hap" in
      let H2 := fresh "Hap" in
      apply andb_true_iff in H; destruct H as [H1 H2];
      split_apart H1; split_apart H2
  | negb (_ =? _) = true => apply negb_true_iff, Z.eqb_neq in H
  | true = true => clear H
  end.

(** Follow a register back to the step that wrote it. *)
Ltac follow :=
  unfold programmed in *;
  repeat match goal with
         | K : chip_kept ?s ?s'
           |- regs (chip_of (trace ?s')) ?a = _ => rewrite (K a)
         | K : chip_kept_except ?r ?s ?s'
           |- regs (chip_of (trace ?s')) ?a = _ =>
             rewrite (K a)
               by (first [assumption | apply not_eq_sym; assumption])
         end;
  assumption.

Lemma Config_simple_image h b w spin c s d :
  quiet_bus w ->
  pios_mpu6500_dev s = Some d ->
  PIOS_MPU6500_Validate (Some d) = 0 ->
  Cint.uint16 (default_samplerate c) <> 0 ->
  config_registers_apart h = true ->
  wp spin (Config_simple h b w c) s
     (fun _ s' => register_image h b c (trace s')).
Proof.
  intros Hq Hd Hv Hr Hap.
  unfold config_registers_apart, config_registers in Hap.
  cbn [map distinct forallb] in Hap. split_apart Hap.
  unfold Config_simple, register_image.
  do 10 image_step Hv.
  destruct (PIOS_MPU6500_ACCEL b).
  - do 3 image_step Hv. eapply wpq_update; [eassumption|]. intros.
    repeat split; try (intros _); follow.
  - do 3 image_step Hv. eapply wpq_update; [eassumption|]. intros.
    repeat split; try discriminate; follow.
Qed.

Lemma Config_full_image h b w spin c budget s d :
  quiet_bus w ->
  pios_mpu6500_dev s = Some d ->
  PIOS_MPU6500_Validate (Some d) = 0 ->
  Cint.uint16 (default_samplerate c) <> 0 ->
  config_registers_apart h = true ->
  wp spin (Config_full h b w c (S budget)) s
     (fun _ s' => register_image h b c (trace s')).
Proof.
  intros Hq Hd Hv Hr Hap.
  unfold config_registers_apart, config_registers in Hap.
  cbn [map distinct forallb] in Hap. split_apart Hap.
  unfold Config_full, PIOS_MPU5000_GetReg, register_image.
  do 13 image_step Hv.
  destruct (PIOS_MPU6500_ACCEL b).
  - do 8 image_step Hv. eapply wpq_update; [eassumption|]. intros.
    repeat split; try (intros _); follow.
  - do 8 image_step Hv. eapply wpq_update; [eassumption|]. intros.
    repeat split; try discriminate; follow.
Qed.

(** X16: on a bus where every write succeeds, and with the eight
    registers at addresses of their own, both configuration sequences
    leave the same values in the chip, whatever it held before: the
    clock source, the user control, the interrupt configuration and the
    interrupt enable of the board configuration, its default filter,
    the divisor of its default rate under that filter, 500 deg/s and,
    in the build with accel, 8 g.  The reset values written on the way
    (the device reset, the signal path resets) are overwritten. *)
Theorem Config_leaves_the_same_registers_by_either_sequence
  (h : pios_mpu60x0_h) (b : build) (w : world) (c : pios_mpu60x0_cfg)
  (budget : nat) (s : state) (d : mpu6500_dev)
  (Hq : quiet_bus w)
  (Hd : pios_mpu6500_dev s = Some d)
  (Hv : PIOS_MPU6500_Validate (Some d) = 0)
  (Hr : Cint.uint16 (default_samplerate c) <> 0)
  (Hap : config_registers_apart h = true)
  (Hb : PIOS_MPU6500_SIMPLE_INIT_SEQUENCE b = true \/ budget <> O) :
  exists s',
    PIOS_MPU6500_Config h b w c budget s = Done tt s'
    /\ register_image h b c (trace s').
Proof.
  unfold PIOS_MPU6500_Config.
  assert (Hwp : wp false (if PIOS_MPU6500_SIMPLE_INIT_SEQUENCE b
                          then Config_simple h b w c
                          else Config_full h b w c budget) s
                   (fun _ s' => register_image h b c (trace s'))).
  { destruct (PIOS_MPU6500_SIMPLE_INIT_SEQUENCE b).
    - apply (Config_simple_image h b w false c s d); assumption.
    - destruct Hb as [Hs | Hb]; [discriminate|].
      destruct budget as [|n]; [contradiction|].
      apply (Config_full_image h b w false c n s d); assumption. }
  destruct (wp_done _ _ _ _ Hwp eq_refl) as ([] & s' & Hrun & Hp). eauto.
Qed.

(** Both sequences on the fresh device: the divider holds 15, the
    divisor of 500 Hz under the widest filter. *)
Lemma Config_leaves_the_same_registers_by_either_sequence_witness :
  (exists s',
      PIOS_MPU6500_Config mpu60x0_regs accel_simple (bus_answering 0)
        board_cfg 0 fresh = Done tt s'
      /\ register_image mpu60x0_regs accel_simple board_cfg (trace s'))
  /\ (exists s',
      PIOS_MPU6500_Config mpu60x0_regs accel_full (bus_answering 0)
        board_cfg 1 fresh = Done tt s'
      /\ register_image mpu60x0_regs accel_full board_cfg (trace s')).
Proof.
  split.
  - apply (Config_leaves_the_same_registers_by_either_sequence mpu60x0_regs
             accel_simple (bus_answering 0) board_cfg 0 fresh fresh_dev).
    + apply quiet_bus_answering_0.
    + reflexivity.
    + reflexivity.
    + vm_compute. discriminate.
    + reflexivity.
    + left. reflexivity.
  - apply (Config_leaves_the_same_registers_by_either_sequence mpu60x0_regs
             accel_full (bus_answering 0) board_cfg 1 fresh fresh_dev).
    + apply quiet_bus_answering_0.
    + reflexivity.
    + reflexivity.
    + vm_compute. discriminate.
    + reflexivity.
    + right. discriminate.
Defined.

(** ** The rate reported with a gyro range *)

Lemma SetReg_reports w reg data s :
  exists x s1,
    PIOS_MPU6500_SetReg w reg data s = Done x s1
    /\ pios_mpu6500_dev s1 = pios_mpu6500_dev s
    /\ max_gyro_reports (trace s1) = max_gyro_reports (trace s).
Proof.
  destruct (Z.eq_dec (PIOS_MPU6500_Validate (pios_mpu6500_dev s)) 0) as [Hv|Hv].
  - destruct (Validate_ok_some _ Hv) as [d Hd]. rewrite Hd in Hv.
    rewrite (SetReg_valid w reg data s d Hd Hv).
    destruct (claim_answer w d (trace s) =? 0);
      [destruct (PIOS_SPI_TransferByte w (write_t1 d reg (trace s)) =? 0);
       [destruct (PIOS_SPI_TransferByte w (write_t2 d reg data (trace s)) =? 0)|]|];
      eexists; eexists; (split; [reflexivity|]); split; reflexivity.
  - rewrite (SetReg_invalid w reg data s Hv).
    eexists; eexists. split; [reflexivity|]. split; reflexivity.
Qed.

Lemma SetGyroRange_run h w r s d :
  pios_mpu6500_dev s = Some d ->
  exists s1,
    pios_mpu6500_dev s1 = Some d
    /\ max_gyro_reports (trace s1) = max_gyro_reports (trace s)
    /\ PIOS_MPU6500_SetGyroRange h w r s
       = Done tt
           {| pios_mpu6500_dev := Some (set_gyro_range r d);
              trace :=
                (if r =? PIOS_MPU60X0_SCALE_250_DEG h
                 then [SENSORS_SetMaxGyro 250]
                 else if r =? PIOS_MPU60X0_SCALE_500_DEG h
                 then [SENSORS_SetMaxGyro 500]
                 else if r =? PIOS_MPU60X0_SCALE_1000_DEG h
                 then [SENSORS_SetMaxGyro 1000]
                 else if r =? PIOS_MPU60X0_SCALE_2000_DEG h
                 then [SENSORS_SetMaxGyro 2000]
                 else []) ++ trace s1 |}.
Proof.
  intros Hd.
  destruct (SetReg_reports w (PIOS_MPU60X0_GYRO_CFG_REG h) r s)
    as (x & s1 & E & Hd1 & Hr).
  exists s1. split; [congruence|]. split; [exact Hr|].
  unfold PIOS_MPU6500_SetGyroRange. rewrite (bind_Done _ _ _ _ _ E).
  rewrite Hd in Hd1.
  repeat match goal with
         | |- context [if ?c then _ else _] => destruct c
         end;
    unfold bind, call, ret, update; cbn [pios_mpu6500_dev trace];
    rewrite Hd1; reflexivity.
Qed.

Lemma gyro_scales_near_rates :
  full_scale_near (F32.lit 1 131) 250 = true
  /\ full_scale_near (F32.lit 10 655) 500 = true
  /\ full_scale_near (F32.lit 10 328) 1000 = true
  /\ full_scale_near (F32.lit 10 164) 2000 = true.
Proof. repeat split; vm_compute; reflexivity. Qed.

(** X17: the gyro range setter reports to the sensor layer the rate
    that its scale realises.  For each of the four range labels it
    reports 250, 500, 1000 or 2000 deg/s, once, and the scale in force
    afterwards turns the largest raw reading (32768) into that rate to
    within one part in a thousand.  For a value that is none of the
    four labels it reports nothing, so the rate reported before stays
    in force in the sensor layer, while the scale becomes zero. *)
Theorem SetGyroRange_reports_the_rate_of_its_scale
  (h : pios_mpu60x0_h) (w : world) (s : state) (d : mpu6500_dev)
  (Hl : labels_distinct h = true)
  (Hd : pios_mpu6500_dev s = Some d) :
  (forall r rate,
      In (r, rate) (gyro_rates h) ->
      exists s' g,
        PIOS_MPU6500_SetGyroRange h w r s = Done tt s'
        /\ max_gyro_reports (trace s') = rate :: max_gyro_reports (trace s)
        /\ PIOS_MPU6500_GetGyroScale h s' = Done g s'
        /\ full_scale_near g rate = true)
  /\ (forall r,
      ~ In r (map fst (gyro_rates h)) ->
      exists s',
        PIOS_MPU6500_SetGyroRange h w r s = Done tt s'
        /\ max_gyro_reports (trace s') = max_gyro_reports (trace s)
        /\ PIOS_MPU6500_GetGyroScale h s' = Done F32.zero s').
Proof.
  destruct (labels_distinct_neq h Hl) as (Hg & _).
  apply distinct4_neq in Hg. destruct Hg as (G1 & G2 & G3 & G4 & G5 & G6).
  destruct gyro_scales_near_rates as (N1 & N2 & N3 & N4).
  split.
  - intros r rate Hin.
    destruct (SetGyroRange_run h w r s d Hd) as (s1 & Hd1 & Hr & Hrun).
    rewrite Hrun. cbn [gyro_rates In] in Hin.
    destruct Hin as [E | [E | [E | [E | []]]]]; injection E as <- <-;
      switch_tests; eexists; eexists; (split; [reflexivity|]);
      (split; [cbn; rewrite Hr; reflexivity|]);
      match goal with
      | |- PIOS_MPU6500_GetGyroScale h ?s' = _ /\ _ =>
          destruct (GetGyroScale_table h s' _ Hl eq_refl)
            as (T1 & T2 & T3 & T4 & _);
          cbn [set_gyro_range gyro_range] in T1, T2, T3, T4
      end.
    + split; [apply T1; reflexivity | exact N1].
    + split; [apply T2; reflexivity | exact N2].
    + split; [apply T3; reflexivity | exact N3].
    + split; [apply T4; reflexivity | exact N4].
  - intros r Hn. cbn [gyro_rates map fst In] in Hn.
    assert (R1 : r <> PIOS_MPU60X0_SCALE_250_DEG h) by intuition congruence.
    assert (R2 : r <> PIOS_MPU60X0_SCALE_500_DEG h) by intuition congruence.
    assert (R3 : r <> PIOS_MPU60X0_SCALE_1000_DEG h) by intuition congruence.
    assert (R4 : r <> PIOS_MPU60X0_SCALE_2000_DEG h) by intuition congruence.
    destruct (SetGyroRange_run h w r s d Hd) as (s1 & Hd1 & Hr & Hrun).
    rewrite Hrun. switch_tests. eexists. split; [reflexivity|].
    split; [exact Hr|].
    match goal with
    | |- PIOS_MPU6500_GetGyroScale h ?s' = _ =>
        destruct (GetGyroScale_table h s' _ Hl eq_refl)
          as (_ & _ & _ & _ & T5);
        cbn [set_gyro_range gyro_range] in T5
    end.
    apply T5; assumption.
Qed.

Lemma SetGyroRange_reports_the_rate_of_its_scale_witness :
  exists s' g,
    PIOS_MPU6500_SetGyroRange mpu60x0_regs bus_busy 0x18 running
    = Done tt s'
    /\ max_gyro_reports (trace s') = [2000]
    /\ PIOS_MPU6500_GetGyroScale mpu60x0_regs s' = Done g s'
    /\ full_scale_near g 2000 = true.
Proof.
  destruct (SetGyroRange_reports_the_rate_of_its_scale mpu60x0_regs bus_busy
              running running_dev eq_refl eq_refl) as [H _].
  apply (H 0x18 2000). cbn. auto.
Defined.

(** ** Waits and the watchdog in the configuration sequence *)

Lemma bus_calls_do_not_wait l t :
  forallb spi_event l = true ->
  waited (l ++ t) = waited t
  /\ watchdog_clears (l ++ t) = watchdog_clears t.
Proof.
  induction l as [|e l IH]; intros Hl; [split; reflexivity|].
  cbn [forallb] in Hl. apply andb_true_iff in Hl. destruct Hl as [He Hl].
  destruct (IH Hl) as [IH1 IH2].
  destruct e; try discriminate; cbn; auto.
Qed.

(** A register transaction adds calls on the bus and nothing else. *)
Lemma SetReg_adds_bus_calls w reg data s :
  exists x s1 l,
    PIOS_MPU6500_SetReg w reg data s = Done x s1
    /\ pios_mpu6500_dev s1 = pios_mpu6500_dev s
    /\ trace s1 = l ++ trace s
    /\ forallb spi_event l = true.
Proof.
  destruct (Z.eq_dec (PIOS_MPU6500_Validate (pios_mpu6500_dev s)) 0) as [Hv|Hv].
  - destruct (Validate_ok_some _ Hv) as [d Hd]. rewrite Hd in Hv.
    rewrite (SetReg_valid w reg data s d Hd Hv).
    destruct (claim_answer w d (trace s) =? 0);
      [destruct (PIOS_SPI_TransferByte w (write_t1 d reg (trace s)) =? 0);
       [destruct (PIOS_SPI_TransferByte w (write_t2 d reg data (trace s)) =? 0)|]|].
    + eexists; eexists; exists (released d (write_t2 d reg data [])).
      repeat split.
    + eexists; eexists; exists (released d (write_t2 d reg data [])).
      repeat split.
    + eexists; eexists; exists (released d (write_t1 d reg [])).
      repeat split.
    + eexists; eexists; exists [SPI_ClaimBus (spi_id d)]. repeat split.
  - rewrite (SetReg_invalid w reg data s Hv).
    eexists; eexists; exists []. repeat split.
Qed.

Lemma GetReg_adds_bus_calls w reg s :
  exists x s1 l,
    PIOS_MPU6500_GetReg w reg s = Done x s1
    /\ pios_mpu6500_dev s1 = pios_mpu6500_dev s
    /\ trace s1 = l ++ trace s
    /\ forallb spi_event l = true.
Proof.
  destruct (Z.eq_dec (PIOS_MPU6500_Validate (pios_mpu6500_dev s)) 0) as [Hv|Hv].
  - destruct (Validate_ok_some _ Hv) as [d Hd]. rewrite Hd in Hv.
    rewrite (GetReg_valid w reg s d Hd Hv).
    destruct (claim_answer w d (trace s) =? 0).
    + eexists; eexists; exists (released d (read_t2 d reg [])).
      repeat split.
    + eexists; eexists; exists [SPI_ClaimBus (spi_id d)]. repeat split.
  - rewrite (GetReg_invalid w reg s Hv).
    eexists; eexists; exists []. repeat split.
Qed.

Lemma ClaimBus_adds_bus_calls w s :
  exists x s1 l,
    PIOS_MPU6500_ClaimBus w s = Done x s1
    /\ pios_mpu6500_dev s1 = pios_mpu6500_dev s
    /\ trace s1 = l ++ trace s
    /\ forallb spi_event l = true.
Proof.
  destruct (Z.eq_dec (PIOS_MPU6500_Validate (pios_mpu6500_dev s)) 0) as [Hv|Hv].
  - destruct (Validate_ok_some _ Hv) as [d Hd]. rewrite Hd in Hv.
    rewrite (ClaimBus_valid w s d Hd Hv).
    destruct (claim_answer w d (trace s) =? 0).
    + eexists; eexists; exists (after_claim d []). repeat split.
    + eexists; eexists; exists [SPI_ClaimBus (spi_id d)]. repeat split.
  - rewrite (ClaimBus_invalid w s Hv).
    eexists; eexists; exists []. repeat split.
Qed.

Lemma ReleaseBus_adds_bus_calls w s :
  exists x s1 l,
    PIOS_MPU6500_ReleaseBus w s = Done x s1
    /\ pios_mpu6500_dev s1 = pios_mpu6500_dev s
    /\ trace s1 = l ++ trace s
    /\ forallb spi_event l = true.
Proof.
  destruct (Z.eq_dec (PIOS_MPU6500_Validate (pios_mpu6500_dev s)) 0) as [Hv|Hv].
  - destruct (Validate_ok_some _ Hv) as [d Hd]. rewrite Hd in Hv.
    rewrite (ReleaseBus_valid w s d Hd Hv).
    eexists; eexists; exists (released d []). repeat split.
  - rewrite (ReleaseBus_invalid w s Hv).
    eexists; eexists; exists []. repeat split.
Qed.

Section Clocked.

Variables (h : pios_mpu60x0_h) (w : world) (spin : bool).
Variables (d : mpu6500_dev) (ms : Z) (n : nat) (s : state).
Hypothesis Hs : clocked d ms n s.

(** A step that adds calls on the bus only. *)
Lemma wpc_bus {A} (m : M A) (Q : A -> state -> Prop) :
  (exists x s1 l,
      m s = Done x s1
      /\ pios_mpu6500_dev s1 = pios_mpu6500_dev s
      /\ trace s1 = l ++ trace s
      /\ forallb spi_event l = true) ->
  (forall x s', clocked d ms n s' -> Q x s') ->
  wp spin m s Q.
Proof.
  intros (x & s1 & l & E & Hd1 & Ht & Hl) HQ. unfold wp. rewrite E.
  apply HQ. destruct Hs as (Hd & Hw & Hg).
  destruct (bus_calls_do_not_wait l (trace s) Hl) as [B1 B2].
  split; [congruence|]. rewrite Ht. split; congruence.
Qed.

Lemma wpc_SetReg reg data (Q : Z -> state -> Prop) :
  (forall x s', clocked d ms n s' -> Q x s') ->
  wp spin (PIOS_MPU6500_SetReg w reg data) s Q.
Proof. apply wpc_bus, SetReg_adds_bus_calls. Qed.

Lemma wpc_GetReg reg (Q : Z -> state -> Prop) :
  (forall x s', clocked d ms n s' -> Q x s') ->
  wp spin (PIOS_MPU6500_GetReg w reg) s Q.
Proof. apply wpc_bus, GetReg_adds_bus_calls. Qed.

Lemma wpc_ClaimBus (Q : Z -> state -> Prop) :
  (forall x s', clocked d ms n s' -> Q x s') ->
  wp spin (PIOS_MPU6500_ClaimBus w) s Q.
Proof. apply wpc_bus, ClaimBus_adds_bus_calls. Qed.

Lemma wpc_ReleaseBus (Q : Z -> state -> Prop) :
  (forall x s', clocked d ms n s' -> Q x s') ->
  wp spin (PIOS_MPU6500_ReleaseBus w) s Q.
Proof. apply wpc_bus, ReleaseBus_adds_bus_calls. Qed.

Lemma wpc_wait v (Q : unit -> state -> Prop) :
  (forall x s', clocked d (v + ms) n s' -> Q x s') ->
  wp spin (call (DELAY_WaitmS v)) s Q.
Proof.
  intros HQ. apply HQ. destruct Hs as (Hd & Hw & Hg).
  split; [exact Hd|]. cbn. split; congruence.
Qed.

Lemma wpc_watchdog (Q : unit -> state -> Prop) :
  (forall x s', clocked d ms (S n) s' -> Q x s') ->
  wp spin (call WDG_Clear) s Q.
Proof.
  intros HQ. apply HQ. destruct Hs as (Hd & Hw & Hg).
  split; [exact Hd|]. cbn. split; congruence.
Qed.

Lemma wpc_update f (Q : unit -> state -> Prop) :
  (forall x s', clocked (f d) ms n s' -> Q x s') ->
  wp spin (update f) s Q.
Proof.
  intros HQ. destruct Hs as (Hd & Hw & Hg).
  apply (wp_update spin f s d Q Hd). apply HQ. repeat split; assumption.
Qed.

End Clocked.

Section ClockedSetters.

Variables (h : pios_mpu60x0_h) (w : world) (spin : bool).
Variables (d : mpu6500_dev) (ms : Z) (n : nat) (s : state).
Hypothesis Hs : clocked d ms n s.

Lemma wpc_SetLPF f (Q : unit -> state -> Prop) :
  (forall x s', clocked (set_filter f d) ms n s' -> Q x s') ->
  wp spin (PIOS_MPU6500_SetLPF h w f) s Q.
Proof.
  intros HQ. unfold PIOS_MPU6500_SetLPF.
  apply wp_bind, (wpc_SetReg w spin d ms n s Hs). intros x s1 H1.
  apply (wpc_update spin d ms n s1 H1). exact HQ.
Qed.

Lemma wpc_SetAccelRange r (Q : unit -> state -> Prop) :
  (forall x s', clocked (set_accel_range r d) ms n s' -> Q x s') ->
  wp spin (PIOS_MPU6500_SetAccelRange h w r) s Q.
Proof.
  intros HQ. unfold PIOS_MPU6500_SetAccelRange.
  apply wp_bind, (wpc_SetReg w spin d ms n s Hs). intros x s1 H1.
  apply (wpc_update spin d ms n s1 H1). exact HQ.
Qed.

Lemma wpc_SetGyroRange r (Q : unit -> state -> Prop) :
  (forall x s', clocked (set_gyro_range r d) ms n s' -> Q x s') ->
  wp spin (PIOS_MPU6500_SetGyroRange h w r) s Q.
Proof.
  intros HQ. unfold PIOS_MPU6500_SetGyroRange.
  apply wp_bind, (wpc_SetReg w spin d ms n s Hs). intros x s1 H1.
  apply wp_bind.
  assert (Hrest : forall (x : unit) s2, clocked d ms n s2 ->
            wp spin (update (set_gyro_range r)) s2 Q).
  { intros _ s2 H2. apply (wpc_update spin d ms n s2 H2). exact HQ. }
  assert (Hreport : forall v,
            wp spin (call (SENSORS_SetMaxGyro v)) s1
               (fun _ s2 => wp spin (update (set_gyro_range r)) s2 Q)).
  { intros v. apply (Hrest tt). destruct H1 as (Hd & Hw & Hg).
    repeat split; assumption. }
  repeat match goal with
         | |- context [if ?c then _ else _] => destruct c
         end;
    first [ apply Hreport | apply wp_ret, (Hrest tt), H1 ].
Qed.

Lemma wpc_SetSampleRate r (Q : unit -> state -> Prop) :
  Cint.uint16 r <> 0 ->
  (forall x s', clocked d ms n s' -> Q x s') ->
  wp spin (PIOS_MPU6500_SetSampleRate h w r) s Q.
Proof.
  intros Hr HQ. unfold wp.
  rewrite (SetSampleRate_run h w r s d (proj1 Hs) Hr).
  apply wp_bind, (wpc_SetReg w spin d ms n s Hs). intros x s1 H1.
  apply wp_ret, HQ, H1.
Qed.

End ClockedSetters.

(** A polling loop that ends has waited 5 ms for each of its turns,
    of which there is at least one. *)
Lemma wpc_poll w d reg mask budget (Q : unit -> state -> Prop) :
  forall ms n s,
    clocked d ms n s ->
    (forall x s' turns,
        1 <= turns -> clocked d (5 * turns + ms) n s' -> Q x s') ->
    wp true (poll_until_clear (PIOS_MPU6500_GetReg w) reg mask budget) s Q.
Proof.
  induction budget as [|k IH]; intros ms n s Hs HQ; [reflexivity|].
  cbn [poll_until_clear].
  apply wp_bind, (wpc_wait true d ms n s Hs). intros [] s1 H1.
  apply wp_bind, (wpc_GetReg w true d (5 + ms) n s1 H1). intros v s2 H2.
  destruct (negb (Z.land v mask =? 0)).
  - apply (IH (5 + ms) n s2 H2). intros x s' turns Ht Hc.
    apply (HQ x s' (turns + 1)); [lia|].
    replace (5 * (turns + 1) + ms) with (5 * turns + (5 + ms)) by lia.
    exact Hc.
  - apply wp_ret. apply (HQ tt s2 1); [lia|]. exact H2.
Qed.

Ltac clock_step :=
  apply wp_bind;
  first [ eapply wpc_SetReg; [eassumption|]
        | eapply wpc_wait; [eassumption|]
        | eapply wpc_watchdog; [eassumption|]
        | eapply wpc_ClaimBus; [eassumption|]
        | eapply wpc_ReleaseBus; [eassumption|]
        | eapply wpc_SetLPF; [eassumption|]
        | eapply wpc_SetGyroRange; [eassumption|]
        | eapply wpc_SetAccelRange; [eassumption|]
        | eapply wpc_SetSampleRate; [eassumption | assumption |] ];
  intros ? ? ?.

Lemma Config_simple_clocked h b w c d ms n s :
  clocked d ms n s ->
  Cint.uint16 (default_samplerate c) <> 0 ->
  wp false (Config_simple h b w c) s
     (fun _ s' => waited (trace s') = ms + 60
                  /\ watchdog_clears (trace s') = S n).
Proof.
  intros Hs Hr. unfold Config_simple.
  do 10 clock_step.
  destruct (PIOS_MPU6500_ACCEL b).
  - do 3 clock_step. eapply wpc_update; [eassumption|].
    intros ? ? (_ & Hw & Hg). split; [rewrite Hw; lia | exact Hg].
  - apply wp_bind, wp_ret. do 2 clock_step.
    eapply wpc_update; [eassumption|].
    intros ? ? (_ & Hw & Hg). split; [rewrite Hw; lia | exact Hg].
Qed.

Lemma Config_full_clocked h b w c budget d ms n s :
  clocked d ms n s ->
  Cint.uint16 (default_samplerate c) <> 0 ->
  wp true (Config_full h b w c budget) s
     (fun _ s' => (exists turns, 2 <= turns
                                 /\ waited (trace s') = ms + 61 + 5 * turns)
                  /\ watchdog_clears (trace s') = n).
Proof.
  intros Hs Hr. unfold Config_full, PIOS_MPU5000_GetReg.
  do 5 clock_step.
  apply wp_bind. eapply wpc_poll; [eassumption|]. intros ? ? n1 Hn1 ?.
  do 2 clock_step.
  apply wp_bind. eapply wpc_poll; [eassumption|]. intros ? ? n2 Hn2 ?.
  do 4 clock_step.
  assert (Hend : forall d' (x : unit) s',
            clocked d' (25 + (5 * n2 + (25 + (5 * n1 + (10 + (1 + ms)))))) n s' ->
            (exists turns, 2 <= turns
                           /\ waited (trace s') = ms + 61 + 5 * turns)
            /\ watchdog_clears (trace s') = n).
  { intros d' y u (_ & Hw & Hg). split; [|exact Hg].
    exists (n1 + n2). split; [lia|]. rewrite Hw. lia. }
  destruct (PIOS_MPU6500_ACCEL b).
  - do 8 clock_step. eapply wpc_update; [eassumption|]. intros y u.
    apply (Hend _ y).
  - apply wp_bind, wp_ret. do 7 clock_step.
    eapply wpc_update; [eassumption|]. intros y u. apply (Hend _ y).
Qed.

(** X18: the simple configuration sequence waits 60 ms in all and
    clears the watchdog once, whatever the bus answers.  The polled
    sequence never clears the watchdog, neither between the turns of
    its polling loops nor elsewhere; when it ends it has waited 61 ms
    and 5 ms more for every turn of the two loops, of which there are
    at least two: 71 ms or more. *)
Theorem Config_waits_and_watchdog
  (h : pios_mpu60x0_h) (b : build) (w : world) (c : pios_mpu60x0_cfg)
  (budget : nat) (s : state) (d : mpu6500_dev)
  (Hd : pios_mpu6500_dev s = Some d)
  (Hr : Cint.uint16 (default_samplerate c) <> 0) :
  (PIOS_MPU6500_SIMPLE_INIT_SEQUENCE b = true ->
   exists s',
     PIOS_MPU6500_Config h b w c budget s = Done tt s'
     /\ waited (trace s') = waited (trace s) + 60
     /\ watchdog_clears (trace s') = S (watchdog_clears (trace s)))
  /\ (PIOS_MPU6500_SIMPLE_INIT_SEQUENCE b = false ->
      forall s',
        PIOS_MPU6500_Config h b w c budget s = Done tt s' ->
        watchdog_clears (trace s') = watchdog_clears (trace s)
        /\ exists turns,
            2 <= turns
            /\ waited (trace s') = waited (trace s) + 61 + 5 * turns).
Proof.
  assert (Hs : clocked d (waited (trace s)) (watchdog_clears (trace s)) s)
    by (repeat split; assumption).
  unfold PIOS_MPU6500_Config. split; intros Hb; rewrite Hb.
  - pose proof (Config_simple_clocked h b w c d _ _ s Hs Hr) as Hwp.
    destruct (wp_done _ _ _ _ Hwp eq_refl) as ([] & s' & Hrun & Hw & Hg).
    exists s'. repeat split; assumption.
  - intros s' Hrun.
    pose proof (Config_full_clocked h b w c budget d _ _ s Hs Hr) as Hwp.
    unfold wp in Hwp. rewrite Hrun in Hwp.
    destruct Hwp as [Hw Hg]. split; assumption.
Qed.

(** The simple sequence on a bus that can never be claimed, and the
    polled sequence on a free bus answering zero: one turn of each
    loop, 71 ms. *)
Lemma Config_waits_and_watchdog_witness :
  (exists s',
      PIOS_MPU6500_Config mpu60x0_regs accel_simple bus_busy board_cfg 0
        fresh = Done tt s'
      /\ waited (trace s') = 60
      /\ watchdog_clears (trace s') = 1%nat)
  /\ (exists s',
      PIOS_MPU6500_Config mpu60x0_regs accel_full (bus_answering 0)
        board_cfg 1 fresh = Done tt s'
      /\ watchdog_clears (trace s') = O
      /\ exists turns, 2 <= turns /\ waited (trace s') = 61 + 5 * turns).
Proof.
  split.
  - destruct (Config_waits_and_watchdog mpu60x0_regs accel_simple bus_busy
                board_cfg 0 fresh fresh_dev eq_refl) as [H _].
    + vm_compute. discriminate.
    + exact (H eq_refl).
  - destruct (Config_waits_and_watchdog mpu60x0_regs accel_full
                (bus_answering 0) board_cfg 1 fresh fresh_dev eq_refl)
      as [_ H].
    + vm_compute. discriminate.
    + assert (E : exists s',
                 PIOS_MPU6500_Config mpu60x0_regs accel_full
                   (bus_answering 0) board_cfg 1 fresh = Done tt s')
        by (vm_compute; eexists; reflexivity).
      destruct E as [s' E]. exists s'. split; [exact E|].
      exact (H eq_refl s' E).
Defined.

(** ** Holding the bus *)

Lemma orderly_call w n s e :
  spi_event e = false ->
  orderly w n s -> orderly w n (with_trace s (e :: trace s)).
Proof.
  intros He [Hh Hn]. unfold orderly. cbn [with_trace trace].
  destruct e; try discriminate; cbn [bus_held stray_bus_calls];
    split; assumption.
Qed.

(** A granted transaction: the claim, the chip selected, transfers, the
    chip deselected, the release. *)
Lemma orderly_transaction w n spi slave l t :
  PIOS_SPI_ClaimBus w (SPI_ClaimBus spi :: t) = 0 ->
  forallb (fun e => match e with
                    | SPI_TransferByte _ _ => true
                    | _ => false
                    end) l = true ->
  bus_held w t = false /\ stray_bus_calls w t = n ->
  let t' := SPI_ReleaseBus spi :: SPI_RC_PinSet spi slave 1
            :: l ++ SPI_RC_PinSet spi slave 0 :: SPI_ClaimBus spi :: t in
  bus_held w t' = false /\ stray_bus_calls w t' = n.
Proof.
  intros Hc Hl [Hh Hn] t'. subst t'.
  assert (Hin : bus_held w
                  (l ++ SPI_RC_PinSet spi slave 0 :: SPI_ClaimBus spi :: t)
                = true
                /\ stray_bus_calls w
                     (l ++ SPI_RC_PinSet spi slave 0 :: SPI_ClaimBus spi :: t)
                   = n).
  { induction l as [|e l IH].
    - cbn [app bus_held stray_bus_calls]. rewrite Hc. cbn. auto.
    - cbn [forallb] in Hl. apply andb_true_iff in Hl.
      destruct Hl as [He Hl]. destruct (IH Hl) as [IH1 IH2].
      destruct e; try discriminate.
      cbn [app bus_held stray_bus_calls]. rewrite IH1, IH2. auto. }
  destruct Hin as [H1 H2].
  cbn [bus_held stray_bus_calls]. rewrite H1, H2. auto.
Qed.

Lemma orderly_refused w n spi t :
  PIOS_SPI_ClaimBus w (SPI_ClaimBus spi :: t) <> 0 ->
  bus_held w t = false /\ stray_bus_calls w t = n ->
  bus_held w (SPI_ClaimBus spi :: t) = false
  /\ stray_bus_calls w (SPI_ClaimBus spi :: t) = n.
Proof.
  intros Hc [Hh Hn]. cbn [bus_held stray_bus_calls].
  apply Z.eqb_neq in Hc. rewrite Hc. auto.
Qed.

Lemma SetReg_orderly w n reg data s :
  orderly w n s ->
  exists x s1,
    PIOS_MPU6500_SetReg w reg data s = Done x s1
    /\ pios_mpu6500_dev s1 = pios_mpu6500_dev s
    /\ orderly w n s1.
Proof.
  intros Ho.
  destruct (Z.eq_dec (PIOS_MPU6500_Validate (pios_mpu6500_dev s)) 0) as [Hv|Hv].
  - destruct (Validate_ok_some _ Hv) as [d Hd]. rewrite Hd in Hv.
    rewrite (SetReg_valid w reg data s d Hd Hv).
    unfold claim_answer.
    destruct (PIOS_SPI_ClaimBus w _ =? 0) eqn:Hc;
      [apply Z.eqb_eq in Hc | apply Z.eqb_neq in Hc].
    + destruct (PIOS_SPI_TransferByte w (write_t1 d reg (trace s)) =? 0);
        [destruct (PIOS_SPI_TransferByte w (write_t2 d reg data (trace s))
                   =? 0)|];
        eexists; eexists; (split; [reflexivity|]); (split; [reflexivity|]).
      * apply (orderly_transaction w n (spi_id d) (slave_num d)
                 [SPI_TransferByte (spi_id d) (Cint.uint8 (Cint.uint8 data));
                  SPI_TransferByte (spi_id d)
                    (Cint.uint8 (Z.land 0x7f (Cint.uint8 reg)))]
                 (trace s) Hc eq_refl Ho).
      * apply (orderly_transaction w n (spi_id d) (slave_num d)
                 [SPI_TransferByte (spi_id d) (Cint.uint8 (Cint.uint8 data));
                  SPI_TransferByte (spi_id d)
                    (Cint.uint8 (Z.land 0x7f (Cint.uint8 reg)))]
                 (trace s) Hc eq_refl Ho).
      * apply (orderly_transaction w n (spi_id d) (slave_num d)
                 [SPI_TransferByte (spi_id d)
                    (Cint.uint8 (Z.land 0x7f (Cint.uint8 reg)))]
                 (trace s) Hc eq_refl Ho).
    + eexists; eexists. split; [reflexivity|]. split; [reflexivity|].
      apply (orderly_refused w n (spi_id d) (trace s) Hc Ho).
  - rewrite (SetReg_invalid w reg data s Hv).
    eexists; eexists. split; [reflexivity|]. split; [reflexivity | exact Ho].
Qed.

Lemma GetReg_orderly w n reg s :
  orderly w n s ->
  exists x s1,
    PIOS_MPU6500_GetReg w reg s = Done x s1
    /\ pios_mpu6500_dev s1 = pios_mpu6500_dev s
    /\ orderly w n s1.
Proof.
  intros Ho.
  destruct (Z.eq_dec (PIOS_MPU6500_Validate (pios_mpu6500_dev s)) 0) as [Hv|Hv].
  - destruct (Validate_ok_some _ Hv) as [d Hd]. rewrite Hd in Hv.
    rewrite (GetReg_valid w reg s d Hd Hv).
    unfold claim_answer.
    destruct (PIOS_SPI_ClaimBus w _ =? 0) eqn:Hc;
      [apply Z.eqb_eq in Hc | apply Z.eqb_neq in Hc].
    + eexists; eexists. split; [reflexivity|]. split; [reflexivity|].
      apply (orderly_transaction w n (spi_id d) (slave_num d)
               [SPI_TransferByte (spi_id d) (Cint.uint8 0);
                SPI_TransferByte (spi_id d)
                  (Cint.uint8 (Z.lor 0x80 (Cint.uint8 reg)))]
               (trace s) Hc eq_refl Ho).
    + eexists; eexists. split; [reflexivity|]. split; [reflexivity|].
      apply (orderly_refused w n (spi_id d) (trace s) Hc Ho).
  - rewrite (GetReg_invalid w reg s Hv).
    eexists; eexists. split; [reflexivity|]. split; [reflexivity | exact Ho].
Qed.

Section Orderly.

Variables (h : pios_mpu60x0_h) (w : world) (spin : bool) (n : nat).
Variables (s : state) (d : mpu6500_dev).
Hypothesis Hd : pios_mpu6500_dev s = Some d.
Hypothesis Ho : orderly w n s.

Lemma wpo_keep {A} (m : M A) (Q : A -> state -> Prop) :
  (exists x s1, m s = Done x s1
                /\ pios_mpu6500_dev s1 = pios_mpu6500_dev s
                /\ orderly w n s1) ->
  (forall x s', pios_mpu6500_dev s' = Some d -> orderly w n s' -> Q x s') ->
  wp spin m s Q.
Proof.
  intros (x & s1 & E & Hd1 & Ho1) HQ. unfold wp. rewrite E.
  apply HQ; [congruence | exact Ho1].
Qed.

Lemma wpo_SetReg reg data (Q : Z -> state -> Prop) :
  (forall x s', pios_mpu6500_dev s' = Some d -> orderly w n s' -> Q x s') ->
  wp spin (PIOS_MPU6500_SetReg w reg data) s Q.
Proof. apply wpo_keep, SetReg_orderly, Ho. Qed.

Lemma wpo_GetReg reg (Q : Z -> state -> Prop) :
  (forall x s', pios_mpu6500_dev s' = Some d -> orderly w n s' -> Q x s') ->
  wp spin (PIOS_MPU6500_GetReg w reg) s Q.
Proof. apply wpo_keep, GetReg_orderly, Ho. Qed.

Lemma wpo_call e (Q : unit -> state -> Prop) :
  spi_event e = false ->
  (forall x s', pios_mpu6500_dev s' = Some d -> orderly w n s' -> Q x s') ->
  wp spin (call e) s Q.
Proof.
  intros He. apply wpo_keep. eexists; eexists.
  split; [reflexivity|]. split; [reflexivity|].
  apply (orderly_call w n s e He Ho).
Qed.

Lemma wpo_update f (Q : unit -> state -> Prop) :
  (forall x s', pios_mpu6500_dev s' = Some (f d) -> orderly w n s' ->
                Q x s') ->
  wp spin (update f) s Q.
Proof.
  intros HQ. apply (wp_update spin f s d Q Hd). apply HQ; [reflexivity|].
  exact Ho.
Qed.

End Orderly.

Section OrderlySetters.

Variables (h : pios_mpu60x0_h) (w : world) (spin : bool) (n : nat).
Variables (s : state) (d : mpu6500_dev).
Hypothesis Hd : pios_mpu6500_dev s = Some d.
Hypothesis Ho : orderly w n s.

Lemma wpo_SetLPF f (Q : unit -> state -> Prop) :
  (forall x s', pios_mpu6500_dev s' = Some (set_filter f d) ->
                orderly w n s' -> Q x s') ->
  wp spin (PIOS_MPU6500_SetLPF h w f) s Q.
Proof.
  intros HQ. unfold PIOS_MPU6500_SetLPF.
  apply wp_bind, (wpo_SetReg w spin n s d Hd Ho). intros x s1 H1 O1.
  apply (wpo_update w spin n s1 d H1 O1). exact HQ.
Qed.

Lemma wpo_SetAccelRange r (Q : unit -> state -> Prop) :
  (forall x s', pios_mpu6500_dev s' = Some (set_accel_range r d) ->
                orderly w n s' -> Q x s') ->
  wp spin (PIOS_MPU6500_SetAccelRange h w r) s Q.
Proof.
  intros HQ. unfold PIOS_MPU6500_SetAccelRange.
  apply wp_bind, (wpo_SetReg w spin n s d Hd Ho). intros x s1 H1 O1.
  apply (wpo_update w spin n s1 d H1 O1). exact HQ.
Qed.

Lemma wpo_SetGyroRange r (Q : unit -> state -> Prop) :
  (forall x s', pios_mpu6500_dev s' = Some (set_gyro_range r d) ->
                orderly w n s' -> Q x s') ->
  wp spin (PIOS_MPU6500_SetGyroRange h w r) s Q.
Proof.
  intros HQ. unfold PIOS_MPU6500_SetGyroRange.
  apply wp_bind, (wpo_SetReg w spin n s d Hd Ho). intros x s1 H1 O1.
  apply wp_bind.
  assert (Hrest : forall (x : unit) s2,
            pios_mpu6500_dev s2 = Some d -> orderly w n s2 ->
            wp spin (update (set_gyro_range r)) s2 Q).
  { intros _ s2 H2 O2. apply (wpo_update w spin n s2 d H2 O2). exact HQ. }
  repeat match goal with
         | |- context [if ?c then _ else _] => destruct c
         end;
    first [ apply (wpo_call w spin n s1 d H1 O1); [reflexivity | exact Hrest]
          | apply wp_ret, (Hrest tt); assumption ].
Qed.

Lemma wpo_SetSampleRate r (Q : unit -> state -> Prop) :
  Cint.uint16 r <> 0 ->
  (forall x s', pios_mpu6500_dev s' = Some d -> orderly w n s' -> Q x s') ->
  wp spin (PIOS_MPU6500_SetSampleRate h w r) s Q.
Proof.
  intros Hr HQ. unfold wp. rewrite (SetSampleRate_run h w r s d Hd Hr).
  apply wp_bind, (wpo_SetReg w spin n s d Hd Ho). intros x s1 H1 O1.
  apply wp_ret, HQ; assumption.
Qed.

End OrderlySetters.

Lemma wpo_poll w n d reg mask budget (Q : unit -> state -> Prop) :
  forall s,
    pios_mpu6500_dev s = Some d -> orderly w n s ->
    (forall x s', pios_mpu6500_dev s' = Some d -> orderly w n s' -> Q x s') ->
    wp true (poll_until_clear (PIOS_MPU6500_GetReg w) reg mask budget) s Q.
Proof.
  induction budget as [|k IH]; intros s Hd Ho HQ; [reflexivity|].
  cbn [poll_until_clear].
  apply wp_bind, (wpo_call w true n s d Hd Ho); [reflexivity|].
  intros [] s1 H1 O1.
  apply wp_bind, (wpo_GetReg w true n s1 d H1 O1). intros v s2 H2 O2.
  destruct (negb (Z.land v mask =? 0)).
  - apply (IH s2 H2 O2 HQ).
  - apply wp_ret, HQ; assumption.
Qed.

(** The start of the polled sequence: the claim, 1 ms, the release.
    The release is made whether or not the claim was granted. *)
Lemma wpo_opener {A} w spin n s d (k : Z -> M A) (Q : A -> state -> Prop) :
  pios_mpu6500_dev s = Some d ->
  orderly w n s ->
  (forall x s',
      pios_mpu6500_dev s' = Some d ->
      orderly w (if first_claim_refused w d s then 2 + n else n) s' ->
      wp spin (k x) s' Q) ->
  wp spin (PIOS_MPU6500_ClaimBus w ;; call (DELAY_WaitmS 1) ;;
           x <- PIOS_MPU6500_ReleaseBus w ;; k x) s Q.
Proof.
  intros Hd Ho HQ. unfold first_claim_refused in HQ.
  destruct (Z.eq_dec (PIOS_MPU6500_Validate (Some d)) 0) as [Hv|Hv].
  - rewrite Hv in HQ. cbn [Z.eqb andb] in HQ.
    unfold wp. unfold bind at 1. rewrite (ClaimBus_valid w s d Hd Hv).
    unfold claim_answer in *.
    destruct (PIOS_SPI_ClaimBus w _ =? 0) eqn:Hc;
      [apply Z.eqb_eq in Hc | apply Z.eqb_neq in Hc];
      cbn [negb] in HQ; cbv beta iota.
    + rewrite (bind_Done _ _ _ tt
                 (with_trace s (DELAY_WaitmS 1 :: after_claim d (trace s))))
        by reflexivity.
      rewrite (bind_Done _ _ _ _ _
                 (ReleaseBus_valid w
                    (with_trace s (DELAY_WaitmS 1 :: after_claim d (trace s)))
                    d Hd Hv)).
      apply HQ; [exact Hd|]. destruct Ho as [Hh Hn].
      unfold orderly, released, after_claim. cbn [with_trace trace].
      cbn [bus_held stray_bus_calls]. rewrite Hc. cbn. auto.
    + rewrite (bind_Done _ _ _ tt
                 (with_trace s (DELAY_WaitmS 1 :: SPI_ClaimBus (spi_id d)
                                  :: trace s))) by reflexivity.
      rewrite (bind_Done _ _ _ _ _
                 (ReleaseBus_valid w
                    (with_trace s (DELAY_WaitmS 1 :: SPI_ClaimBus (spi_id d)
                                     :: trace s)) d Hd Hv)).
      apply HQ; [exact Hd|]. destruct Ho as [Hh Hn].
      unfold orderly, released. cbn [with_trace trace].
      cbn [bus_held stray_bus_calls].
      apply Z.eqb_neq in Hc. rewrite Hc, Hh, Hn. cbn. auto.
  - apply Z.eqb_neq in Hv. rewrite Hv in HQ. cbn [andb] in HQ.
    apply Z.eqb_neq in Hv.
    assert (Hv' : PIOS_MPU6500_Validate (pios_mpu6500_dev s) <> 0)
      by (rewrite Hd; exact Hv).
    unfold wp. rewrite (bind_Done _ _ _ _ _ (ClaimBus_invalid w s Hv')).
    rewrite (bind_Done _ _ _ tt (with_trace s (DELAY_WaitmS 1 :: trace s)))
      by reflexivity.
    rewrite (bind_Done _ _ _ (-1)
               (with_trace s (DELAY_WaitmS 1 :: trace s)))
      by (apply ReleaseBus_invalid; exact Hv').
    apply HQ; [exact Hd|].
    apply (orderly_call w n s (DELAY_WaitmS 1) eq_refl Ho).
Qed.

Ltac order_step :=
  apply wp_bind;
  first [ eapply wpo_SetReg; [eassumption | eassumption |]
        | eapply wpo_call; [eassumption | eassumption | reflexivity |]
        | eapply wpo_SetLPF; [eassumption | eassumption |]
        | eapply wpo_SetGyroRange; [eassumption | eassumption |]
        | eapply wpo_SetAccelRange; [eassumption | eassumption |]
        | eapply wpo_SetSampleRate; [eassumption | eassumption | assumption |]
        | eapply wpo_poll; [eassumption | eassumption |] ];
  intros ? ? ? ?.

Lemma Config_simple_orderly h b w c n s d :
  pios_mpu6500_dev s = Some d ->
  orderly w n s ->
  Cint.uint16 (default_samplerate c) <> 0 ->
  wp false (Config_simple h b w c) s (fun _ s' => orderly w n s').
Proof.
  intros Hd Ho Hr. unfold Config_simple.
  do 10 order_step.
  destruct (PIOS_MPU6500_ACCEL b).
  - do 3 order_step. eapply wpo_update; [eassumption | eassumption |].
    intros ? ? _ Hfin. exact Hfin.
  - apply wp_bind, wp_ret. do 2 order_step.
    eapply wpo_update; [eassumption | eassumption |].
    intros ? ? _ Hfin. exact Hfin.
Qed.

Lemma Config_full_orderly h b w c budget n s d :
  pios_mpu6500_dev s = Some d ->
  orderly w n s ->
  Cint.uint16 (default_samplerate c) <> 0 ->
  wp true (Config_full h b w c budget) s
     (fun _ s' =>
        orderly w (if first_claim_refused w d s then 2 + n else n) s')%nat.
Proof.
  intros Hd Ho Hr. unfold Config_full, PIOS_MPU5000_GetReg.
  apply (wpo_opener w true n s d _ _ Hd Ho). intros x0 s0 Hd0 Ho0.
  do 10 order_step.
  destruct (PIOS_MPU6500_ACCEL b).
  - do 8 order_step. eapply wpo_update; [eassumption | eassumption |].
    intros ? ? _ Hfin. exact Hfin.
  - apply wp_bind, wp_ret. do 7 order_step.
    eapply wpo_update; [eassumption | eassumption |].
    intros ? ? _ Hfin. exact Hfin.
Qed.

Lemma orderly_burst h w n d t :
  fst (isr_claim_answer w d t) = 0 ->
  bus_held w t = false /\ stray_bus_calls w t = n ->
  bus_held w (irq_released h d t) = false
  /\ stray_bus_calls w (irq_released h d t) = n.
Proof.
  unfold isr_claim_answer, irq_released, irq_burst. intros Hc [Hh Hn].
  cbn [bus_held stray_bus_calls]. rewrite Hc. cbn. auto.
Qed.

Lemma IRQHandler_orderly h b w n s r s' :
  PIOS_MPU6500_IRQHandler h b w s = Done r s' ->
  orderly w n s -> orderly w n s'.
Proof.
  intros Hrun Ho.
  destruct (Z.eq_dec (PIOS_MPU6500_Validate (pios_mpu6500_dev s)) 0)
    as [Hv|Hv];
    [|rewrite IRQHandler_idle in Hrun by (left; exact Hv);
      injection Hrun as _ <-; exact Ho].
  destruct (Validate_ok_some _ Hv) as [d Hd]. rewrite Hd in Hv.
  destruct (configured d) eqn:Hconf;
    [|rewrite IRQHandler_idle in Hrun
        by (right; rewrite Hd; simpl; congruence);
      injection Hrun as _ <-; exact Ho].
  destruct (Z.eq_dec (fst (isr_claim_answer w d (trace s))) 0) as [Hc|Hc].
  - pose proof (orderly_burst h w n d (trace s) Hc Ho) as [B1 B2].
    destruct (Z_lt_le_dec (fst (burst_answer h w d (trace s))) 0)
      as [Hb|Hb].
    + rewrite (IRQHandler_burst_failed h b w s d Hd Hv Hconf Hc Hb) in Hrun.
      injection Hrun as _ <-. split; assumption.
    + rewrite (IRQHandler_after_burst h b w s d Hd Hv Hconf Hc Hb) in Hrun.
      cbv zeta in Hrun.
      destruct (PIOS_MPU6500_ACCEL b).
      * destruct (accel_sample_of h d _) as [a|]; [|discriminate].
        destruct (gyro_sample_of h d _) as [g|]; [|discriminate].
        injection Hrun as _ <-. unfold orderly.
        cbn [with_trace trace bus_held stray_bus_calls]. auto.
      * destruct (gyro_sample_of h d _) as [g|]; [|discriminate].
        injection Hrun as _ <-. unfold orderly.
        cbn [with_trace trace bus_held stray_bus_calls]. auto.
  - rewrite (IRQHandler_claim_refused h b w s d Hd Hv Hconf Hc) in Hrun.
    injection Hrun as _ <-. destruct Ho as [Hh Hn]. unfold orderly.
    cbn [with_trace trace bus_held stray_bus_calls].
    unfold isr_claim_answer in Hc. apply Z.eqb_neq in Hc. rewrite Hc. auto.
Qed.

Lemma run_call_orderly h b w n c s s' :
  run_call h b w c s = Done tt s' -> orderly w n s -> orderly w n s'.
Proof.
  intros Hrun Ho.
  assert (Hwp : forall m : M unit,
            m s = Done tt s' ->
            wp false m s (fun _ u => orderly w n u) -> orderly w n s').
  { intros m E H. unfold wp in H. rewrite E in H. exact H. }
  destruct c as [r|r|r|f| |]; cbn [run_call] in Hrun.
  - destruct (pios_mpu6500_dev s) as [d|] eqn:Hd;
      [|rewrite SetGyroRange_null in Hrun by exact Hd; discriminate].
    apply (Hwp _ Hrun), (wpo_SetGyroRange h w false n s d Hd Ho). auto.
  - destruct (pios_mpu6500_dev s) as [d|] eqn:Hd.
    + apply (Hwp _ Hrun), (wpo_SetAccelRange h w false n s d Hd Ho). auto.
    + unfold PIOS_MPU6500_SetAccelRange in Hrun.
      rewrite update_null in Hrun;
        [discriminate | exact Hd | apply SetReg_total].
  - destruct (pios_mpu6500_dev s) as [d|] eqn:Hd;
      [|rewrite SetSampleRate_deref, Hd in Hrun; discriminate].
    destruct (Z.eq_dec (Cint.uint16 r) 0) as [Hr|Hr];
      [rewrite SetSampleRate_zero in Hrun by exact Hr; discriminate|].
    apply (Hwp _ Hrun), (wpo_SetSampleRate h w false n s d Hd Ho); auto.
  - destruct (pios_mpu6500_dev s) as [d|] eqn:Hd.
    + apply (Hwp _ Hrun), (wpo_SetLPF h w false n s d Hd Ho). auto.
    + unfold PIOS_MPU6500_SetLPF in Hrun.
      rewrite update_null in Hrun;
        [discriminate | exact Hd | apply SetReg_total].
  - destruct (GetReg_orderly w n (PIOS_MPU60X0_WHOAMI h) s Ho)
      as (v & s1 & E & _ & O1).
    rewrite (bind_Done _ _ _ _ _ (Test_of_GetReg h w s v s1 E)) in Hrun.
    injection Hrun as <-. exact O1.
  - unfold bind in Hrun.
    destruct (PIOS_MPU6500_IRQHandler h b w s) as [r s1| |] eqn:E;
      try discriminate.
    injection Hrun as <-. apply (IRQHandler_orderly h b w n s r s1 E Ho).
Qed.

(** X19: the driver uses and releases the bus only while it holds it,
    with one exception.  From a history in which the bus is not held,
    every sequence of calls of the setters, the self-test and the
    interrupt handler, and the simple configuration sequence, end with
    the bus not held and without one more chip-select change, transfer
    or release made while not holding the bus.  The polled
    configuration sequence starts by claiming the bus, waiting and
    releasing it without looking at the result of the claim: when that
    claim is refused it deselects the chip and releases a bus it does
    not hold, two stray calls; the rest of the sequence makes none. *)
Theorem bus_is_used_only_while_held_but_for_the_first_release
  (h : pios_mpu60x0_h) (b : build) (w : world) (n : nat) (s : state)
  (Ho : orderly w n s) :
  (forall calls s',
      run_calls h b w calls s = Done tt s' -> orderly w n s')
  /\ (forall c budget d,
      pios_mpu6500_dev s = Some d ->
      Cint.uint16 (default_samplerate c) <> 0 ->
      (PIOS_MPU6500_SIMPLE_INIT_SEQUENCE b = true ->
       exists s',
         PIOS_MPU6500_Config h b w c budget s = Done tt s'
         /\ orderly w n s')
      /\ (PIOS_MPU6500_SIMPLE_INIT_SEQUENCE b = false ->
          forall s',
            PIOS_MPU6500_Config h b w c budget s = Done tt s' ->
            orderly w (if first_claim_refused w d s then 2 + n else n) s')).
Proof.
  split.
  - intros calls. revert s Ho.
    induction calls as [|c calls IH]; intros s Ho s' Hrun.
    + injection Hrun as <-. exact Ho.
    + cbn [run_calls] in Hrun. unfold bind in Hrun.
      destruct (run_call h b w c s) as [[] s1| |] eqn:E; try discriminate.
      apply (IH s1 (run_call_orderly h b w n c s s1 E Ho) s' Hrun).
  - intros c budget d Hd Hr. unfold PIOS_MPU6500_Config.
    split; intros Hb; rewrite Hb.
    + pose proof (Config_simple_orderly h b w c n s d Hd Ho Hr) as Hwp.
      destruct (wp_done _ _ _ _ Hwp eq_refl) as ([] & s' & Hrun & Hfin).
      exists s'. split; assumption.
    + intros s' Hrun.
      pose proof (Config_full_orderly h b w c budget n s d Hd Ho Hr) as Hwp.
      unfold wp in Hwp. rewrite Hrun in Hwp. exact Hwp.
Qed.

(** The polled sequence on a bus that refuses the first claim only:
    two stray calls. *)
Lemma bus_is_used_only_while_held_but_for_the_first_release_witness :
  exists s',
    PIOS_MPU6500_Config mpu60x0_regs accel_full bus_refusing_once
      board_cfg 1 fresh = Done tt s'
    /\ orderly bus_refusing_once 2 s'.
Proof.
  assert (E : exists s',
             PIOS_MPU6500_Config mpu60x0_regs accel_full bus_refusing_once
               board_cfg 1 fresh = Done tt s')
    by (vm_compute; eexists; reflexivity).
  destruct E as [s' E]. exists s'. split; [exact E|].
  assert (Ho : orderly bus_refusing_once 0 fresh) by (split; reflexivity).
  destruct (bus_is_used_only_while_held_but_for_the_first_release
              mpu60x0_regs accel_full bus_refusing_once 0 fresh Ho)
    as [_ H].
  destruct (H board_cfg 1%nat fresh_dev eq_refl) as [_ Hfull].
  - vm_compute. discriminate.
  - exact (Hfull eq_refl s' E).
Defined.

(** ** The configuration sequence, step by step on the bus *)

Lemma read_address_plus_128 reg :
  Cint.uint8 (Z.lor 0x80 (Cint.uint8 reg)) = 128 + reg_addr reg.
Proof.
  pose proof (all_from_bytes _ read_address_bytes reg) as H.
  apply Z.eqb_eq in H. exact H.
Qed.

Lemma transactions_refused spi t :
  transactions (SPI_ClaimBus spi :: t) = transactions t ++ [[]].
Proof. reflexivity. Qed.

Lemma transactions_opened d t :
  transactions (after_claim d t) = transactions t ++ [[]].
Proof. reflexivity. Qed.

Lemma transactions_released d t :
  transactions (released d t) = transactions t.
Proof. reflexivity. Qed.

Lemma transactions_aborted_write d reg t :
  transactions (released d (write_t1 d reg t))
  = transactions t ++ [[reg_addr reg]].
Proof.
  unfold released, write_t1, after_claim.
  rewrite (proj1 (write_address_byte reg)). reflexivity.
Qed.

Lemma transactions_write d reg data t :
  transactions (released d (write_t2 d reg data t))
  = transactions t ++ [[reg_addr reg; Cint.uint8 data]].
Proof.
  unfold released, write_t2, write_t1, after_claim.
  rewrite (proj1 (write_address_byte reg)), uint8_idem. reflexivity.
Qed.

Lemma transactions_read d reg t :
  transactions (released d (read_t2 d reg t))
  = transactions t ++ [[128 + reg_addr reg; 0]].
Proof.
  unfold released, read_t2, after_claim.
  rewrite read_address_plus_128. reflexivity.
Qed.

Section Stepped.

Variables (h : pios_mpu60x0_h) (w : world) (spin : bool).
Variables (d : mpu6500_dev) (before : list (list Z)) (done : list bus_step).
Variable s : state.
Hypothesis Hs : stepped d before done s.

(** A step that leaves the device and adds one transaction. *)
Lemma stepped_on t sent st :
  transactions t = transactions (trace s) ++ [sent] ->
  attempted sent st ->
  stepped d before (done ++ [st]) (with_trace s t).
Proof.
  intros Ht Ha. destruct Hs as (Hd & Hv & new & Hn & Hf).
  split; [exact Hd|]. split; [exact Hv|].
  exists (new ++ [sent]). cbn [with_trace trace]. split.
  - rewrite Ht, Hn, app_assoc. reflexivity.
  - apply Forall2_app; [exact Hf|]. constructor; [exact Ha | constructor].
Qed.

(** A step that leaves the device and adds none. *)
Lemma stepped_off t :
  transactions t = transactions (trace s) ->
  stepped d before done (with_trace s t).
Proof.
  intros Ht. destruct Hs as (Hd & Hv & new & Hn & Hf).
  split; [exact Hd|]. split; [exact Hv|].
  exists new. cbn [with_trace trace]. split; [congruence | exact Hf].
Qed.

Lemma wps_SetReg reg data (Q : Z -> state -> Prop) :
  (forall x s', stepped d before (done ++ [Writing reg data]) s' -> Q x s') ->
  wp spin (PIOS_MPU6500_SetReg w reg data) s Q.
Proof.
  intros HQ. unfold wp.
  rewrite (SetReg_valid w reg data s d (proj1 Hs) (proj1 (proj2 Hs))).
  destruct (claim_answer w d (trace s) =? 0);
    [destruct (PIOS_SPI_TransferByte w (write_t1 d reg (trace s)) =? 0);
     [destruct (PIOS_SPI_TransferByte w (write_t2 d reg data (trace s)) =? 0)|]|];
    apply HQ.
  - apply (stepped_on _ [reg_addr reg; Cint.uint8 data]);
      [apply transactions_write | right; right; reflexivity].
  - apply (stepped_on _ [reg_addr reg; Cint.uint8 data]);
      [apply transactions_write | right; right; reflexivity].
  - apply (stepped_on _ [reg_addr reg]);
      [apply transactions_aborted_write | right; left; reflexivity].
  - apply (stepped_on _ []);
      [apply transactions_refused | left; reflexivity].
Qed.

Lemma wps_GetReg reg (Q : Z -> state -> Prop) :
  (forall x s', stepped d before (done ++ [Polling reg]) s' -> Q x s') ->
  wp spin (PIOS_MPU6500_GetReg w reg) s Q.
Proof.
  intros HQ. unfold wp.
  rewrite (GetReg_valid w reg s d (proj1 Hs) (proj1 (proj2 Hs))).
  destruct (claim_answer w d (trace s) =? 0); apply HQ.
  - apply (stepped_on _ [128 + reg_addr reg; 0]);
      [apply transactions_read | right; reflexivity].
  - apply (stepped_on _ []);
      [apply transactions_refused | left; reflexivity].
Qed.

Lemma wps_ClaimBus (Q : Z -> state -> Prop) :
  (forall x s', stepped d before (done ++ [Opening]) s' -> Q x s') ->
  wp spin (PIOS_MPU6500_ClaimBus w) s Q.
Proof.
  intros HQ. unfold wp.
  rewrite (ClaimBus_valid w s d (proj1 Hs) (proj1 (proj2 Hs))).
  destruct (claim_answer w d (trace s) =? 0); apply HQ.
  - apply (stepped_on _ []); [apply transactions_opened | reflexivity].
  - apply (stepped_on _ []); [apply transactions_refused | reflexivity].
Qed.

Lemma wps_ReleaseBus (Q : Z -> state -> Prop) :
  (forall x s', stepped d before done s' -> Q x s') ->
  wp spin (PIOS_MPU6500_ReleaseBus w) s Q.
Proof.
  intros HQ. unfold wp.
  rewrite (ReleaseBus_valid w s d (proj1 Hs) (proj1 (proj2 Hs))).
  apply HQ, stepped_off, transactions_released.
Qed.

Lemma wps_wait v (Q : unit -> state -> Prop) :
  (forall x s', stepped d before done s' -> Q x s') ->
  wp spin (call (DELAY_WaitmS v)) s Q.
Proof.
  intros HQ. apply HQ. apply (stepped_off (DELAY_WaitmS v :: trace s)).
  reflexivity.
Qed.

Lemma wps_watchdog (Q : unit -> state -> Prop) :
  (forall x s', stepped d before done s' -> Q x s') ->
  wp spin (call WDG_Clear) s Q.
Proof.
  intros HQ. apply HQ. apply (stepped_off (WDG_Clear :: trace s)).
  reflexivity.
Qed.

Lemma wps_report v (Q : unit -> state -> Prop) :
  (forall x s', stepped d before done s' -> Q x s') ->
  wp spin (call (SENSORS_SetMaxGyro v)) s Q.
Proof.
  intros HQ. apply HQ. apply (stepped_off (SENSORS_SetMaxGyro v :: trace s)).
  reflexivity.
Qed.

Lemma wps_update f (Q : unit -> state -> Prop) :
  PIOS_MPU6500_Validate (Some (f d)) = 0 ->
  (forall x s', stepped (f d) before done s' -> Q x s') ->
  wp spin (update f) s Q.
Proof.
  intros Hv' HQ. destruct Hs as (Hd & Hv & Hn).
  apply (wp_update spin f s d Q Hd). apply HQ.
  split; [reflexivity|]. split; [exact Hv' | exact Hn].
Qed.

End Stepped.

Section SteppedSetters.

Variables (h : pios_mpu60x0_h) (w : world) (spin : bool).
Variables (d : mpu6500_dev) (before : list (list Z)) (done : list bus_step).
Variable s : state.
Hypothesis Hs : stepped d before done s.

Lemma wps_SetLPF f (Q : unit -> state -> Prop) :
  (forall x s',
      stepped (set_filter f d) before
        (done ++ [Writing (PIOS_MPU60X0_DLPF_CFG_REG h) f]) s' -> Q x s') ->
  wp spin (PIOS_MPU6500_SetLPF h w f) s Q.
Proof.
  intros HQ. unfold PIOS_MPU6500_SetLPF.
  apply wp_bind, (wps_SetReg w spin d before done s Hs). intros x s1 H1.
  apply (wps_update spin d before _ s1 H1); [exact (proj1 (proj2 H1))|].
  exact HQ.
Qed.

Lemma wps_SetAccelRange r (Q : unit -> state -> Prop) :
  (forall x s',
      stepped (set_accel_range r d) before
        (done ++ [Writing (PIOS_MPU60X0_ACCEL_CFG_REG h) r]) s' -> Q x s') ->
  wp spin (PIOS_MPU6500_SetAccelRange h w r) s Q.
Proof.
  intros HQ. unfold PIOS_MPU6500_SetAccelRange.
  apply wp_bind, (wps_SetReg w spin d before done s Hs). intros x s1 H1.
  apply (wps_update spin d before _ s1 H1); [exact (proj1 (proj2 H1))|].
  exact HQ.
Qed.

Lemma wps_SetGyroRange r (Q : unit -> state -> Prop) :
  (forall x s',
      stepped (set_gyro_range r d) before
        (done ++ [Writing (PIOS_MPU60X0_GYRO_CFG_REG h) r]) s' -> Q x s') ->
  wp spin (PIOS_MPU6500_SetGyroRange h w r) s Q.
Proof.
  intros HQ. unfold PIOS_MPU6500_SetGyroRange.
  apply wp_bind, (wps_SetReg w spin d before done s Hs). intros x s1 H1.
  apply wp_bind.
  assert (Hrest : forall (x : unit) s2,
            stepped d before
              (done ++ [Writing (PIOS_MPU60X0_GYRO_CFG_REG h) r]) s2 ->
            wp spin (update (set_gyro_range r)) s2 Q).
  { intros _ s2 H2.
    apply (wps_update spin d before _ s2 H2); [exact (proj1 (proj2 H2))|].
    exact HQ. }
  repeat match goal with
         | |- context [if ?c then _ else _] => destruct c
         end;
    first [ apply (wps_report spin d before _ s1 H1), Hrest
          | apply wp_ret, (Hrest tt), H1 ].
Qed.

Lemma wps_SetSampleRate r (Q : unit -> state -> Prop) :
  Cint.uint16 r <> 0 ->
  (forall x s',
      stepped d before
        (done ++ [Writing (PIOS_MPU60X0_SMPLRT_DIV_REG h)
                    (divisor_spec (filter d =? PIOS_MPU60X0_LOWPASS_256_HZ h)
                                  (Cint.uint16 r))]) s' -> Q x s') ->
  wp spin (PIOS_MPU6500_SetSampleRate h w r) s Q.
Proof.
  intros Hr HQ. unfold wp.
  rewrite (SetSampleRate_run h w r s d (proj1 Hs) Hr).
  apply wp_bind, (wps_SetReg w spin d before done s Hs). intros x s1 H1.
  apply wp_ret, HQ, H1.
Qed.

End SteppedSetters.

(** A polling loop that ends has read the register once for each of its
    turns, of which there is at least one. *)
Lemma wps_poll w d before reg mask budget (Q : unit -> state -> Prop) :
  forall done s,
    stepped d before done s ->
    (forall x s' turns,
        (1 <= turns)%nat ->
        stepped d before (done ++ repeat (Polling reg) turns) s' -> Q x s') ->
    wp true (poll_until_clear (PIOS_MPU6500_GetReg w) reg mask budget) s Q.
Proof.
  induction budget as [|k IH]; intros done s Hs HQ; [reflexivity|].
  cbn [poll_until_clear].
  apply wp_bind, (wps_wait true d before done s Hs). intros [] s1 H1.
  apply wp_bind, (wps_GetReg w true d before done s1 H1). intros v s2 H2.
  destruct (negb (Z.land v mask =? 0)).
  - apply (IH _ s2 H2). intros x s' turns Ht Hc.
    apply (HQ x s' (S turns)); [lia|].
    rewrite <- app_assoc in Hc. exact Hc.
  - apply wp_ret. apply (HQ tt s2 1%nat); [lia|]. exact H2.
Qed.

Ltac attempt_step :=
  apply wp_bind;
  first [ eapply wps_SetReg; [eassumption|]
        | eapply wps_wait; [eassumption|]
        | eapply wps_watchdog; [eassumption|]
        | eapply wps_ClaimBus; [eassumption|]
        | eapply wps_ReleaseBus; [eassumption|]
        | eapply wps_SetLPF; [eassumption|]
        | eapply wps_SetGyroRange; [eassumption|]
        | eapply wps_SetAccelRange; [eassumption|]
        | eapply wps_SetSampleRate; [eassumption | assumption |] ];
  intros ? ? ?.

Lemma stepped_end d before done s steps :
  stepped d before done s ->
  done = steps ->
  exists new, transactions (trace s) = before ++ new
              /\ Forall2 attempted new steps.
Proof.
  intros (_ & _ & H) <-. exact H.
Qed.

Lemma Config_simple_stepped h b w spin c d before s :
  stepped d before [] s ->
  Cint.uint16 (default_samplerate c) <> 0 ->
  wp spin (Config_simple h b w c) s
     (fun _ s' => exists new,
          transactions (trace s') = before ++ new
          /\ Forall2 attempted new (simple_steps h b c)).
Proof.
  intros Hs Hr. unfold Config_simple, simple_steps, accel_steps, divider_step.
  do 10 attempt_step.
  destruct (PIOS_MPU6500_ACCEL b).
  - do 3 attempt_step. eapply wps_update; [eassumption | |].
    + match goal with H : stepped _ _ _ _ |- _ => exact (proj1 (proj2 H)) end.
    + intros ? ? Hend. apply (stepped_end _ _ _ _ _ Hend). reflexivity.
  - apply wp_bind, wp_ret. do 2 attempt_step.
    eapply wps_update; [eassumption | |].
    + match goal with H : stepped _ _ _ _ |- _ => exact (proj1 (proj2 H)) end.
    + intros ? ? Hend. apply (stepped_end _ _ _ _ _ Hend). reflexivity.
Qed.

Lemma Config_full_stepped h b w c budget d before s :
  stepped d before [] s ->
  Cint.uint16 (default_samplerate c) <> 0 ->
  wp true (Config_full h b w c budget) s
     (fun _ s' => exists turns1 turns2 new,
          (1 <= turns1)%nat /\ (1 <= turns2)%nat
          /\ transactions (trace s') = before ++ new
          /\ Forall2 attempted new (polled_steps h b c turns1 turns2)).
Proof.
  intros Hs Hr.
  unfold Config_full, PIOS_MPU5000_GetReg, polled_steps, accel_steps,
    divider_step.
  do 5 attempt_step.
  apply wp_bind. eapply wps_poll; [eassumption|]. intros ? ? n1 Hn1 ?.
  do 2 attempt_step.
  apply wp_bind. eapply wps_poll; [eassumption|]. intros ? ? n2 Hn2 ?.
  do 4 attempt_step.
  destruct (PIOS_MPU6500_ACCEL b).
  - do 8 attempt_step. eapply wps_update; [eassumption | |].
    + match goal with H : stepped _ _ _ _ |- _ => exact (proj1 (proj2 H)) end.
    + intros ? ? Hend. exists n1, n2.
      destruct (stepped_end _ _ _ _ _ Hend eq_refl) as (new & Ht & Hf).
      exists new. repeat split; try assumption.
      cbn [app] in Hf. rewrite <- !app_assoc in Hf. exact Hf.
  - apply wp_bind, wp_ret. do 7 attempt_step.
    eapply wps_update; [eassumption | |].
    + match goal with H : stepped _ _ _ _ |- _ => exact (proj1 (proj2 H)) end.
    + intros ? ? Hend. exists n1, n2.
      destruct (stepped_end _ _ _ _ _ Hend eq_refl) as (new & Ht & Hf).
      exists new. repeat split; try assumption.
      cbn [app] in Hf. rewrite <- !app_assoc in Hf. exact Hf.
Qed.



